(** * libsigrok acquisition core: OLS, DSLogic and the rs9lcd DMM parser

    A shallow embedding of
    - [hardware/common/dmm/rs9lcd.c] (RadioShack 22-812 LCD frames),
    - [hardware/openbench-logic-sniffer/ols.c] (SUMP/OLS serial engine),
    - [src/hardware/dslogic/dslogic.c] (FPGA mode word),
    followed by the properties checked against it.

    C integers are [Z] with the wrap-around of their type written out,
    bytes are [Z] in [0, 256), arrays are lists, structs are records.
    The doubles of rs9lcd.c are idealised as exact rationals plus NaN;
    the doubles of the DSLogic RLE test are rationals rounded to
    binary64 at every conversion and operation. *)

From Stdlib Require Import String Ascii.
From Stdlib Require Import ZArith List Bool Lia QArith Qround.
From Stdlib Require Qcanon.
Import ListNotations.
Open Scope Z_scope.

(** ** C integer conversions *)

Definition u8 (x : Z) : Z := x mod 2 ^ 8.
Definition u16 (x : Z) : Z := x mod 2 ^ 16.
Definition u32 (x : Z) : Z := x mod 2 ^ 32.
Definition u64 (x : Z) : Z := x mod 2 ^ 64.

(** Conversion to a 32-bit [int]: reduction modulo 2^32 into
    [-2^31, 2^31). *)
Definition s32 (x : Z) : Z := (x + 2 ^ 31) mod 2 ^ 32 - 2 ^ 31.

Definition INT_MAX : Z := 2 ^ 31 - 1.

Definition is_byte (b : Z) : Prop := 0 <= b < 256.

(** [l[i] = v] on a C array of known length; [None] when the index is
    outside the array. *)
Definition store (l : list Z) (i : Z) (v : Z) : option (list Z) :=
  if (0 <=? i) && (i <? Z.of_nat (length l))
  then Some (firstn (Z.to_nat i) l ++ v :: skipn (S (Z.to_nat i)) l)
  else None.

(** [memcpy(dst + off, src, |src|)]; [None] when the destination range
    is not inside [dst]. *)
Definition memcpy (dst : list Z) (off : Z) (src : list Z) : option (list Z) :=
  if (0 <=? off) && (off + Z.of_nat (length src) <=? Z.of_nat (length dst))
  then Some (firstn (Z.to_nat off) dst ++ src
             ++ skipn (Z.to_nat off + length src) dst)
  else None.

(** The bytes [p[off .. off+len)] a reader of a (pointer, length) pair
    sees. *)
Definition slice (l : list Z) (off len : Z) : list Z :=
  firstn (Z.to_nat len) (skipn (Z.to_nat off) l).

(** Little-endian 32-bit word held in four bytes. *)
Definition le32 (b : list Z) : Z :=
  nth 0 b 0 + 2 ^ 8 * nth 1 b 0 + 2 ^ 16 * nth 2 b 0 + 2 ^ 24 * nth 3 b 0.

(** ** libsigrok.h *)

Module Sigrok.

Definition SR_OK : Z := 0.
Definition SR_ERR : Z := -1.
Definition SR_ERR_MALLOC : Z := -2.
Definition SR_ERR_ARG : Z := -3.
Definition SR_ERR_BUG : Z := -4.
Definition SR_ERR_SAMPLERATE : Z := -5.

Definition SR_HZ (n : Z) : Z := n.
Definition SR_KHZ (n : Z) : Z := n * 1000.
Definition SR_MHZ (n : Z) : Z := n * 1000000.

Definition SR_MQ_VOLTAGE : Z := 10000.
Definition SR_MQ_CURRENT : Z := 10001.
Definition SR_MQ_RESISTANCE : Z := 10002.
Definition SR_MQ_CAPACITANCE : Z := 10003.
Definition SR_MQ_TEMPERATURE : Z := 10004.
Definition SR_MQ_FREQUENCY : Z := 10005.
Definition SR_MQ_DUTY_CYCLE : Z := 10006.
Definition SR_MQ_CONTINUITY : Z := 10007.
Definition SR_MQ_PULSE_WIDTH : Z := 10008.
Definition SR_MQ_CONDUCTANCE : Z := 10009.
Definition SR_MQ_POWER : Z := 10010.
Definition SR_MQ_GAIN : Z := 10011.

Definition SR_UNIT_VOLT : Z := 10000.
Definition SR_UNIT_AMPERE : Z := 10001.
Definition SR_UNIT_OHM : Z := 10002.
Definition SR_UNIT_FARAD : Z := 10003.
Definition SR_UNIT_KELVIN : Z := 10004.
Definition SR_UNIT_CELSIUS : Z := 10005.
Definition SR_UNIT_FAHRENHEIT : Z := 10006.
Definition SR_UNIT_HERTZ : Z := 10007.
Definition SR_UNIT_PERCENTAGE : Z := 10008.
Definition SR_UNIT_BOOLEAN : Z := 10009.
Definition SR_UNIT_SECOND : Z := 10010.
Definition SR_UNIT_SIEMENS : Z := 10011.
Definition SR_UNIT_DECIBEL_MW : Z := 10012.
Definition SR_UNIT_DECIBEL_VOLT : Z := 10013.
Definition SR_UNIT_UNITLESS : Z := 10014.

Definition SR_MQFLAG_AC : Z := 0x01.
Definition SR_MQFLAG_DC : Z := 0x02.
Definition SR_MQFLAG_RMS : Z := 0x04.
Definition SR_MQFLAG_DIODE : Z := 0x08.
Definition SR_MQFLAG_HOLD : Z := 0x10.
Definition SR_MQFLAG_MAX : Z := 0x20.
Definition SR_MQFLAG_MIN : Z := 0x40.
Definition SR_MQFLAG_AUTORANGE : Z := 0x80.

Definition SR_HWCAP_LOGIC_ANALYZER : Z := 10000.
Definition SR_HWCAP_SAMPLERATE : Z := 20000.
Definition SR_HWCAP_CAPTURE_RATIO : Z := 20001.
Definition SR_HWCAP_PATTERN_MODE : Z := 20002.
Definition SR_HWCAP_RLE : Z := 20003.
Definition SR_HWCAP_LIMIT_MSEC : Z := 40000.
Definition SR_HWCAP_LIMIT_SAMPLES : Z := 40001.

Definition SR_ST_NOT_FOUND : Z := 10000.
Definition SR_ST_INITIALIZING : Z := 10001.
Definition SR_ST_INACTIVE : Z := 10002.
Definition SR_ST_ACTIVE : Z := 10003.
Definition SR_ST_STOPPING : Z := 10004.

Definition SR_DI_HWOPTS : Z := 10000.
Definition SR_DI_HWCAPS : Z := 10001.
Definition SR_DI_NUM_PROBES : Z := 10002.
Definition SR_DI_PROBE_NAMES : Z := 10003.
Definition SR_DI_SAMPLERATES : Z := 10004.
Definition SR_DI_TRIGGER_TYPES : Z := 10005.
Definition SR_DI_CUR_SAMPLERATE : Z := 10006.

(** A double: [None] is NaN, [Some q] the exact value [q]. *)
Definition double : Type := option Q.

Definition NAN : double := None.

Definition isnan (d : double) : bool :=
  match d with None => true | Some _ => false end.

Definition dmul (a b : double) : double :=
  match a, b with
  | Some x, Some y => Some (x * y)%Q
  | _, _ => None
  end.

Definition dadd (a b : double) : double :=
  match a, b with
  | Some x, Some y => Some (x + y)%Q
  | _, _ => None
  end.

Definition ddiv (a b : double) : double :=
  match a, b with
  | Some x, Some y => Some (x / y)%Q
  | _, _ => None
  end.

Definition dZ (z : Z) : double := Some (inject_Z z).

(** Equality of doubles as values (never true of NaN). *)
Definition deq (a b : double) : Prop :=
  match a, b with
  | Some x, Some y => (x == y)%Q
  | _, _ => False
  end.

(** [struct sr_datafeed_analog]; [data] is the one float [data]
    points to. *)
Record sr_datafeed_analog : Type := mk_analog {
  mq : Z;
  unit : Z;
  mqflags : Z;
  data : double
}.

End Sigrok.

(** ** hardware/common/dmm/rs9lcd.c *)

Module Rs9lcd.
Import Sigrok.

(* Byte 1 of the packet, and the modes it represents *)
Definition IND1_HZ : Z := 0x80.
Definition IND1_OHM : Z := 0x40.
Definition IND1_KILO : Z := 0x20.
Definition IND1_MEGA : Z := 0x10.
Definition IND1_FARAD : Z := 0x08.
Definition IND1_AMP : Z := 0x04.
Definition IND1_VOLT : Z := 0x02.
Definition IND1_MILI : Z := 0x01.
(* Byte 2 of the packet, and the modes it represents *)
Definition IND2_MICRO : Z := 0x80.
Definition IND2_NANO : Z := 0x40.
Definition IND2_DBM : Z := 0x20.
Definition IND2_SEC : Z := 0x10.
Definition IND2_DUTY : Z := 0x08.
Definition IND2_HFE : Z := 0x04.
Definition IND2_REL : Z := 0x02.
Definition IND2_MIN : Z := 0x01.
(* Byte 7 of the packet, and the modes it represents *)
Definition INFO_BEEP : Z := 0x80.
Definition INFO_DIODE : Z := 0x30.
Definition INFO_BAT : Z := 0x20.
Definition INFO_HOLD : Z := 0x10.
Definition INFO_NEG : Z := 0x08.
Definition INFO_AC : Z := 0x04.
Definition INFO_RS232 : Z := 0x02.
Definition INFO_AUTO : Z := 0x01.
(* Instead of a decimal point, digit 4 carries the MAX flag *)
Definition DIG4_MAX : Z := 0x08.
(* Mask to remove the decimal point from a digit *)
Definition DP_MASK : Z := 0x08.

(* What the LCD values represent *)
Definition LCD_0 : Z := 0xd7.
Definition LCD_1 : Z := 0x50.
Definition LCD_2 : Z := 0xb5.
Definition LCD_3 : Z := 0xf1.
Definition LCD_4 : Z := 0x72.
Definition LCD_5 : Z := 0xe3.
Definition LCD_6 : Z := 0xe7.
Definition LCD_7 : Z := 0x51.
Definition LCD_8 : Z := 0xf7.
Definition LCD_9 : Z := 0xf3.
Definition LCD_C : Z := 0x87.
Definition LCD_h : Z := 0x66.
Definition LCD_H : Z := 0x76.
Definition LCD_P : Z := 0x37.

Definition MODE_DC_V : Z := 0.
Definition MODE_AC_V : Z := 1.
Definition MODE_DC_UA : Z := 2.
Definition MODE_DC_MA : Z := 3.
Definition MODE_DC_A : Z := 4.
Definition MODE_AC_UA : Z := 5.
Definition MODE_AC_MA : Z := 6.
Definition MODE_AC_A : Z := 7.
Definition MODE_OHM : Z := 8.
Definition MODE_FARAD : Z := 9.
Definition MODE_HZ : Z := 10.
Definition MODE_VOLT_HZ : Z := 11.
Definition MODE_AMP_HZ : Z := 12.
Definition MODE_DUTY : Z := 13.
Definition MODE_VOLT_DUTY : Z := 14.
Definition MODE_AMP_DUTY : Z := 15.
Definition MODE_WIDTH : Z := 16.
Definition MODE_VOLT_WIDTH : Z := 17.
Definition MODE_AMP_WIDTH : Z := 18.
Definition MODE_DIODE : Z := 19.
Definition MODE_CONT : Z := 20.
Definition MODE_HFE : Z := 21.
Definition MODE_LOGIC : Z := 22.
Definition MODE_DBM : Z := 23.
Definition MODE_TEMP : Z := 25.
Definition MODE_INVALID : Z := 26.

Definition READ_ALL : Z := 0.
Definition READ_TEMP : Z := 1.

(** The frame length; the macro is defined in libsigrok-internal.h, the
    file header and [struct rs9lcd_packet] below both give 9 bytes. *)
Definition RS9LCD_PACKET_SIZE : Z := 9.

Record rs9lcd_packet : Type := mk_packet {
  mode : Z;
  indicatrix1 : Z;
  indicatrix2 : Z;
  digit4 : Z;
  digit3 : Z;
  digit2 : Z;
  digit1 : Z;
  info : Z;
  checksum : Z
}.

(** [(const struct rs9lcd_packet * )buf]: the struct laid over the first
    nine bytes of the buffer. *)
Definition cast_packet (buf : list Z) : rs9lcd_packet :=
  mk_packet (nth 0 buf 0) (nth 1 buf 0) (nth 2 buf 0) (nth 3 buf 0)
            (nth 4 buf 0) (nth 5 buf 0) (nth 6 buf 0) (nth 7 buf 0)
            (nth 8 buf 0).

(** [(uint8_t * )rs_packet]: the struct read back as bytes. *)
Definition raw (p : rs9lcd_packet) : list Z :=
  [mode p; indicatrix1 p; indicatrix2 p; digit4 p; digit3 p; digit2 p;
   digit1 p; info p; checksum p].

(** [for (i = 0; i < n; i++) sum += raw[i];] on a [uint8_t] sum. *)
Fixpoint sum_bytes (n : nat) (bytes : list Z) (sum : Z) : Z :=
  match n, bytes with
  | S n', b :: rest => sum_bytes n' rest (u8 (sum + b))
  | _, _ => sum
  end.

Definition checksum_valid (p : rs9lcd_packet) : bool :=
  let sum := sum_bytes (Z.to_nat (RS9LCD_PACKET_SIZE - 1)) (raw p) 0 in
  (* This is just a funky constant added to the checksum. *)
  let sum := u8 (sum + 57) in
  let sum := u8 (sum - checksum p) in
  sum =? 0.

(** [(x & m) ? 1 : 0] *)
Definition bit01 (x m : Z) : Z := if Z.land x m =? 0 then 0 else 1.

Definition multiplier_count (p : rs9lcd_packet) : Z :=
  0 + bit01 (indicatrix1 p) IND1_KILO
    + bit01 (indicatrix1 p) IND1_MEGA
    + bit01 (indicatrix1 p) IND1_MILI
    + bit01 (indicatrix2 p) IND2_MICRO
    + bit01 (indicatrix2 p) IND2_NANO.

Definition quantity_count (p : rs9lcd_packet) : Z :=
  0 + bit01 (indicatrix1 p) IND1_HZ
    + bit01 (indicatrix1 p) IND1_OHM
    + bit01 (indicatrix1 p) IND1_FARAD
    + bit01 (indicatrix1 p) IND1_AMP
    + bit01 (indicatrix1 p) IND1_VOLT
    + bit01 (indicatrix2 p) IND2_DBM
    + bit01 (indicatrix2 p) IND2_SEC
    + bit01 (indicatrix2 p) IND2_DUTY
    + bit01 (indicatrix2 p) IND2_HFE.

Definition selection_good (p : rs9lcd_packet) : bool :=
  (* Does the packet have more than one multiplier? *)
  if 1 <? multiplier_count p then false
  (* Does the packet "measure" more than one type of value? *)
  else if 1 <? quantity_count p then false
  else true.

Definition sr_rs9lcd_packet_valid (buf : list Z) : bool :=
  let rs_packet := cast_packet buf in
  if negb (mode rs_packet <? MODE_INVALID) then false
  else if negb (checksum_valid rs_packet) then false
  else if negb (selection_good rs_packet) then false
  else true.

Definition decode_digit (raw_digit : Z) : Z :=
  (* Take out the decimal point, so we can use a simple switch(). *)
  let raw_digit := u8 (Z.land raw_digit (Z.lnot DP_MASK)) in
  if raw_digit =? 0x00 then 0
  else if raw_digit =? LCD_0 then 0
  else if raw_digit =? LCD_1 then 1
  else if raw_digit =? LCD_2 then 2
  else if raw_digit =? LCD_3 then 3
  else if raw_digit =? LCD_4 then 4
  else if raw_digit =? LCD_5 then 5
  else if raw_digit =? LCD_6 then 6
  else if raw_digit =? LCD_7 then 7
  else if raw_digit =? LCD_8 then 8
  else if raw_digit =? LCD_9 then 9
  else 0xff.

(** [*(&(rs_packet->digit4) + i)] for [i] in 0..3. *)
Definition digit_at (p : rs9lcd_packet) (i : Z) : Z :=
  nth (Z.to_nat i) [digit4 p; digit3 p; digit2 p; digit1 p] 0.

(** Loop state of [lcd_to_double]: [rawval], [multiplier],
    [dp_reached]. *)
Record digits_acc : Type := mk_acc {
  acc_rawval : double;
  acc_multiplier : double;
  acc_dp_reached : bool
}.

(** The body of [for (i = 3; i >= end; i--)], on the indices still to
    visit; a digit that does not decode sets [rawval = NAN] and leaves
    the loop. *)
Fixpoint digits_loop (p : rs9lcd_packet) (idx : list Z) (a : digits_acc)
  : digits_acc :=
  match idx with
  | [] => a
  | i :: rest =>
      let raw_digit := digit_at p i in
      let digit := decode_digit raw_digit in
      if digit =? 0xff then mk_acc NAN (acc_multiplier a) (acc_dp_reached a)
      else
        (* Digit 1 does not have a decimal point. Instead, the decimal
           point is used to indicate MAX, so we must avoid testing it. *)
        let dp := if (i <? 3) && negb (Z.land raw_digit DP_MASK =? 0)
                  then true else acc_dp_reached a in
        let m := if dp then ddiv (acc_multiplier a) (dZ 10)
                 else acc_multiplier a in
        let r := dadd (dmul (acc_rawval a) (dZ 10)) (dZ digit) in
        digits_loop p rest (mk_acc r m dp)
  end.

(** [rawval] is declared without an initialiser and first read by
    [rawval * 10 + digit]; [rawval0] is the value it happens to hold on
    entry to this call. *)
Definition lcd_to_double (rawval0 : double) (p : rs9lcd_packet) (type : Z)
  : double :=
  (* end = 1: Don't parse last digit. end = 0: Parse all digits. *)
  let idx := if type =? READ_TEMP then [3; 2; 1] else [3; 2; 1; 0] in
  (* We have 4 digits, and we start from the most significant. *)
  let a := digits_loop p idx (mk_acc rawval0 (dZ 1) false) in
  let rawval := dmul (acc_rawval a) (acc_multiplier a) in
  let rawval := if negb (Z.land (info p) INFO_NEG =? 0)
                then dmul rawval (dZ (-1)) else rawval in
  (* See if we need to multiply our raw value by anything. *)
  if negb (Z.land (indicatrix1 p) IND2_NANO =? 0)
  then dmul rawval (Some (1 # 1000000000)%Q)
  else if negb (Z.land (indicatrix2 p) IND2_MICRO =? 0)
  then dmul rawval (Some (1 # 1000000)%Q)
  else if negb (Z.land (indicatrix1 p) IND1_MILI =? 0)
  then dmul rawval (Some (1 # 1000)%Q)
  else if negb (Z.land (indicatrix1 p) IND1_KILO =? 0)
  then dmul rawval (dZ 1000)
  else if negb (Z.land (indicatrix1 p) IND1_MEGA =? 0)
  then dmul rawval (dZ 1000000)
  else rawval.

Definition is_celsius (p : rs9lcd_packet) : bool :=
  Z.land (digit4 p) (Z.lnot DP_MASK) =? LCD_C.

Definition is_shortcirc (p : rs9lcd_packet) : bool :=
  Z.land (digit2 p) (Z.lnot DP_MASK) =? LCD_h.

Definition is_logic_high (p : rs9lcd_packet) : bool :=
  Z.land (digit2 p) (Z.lnot DP_MASK) =? LCD_H.

Definition dbool (b : bool) : double := if b then dZ 1 else dZ 0.

Definition set_mq_unit (v u : Z) (a : sr_datafeed_analog)
  : sr_datafeed_analog :=
  mk_analog v u (mqflags a) (data a).

Definition set_mq (v : Z) (a : sr_datafeed_analog) : sr_datafeed_analog :=
  mk_analog v (unit a) (mqflags a) (data a).

Definition set_unit (u : Z) (a : sr_datafeed_analog) : sr_datafeed_analog :=
  mk_analog (mq a) u (mqflags a) (data a).

Definition or_mqflags (f : Z) (a : sr_datafeed_analog) : sr_datafeed_analog :=
  mk_analog (mq a) (unit a) (Z.lor (mqflags a) f) (data a).

Definition set_data (d : double) (a : sr_datafeed_analog)
  : sr_datafeed_analog :=
  mk_analog (mq a) (unit a) (mqflags a) d.

(** The [case MODE_TEMP:] block; the [MODE_WIDTH] cases run into it,
    there is no [break] before the label. *)
Definition case_MODE_TEMP (rawval1 : double) (p : rs9lcd_packet)
  (a : sr_datafeed_analog) : sr_datafeed_analog :=
  let a := set_mq SR_MQ_TEMPERATURE a in
  (* We need to reparse. *)
  let a := set_data (lcd_to_double rawval1 p READ_TEMP) a in
  set_unit (if is_celsius p then SR_UNIT_CELSIUS else SR_UNIT_FAHRENHEIT) a.

(** [switch (rs_packet->mode)] of [sr_rs9lcd_parse]. *)
Definition mode_switch (rawval1 rawval : double) (p : rs9lcd_packet)
  (a : sr_datafeed_analog) : sr_datafeed_analog :=
  let m := mode p in
  if m =? MODE_DC_V then
    or_mqflags SR_MQFLAG_DC (set_mq_unit SR_MQ_VOLTAGE SR_UNIT_VOLT a)
  else if m =? MODE_AC_V then
    or_mqflags SR_MQFLAG_AC (set_mq_unit SR_MQ_VOLTAGE SR_UNIT_VOLT a)
  else if (m =? MODE_DC_UA) || (m =? MODE_DC_MA) || (m =? MODE_DC_A) then
    or_mqflags SR_MQFLAG_DC (set_mq_unit SR_MQ_CURRENT SR_UNIT_AMPERE a)
  else if (m =? MODE_AC_UA) || (m =? MODE_AC_MA) || (m =? MODE_AC_A) then
    or_mqflags SR_MQFLAG_AC (set_mq_unit SR_MQ_CURRENT SR_UNIT_AMPERE a)
  else if m =? MODE_OHM then
    set_mq_unit SR_MQ_RESISTANCE SR_UNIT_OHM a
  else if m =? MODE_FARAD then
    set_mq_unit SR_MQ_CAPACITANCE SR_UNIT_FARAD a
  else if m =? MODE_CONT then
    set_data (dbool (is_shortcirc p))
             (set_mq_unit SR_MQ_CONTINUITY SR_UNIT_BOOLEAN a)
  else if m =? MODE_DIODE then
    or_mqflags (Z.lor SR_MQFLAG_DIODE SR_MQFLAG_DC)
               (set_mq_unit SR_MQ_VOLTAGE SR_UNIT_VOLT a)
  else if (m =? MODE_HZ) || (m =? MODE_VOLT_HZ) || (m =? MODE_AMP_HZ) then
    set_mq_unit SR_MQ_FREQUENCY SR_UNIT_HERTZ a
  else if m =? MODE_LOGIC then
    (* No matter whether or not we have an actual voltage reading,
       we are measuring voltage, so we set our MQ as VOLTAGE. *)
    let a := set_mq SR_MQ_VOLTAGE a in
    if negb (isnan rawval) then set_unit SR_UNIT_VOLT a
    else set_data (dbool (is_logic_high p)) (set_unit SR_UNIT_BOOLEAN a)
  else if m =? MODE_HFE then
    set_mq_unit SR_MQ_GAIN SR_UNIT_UNITLESS a
  else if (m =? MODE_DUTY) || (m =? MODE_VOLT_DUTY) || (m =? MODE_AMP_DUTY)
  then
    set_mq_unit SR_MQ_DUTY_CYCLE SR_UNIT_PERCENTAGE a
  else if (m =? MODE_WIDTH) || (m =? MODE_VOLT_WIDTH) || (m =? MODE_AMP_WIDTH)
  then
    case_MODE_TEMP rawval1 p (set_mq_unit SR_MQ_PULSE_WIDTH SR_UNIT_SECOND a)
  else if m =? MODE_TEMP then
    case_MODE_TEMP rawval1 p a
  else if m =? MODE_DBM then
    or_mqflags SR_MQFLAG_AC (set_mq_unit SR_MQ_POWER SR_UNIT_DECIBEL_MW a)
  else a.

(** Returns the status, [*floatval] and the updated [*analog];
    [rawval0] and [rawval1] are the initial contents of [rawval] in
    the first and in the second call of [lcd_to_double]. *)
Definition sr_rs9lcd_parse (rawval0 rawval1 : double) (buf : list Z)
  (analog : sr_datafeed_analog) : Z * double * sr_datafeed_analog :=
  let rs_packet := cast_packet buf in
  let rawval := lcd_to_double rawval0 rs_packet READ_ALL in
  let analog := mode_switch rawval1 rawval rs_packet analog in
  let analog := if negb (Z.land (info rs_packet) INFO_HOLD =? 0)
                then or_mqflags SR_MQFLAG_HOLD analog else analog in
  let analog := if negb (Z.land (digit4 rs_packet) DIG4_MAX =? 0)
                then or_mqflags SR_MQFLAG_MAX analog else analog in
  let analog := if negb (Z.land (indicatrix2 rs_packet) IND2_MIN =? 0)
                then or_mqflags SR_MQFLAG_MIN analog else analog in
  let analog := if negb (Z.land (info rs_packet) INFO_AUTO =? 0)
                then or_mqflags SR_MQFLAG_AUTORANGE analog else analog in
  (SR_OK, rawval, analog).

(** The digit value the four LCD digits spell, read most significant
    first, with the decimal point applied and the sign of INFO_NEG:
    what [lcd_to_double] assembles before it looks at the multiplier
    indicators, with [rawval] starting from zero. *)
Definition assembled (p : rs9lcd_packet) : double :=
  let a := digits_loop p [3; 2; 1; 0] (mk_acc (dZ 0) (dZ 1) false) in
  let rawval := dmul (acc_rawval a) (acc_multiplier a) in
  if negb (Z.land (info p) INFO_NEG =? 0)
  then dmul rawval (dZ (-1)) else rawval.

(** A nine-byte frame with the checksum byte computed for it. *)
Definition frame (m i1 i2 d4 d3 d2 d1 inf : Z) : list Z :=
  [m; i1; i2; d4; d3; d2; d1; inf;
   (m + i1 + i2 + d4 + d3 + d2 + d1 + inf + 57) mod 256].

(** Sum of the first eight bytes of a frame, without wrap-around. *)
Definition frame_sum (buf : list Z) : Z := fold_right Z.add 0 (firstn 8 buf).

(** Number of [true] entries. *)
Definition count_set (bits : list bool) : nat :=
  List.length (filter (fun b : bool => b) bits).

(** The multiplier indicators of a frame, as bits of bytes 1 and 2:
    IND1_KILO (bit 5), IND1_MEGA (bit 4), IND1_MILI (bit 0),
    IND2_MICRO (bit 7), IND2_NANO (bit 6). *)
Definition multiplier_bits (buf : list Z) : list bool :=
  [Z.testbit (nth 1 buf 0) 5; Z.testbit (nth 1 buf 0) 4;
   Z.testbit (nth 1 buf 0) 0; Z.testbit (nth 2 buf 0) 7;
   Z.testbit (nth 2 buf 0) 6].

(** The quantity indicators of a frame: IND1_HZ (bit 7), IND1_OHM
    (bit 6), IND1_FARAD (bit 3), IND1_AMP (bit 2), IND1_VOLT (bit 1),
    IND2_DBM (bit 5), IND2_SEC (bit 4), IND2_DUTY (bit 3), IND2_HFE
    (bit 2). *)
Definition quantity_bits (buf : list Z) : list bool :=
  [Z.testbit (nth 1 buf 0) 7; Z.testbit (nth 1 buf 0) 6;
   Z.testbit (nth 1 buf 0) 3; Z.testbit (nth 1 buf 0) 2;
   Z.testbit (nth 1 buf 0) 1; Z.testbit (nth 2 buf 0) 5;
   Z.testbit (nth 2 buf 0) 4; Z.testbit (nth 2 buf 0) 3;
   Z.testbit (nth 2 buf 0) 2].

(** A capacitance reading of 1234 nF: mode FARAD, the farad and nano
    indicators lit, digits 1 2 3 4 from the most significant
    ([digit1]) to the least ([digit4]). *)
Definition nanofarad_frame : list Z :=
  frame MODE_FARAD IND1_FARAD IND2_NANO LCD_4 LCD_3 LCD_2 LCD_1 0.

(** A resistance reading of 1234 kOhm: the ohm and kilo indicators
    lit. *)
Definition kiloohm_frame : list Z :=
  frame MODE_OHM (Z.lor IND1_OHM IND1_KILO) 0 LCD_4 LCD_3 LCD_2 LCD_1 0.

(** A pulse-width reading: mode WIDTH with the seconds and milli
    indicators lit. *)
Definition width_frame : list Z :=
  frame MODE_WIDTH IND1_MILI IND2_SEC LCD_4 LCD_3 LCD_2 LCD_1 0.

(** The DC-volts frame [00 02 00 00 D7 D7 D7 00 CS] with indicatrix1
    replaced by KILO|MEGA. *)
Definition two_multipliers_frame : list Z :=
  frame MODE_DC_V 0x30 0x00 0x00 0xd7 0xd7 0xd7 0x00.

(** The DC-volts frame [00 02 00 00 D7 D7 D7 00 CS]. *)
Definition dc_volts_frame : list Z :=
  frame MODE_DC_V IND1_VOLT 0x00 0x00 0xd7 0xd7 0xd7 0x00.

Definition analog0 : sr_datafeed_analog := mk_analog 0 0 0 (dZ 0).

(** ** Readings, flags and frames *)

(** The segment pattern the display shows for a decimal digit. *)
Definition lcd_of_digit (d : Z) : Z :=
  nth (Z.to_nat d)
      [LCD_0; LCD_1; LCD_2; LCD_3; LCD_4; LCD_5; LCD_6; LCD_7; LCD_8; LCD_9] 0.

(** The digits behind the decimal point in a [READ_ALL] pass of
    [lcd_to_double]: the loop looks for the point on digit2, digit3 and
    digit4, in this order, and divides by ten from there on. *)
Definition decimals (p : rs9lcd_packet) : Z :=
  if Z.testbit (digit2 p) 3 then 3
  else if Z.testbit (digit3 p) 3 then 2
  else if Z.testbit (digit4 p) 3 then 1
  else 0.

(** The same for a [READ_TEMP] pass, which stops before digit4. *)
Definition decimals_temp (p : rs9lcd_packet) : Z :=
  if Z.testbit (digit2 p) 3 then 2
  else if Z.testbit (digit3 p) 3 then 1
  else 0.

(** The factor of [if (rs_packet->info & INFO_NEG) rawval *= -1]. *)
Definition sign_factor (p : rs9lcd_packet) : Q :=
  if Z.testbit (info p) 3 then inject_Z (-1) else 1%Q.

(** The factor the [if ... else if] chain at the end of
    [lcd_to_double] multiplies by, with the bytes it tests: bit 6 of
    indicatrix1 for 1E-9, then IND2_MICRO, IND1_MILI, IND1_KILO,
    IND1_MEGA. *)
Definition prefix_factor (p : rs9lcd_packet) : Q :=
  if Z.testbit (indicatrix1 p) 6 then (1 # 1000000000)%Q
  else if Z.testbit (indicatrix2 p) 7 then (1 # 1000000)%Q
  else if Z.testbit (indicatrix1 p) 0 then (1 # 1000)%Q
  else if Z.testbit (indicatrix1 p) 5 then inject_Z 1000
  else if Z.testbit (indicatrix1 p) 4 then inject_Z 1000000
  else 1%Q.

(** [buf] with byte [i] replaced by [v]. *)
Definition with_byte (buf : list Z) (i : nat) (v : Z) : list Z :=
  firstn i buf ++ v :: skipn (S i) buf.

(** The modes [sr_rs9lcd_parse] has a [case] for: all below
    MODE_INVALID but 24. *)
Definition mode_known (m : Z) : bool :=
  (0 <=? m) && (m <? MODE_INVALID) && negb (m =? 24).

(** A temperature reading of 23.4 degrees Celsius: digits 2 3 4, the
    point on digit3, the letter C in digit4. *)
Definition celsius_frame : list Z :=
  frame MODE_TEMP 0 0 LCD_C (Z.lor LCD_4 DP_MASK) LCD_3 LCD_2 0.

(** A reading of -12.34 mV DC. *)
Definition millivolt_frame : list Z :=
  frame MODE_DC_V (Z.lor IND1_VOLT IND1_MILI) 0 LCD_4 (Z.lor LCD_3 DP_MASK)
        LCD_2 LCD_1 INFO_NEG.

(** [(x & f) != 0] *)
Definition has_flag (f x : Z) : bool := negb (Z.land x f =? 0).

(** A frame with the mode number 24 that the mode enumeration leaves
    out. *)
Definition mode24_frame : list Z := frame 24 0 0 LCD_0 LCD_0 LCD_0 LCD_0 0.

(** The same capacitance reading with the nano indicator off: 1234 F. *)
Definition farad_frame : list Z :=
  frame MODE_FARAD IND1_FARAD 0 LCD_4 LCD_3 LCD_2 LCD_1 0.

(** A frequency reading of 1234 kHz: no decimal point, the hertz and
    kilo indicators lit. *)
Definition kilohertz_frame : list Z :=
  frame MODE_HZ (Z.lor IND1_HZ IND1_KILO) 0 LCD_4 LCD_3 LCD_2 LCD_1 0.

End Rs9lcd.

(** ** hardware/openbench-logic-sniffer/ols.c *)

Module Ols.
Import Sigrok.

(** Macros of [ols.h]. The header is not among the sources, so the
    values stay abstract; [ols_h_1_0] below carries the values of the
    OLS 1.0 hardware, for running the model. *)
Class ols_h : Type := mk_ols_h {
  NUM_PROBES : Z;
  CLOCK_RATE : Z;
  MIN_NUM_SAMPLES : Z;
  (* Bit definitions for the flags of the flag register *)
  FLAG_DEMUX : Z;
  FLAG_FILTER : Z;
  FLAG_RLE : Z
}.

(** Command opcodes, also from [ols.h]; only their identity matters. *)
Inductive command : Type :=
| CMD_RESET
| CMD_RUN
| CMD_ID
| CMD_METADATA
| CMD_SET_TRIGGER_MASK_0
| CMD_SET_TRIGGER_MASK_1
| CMD_SET_TRIGGER_MASK_2
| CMD_SET_TRIGGER_MASK_3
| CMD_SET_TRIGGER_VALUE_0
| CMD_SET_TRIGGER_VALUE_1
| CMD_SET_TRIGGER_VALUE_2
| CMD_SET_TRIGGER_VALUE_3
| CMD_SET_TRIGGER_CONFIG_0
| CMD_SET_TRIGGER_CONFIG_1
| CMD_SET_TRIGGER_CONFIG_2
| CMD_SET_TRIGGER_CONFIG_3
| CMD_SET_DIVIDER
| CMD_CAPTURE_SIZE
| CMD_SET_FLAGS.

(** [struct dev_context] of [ols.h]. Field types as the code uses
    them: [limit_samples] and [cur_samplerate] are [uint64_t];
    [max_samplerate], [max_samples], [cur_samplerate_divider],
    [flag_reg], [probe_mask] and the trigger words are [uint32_t];
    [num_transfers] and [num_samples] are [unsigned int];
    [capture_ratio] (compared with [< 0]), [trigger_at] (compared with
    [-1]), [num_stages], [rle_count] (read through [*(int * )]) and
    [num_bytes] are [int]; [sample] and [tmp_sample] are
    [unsigned char[4]]; [raw_sample_buf] is heap memory, [None] when it
    is not allocated. *)
Record dev_context : Type := mk_devc {
  max_samplerate : Z;
  max_samples : Z;
  protocol_version : Z;
  cur_samplerate : Z;
  cur_samplerate_divider : Z;
  limit_samples : Z;
  flag_reg : Z;
  capture_ratio : Z;
  trigger_at : Z;
  probe_mask : Z;
  trigger_mask : list Z;
  trigger_value : list Z;
  num_stages : Z;
  num_transfers : Z;
  num_samples : Z;
  rle_count : Z;
  num_bytes : Z;
  sample : list Z;
  tmp_sample : list Z;
  raw_sample_buf : option (list Z)
}.

Definition set_cur_samplerate (v : Z) (d : dev_context) : dev_context :=
  let '(mk_devc msr ms pv cs csd ls fr cr ta pm tm tv nst nt ns rc nb sm
      ts rsb) := d in
  mk_devc msr ms pv v csd ls fr cr ta pm tm tv nst nt ns rc nb sm ts rsb.

Definition set_cur_samplerate_divider (v : Z) (d : dev_context) : dev_context :=
  let '(mk_devc msr ms pv cs csd ls fr cr ta pm tm tv nst nt ns rc nb sm
      ts rsb) := d in
  mk_devc msr ms pv cs v ls fr cr ta pm tm tv nst nt ns rc nb sm ts rsb.

Definition set_limit_samples (v : Z) (d : dev_context) : dev_context :=
  let '(mk_devc msr ms pv cs csd ls fr cr ta pm tm tv nst nt ns rc nb sm
      ts rsb) := d in
  mk_devc msr ms pv cs csd v fr cr ta pm tm tv nst nt ns rc nb sm ts rsb.

Definition set_flag_reg (v : Z) (d : dev_context) : dev_context :=
  let '(mk_devc msr ms pv cs csd ls fr cr ta pm tm tv nst nt ns rc nb sm
      ts rsb) := d in
  mk_devc msr ms pv cs csd ls v cr ta pm tm tv nst nt ns rc nb sm ts rsb.

Definition set_capture_ratio (v : Z) (d : dev_context) : dev_context :=
  let '(mk_devc msr ms pv cs csd ls fr cr ta pm tm tv nst nt ns rc nb sm
      ts rsb) := d in
  mk_devc msr ms pv cs csd ls fr v ta pm tm tv nst nt ns rc nb sm ts rsb.

Definition set_trigger_at (v : Z) (d : dev_context) : dev_context :=
  let '(mk_devc msr ms pv cs csd ls fr cr ta pm tm tv nst nt ns rc nb sm
      ts rsb) := d in
  mk_devc msr ms pv cs csd ls fr cr v pm tm tv nst nt ns rc nb sm ts rsb.

Definition set_probe_mask (v : Z) (d : dev_context) : dev_context :=
  let '(mk_devc msr ms pv cs csd ls fr cr ta pm tm tv nst nt ns rc nb sm
      ts rsb) := d in
  mk_devc msr ms pv cs csd ls fr cr ta v tm tv nst nt ns rc nb sm ts rsb.

Definition set_trigger_mask (v : list Z) (d : dev_context) : dev_context :=
  let '(mk_devc msr ms pv cs csd ls fr cr ta pm tm tv nst nt ns rc nb sm
      ts rsb) := d in
  mk_devc msr ms pv cs csd ls fr cr ta pm v tv nst nt ns rc nb sm ts rsb.

Definition set_trigger_value (v : list Z) (d : dev_context) : dev_context :=
  let '(mk_devc msr ms pv cs csd ls fr cr ta pm tm tv nst nt ns rc nb sm
      ts rsb) := d in
  mk_devc msr ms pv cs csd ls fr cr ta pm tm v nst nt ns rc nb sm ts rsb.

Definition set_num_stages (v : Z) (d : dev_context) : dev_context :=
  let '(mk_devc msr ms pv cs csd ls fr cr ta pm tm tv nst nt ns rc nb sm
      ts rsb) := d in
  mk_devc msr ms pv cs csd ls fr cr ta pm tm tv v nt ns rc nb sm ts rsb.

Definition set_num_transfers (v : Z) (d : dev_context) : dev_context :=
  let '(mk_devc msr ms pv cs csd ls fr cr ta pm tm tv nst nt ns rc nb sm
      ts rsb) := d in
  mk_devc msr ms pv cs csd ls fr cr ta pm tm tv nst v ns rc nb sm ts rsb.

Definition set_num_samples (v : Z) (d : dev_context) : dev_context :=
  let '(mk_devc msr ms pv cs csd ls fr cr ta pm tm tv nst nt ns rc nb sm
      ts rsb) := d in
  mk_devc msr ms pv cs csd ls fr cr ta pm tm tv nst nt v rc nb sm ts rsb.

Definition set_rle_count (v : Z) (d : dev_context) : dev_context :=
  let '(mk_devc msr ms pv cs csd ls fr cr ta pm tm tv nst nt ns rc nb sm
      ts rsb) := d in
  mk_devc msr ms pv cs csd ls fr cr ta pm tm tv nst nt ns v nb sm ts rsb.

Definition set_num_bytes (v : Z) (d : dev_context) : dev_context :=
  let '(mk_devc msr ms pv cs csd ls fr cr ta pm tm tv nst nt ns rc nb sm
      ts rsb) := d in
  mk_devc msr ms pv cs csd ls fr cr ta pm tm tv nst nt ns rc v sm ts rsb.

Definition set_sample (v : list Z) (d : dev_context) : dev_context :=
  let '(mk_devc msr ms pv cs csd ls fr cr ta pm tm tv nst nt ns rc nb sm
      ts rsb) := d in
  mk_devc msr ms pv cs csd ls fr cr ta pm tm tv nst nt ns rc nb v ts rsb.

Definition set_tmp_sample (v : list Z) (d : dev_context) : dev_context :=
  let '(mk_devc msr ms pv cs csd ls fr cr ta pm tm tv nst nt ns rc nb sm
      ts rsb) := d in
  mk_devc msr ms pv cs csd ls fr cr ta pm tm tv nst nt ns rc nb sm v rsb.

Definition set_raw_sample_buf (v : option (list Z)) (d : dev_context) : dev_context :=
  let '(mk_devc msr ms pv cs csd ls fr cr ta pm tm tv nst nt ns rc nb sm
      ts rsb) := d in
  mk_devc msr ms pv cs csd ls fr cr ta pm tm tv nst nt ns rc nb sm ts v.

(** [ols_dev_new]: zeroed by [g_try_malloc0], then four fields set. *)
Definition ols_dev_new : dev_context :=
  mk_devc 0 0 0 (SR_KHZ 200) 0 0 0 0 (-1) 0xffffffff
    [0; 0; 0; 0] [0; 0; 0; 0] 0 0 0 0 0 [0; 0; 0; 0] [0; 0; 0; 0] None.

Record sr_probe : Type := mk_probe {
  index : Z;
  type : Z;
  enabled : bool;
  name : string;
  trigger : option string
}.

Record sr_dev_inst : Type := mk_sdi {
  status : Z;
  probes : list sr_probe;
  priv : dev_context
}.

Definition set_priv (d : dev_context) (sdi : sr_dev_inst) : sr_dev_inst :=
  mk_sdi (status sdi) (probes sdi) d.

Definition set_status (st : Z) (sdi : sr_dev_inst) : sr_dev_inst :=
  mk_sdi st (probes sdi) (priv sdi).

(** Datafeed packets with their payload; [SR_DF_LOGIC] carries the
    [length] bytes its [data] pointer designates. *)
Inductive sr_datafeed_packet : Type :=
| SR_DF_HEADER (feed_version : Z) (starttime : Z)
| SR_DF_META_LOGIC (num_probes : Z) (samplerate : Z)
| SR_DF_LOGIC (length : Z) (unitsize : Z) (data : list Z)
| SR_DF_TRIGGER
| SR_DF_END.

(** What the driver has done to the outside: command bytes written to
    the serial port, packets handed to [sr_session_send], and the
    timeout of its registered event source ([None]: not registered). *)
Record bus : Type := mk_bus {
  wire : list (command * list Z);
  feed : list sr_datafeed_packet;
  source : option Z
}.

Definition sr_session_send (p : sr_datafeed_packet) (b : bus) : bus :=
  mk_bus (wire b) (feed b ++ [p]) (source b).

Definition sr_source_add (timeout : Z) (b : bus) : bus :=
  mk_bus (wire b) (feed b) (Some timeout).

Definition sr_source_remove (b : bus) : bus :=
  mk_bus (wire b) (feed b) None.

Definition serial_write (c : command) (payload : list Z) (b : bus) : bus :=
  mk_bus (wire b ++ [(c, payload)]) (feed b) (source b).

(** [writable]: whether [serial_write] accepts the bytes. *)
Definition send_shortcommand (writable : bool) (c : command) (b : bus)
  : Z * bus :=
  if writable then (SR_OK, serial_write c [] b) else (SR_ERR, b).

Definition send_longcommand (writable : bool) (c : command) (data : Z)
  (b : bus) : Z * bus :=
  let buf := [Z.shiftr (Z.land data 0xff000000) 24;
              Z.shiftr (Z.land data 0xff0000) 16;
              Z.shiftr (Z.land data 0xff00) 8;
              Z.land data 0xff] in
  if writable then (SR_OK, serial_write c buf b) else (SR_ERR, b).

(** A run of [if (send_longcommand(...) != SR_OK) return SR_ERR;]. *)
Fixpoint send_longcommands (writable : bool) (cs : list (command * Z))
  (b : bus) : Z * bus :=
  match cs with
  | [] => (SR_OK, b)
  | (c, data) :: rest =>
      let '(ret, b) := send_longcommand writable c data b in
      if ret =? SR_OK then send_longcommands writable rest b
      else (SR_ERR, b)
  end.

(** [a[i] |= v] for an index inside the array. *)
Definition or_at (a : list Z) (i : Z) (v : Z) : list Z :=
  match store a i (Z.lor (nth (Z.to_nat i) a 0) v) with
  | Some a' => a'
  | None => a
  end.

(** The [for (tc = probe->trigger; tc && *tc; tc++)] loop; [None] is
    the [return SR_ERR] for a fifth stage. *)
Fixpoint trigger_stages (tc : list ascii) (probe_bit : Z) (stage : Z)
  (d : dev_context) : option (Z * dev_context) :=
  match tc with
  | [] => Some (stage, d)
  | c :: rest =>
      let d := set_trigger_mask
                 (or_at (trigger_mask d) stage (u32 probe_bit)) d in
      let d := if Ascii.eqb c "1"%char
               then set_trigger_value
                      (or_at (trigger_value d) stage (u32 probe_bit)) d
               else d in
      let stage := stage + 1 in
      if 3 <? stage
      then (* TODO: Only supporting parallel mode, with up to 4 stages. *)
        None
      else trigger_stages rest probe_bit stage d
  end.

Fixpoint configure_probes_loop (l : list sr_probe) (d : dev_context)
  : Z * dev_context :=
  match l with
  | [] => (SR_OK, d)
  | probe :: rest =>
      if negb (enabled probe) then configure_probes_loop rest d
      else
        (* Set up the probe mask for later configuration into the
           flag register. *)
        let probe_bit := s32 (Z.shiftl 1 (index probe)) in
        let d := set_probe_mask (Z.lor (probe_mask d) (u32 probe_bit)) d in
        match trigger probe with
        | None => configure_probes_loop rest d
        | Some tc =>
            (* Configure trigger mask and value. *)
            match trigger_stages (list_ascii_of_string tc) probe_bit 0 d with
            | None => (SR_ERR, d)
            | Some (stage, d) =>
                let d := if num_stages d <? stage
                         then set_num_stages stage d else d in
                configure_probes_loop rest d
            end
        end
  end.

Definition configure_probes (sdi : sr_dev_inst) : Z * dev_context :=
  let devc := priv sdi in
  let devc := set_probe_mask 0 devc in
  let devc := set_trigger_mask [0; 0; 0; 0] devc in
  let devc := set_trigger_value [0; 0; 0; 0] devc in
  let devc := set_num_stages 0 devc in
  configure_probes_loop (probes sdi) devc.

Definition reverse16 (i : Z) : Z :=
  let out := u32 (Z.shiftl (Z.land i 0xff) 8) in
  let out := Z.lor out (Z.shiftr (Z.land i 0xff00) 8) in
  let out := Z.lor out (u32 (Z.shiftl (Z.land i 0xff0000) 8)) in
  let out := Z.lor out (Z.shiftr (Z.land i 0xff000000) 8) in
  out.

Definition reverse32 (i : Z) : Z :=
  let out := u32 (Z.shiftl (Z.land i 0xff) 24) in
  let out := Z.lor out (u32 (Z.shiftl (Z.land i 0xff00) 8)) in
  let out := Z.lor out (Z.shiftr (Z.land i 0xff0000) 8) in
  let out := Z.lor out (Z.shiftr (Z.land i 0xff000000) 24) in
  out.

(* default supported samplerates, can be overridden by device metadata *)
Definition samplerates_low : Z := SR_HZ 10.
Definition samplerates_high : Z := SR_MHZ 200.
Definition samplerates_step : Z := SR_HZ 1.

(** What [hw_info_get] stores into [*data]. *)
Inductive info_data : Type :=
| DATA_HWCAPS
| DATA_NUM_PROBES (n : Z)
| DATA_PROBE_NAMES
| DATA_SAMPLERATES (low high step : Z)
| DATA_TRIGGER_TYPES
| DATA_CUR_SAMPLERATE (hz : Z).

(** [sdi = None] is the NULL device instance; the second component is
    [*data] when it was written. *)
Definition hw_info_get (info_id : Z) (sdi : option sr_dev_inst)
  : Z * option info_data :=
  if info_id =? SR_DI_HWCAPS then (SR_OK, Some DATA_HWCAPS)
  else if info_id =? SR_DI_NUM_PROBES then (SR_OK, Some (DATA_NUM_PROBES 1))
  else if info_id =? SR_DI_PROBE_NAMES then (SR_OK, Some DATA_PROBE_NAMES)
  else if info_id =? SR_DI_SAMPLERATES
  then (SR_OK, Some (DATA_SAMPLERATES samplerates_low samplerates_high
                                      samplerates_step))
  else if info_id =? SR_DI_TRIGGER_TYPES
  then (SR_OK, Some DATA_TRIGGER_TYPES)
  else if info_id =? SR_DI_CUR_SAMPLERATE then
    match sdi with
    | Some sdi => (SR_OK, Some (DATA_CUR_SAMPLERATE (cur_samplerate (priv sdi))))
    | None => (SR_ERR, None)
    end
  else (SR_ERR_ARG, None).

Section WithHeader.
Context {H : ols_h}.

(** [None]: the call divides by zero. *)
Definition set_samplerate (sdi : sr_dev_inst) (samplerate : Z)
  : option (Z * sr_dev_inst) :=
  let devc := priv sdi in
  if negb (max_samplerate devc =? 0) && (max_samplerate devc <? samplerate)
  then Some (SR_ERR_SAMPLERATE, sdi)
  else if (max_samplerate devc =? 0)
          && ((samplerate <? samplerates_low)
              || (samplerates_high <? samplerate))
  then Some (SR_ERR_SAMPLERATE, sdi)
  else if samplerate =? 0 then
    (* not above CLOCK_RATE: CLOCK_RATE / samplerate divides by zero *)
    None
  else
    let devc :=
      if u64 CLOCK_RATE <? samplerate then
        let devc := set_flag_reg (Z.lor (flag_reg devc) FLAG_DEMUX) devc in
        set_cur_samplerate_divider
          (u32 (u64 (u64 (s32 (CLOCK_RATE * 2)) / samplerate - 1))) devc
      else
        let devc := set_flag_reg
                      (Z.land (flag_reg devc) (u32 (Z.lnot FLAG_DEMUX)))
                      devc in
        set_cur_samplerate_divider
          (u32 (u64 (u64 CLOCK_RATE / samplerate - 1))) devc in
    (* Calculate actual samplerate used and complain if it is different
       from the requested. *)
    let divisor := u32 (cur_samplerate_divider devc + 1) in
    if divisor =? 0 then None
    else
      let devc := set_cur_samplerate (u32 CLOCK_RATE / divisor) devc in
      let devc := if negb (Z.land (flag_reg devc) FLAG_DEMUX =? 0)
                  then set_cur_samplerate (u64 (cur_samplerate devc * 2)) devc
                  else devc in
      Some (SR_OK, set_priv devc sdi).

(** [value] is the [uint64_t] the pointer designates, or, for
    [SR_HWCAP_RLE], the pointer itself. *)
Definition hw_dev_config_set (sdi : sr_dev_inst) (hwcap : Z) (value : Z)
  : option (Z * sr_dev_inst) :=
  let devc := priv sdi in
  if negb (status sdi =? SR_ST_ACTIVE) then Some (SR_ERR, sdi)
  else if hwcap =? SR_HWCAP_SAMPLERATE then set_samplerate sdi value
  else if hwcap =? SR_HWCAP_LIMIT_SAMPLES then
    if value <? u64 MIN_NUM_SAMPLES then Some (SR_ERR, sdi)
    else Some (SR_OK, set_priv (set_limit_samples value devc) sdi)
  else if hwcap =? SR_HWCAP_CAPTURE_RATIO then
    let devc := set_capture_ratio (s32 value) devc in
    if (capture_ratio devc <? 0) || (100 <? capture_ratio devc)
    then Some (SR_ERR, set_priv (set_capture_ratio 0 devc) sdi)
    else Some (SR_OK, set_priv devc sdi)
  else if hwcap =? SR_HWCAP_RLE then
    if negb (s32 value =? 0)
    then Some (SR_OK,
               set_priv (set_flag_reg (Z.lor (flag_reg devc) FLAG_RLE) devc)
                        sdi)
    else Some (SR_OK, sdi)
  else Some (SR_ERR, sdi).

Definition hw_dev_open (port_opens : bool) (sdi : sr_dev_inst)
  : Z * sr_dev_inst :=
  if negb port_opens then (SR_ERR, sdi)
  else (SR_OK, set_status SR_ST_ACTIVE sdi).

Definition abort_acquisition (b : bus) : bus :=
  let b := sr_source_remove b in
  (* Terminate session *)
  sr_session_send SR_DF_END b.

(** [for (i = 0x20; i > 0x02; i /= 2) if ((flag_reg & i) == 0)
    num_channels++;] *)
Definition count_channels (flag_reg : Z) : Z :=
  fold_left (fun n i => if Z.land flag_reg i =? 0 then n + 1 else n)
            [0x20; 0x10; 0x08; 0x04] 0.

(** The loop that widens a received sample to four bytes; returns
    [tmp_sample]. [None]: [sample[j]] or [tmp_sample[i]] is outside its
    array. *)
Fixpoint expand_sample (flag_reg : Z) (sample tmp : list Z) (i j : Z)
  (n : nat) : option (list Z) :=
  match n with
  | O => Some tmp
  | S n' =>
      if Z.land (Z.shiftr flag_reg 2) (Z.shiftl 1 i) =? 0 then
        (* This channel group was enabled, copy from received sample. *)
        if (0 <=? j) && (j <? Z.of_nat (Datatypes.length sample)) then
          match store tmp i (nth (Z.to_nat j) sample 0) with
          | Some tmp' => expand_sample flag_reg sample tmp' (i + 1) (j + 1) n'
          | None => None
          end
        else None
      else expand_sample flag_reg sample tmp (i + 1) j n'
  end.

(** [for (i = 0; i <= rle_count; i++) memcpy(raw_sample_buf + offset +
    (i * 4), sample, 4);] run for [n] iterations from [i]; [buf] is
    [None] when [raw_sample_buf] is NULL. *)
Fixpoint store_samples (buf : option (list Z)) (offset : Z) (sample : list Z)
  (i : Z) (n : nat) : option (option (list Z)) :=
  match n with
  | O => Some buf
  | S n' =>
      match buf with
      | None => None
      | Some l =>
          match memcpy l (offset + s32 (i * 4)) sample with
          | Some l' => store_samples (Some l') offset sample (i + 1) n'
          | None => None
          end
      end
  end.

(** [g_try_malloc(n)] followed by [memset(p, c, n)]; the allocator
    returns NULL for a request of zero bytes and is assumed to satisfy
    any other. *)
Definition g_try_malloc_memset (n : Z) (c : Z) : option (list Z) :=
  if n =? 0 then None else Some (repeat c (Z.to_nat n)).

(** What arrives with a call of [receive_data]: readiness for reading
    together with the result of the one-byte [serial_read] ([None]: the
    read fails), or anything else (the poll timed out). *)
Inductive revents : Type :=
| G_IO_IN (byte : option Z)
| G_IO_NONE.

(** The part of [receive_data] after a full sample has been collected
    and found not to be an RLE count. *)
Definition store_full_sample (num_channels : Z) (devc : dev_context)
  : option dev_context :=
  let devc := set_num_samples
                (u32 (num_samples devc + s32 (rle_count devc + 1))) devc in
  let devc :=
    if limit_samples devc <? num_samples devc then
      (* Save us from overrunning the buffer. *)
      let devc := set_rle_count
                    (s32 (u64 (rle_count devc
                               - u64 (num_samples devc - limit_samples devc))))
                    devc in
      set_num_samples (u32 (limit_samples devc)) devc
    else devc in
  match
    (if num_channels <? 4 then
       (* Some channel groups may have been turned off, to speed up
          transfer between the hardware and the PC. Expand that here
          before submitting it over the session bus -- whatever is
          listening on the bus will be expecting a full 32-bit sample,
          based on the number of probes. *)
       match expand_sample (flag_reg devc) (sample devc) [0; 0; 0; 0] 0 0 4
       with
       | Some tmp => Some (set_sample tmp (set_tmp_sample tmp devc))
       | None => None
       end
     else Some devc)
  with
  | None => None
  | Some devc =>
      (* the OLS sends its sample buffer backwards. store it in reverse
         order here, so we can dump this on the session bus later. *)
      let offset :=
        s32 (u64 ((limit_samples devc - num_samples devc) * 4)) in
      match store_samples (raw_sample_buf devc) offset (sample devc) 0
                          (Z.to_nat (rle_count devc + 1)) with
      | None => None
      | Some buf' =>
          let devc := set_raw_sample_buf buf' devc in
          let devc := set_sample [0; 0; 0; 0] devc in
          let devc := set_num_bytes 0 devc in
          Some (set_rle_count 0 devc)
      end
  end.

(** The [revents == G_IO_IN] branch once a byte has been read. *)
Definition receive_byte (num_channels : Z) (byte : Z) (devc : dev_context)
  : option dev_context :=
  (* Ignore it if we've read enough. *)
  if limit_samples devc <=? num_samples devc then Some devc
  else
    match store (sample devc) (num_bytes devc) byte with
    | None => None
    | Some smp =>
        let devc := set_sample smp devc in
        let devc := set_num_bytes (s32 (num_bytes devc + 1)) devc in
        if num_bytes devc =? num_channels then
          (* Got a full sample. *)
          let last := nth (Z.to_nat (num_bytes devc - 1)) (sample devc) 0 in
          if negb (Z.land (flag_reg devc) FLAG_RLE =? 0)
             && negb (Z.land last 0x80 =? 0)
          then
            (* In RLE mode -1 should never come in as a sample, because
               bit 31 is the "count" flag. *)
            match store (sample devc) (num_bytes devc - 1) (Z.land last 0x7f)
            with
            | None => None
            | Some smp =>
                let devc := set_sample smp devc in
                (* FIXME: This will only work on little-endian systems. *)
                let devc := set_rle_count (s32 (le32 (sample devc))) devc in
                Some (set_num_bytes 0 devc)
            end
          else store_full_sample num_channels devc
        else Some devc
    end.

(** The [else] branch of [receive_data]: the buffer goes to the
    frontend and the acquisition ends. *)
Definition send_buffer (devc : dev_context) (b : bus) : dev_context * bus :=
  let buf := match raw_sample_buf devc with Some l => l | None => [] end in
  let base := u64 ((limit_samples devc - num_samples devc) * 4) in
  let b :=
    if negb (trigger_at devc =? -1) then
      (* a trigger was set up, so we need to tell the frontend about it. *)
      let b :=
        if 0 <? trigger_at devc then
          (* there are pre-trigger samples, send those first *)
          let length := u64 (s32 (trigger_at devc * 4)) in
          sr_session_send (SR_DF_LOGIC length 4 (slice buf base length)) b
        else b in
      (* send the trigger *)
      let b := sr_session_send SR_DF_TRIGGER b in
      (* send post-trigger samples *)
      let length := u32 (u32 (num_samples devc * 4)
                         - s32 (trigger_at devc * 4)) in
      sr_session_send
        (SR_DF_LOGIC length 4
           (slice buf (s32 (trigger_at devc * 4) + base) length)) b
    else
      (* no trigger was used *)
      let length := u32 (num_samples devc * 4) in
      sr_session_send (SR_DF_LOGIC length 4 (slice buf base length)) b in
  (set_raw_sample_buf None devc, abort_acquisition b).

(** One call of the event-source callback for the device. The result
    is the callback's return value with the new state; [None] is an
    access outside [sample], [tmp_sample] or [raw_sample_buf]. *)
Definition receive_data (ev : revents) (devc : dev_context) (b : bus)
  : option (bool * dev_context * bus) :=
  let first := num_transfers devc =? 0 in
  let devc := set_num_transfers (u32 (num_transfers devc + 1)) devc in
  (* First time round, means the device started sending data, and will
     not stop until done. If it stops sending for longer than it takes
     to send a byte, that means it's finished. We'll double that to
     30ms to be sure... *)
  let b := if first then sr_source_add 30 (sr_source_remove b) else b in
  let devc :=
    if first
    then set_raw_sample_buf
           (* fill with 1010... for debugging *)
           (g_try_malloc_memset (u64 (limit_samples devc * 4)) 0x82) devc
    else devc in
  if first && match raw_sample_buf devc with None => true | _ => false end
  then Some (false, devc, b)
  else
    let num_channels := count_channels (flag_reg devc) in
    match ev with
    | G_IO_IN None => Some (false, devc, b)
    | G_IO_IN (Some byte) =>
        match receive_byte num_channels byte devc with
        | Some devc => Some (true, devc, b)
        | None => None
        end
    | G_IO_NONE =>
        let '(devc, b) := send_buffer devc b in
        Some (true, devc, b)
    end.

(** Conversion of a double to an integer type: the fraction is
    dropped. *)
Definition Qtrunc (q : Q) : Z :=
  if Qle_bool 0 q then Qfloor q else Qceiling q.

(** The channel-group loop of [hw_dev_acquisition_start]: returns
    [changrp_mask] and [num_channels]. *)
Definition channel_groups (probe_mask : Z) : Z * Z :=
  fold_left
    (fun '(changrp_mask, num_channels) i =>
       if negb (Z.land probe_mask (u32 (Z.shiftl 0xff (i * 8))) =? 0)
       then (u8 (Z.lor changrp_mask (Z.shiftl 1 i)), num_channels + 1)
       else (changrp_mask, num_channels))
    [0; 1; 2; 3] (0, 0).

(** [starttime] is what [gettimeofday] returns, [writable] whether the
    serial port takes the command bytes. [None]: the call divides by
    zero ([num_channels] is 0). The two small heap allocations for the
    header packet are taken to succeed. *)
Definition hw_dev_acquisition_start (starttime : Z) (writable : bool)
  (sdi : sr_dev_inst) (b : bus) : option (Z * sr_dev_inst * bus) :=
  if negb (status sdi =? SR_ST_ACTIVE) then Some (SR_ERR, sdi, b)
  else
    let '(ret, devc) := configure_probes sdi in
    if negb (ret =? SR_OK) then Some (SR_ERR, set_priv devc sdi, b)
    else
      (* Enable/disable channel groups in the flag register according
         to the probe mask. Calculate this here, because num_channels
         is needed to limit readcount. *)
      let '(changrp_mask, num_channels) :=
        channel_groups (probe_mask devc) in
      if num_channels =? 0 then None
      else
        (* Limit readcount to prevent reading past the end of the
           hardware buffer. *)
        let readcount :=
          u16 (Z.min (max_samples devc / num_channels) (limit_samples devc)
               / 4) in
        (* With num_stages = 0 the store below lands in front of the
           array; the array itself is then unchanged, and it is only
           read when a trigger is set, which makes num_stages
           positive. *)
        let trigger_config := or_at [0; 0; 0; 0] (num_stages devc - 1) 0x08 in
        let '(ret, delaycount, devc, b) :=
          if negb (nth 0 (trigger_mask devc) 0 =? 0) then
            let delaycount :=
              u16 (Qtrunc (inject_Z readcount
                           * (1 - inject_Z (capture_ratio devc) / 100))%Q) in
            let devc :=
              set_trigger_at
                (s32 ((readcount - delaycount) * 4 - num_stages devc)) devc in
            let '(ret, b) :=
              send_longcommands writable
                [(CMD_SET_TRIGGER_MASK_0,
                  reverse32 (nth 0 (trigger_mask devc) 0));
                 (CMD_SET_TRIGGER_VALUE_0,
                  reverse32 (nth 0 (trigger_value devc) 0));
                 (CMD_SET_TRIGGER_CONFIG_0, nth 0 trigger_config 0);
                 (CMD_SET_TRIGGER_MASK_1,
                  reverse32 (nth 1 (trigger_mask devc) 0));
                 (CMD_SET_TRIGGER_VALUE_1,
                  reverse32 (nth 1 (trigger_value devc) 0));
                 (CMD_SET_TRIGGER_CONFIG_1, nth 1 trigger_config 0);
                 (CMD_SET_TRIGGER_MASK_2,
                  reverse32 (nth 2 (trigger_mask devc) 0));
                 (CMD_SET_TRIGGER_VALUE_2,
                  reverse32 (nth 2 (trigger_value devc) 0));
                 (CMD_SET_TRIGGER_CONFIG_2, nth 2 trigger_config 0);
                 (CMD_SET_TRIGGER_MASK_3,
                  reverse32 (nth 3 (trigger_mask devc) 0));
                 (CMD_SET_TRIGGER_VALUE_3,
                  reverse32 (nth 3 (trigger_value devc) 0));
                 (CMD_SET_TRIGGER_CONFIG_3, nth 3 trigger_config 0)] b in
            (ret, delaycount, devc, b)
          else
            let '(ret, b) :=
              send_longcommands writable
                [(CMD_SET_TRIGGER_MASK_0, nth 0 (trigger_mask devc) 0);
                 (CMD_SET_TRIGGER_VALUE_0, nth 0 (trigger_value devc) 0);
                 (CMD_SET_TRIGGER_CONFIG_0, 0x00000008)] b in
            (ret, readcount, devc, b) in
        if negb (ret =? SR_OK) then Some (SR_ERR, set_priv devc sdi, b)
        else
          let '(ret, b) :=
            send_longcommand writable CMD_SET_DIVIDER
              (reverse32 (cur_samplerate_divider devc)) b in
          if negb (ret =? SR_OK) then Some (SR_ERR, set_priv devc sdi, b)
          else
            (* Send sample limit and pre/post-trigger capture ratio. *)
            let data :=
              u32 (Z.shiftl (Z.land (readcount - 1) 0xffff) 16) in
            let data := Z.lor data (Z.land (delaycount - 1) 0xffff) in
            let '(ret, b) :=
              send_longcommand writable CMD_CAPTURE_SIZE (reverse16 data) b in
            if negb (ret =? SR_OK) then Some (SR_ERR, set_priv devc sdi, b)
            else
              (* The flag register wants them here, and 1 means "disable
                 channel". *)
              let devc :=
                set_flag_reg
                  (Z.lor (flag_reg devc)
                     (Z.land (Z.lnot (Z.shiftl changrp_mask 2)) 0x3c)) devc in
              let devc :=
                set_flag_reg (Z.lor (flag_reg devc) FLAG_FILTER) devc in
              let devc := set_rle_count 0 devc in
              let data :=
                Z.lor (u32 (Z.shiftl (flag_reg devc) 24))
                      (Z.land (u32 (Z.shiftl (flag_reg devc) 8)) 0xff0000) in
              let '(ret, b) :=
                send_longcommand writable CMD_SET_FLAGS data b in
              if negb (ret =? SR_OK) then Some (SR_ERR, set_priv devc sdi, b)
              else
                (* Start acquisition on the device. *)
                let '(ret, b) := send_shortcommand writable CMD_RUN b in
                if negb (ret =? SR_OK)
                then Some (SR_ERR, set_priv devc sdi, b)
                else
                  let b := sr_source_add (-1) b in
                  (* Send header packet to the session bus. *)
                  let b := sr_session_send (SR_DF_HEADER 1 starttime) b in
                  (* Send metadata about the SR_DF_LOGIC packets to
                     come. *)
                  let b :=
                    sr_session_send
                      (SR_DF_META_LOGIC NUM_PROBES (cur_samplerate devc)) b in
                  Some (SR_OK, set_priv devc sdi, b).

(** The session loop feeding [receive_data] a run of events, for as
    long as the callback asks to stay registered. *)
Fixpoint run_events (evs : list revents) (devc : dev_context) (b : bus)
  : option (dev_context * bus) :=
  match evs with
  | [] => Some (devc, b)
  | ev :: rest =>
      match receive_data ev devc b with
      | None => None
      | Some (true, devc, b) => run_events rest devc b
      | Some (false, devc, b) => Some (devc, sr_source_remove b)
      end
  end.

End WithHeader.

(** [ols.h] as shipped for the OLS 1.0 board: 32 probes on a 100 MHz
    clock. *)
Definition ols_h_1_0 : ols_h :=
  mk_ols_h 32 (SR_MHZ 100) 4 0x01 0x02 0x0100.

(* Probes are numbered 0-31 (on the PCB silkscreen). *)
Definition probe_names : list string :=
  ["0"; "1"; "2"; "3"; "4"; "5"; "6"; "7"; "8"; "9"; "10"; "11"; "12";
   "13"; "14"; "15"; "16"; "17"; "18"; "19"; "20"; "21"; "22"; "23";
   "24"; "25"; "26"; "27"; "28"; "29"; "30"; "31"]%string.

Definition SR_PROBE_LOGIC : Z := 10000.

(** The device instance [hw_scan] builds for a board that answers the
    ID command but sends no metadata: 32 enabled logic probes, no
    trigger, a fresh context, status inactive. *)
Definition sump_sdi : sr_dev_inst :=
  mk_sdi Sigrok.SR_ST_INACTIVE
    (map (fun i => mk_probe (Z.of_nat i) SR_PROBE_LOGIC true
                     (nth i probe_names EmptyString) None)
         (seq 0 32))
    ols_dev_new.

(** The same device after [hw_dev_open]. *)
Definition sump_sdi_open : sr_dev_inst := set_status Sigrok.SR_ST_ACTIVE sump_sdi.

(** The check at the head of [set_samplerate]: the rate is not
    rejected with SR_ERR_SAMPLERATE. *)
Definition samplerate_accepted (devc : dev_context) (samplerate : Z) : bool :=
  if negb (max_samplerate devc =? 0)
  then negb (max_samplerate devc <? samplerate)
  else negb ((samplerate <? samplerates_low)
             || (samplerates_high <? samplerate)).

(** The events of a run of received bytes. *)
Definition bytes_in (bytes : list Z) : list revents :=
  map (fun x => G_IO_IN (Some x)) bytes.

(** Well-formedness of the header constants: RLE, FILTER and the four
    channel-group bits 2..5 of the flag register do not overlap. *)
Definition flags_ok {H : ols_h} : bool :=
  (Z.land FLAG_FILTER 0x3c =? 0) && (Z.land FLAG_RLE 0x3c =? 0)
  && (Z.land FLAG_RLE FLAG_FILTER =? 0).

(** The state of the receive path between two calls of
    [receive_data]: the sample limit is such that byte offsets into
    the buffer fit the [int] they are computed in; [num_samples] is
    within the limit; at least one channel group is enabled and
    [num_bytes] counts the bytes of an incomplete sample; [rle_count]
    is not negative; [sample] holds four bytes, zero beyond the enabled
    groups; once a call has been made the buffer is allocated with
    [limit_samples * 4] bytes. *)
Definition rx_ok (d : dev_context) : bool :=
  let nc := count_channels (flag_reg d) in
  (0 <=? limit_samples d) && (4 * limit_samples d <=? INT_MAX)
  && (0 <=? num_samples d) && (num_samples d <=? limit_samples d)
  && (1 <=? nc)
  && (0 <=? num_bytes d) && (num_bytes d <? nc)
  && (0 <=? rle_count d) && (rle_count d <=? INT_MAX)
  && (Datatypes.length (sample d) =? 4)%nat
  && forallb (fun x => (0 <=? x) && (x <? 256)) (sample d)
  && forallb (fun x => x =? 0) (skipn (Z.to_nat nc) (sample d))
  && (0 <=? num_transfers d) && (num_transfers d <? 2 ^ 32)
  && ((num_transfers d =? 0)
      || match raw_sample_buf d with
         | Some buf => Z.of_nat (Datatypes.length buf) =? limit_samples d * 4
         | None => false
         end).

(** A received byte widened to a full 32-bit sample for channel group
    [g]: the byte in position [g], zero in the other three. *)
Definition widen (g : Z) (x : Z) : list Z :=
  map (fun i => if i =? g then x else 0) [0; 1; 2; 3].

(** The enabled probes all lie in channel group [g] (probes [8g] to
    [8g + 7]), none of them has a trigger, and there is at least
    one. *)
Definition one_group (g : Z) (l : list sr_probe) : bool :=
  (0 <=? g) && (g <? 4)
  && existsb enabled l
  && forallb (fun p => negb (enabled p)
                       || ((8 * g <=? index p) && (index p <? 8 * g + 8)
                           && match trigger p with
                              | None => true
                              | Some EmptyString => true
                              | Some _ => false
                              end)) l.

(** The four bytes [receive_data] stores for a collected sample: the
    sample widened by [expand_sample] when fewer than four channel
    groups are enabled, the sample itself otherwise. *)
Definition full_sample (num_channels flag_reg : Z) (smp : list Z) : list Z :=
  if num_channels <? 4 then
    match expand_sample flag_reg smp [0; 0; 0; 0] 0 0 4 with
    | Some tmp => tmp
    | None => smp
    end
  else smp.

(** [rx_ok] as a proposition, with the sample bytes named. *)
Record rx_inv (d : dev_context) : Prop := mk_rx_inv {
  rx_limit : 0 <= limit_samples d /\ 4 * limit_samples d <= INT_MAX;
  rx_samples : 0 <= num_samples d <= limit_samples d;
  rx_bytes : 0 <= num_bytes d < count_channels (flag_reg d);
  rx_rle : 0 <= rle_count d <= INT_MAX;
  rx_sample :
    exists s0 s1 s2 s3,
      sample d = [s0; s1; s2; s3]
      /\ is_byte s0 /\ is_byte s1 /\ is_byte s2 /\ is_byte s3
      /\ (count_channels (flag_reg d) <= 3 -> s3 = 0)
      /\ (count_channels (flag_reg d) <= 2 -> s2 = 0)
      /\ (count_channels (flag_reg d) <= 1 -> s1 = 0);
  rx_transfers : 0 <= num_transfers d < 2 ^ 32;
  rx_buffer :
    num_transfers d <> 0 ->
    exists buf,
      raw_sample_buf d = Some buf
      /\ Z.of_nat (Datatypes.length buf) = limit_samples d * 4
}.

(** The buffer of [d] is allocated, [limit_samples * 4] bytes long. *)
Definition buffer_ready (d : dev_context) : Prop :=
  exists buf,
    raw_sample_buf d = Some buf
    /\ Z.of_nat (Datatypes.length buf) = limit_samples d * 4.

(** The integers [lo], [lo + 1], ..., [lo + n - 1]. *)
Definition zrange (lo : Z) (n : nat) : list Z :=
  map (fun i => lo + Z.of_nat i) (seq 0 n).

(** Adding probe [8g + k] to a probe mask that has only bits of
    channel group [g] set keeps it in that group and makes it
    non-zero; checked for all four groups, all masks and all probes
    of a group. *)
Definition probe_bit_check : bool :=
  forallb (fun g =>
    forallb (fun m =>
      forallb (fun k =>
        (Z.lor (Z.shiftl m (8 * g)) (u32 (s32 (Z.shiftl 1 (8 * g + k))))
         =? Z.shiftl (Z.lor m (2 ^ k)) (8 * g))
        && (1 <=? Z.lor m (2 ^ k)) && (Z.lor m (2 ^ k) <=? 255))
        (zrange 0 8))
      (zrange 0 256))
    (zrange 0 4).

(** A non-zero probe mask within channel group [g] makes
    [channel_groups] report that group alone; checked for all groups
    and masks. *)
Definition channel_groups_check : bool :=
  forallb (fun g =>
    forallb (fun m =>
      let '(changrp_mask, num_channels) :=
        channel_groups (Z.shiftl m (8 * g)) in
      (changrp_mask =? 2 ^ g) && (num_channels =? 1))
      (zrange 1 255))
    (zrange 0 4).

(** A context in which no acquisition has run and no trigger, RLE or
    channel-group restriction is configured, as [ols_dev_new] leaves
    it: the receive counters are zero, [trigger_at] is -1, the
    channel-group bits and the RLE bit of the flag register are
    clear. *)
Definition fresh_rx {H : ols_h} (d : dev_context) : bool :=
  (trigger_at d =? -1) && (num_transfers d =? 0) && (num_samples d =? 0)
  && (num_bytes d =? 0)
  && (Datatypes.length (sample d) =? 4)%nat
  && forallb (fun x => x =? 0) (sample d)
  && (Z.land (flag_reg d) 0x3c =? 0)
  && (Z.land (flag_reg d) FLAG_RLE =? 0).

(** An empty session: nothing written, nothing sent, no source. *)
Definition bus0 : bus := mk_bus [] [] None.

(** The opened device with probes 0..7 enabled and the others
    disabled, so that channel group 0 alone is captured. *)
Definition group0_sdi : sr_dev_inst :=
  mk_sdi Sigrok.SR_ST_ACTIVE
    (map (fun p => mk_probe (index p) (type p) (index p <? 8) (name p)
                     (trigger p))
         (probes sump_sdi))
    ols_dev_new.

(** A run of [hw_dev_config_set] calls, each on the result of the one
    before. *)
Definition configured {H : ols_h} (sdi : sr_dev_inst)
  (settings : list (Z * Z)) : sr_dev_inst :=
  fold_left
    (fun s '(hwcap, value) =>
       match hw_dev_config_set s hwcap value with
       | Some (_, s') => s'
       | None => s
       end)
    settings sdi.

(** The context and the session after [hw_dev_acquisition_start] at
    time 0 on a writable port. *)
Definition started {H : ols_h} (sdi : sr_dev_inst) : dev_context * bus :=
  match hw_dev_acquisition_start 0 true sdi bus0 with
  | Some (_, sdi', b) => (priv sdi', b)
  | None => (priv sdi, bus0)
  end.

(** Channel group 0 with a limit of 8 samples: the capture of the
    bytes A0..A7. *)
Definition capture8_sdi : sr_dev_inst :=
  @configured ols_h_1_0 group0_sdi [(Sigrok.SR_HWCAP_LIMIT_SAMPLES, 8)].

Definition capture8_bytes : list Z :=
  [0xa0; 0xa1; 0xa2; 0xa3; 0xa4; 0xa5; 0xa6; 0xa7].

(** Channel group 0 with RLE on and a limit of 4 samples, after the
    start of the acquisition. *)
Definition rle4_start : dev_context * bus :=
  @started ols_h_1_0
    (@configured ols_h_1_0 group0_sdi
       [(Sigrok.SR_HWCAP_LIMIT_SAMPLES, 4); (Sigrok.SR_HWCAP_RLE, 1)]).

(** A count of 1 and its sample, a count of 5 and its sample, and one
    more sample: 2 + 6 + 1 samples for a limit of 4. *)
Definition rle4_bytes : list Z := [0x81; 0x41; 0x85; 0x42; 0x43].

(** The receive state between two samples of a capture on channel
    group [g] alone, with RLE off. *)
Record one_group_rx {H : ols_h} (g : Z) (d : dev_context) : Prop :=
  mk_one_group_rx {
  og_group : 0 <= g < 4;
  og_bits : forall i, 0 <= i < 4 ->
            Z.testbit (flag_reg d) (i + 2) = negb (i =? g);
  og_rle : Z.land (flag_reg d) FLAG_RLE = 0;
  og_bytes : num_bytes d = 0;
  og_count : rle_count d = 0;
  og_sample : sample d = [0; 0; 0; 0];
  og_limit : 4 * limit_samples d <= INT_MAX
}.

(** ** Wire format, triggers and captures *)

(** Big-endian 32-bit word held in four bytes. *)
Definition be32 (b : list Z) : Z :=
  2 ^ 24 * nth 0 b 0 + 2 ^ 16 * nth 1 b 0 + 2 ^ 8 * nth 2 b 0 + nth 3 b 0.

(** Byte [k] of a word, counted from the least significant. *)
Definition byte_at (x k : Z) : Z := Z.land (Z.shiftr x (8 * k)) 0xff.

(** The number of stages a probe's trigger string asks for; 0 without
    a trigger. *)
Definition trigger_length (p : sr_probe) : Z :=
  match trigger p with
  | None => 0
  | Some tc => Z.of_nat (String.length tc)
  end.

(** The largest number of stages asked for by an enabled probe. *)
Definition max_stages (l : list sr_probe) : Z :=
  fold_right (fun p m => if enabled p then Z.max (trigger_length p) m else m)
             0 l.

(** Some enabled probe has index [k]. *)
Definition enabled_at (l : list sr_probe) (k : Z) : bool :=
  existsb (fun p => enabled p && (index p =? k)) l.

(** Character [s] of the trigger string of a probe. *)
Definition trigger_char (p : sr_probe) (s : Z) : option ascii :=
  match trigger p with
  | None => None
  | Some tc => nth_error (list_ascii_of_string tc) (Z.to_nat s)
  end.

(** Some enabled probe with index [k] has a trigger character for
    stage [s]. *)
Definition armed_at (l : list sr_probe) (s k : Z) : bool :=
  existsb (fun p => enabled p && (index p =? k)
                    && match trigger_char p s with
                       | Some _ => true
                       | None => false
                       end) l.

(** Some enabled probe with index [k] has the trigger character '1'
    for stage [s]. *)
Definition high_at (l : list sr_probe) (s k : Z) : bool :=
  existsb (fun p => enabled p && (index p =? k)
                    && match trigger_char p s with
                       | Some c => Ascii.eqb c "1"%char
                       | None => false
                       end) l.

(** The opened Sump device with triggers on probes 0 and 1: probe 0
    waits for a high level, then a low one; probe 1 for a low level. *)
Definition trigger_sdi : sr_dev_inst :=
  mk_sdi Sigrok.SR_ST_ACTIVE
    (map (fun p => mk_probe (index p) (type p) true (name p)
                     (if index p =? 0 then Some "10"%string
                      else if index p =? 1 then Some "0"%string
                      else None))
         (probes sump_sdi))
    ols_dev_new.

(** A run of settings: RLE on, then a samplerate, a sample limit, a
    capture ratio, and SR_HWCAP_RLE again with a zero value. *)
Definition rle_settings : list (Z * Z) :=
  [(Sigrok.SR_HWCAP_RLE, 1); (Sigrok.SR_HWCAP_SAMPLERATE, 1000000);
   (Sigrok.SR_HWCAP_LIMIT_SAMPLES, 1024); (Sigrok.SR_HWCAP_CAPTURE_RATIO, 50);
   (Sigrok.SR_HWCAP_RLE, 0)].

(** The commands [hw_dev_acquisition_start] writes, in order: the
    trigger words of all four stages when a trigger is configured, of
    stage 0 alone otherwise, then divider, capture size, flags and
    RUN. *)
Definition start_commands (triggered : bool) : list command :=
  (if triggered
   then [CMD_SET_TRIGGER_MASK_0; CMD_SET_TRIGGER_VALUE_0;
         CMD_SET_TRIGGER_CONFIG_0;
         CMD_SET_TRIGGER_MASK_1; CMD_SET_TRIGGER_VALUE_1;
         CMD_SET_TRIGGER_CONFIG_1;
         CMD_SET_TRIGGER_MASK_2; CMD_SET_TRIGGER_VALUE_2;
         CMD_SET_TRIGGER_CONFIG_2;
         CMD_SET_TRIGGER_MASK_3; CMD_SET_TRIGGER_VALUE_3;
         CMD_SET_TRIGGER_CONFIG_3]
   else [CMD_SET_TRIGGER_MASK_0; CMD_SET_TRIGGER_VALUE_0;
         CMD_SET_TRIGGER_CONFIG_0])
  ++ [CMD_SET_DIVIDER; CMD_CAPTURE_SIZE; CMD_SET_FLAGS; CMD_RUN].

(** An opened board that reports 24576 bytes of sample memory, with
    channel group 0 enabled, a trigger on a high level of probe 0, a
    limit of 16 samples and a capture ratio of 50. *)
Definition triggered_sdi : sr_dev_inst :=
  @configured ols_h_1_0
    (mk_sdi Sigrok.SR_ST_ACTIVE
       (map (fun p => mk_probe (index p) (type p) (index p <? 8) (name p)
                        (if index p =? 0 then Some "1"%string else None))
            (probes sump_sdi))
       (mk_devc 0 24576 0 (Sigrok.SR_KHZ 200) 0 0 0 0 (-1) 0xffffffff
          [0; 0; 0; 0] [0; 0; 0; 0] 0 0 0 0 0 [0; 0; 0; 0] [0; 0; 0; 0]
          None))
    [(Sigrok.SR_HWCAP_LIMIT_SAMPLES, 16); (Sigrok.SR_HWCAP_CAPTURE_RATIO, 50)].

(** The context and the session after the start of that acquisition
    and sixteen received bytes. *)
Definition triggered16 : dev_context * bus :=
  let s := @started ols_h_1_0 triggered_sdi in
  match @run_events ols_h_1_0
          (bytes_in [0; 1; 2; 3; 4; 5; 6; 7; 8; 9; 10; 11; 12; 13; 14; 15])
          (fst s) (snd s) with
  | Some r => r
  | None => s
  end.

(** The sample buffer as the next call of [receive_data] finds it: the
    one allocated by an earlier call, or, on the first call, the fresh
    one that call allocates and fills with 0x82. *)
Definition recv_buffer (d : dev_context) : option (list Z) :=
  if num_transfers d =? 0
  then g_try_malloc_memset (u64 (limit_samples d * 4)) 0x82
  else raw_sample_buf d.

(** The session after a call of [receive_data] that reads a byte: the
    first call registers the source again, with a timeout of 30 ms. *)
Definition recv_bus (d : dev_context) (b : bus) : bus :=
  if num_transfers d =? 0 then sr_source_add 30 (sr_source_remove b) else b.

(** The receive state of a capture on all four channel groups with RLE
    off, after [k] bytes of the sample [w] have come in. *)
Record word_rx {H : ols_h} (k : Z) (w : list Z) (d : dev_context) : Prop :=
  mk_word_rx {
  wr_groups : Z.land (flag_reg d) 0x3c = 0;
  wr_rle : Z.land (flag_reg d) FLAG_RLE = 0;
  wr_bytes : num_bytes d = k;
  wr_count : rle_count d = 0;
  wr_sample : sample d
              = firstn (Z.to_nat k) w ++ repeat 0 (4 - Z.to_nat k);
  wr_limit : 4 * limit_samples d <= INT_MAX
}.

(** The bytes of a list of 32-bit samples, each least significant byte
    first, as they travel and as they lie in the buffer. *)
Definition sample_bytes (samples : list (Z * Z * Z * Z)) : list Z :=
  concat (map (fun '(x0, x1, x2, x3) => [x0; x1; x2; x3]) samples).

(** The opened Sump device, all 32 probes enabled, with a limit of
    four samples, after the start of the acquisition. *)
Definition capture32_start : dev_context * bus :=
  @started ols_h_1_0
    (@configured ols_h_1_0 sump_sdi_open
       [(Sigrok.SR_HWCAP_LIMIT_SAMPLES, 4)]).

Definition capture32_samples : list (Z * Z * Z * Z) :=
  [(0x11, 0x12, 0x13, 0x14); (0x21, 0x22, 0x23, 0x24);
   (0x31, 0x32, 0x33, 0x34); (0x41, 0x42, 0x43, 0x44)].

(** ** Metadata *)

Definition set_max_samplerate (v : Z) (d : dev_context) : dev_context :=
  let '(mk_devc msr ms pv cs csd ls fr cr ta pm tm tv nst nt ns rc nb sm
      ts rsb) := d in
  mk_devc v ms pv cs csd ls fr cr ta pm tm tv nst nt ns rc nb sm ts rsb.

Definition set_max_samples (v : Z) (d : dev_context) : dev_context :=
  let '(mk_devc msr ms pv cs csd ls fr cr ta pm tm tv nst nt ns rc nb sm
      ts rsb) := d in
  mk_devc msr v pv cs csd ls fr cr ta pm tm tv nst nt ns rc nb sm ts rsb.

Definition set_protocol_version (v : Z) (d : dev_context) : dev_context :=
  let '(mk_devc msr ms pv cs csd ls fr cr ta pm tm tv nst nt ns rc nb sm
      ts rsb) := d in
  mk_devc msr ms v cs csd ls fr cr ta pm tm tv nst nt ns rc nb sm ts rsb.

Definition set_probes (l : list sr_probe) (sdi : sr_dev_inst) : sr_dev_inst :=
  mk_sdi (status sdi) l (priv sdi).

(** [sr_probe_new] of the library core; its allocation is taken to
    succeed. *)
Definition sr_probe_new (idx typ : Z) (en : bool) (nm : string)
  : option sr_probe :=
  Some (mk_probe idx typ en nm None).

(** A [guchar] as a character of a string. *)
Definition char_of (c : Z) : ascii := ascii_of_N (Z.to_N c).

(** The bytes a string travels as. *)
Definition bytes_of (s : string) : list Z :=
  map (fun a => Z.of_N (N_of_ascii a)) (list_ascii_of_string s).

(** The serial port as the bytes still to come: [serial_read] hands
    out the bytes asked for while they last, and fewer at the end of
    the stream.

    [while (serial_read(serial, &tmp_c, 1) == 1 && tmp_c != '\0')
       g_string_append_c(tmp_str, tmp_c)]. *)
Fixpoint read_string (stream : list Z) (tmp_str : string)
  : string * list Z :=
  match stream with
  | [] => (tmp_str, [])
  | tmp_c :: stream =>
      if tmp_c =? 0 then (tmp_str, stream)
      else read_string stream (tmp_str ++ String (char_of tmp_c) "")
  end.

(** [for (ui = 0; ui < tmp_int; ui++)] over the probes to add; [names]
    is [probe_names] from entry [ui] on. [None] when [sr_probe_new]
    fails (the function returns 0), and when [ui] goes beyond the 32
    names: entry 32 is a NULL name and the entries after it lie outside
    the array, which is not modelled. *)
Fixpoint add_probes (names : list string) (ui tmp_int : Z)
  (l : list sr_probe) : option (list sr_probe) :=
  if ui <? tmp_int then
    match names with
    | [] => None
    | nm :: names =>
        match sr_probe_new ui SR_PROBE_LOGIC true nm with
        | None => None
        | Some probe => add_probes names (ui + 1) tmp_int (l ++ [probe])
        end
    end
  else Some l.

(** [g_string_append(version, ", ")] when [version->len] is not 0. *)
Definition version_sep (version : string) : string :=
  if (String.length version =? 0)%nat then version
  else (version ++ ", ")%string.

(** The result of [get_metadata]: the device instance, its [model] and
    [version] strings, and the bytes left unread. *)
Definition metadata : Type := sr_dev_inst * string * string * list Z.

(** One pass of the [while (key)] loop for a key other than 0x00;
    [next] is the rest of the loop. A 32-bit value is read into the
    memory of [tmp_int] in the order received, the first byte lowest,
    and then put through [reverse32]. The width of [protocol_version]
    is not visible in the sources: the value is stored as read. *)
Definition metadata_item
  (next : list Z -> sr_dev_inst -> string -> string -> option metadata)
  (key : Z) (stream : list Z) (sdi : sr_dev_inst)
  (devname version : string) : option metadata :=
  let type := Z.shiftr key 5 in
  let token := Z.land key 0x1f in
  if type =? 0 then
    (* NULL-terminated string *)
    let '(tmp_str, stream) := read_string stream "" in
    if token =? 0x01 then
      (* Device name *)
      next stream sdi (devname ++ tmp_str)%string version
    else if token =? 0x02 then
      (* FPGA firmware version *)
      next stream sdi devname
           (version_sep version ++ "FPGA version " ++ tmp_str)%string
    else if token =? 0x03 then
      (* Ancillary version *)
      next stream sdi devname
           (version_sep version ++ "Ancillary version " ++ tmp_str)%string
    else next stream sdi devname version
  else if type =? 1 then
    (* 32-bit unsigned integer *)
    match stream with
    | b0 :: b1 :: b2 :: b3 :: stream =>
        let tmp_int := reverse32 (le32 [b0; b1; b2; b3]) in
        if token =? 0x00 then
          (* Number of usable probes *)
          match add_probes probe_names 0 tmp_int (probes sdi) with
          | None => None
          | Some l => next stream (set_probes l sdi) devname version
          end
        else if token =? 0x01 then
          (* Amount of sample memory available (bytes) *)
          next stream (set_priv (set_max_samples tmp_int (priv sdi)) sdi)
               devname version
        else if token =? 0x02 then
          (* Amount of dynamic memory available (bytes) *)
          next stream sdi devname version
        else if token =? 0x03 then
          (* Maximum sample rate (hz) *)
          next stream (set_priv (set_max_samplerate tmp_int (priv sdi)) sdi)
               devname version
        else if token =? 0x04 then
          (* protocol version *)
          next stream
               (set_priv (set_protocol_version tmp_int (priv sdi)) sdi)
               devname version
        else next stream sdi devname version
    | _ => next [] sdi devname version
    end
  else if type =? 2 then
    (* 8-bit unsigned integer *)
    match stream with
    | tmp_c :: stream =>
        if token =? 0x00 then
          (* Number of usable probes *)
          match add_probes probe_names 0 tmp_c (probes sdi) with
          | None => None
          | Some l => next stream (set_probes l sdi) devname version
          end
        else if token =? 0x01 then
          (* protocol version *)
          next stream (set_priv (set_protocol_version tmp_c (priv sdi)) sdi)
               devname version
        else next stream sdi devname version
    | [] => next [] sdi devname version
    end
  else
    (* unknown type *)
    next stream sdi devname version.

(** The loop of [get_metadata]. Every pass reads a key, so a fuel above
    the length of the stream is never used up. *)
Fixpoint metadata_loop (fuel : nat) (stream : list Z) (sdi : sr_dev_inst)
  (devname version : string) : option metadata :=
  match fuel with
  | O => None
  | S fuel =>
      match stream with
      | [] => Some (sdi, devname, version, [])
      | key :: stream =>
          if key =? 0x00 then Some (sdi, devname, version, stream)
          else metadata_item (metadata_loop fuel) key stream sdi devname
                             version
      end
  end.

Definition metadata_from (stream : list Z) (sdi : sr_dev_inst)
  (devname version : string) : option metadata :=
  metadata_loop (S (length stream)) stream sdi devname version.

(** [None] is the return of 0. *)
Definition get_metadata (stream : list Z) : option metadata :=
  let sdi := mk_sdi SR_ST_INACTIVE [] ols_dev_new in
  metadata_from stream sdi "" "".

(** The 32-bit value [v] as it travels in a metadata item, most
    significant byte first. *)
Definition be_bytes (v : Z) : list Z :=
  [byte_at v 3; byte_at v 2; byte_at v 1; byte_at v 0].

(** The probes numbered 0 to [n - 1], named after their numbers. *)
Definition logic_probes (n : nat) : list sr_probe :=
  map (fun i => mk_probe (Z.of_nat i) SR_PROBE_LOGIC true
                   (nth i probe_names EmptyString) None)
      (seq 0 n).

(** A metadata block as the OLS sends it: device name, FPGA and
    ancillary version, the number of probes, the sample memory, the
    maximum samplerate and the protocol version, then the end marker
    and whatever follows. *)
Definition metadata_block (devname fpga anc : string)
  (nprobes mem rate proto : Z) (rest : list Z) : list Z :=
  [0x01] ++ bytes_of devname ++ [0x00]
  ++ [0x02] ++ bytes_of fpga ++ [0x00]
  ++ [0x03] ++ bytes_of anc ++ [0x00]
  ++ [0x40; nprobes]
  ++ [0x21] ++ be_bytes mem
  ++ [0x23] ++ be_bytes rate
  ++ [0x41; proto]
  ++ [0x00] ++ rest.

(** No NUL character inside. *)
Definition nul_free (s : string) : bool :=
  forallb (fun a => negb (N_of_ascii a =? 0)%N) (list_ascii_of_string s).

(** The receive state of a capture on channel group [g] alone with RLE
    on, between two samples. *)
Record rle_rx {H : ols_h} (g : Z) (d : dev_context) : Prop := mk_rle_rx {
  rr_group : 0 <= g < 4;
  rr_bits : forall i, 0 <= i < 4 ->
            Z.testbit (flag_reg d) (i + 2) = negb (i =? g);
  rr_rle : Z.land (flag_reg d) FLAG_RLE <> 0;
  rr_bytes : num_bytes d = 0;
  rr_count : rle_count d = 0;
  rr_sample : sample d = [0; 0; 0; 0];
  rr_limit : 4 * limit_samples d <= INT_MAX
}.

(** A receive state on channel group 0 with RLE on, after one call of
    [receive_data], with room for eight samples. *)
Definition rle8_start : dev_context :=
  mk_devc 0 0 0 (SR_KHZ 200) 0 8 (Z.lor 0x38 (@FLAG_RLE ols_h_1_0)) 0 (-1)
    0xffffffff [0; 0; 0; 0] [0; 0; 0; 0] 0 1 0 0 0 [0; 0; 0; 0]
    [0; 0; 0; 0] (Some (repeat 0x82 32)).

End Ols.

(** ** src/hardware/dslogic/dslogic.c *)

Module Dslogic.
Import Sigrok.

(** Macros and enumerators of [dslogic.h] and [protocol.h]. Neither
    header is among the sources, so the values stay abstract;
    [dslogic_h_std] below carries the values of the DSLogic firmware
    interface, for running the model. *)
Class dslogic_h : Type := mk_dslogic_h {
  DS_MAX_LOGIC_DEPTH : Z;
  DS_MAX_LOGIC_SAMPLERATE : Z;
  DS_MODE_INT_TEST : Z;
  DS_MODE_EXT_TEST : Z;
  DS_MODE_LPB_TEST : Z;
  DS_MODE_HALF_MODE : Z;
  DS_MODE_QUAR_MODE : Z;
  DS_MODE_STREAM_MODE : Z;
  DS_MODE_CLK_TYPE : Z;
  DS_MODE_CLK_EDGE : Z;
  DS_MODE_RLE_MODE : Z;
  DS_OP_INTERNAL_TEST : Z;
  DS_OP_EXTERNAL_TEST : Z;
  DS_OP_LOOPBACK_TEST : Z;
  DS_EDGE_FALLING : Z
}.

(** The fields of [struct dev_context] that [dslogic.c] reads. *)
Record dev_context : Type := mk_devc {
  mode : Z;
  cur_samplerate : Z;
  limit_samples : Z;
  capture_ratio : Z;
  continuous_mode : bool;
  external_clock : bool;
  clock_edge : Z
}.

Record sr_channel : Type := mk_channel {
  index : Z;
  enabled : bool
}.

Inductive sr_trigger_matches : Type :=
| SR_TRIGGER_ZERO
| SR_TRIGGER_ONE
| SR_TRIGGER_RISING
| SR_TRIGGER_FALLING
| SR_TRIGGER_EDGE
| SR_TRIGGER_OTHER.

Record sr_trigger_match : Type := mk_match {
  channel : sr_channel;
  match_ : sr_trigger_matches
}.

(** [sdi]: the channels, the session trigger ([None] when the session
    has none; otherwise its stages, each a list of matches) and the
    driver context. *)
Record sr_dev_inst : Type := mk_sdi {
  channels : list sr_channel;
  session_trigger : option (list (list sr_trigger_match));
  priv : dev_context
}.

(** [struct dslogic_fpga_config]: the parameter words, with stage 0 of
    each trigger array (the later stages are filled with constants). *)
Record dslogic_fpga_config : Type := mk_cfg {
  cfg_mode : Z;
  cfg_divider : Z;
  cfg_count : Z;
  cfg_trig_pos : Z;
  cfg_ch_en : Z;
  cfg_trig_mask0 : Z;
  cfg_trig_mask1 : Z;
  cfg_trig_value0 : Z;
  cfg_trig_value1 : Z;
  cfg_trig_edge0 : Z;
  cfg_trig_edge1 : Z
}.

(** [v16 |= x] on a [uint16_t]. *)
Definition or16 (v x : Z) : Z := u16 (Z.lor v x).

(** [v16 &= ~x] on a [uint16_t]. *)
Definition andn16 (v x : Z) : Z := u16 (Z.land v (Z.lnot x)).

Definition Qlt_bool (a b : Q) : bool := negb (Qle_bool b a).

(** *** Doubles

    [dslogic_fpga_configure] computes in doubles. A finite double is
    the rational it stands for, and [b64] is the rounding of IEEE 754
    binary64 arithmetic, to the nearest number with a 53-bit
    significand, ties to the even significand: the result of a
    conversion from an integer, of [*] and of [/] is [b64] of the
    exact result, each operation being rounded to [double]. The
    exponent is not bounded: the values that occur here, between 2^-64
    and 2^128, neither overflow nor fall among the subnormal
    numbers. *)

(** [n / d] rounded to the nearest integer, ties to even; [d > 0]. *)
Definition rnd_even (n d : Z) : Z :=
  let f := n / d in
  let r := n mod d in
  if 2 * r <? d then f
  else if d <? 2 * r then f + 1
  else if Z.even f then f else f + 1.

(** The binary exponent of [n / d]: the [e] with
    [2^e <= n / d < 2^(e+1)]; [n > 0], [d > 0]. *)
Definition ilog2 (n d : Z) : Z :=
  let e := Z.log2 n - Z.log2 d in
  if (if 0 <=? e then n <? d * 2 ^ e else n * 2 ^ (- e) <? d)
  then e - 1 else e.

(** [n / d] rounded to 53 significant bits: with [e] its exponent, the
    nearest multiple of [2^(e-52)]; in lowest terms. *)
Definition b64_pos (n d : Z) : Q :=
  let e := ilog2 n d in
  if e <=? 52 then
    Qred (rnd_even (n * 2 ^ (52 - e)) d # Z.to_pos (2 ^ (52 - e)))
  else
    inject_Z (rnd_even n (d * 2 ^ (e - 52)) * 2 ^ (e - 52)).

Definition b64 (q : Q) : Q :=
  match Qnum q with
  | 0 => 0%Q
  | Z.pos n => b64_pos (Z.pos n) (Z.pos (Qden q))
  | Z.neg n => Qopp (b64_pos (Z.pos n) (Z.pos (Qden q)))
  end.

Definition set_match (m : sr_trigger_match) (cfg : dslogic_fpga_config)
  : dslogic_fpga_config :=
  if negb (enabled (channel m)) then
    (* Ignore disabled channels with a trigger. *)
    cfg
  else
    let channelbit := s32 (Z.shiftl 1 (index (channel m))) in
    let '(mk_cfg md dv cn tp ce m0 m1 v0 v1 e0 e1) := cfg in
    match match_ m with
    | SR_TRIGGER_ONE =>
        mk_cfg md dv cn tp ce (andn16 m0 channelbit) (andn16 m1 channelbit)
               (or16 v0 channelbit) (or16 v1 channelbit) e0 e1
    | SR_TRIGGER_ZERO =>
        mk_cfg md dv cn tp ce (andn16 m0 channelbit) (andn16 m1 channelbit)
               v0 v1 e0 e1
    | SR_TRIGGER_FALLING =>
        mk_cfg md dv cn tp ce (andn16 m0 channelbit) (andn16 m1 channelbit)
               v0 v1 (or16 e0 channelbit) (or16 e1 channelbit)
    | SR_TRIGGER_RISING =>
        mk_cfg md dv cn tp ce (andn16 m0 channelbit) (andn16 m1 channelbit)
               (or16 v0 channelbit) (or16 v1 channelbit)
               (or16 e0 channelbit) (or16 e1 channelbit)
    | SR_TRIGGER_EDGE =>
        mk_cfg md dv cn tp ce m0 m1 v0 v1
               (or16 e0 channelbit) (or16 e1 channelbit)
    | SR_TRIGGER_OTHER => cfg
    end.

(** Get the session trigger and configure the FPGA structure
    accordingly. *)
Definition dslogic_set_trigger (sdi : sr_dev_inst) (cfg : dslogic_fpga_config)
  : dslogic_fpga_config :=
  let devc := priv sdi in
  let ch_en :=
    fold_left
      (fun ch_en probe =>
         u16 (Z.lor ch_en
                (Z.shiftl (if enabled probe then 1 else 0) (index probe))))
      (channels sdi) 0 in
  let trig_pos :=
    u32 (Qfloor (inject_Z (capture_ratio devc) / 100
                 * inject_Z (limit_samples devc))%Q) in
  let cfg := mk_cfg (cfg_mode cfg) (cfg_divider cfg) (cfg_count cfg)
                    trig_pos ch_en 0xffff 0xffff 0 0 0 0 in
  match session_trigger sdi with
  | None => cfg
  | Some stages =>
      let cfg := fold_left
                   (fun cfg stage =>
                      fold_left (fun cfg m => set_match m cfg) stage cfg)
                   stages cfg in
      let v16 := cfg_mode cfg in
      let v16 := or16 v16 (Z.shiftl 1 0) in
      mk_cfg v16 (cfg_divider cfg) (cfg_count cfg) (cfg_trig_pos cfg)
             (cfg_ch_en cfg) (cfg_trig_mask0 cfg) (cfg_trig_mask1 cfg)
             (cfg_trig_value0 cfg) (cfg_trig_value1 cfg)
             (cfg_trig_edge0 cfg) (cfg_trig_edge1 cfg)
  end.

Section WithHeader.
Context {H : dslogic_h}.

(** The right-hand side of the RLE test, [DS_MAX_LOGIC_DEPTH *
    ceil(devc->cur_samplerate * 1.0 / DS_MAX_LOGIC_SAMPLERATE)]: the
    samplerate and the two integer constants are converted to double,
    the multiplication by [1.0] and [ceil] are exact, the quotient and
    the product are rounded. *)
Definition rle_threshold (devc : dev_context) : Q :=
  b64 (b64 (inject_Z DS_MAX_LOGIC_DEPTH)
       * inject_Z
           (Qceiling (b64 (b64 (inject_Z (cur_samplerate devc)) * 1
                           / b64 (inject_Z DS_MAX_LOGIC_SAMPLERATE))))).

(** The mode word [v16] that [dslogic_fpga_configure] writes with
    [WL16(&cfg.mode, v16)]. In the RLE test [limit_samples] is
    converted to double for the comparison. *)
Definition fpga_mode_word (devc : dev_context) : Z :=
  let v16 := 0x0000 in
  let v16 :=
    if mode devc =? DS_OP_INTERNAL_TEST then u16 DS_MODE_INT_TEST
    else if mode devc =? DS_OP_EXTERNAL_TEST then u16 DS_MODE_EXT_TEST
    else if mode devc =? DS_OP_LOOPBACK_TEST then u16 DS_MODE_LPB_TEST
    else v16 in
  let v16 :=
    if cur_samplerate devc =? u64 (DS_MAX_LOGIC_SAMPLERATE * 2)
    then or16 v16 DS_MODE_HALF_MODE
    else if cur_samplerate devc =? u64 (DS_MAX_LOGIC_SAMPLERATE * 4)
    then or16 v16 DS_MODE_QUAR_MODE
    else v16 in
  let v16 :=
    if continuous_mode devc then or16 v16 DS_MODE_STREAM_MODE else v16 in
  let v16 :=
    if external_clock devc then
      let v16 := or16 v16 DS_MODE_CLK_TYPE in
      if clock_edge devc =? DS_EDGE_FALLING
      then or16 v16 DS_MODE_CLK_EDGE else v16
    else v16 in
  let v16 :=
    if Qlt_bool (rle_threshold devc) (b64 (inject_Z (limit_samples devc)))
       && negb (continuous_mode devc)
    then
      (* Enable RLE for long captures. Without this, captured data
         present errors. *)
      or16 v16 DS_MODE_RLE_MODE
    else v16 in
  v16.

(** [control_ok] and [bulk_ok]: whether the control transfer and the
    bulk transfer go through. The second component is the
    configuration handed to the bulk transfer, [None] when the function
    returns before it. *)
Definition dslogic_fpga_configure (control_ok bulk_ok : bool)
  (sdi : sr_dev_inst) : Z * option dslogic_fpga_config :=
  let devc := priv sdi in
  if negb control_ok then (SR_ERR, None)
  else
    let v16 := fpga_mode_word devc in
    let v32 :=
      u32 (Qceiling (b64 (b64 (inject_Z DS_MAX_LOGIC_SAMPLERATE) * 1
                          / b64 (inject_Z (cur_samplerate devc))))) in
    let cfg := mk_cfg v16 v32 (u32 (limit_samples devc)) 0 0 0 0 0 0 0 0 in
    let cfg := dslogic_set_trigger sdi cfg in
    if negb bulk_ok then (SR_ERR, Some cfg) else (SR_OK, Some cfg).

End WithHeader.

(** The values of the DSLogic headers: 16 M samples of depth at up to
    100 MHz. *)
Definition dslogic_h_std : dslogic_h :=
  mk_dslogic_h (SR_MHZ 16) (SR_MHZ 100)
    (Z.shiftl 1 15) (Z.shiftl 1 14) (Z.shiftl 1 13)
    (Z.shiftl 1 5) (Z.shiftl 1 6) (Z.shiftl 1 12)
    (Z.shiftl 1 1) (Z.shiftl 1 2) (Z.shiftl 1 3)
    1 2 3 1.

(** [ceil(a / b)] on integers, [b] positive. *)
Definition ceil_div (a b : Z) : Z := (a + b - 1) / b.

(** Well-formedness of the mode constants: DS_MODE_RLE_MODE is a
    non-zero 16-bit value that shares no bit with the other mode
    constants, nor with bit 0, which [dslogic_set_trigger] sets. *)
Definition mode_bits_ok {H : dslogic_h} : bool :=
  (0 <? DS_MODE_RLE_MODE) && (DS_MODE_RLE_MODE <? 2 ^ 16)
  && forallb (fun x => Z.land x DS_MODE_RLE_MODE =? 0)
       [DS_MODE_INT_TEST; DS_MODE_EXT_TEST; DS_MODE_LPB_TEST;
        DS_MODE_HALF_MODE; DS_MODE_QUAR_MODE; DS_MODE_STREAM_MODE;
        DS_MODE_CLK_TYPE; DS_MODE_CLK_EDGE; Z.shiftl 1 0].

(** The DSLogic RLE threshold scenario: one sample more than the
    memory depth at the maximum samplerate, continuous mode off. *)
Definition rle_threshold_sdi : sr_dev_inst :=
  mk_sdi [] None
    (mk_devc 0 (SR_MHZ 100) (SR_MHZ 16 + 1) 0 false false 0).

(** A samplerate that is no double, 2^30 * 10^8 + 1, with a sample
    limit between 16000000 * 2^30 and 16000000 * (2^30 + 1);
    continuous mode off. *)
Definition rle_rounding_sdi : sr_dev_inst :=
  mk_sdi [] None
    (mk_devc 0 107374182400000001 17179869184001000 0 false false 0).

(** ** Transfers and trigger words *)

(** The data rate in bytes per millisecond; an [int]. The samplerate is
    a [uint64_t], [SR_MHZ] an [unsigned long long]. *)
Definition to_bytes_per_ms (devc : dev_context) : Z :=
  if SR_MHZ 100 <? cur_samplerate devc then
    s32 (u64 (u64 (SR_MHZ 100 / 1000) * 2))
  else
    s32 (u64 (u64 (cur_samplerate devc / 1000) * 2)).

(** [size_t] is taken as 64 bits wide; [~511] is the [int] -512,
    converted to [size_t] for the conjunction. *)
Definition get_buffer_size (devc : dev_context) : Z :=
  (* The buffer should be large enough to hold 10ms of data and
     a multiple of 512. *)
  let s := u64 (s32 (10 * to_bytes_per_ms devc)) in
  Z.land (u64 (s + 511)) (u64 (Z.lnot 511)).

(** [NUM_SIMUL_TRANSFERS] is a macro of [protocol.h], which is not
    among the sources: it is a parameter here. [None] is the division
    by a buffer size of zero. *)
Definition dslogic_get_number_of_transfers (NUM_SIMUL_TRANSFERS : Z)
  (devc : dev_context) : option Z :=
  (* Total buffer size should be able to hold about 100ms of data. *)
  let size := get_buffer_size devc in
  if size =? 0 then None
  else
    let n := u32 (u64 (s32 (100 * to_bytes_per_ms devc)) / size) in
    if u32 NUM_SIMUL_TRANSFERS <? n then Some NUM_SIMUL_TRANSFERS
    else Some (s32 n).

(** Whether match [m] is on an enabled channel of index [i] and of one
    of the kinds [kinds]. *)
Definition match_hits (kinds : sr_trigger_matches -> bool) (i : Z)
  (m : sr_trigger_match) : bool :=
  enabled (channel m) && (index (channel m) =? i) && kinds (match_ m).

(** Whether some stage holds such a match. *)
Definition match_in (kinds : sr_trigger_matches -> bool) (i : Z)
  (stages : list (list sr_trigger_match)) : bool :=
  existsb (match_hits kinds i) (concat stages).

(** The matches that take a channel out of the mask, those that ask for
    a high level, and those that ask for an edge. *)
Definition masking (k : sr_trigger_matches) : bool :=
  match k with
  | SR_TRIGGER_ONE | SR_TRIGGER_ZERO | SR_TRIGGER_FALLING
  | SR_TRIGGER_RISING => true
  | _ => false
  end.

Definition valued (k : sr_trigger_matches) : bool :=
  match k with
  | SR_TRIGGER_ONE | SR_TRIGGER_RISING => true
  | _ => false
  end.

Definition edged (k : sr_trigger_matches) : bool :=
  match k with
  | SR_TRIGGER_FALLING | SR_TRIGGER_RISING | SR_TRIGGER_EDGE => true
  | _ => false
  end.

(** A device with channels 0, 1 (enabled) and 2 (disabled) and a
    two-stage trigger: 1 on channel 0 and a falling edge on channel 1,
    then 0 on channel 0 and any edge on the disabled channel 2. *)
Definition two_stage_sdi : sr_dev_inst :=
  let c0 := mk_channel 0 true in
  let c1 := mk_channel 1 true in
  let c2 := mk_channel 2 false in
  mk_sdi [c0; c1; c2]
    (Some [[mk_match c0 SR_TRIGGER_ONE; mk_match c1 SR_TRIGGER_FALLING];
           [mk_match c0 SR_TRIGGER_ZERO; mk_match c2 SR_TRIGGER_EDGE]])
    (mk_devc 0 (SR_MHZ 100) 1000 0 false false 0).

Definition cfg0 : dslogic_fpga_config := mk_cfg 0 0 0 0 0 0 0 0 0 0 0.

End Dslogic.

(** * Properties *)

(** ** Integer conversions *)

Lemma u8_range (x : Z) : 0 <= u8 x < 256.
Proof. unfold u8. apply Z.mod_pos_bound. lia. Qed.

Lemma u8_small (x : Z) : 0 <= x < 256 -> u8 x = x.
Proof. intros Hx. unfold u8. apply Z.mod_small. lia. Qed.

Lemma u32_small (x : Z) : 0 <= x < 2 ^ 32 -> u32 x = x.
Proof. intros Hx. unfold u32. apply Z.mod_small. exact Hx. Qed.

Lemma u64_small (x : Z) : 0 <= x < 2 ^ 64 -> u64 x = x.
Proof. intros Hx. unfold u64. apply Z.mod_small. exact Hx. Qed.

Lemma s32_small (x : Z) : - 2 ^ 31 <= x < 2 ^ 31 -> s32 x = x.
Proof.
  intros Hx. unfold s32. rewrite Z.mod_small; lia.
Qed.

Lemma s32_range (x : Z) : - 2 ^ 31 <= s32 x < 2 ^ 31.
Proof.
  unfold s32. pose proof (Z.mod_pos_bound (x + 2 ^ 31) (2 ^ 32)). lia.
Qed.

(** A mask of one bit selects exactly that bit. *)
Lemma land_pow2_eqb (x k : Z) :
  0 <= k -> (Z.land x (2 ^ k) =? 0) = negb (Z.testbit x k).
Proof.
  intros Hk. destruct (Z.testbit x k) eqn:E; simpl.
  - apply Z.eqb_neq. intros H0.
    assert (Hb : Z.testbit (Z.land x (2 ^ k)) k = true).
    { rewrite Z.land_spec, E, Z.pow2_bits_true by lia. reflexivity. }
    rewrite H0, Z.bits_0 in Hb. discriminate.
  - apply Z.eqb_eq. apply Z.bits_inj'. intros n Hn.
    rewrite Z.land_spec, Z.bits_0, Z.pow2_bits_eqb by lia.
    destruct (Z.eqb_spec k n) as [->|]; [rewrite E|]; 
      now rewrite ?andb_false_r.
Qed.

(** ** rs9lcd *)

Module Rs9lcdProps.
Import Sigrok Rs9lcd.

Lemma sum_bytes_mod (n : nat) (bytes : list Z) (acc : Z) :
  (n <= length bytes)%nat ->
  sum_bytes n bytes (u8 acc) = (acc + fold_right Z.add 0 (firstn n bytes)) mod 256.
Proof.
  revert bytes acc. induction n as [|n IH]; intros bytes acc Hn.
  - simpl. unfold u8. f_equal. lia.
  - destruct bytes as [|b rest]; [simpl in Hn; lia|].
    simpl in Hn. simpl sum_bytes. simpl firstn. simpl fold_right.
    assert (E : u8 (u8 acc + b) = u8 (acc + b)).
    { unfold u8. change (2 ^ 8) with 256. apply Z.add_mod_idemp_l. lia. }
    rewrite E, IH by lia. f_equal. lia.
Qed.

Lemma checksum_valid_spec (p : rs9lcd_packet) :
  0 <= checksum p < 256 ->
  checksum_valid p = true <->
  (mode p + indicatrix1 p + indicatrix2 p + digit4 p + digit3 p + digit2 p
   + digit1 p + info p + 57) mod 256 = checksum p.
Proof.
  intros Hc. unfold checksum_valid.
  change 0 with (u8 0) at 1.
  rewrite sum_bytes_mod by (simpl; lia).
  change (Z.to_nat (RS9LCD_PACKET_SIZE - 1)) with 8%nat.
  cbn [raw firstn fold_right]. unfold u8. change (2 ^ 8) with 256.
  rewrite Z.add_mod_idemp_l by lia.
  rewrite Z.eqb_eq.
  match goal with
  | |- (?a mod 256 - _) mod 256 = 0 <-> ?b mod 256 = _ =>
      replace a with b by lia; set (T := b mod 256);
      assert (Hb : 0 <= T < 256) by (apply Z.mod_pos_bound; lia)
  end.
  split; intros Hs.
  - apply Z.mod_divide in Hs; [|lia]. destruct Hs as [k Hk]. lia.
  - rewrite Hs, Z.sub_diag. reflexivity.
Qed.

(** C3. For every 9-byte buffer, if [sr_rs9lcd_packet_valid] accepts it
    then (sum of bytes 0..7 + 57) mod 256 equals byte 8; a frame that
    violates the equation is rejected. *)
Theorem sr_rs9lcd_packet_valid_checksum (buf : list Z) :
  length buf = 9%nat ->
  Forall is_byte buf ->
  (sr_rs9lcd_packet_valid buf = true ->
   (frame_sum buf + 57) mod 256 = nth 8 buf 0)
  /\ ((frame_sum buf + 57) mod 256 <> nth 8 buf 0 ->
      sr_rs9lcd_packet_valid buf = false).
Proof.
  intros Hlen Hbytes.
  do 9 (destruct buf as [|? buf]; [discriminate Hlen|]).
  destruct buf; [|discriminate Hlen].
  assert (Hc : 0 <= checksum (cast_packet [z; z0; z1; z2; z3; z4; z5; z6; z7])
               < 256).
  { repeat match goal with
           | Hf : Forall _ (_ :: _) |- _ => inversion Hf; subst; clear Hf
           end.
    assumption. }
  pose proof (checksum_valid_spec _ Hc) as Hspec.
  cbn [cast_packet nth mode indicatrix1 indicatrix2 digit4 digit3 digit2
       digit1 info checksum] in Hspec.
  assert (Hsum : frame_sum [z; z0; z1; z2; z3; z4; z5; z6; z7]
                 = z + z0 + z1 + z2 + z3 + z4 + z5 + z6).
  { unfold frame_sum. cbn [firstn fold_right]. lia. }
  rewrite Hsum. cbn [nth].
  assert (Himp : sr_rs9lcd_packet_valid [z; z0; z1; z2; z3; z4; z5; z6; z7]
                 = true ->
                 (z + z0 + z1 + z2 + z3 + z4 + z5 + z6 + 57) mod 256 = z7).
  { unfold sr_rs9lcd_packet_valid.
    destruct (negb (mode _ <? MODE_INVALID)); [discriminate|].
    destruct (checksum_valid _) eqn:Ecs; [|discriminate].
    intros _. apply Hspec. reflexivity. }
  split; [exact Himp|].
  intros Hne.
  destruct (sr_rs9lcd_packet_valid _); [|reflexivity].
  exfalso. apply Hne, Himp. reflexivity.
Qed.

Lemma sr_rs9lcd_packet_valid_checksum_witness :
  sr_rs9lcd_packet_valid dc_volts_frame = true
  /\ (frame_sum dc_volts_frame + 57) mod 256 = nth 8 dc_volts_frame 0.
Proof.
  split; [reflexivity|].
  apply (sr_rs9lcd_packet_valid_checksum dc_volts_frame).
  - reflexivity.
  - repeat constructor; unfold is_byte; vm_compute; intuition discriminate.
  - reflexivity.
Defined.

Lemma bit01_testbit (x k : Z) :
  0 <= k -> bit01 x (2 ^ k) = if Z.testbit x k then 1 else 0.
Proof.
  intros Hk. unfold bit01. rewrite land_pow2_eqb by exact Hk.
  now destruct (Z.testbit x k).
Qed.

Lemma multiplier_count_bits (buf : list Z) :
  multiplier_count (cast_packet buf)
  = Z.of_nat (count_set (multiplier_bits buf)).
Proof.
  unfold multiplier_count, multiplier_bits, count_set.
  cbn [cast_packet indicatrix1 indicatrix2].
  change IND1_KILO with (2 ^ 5). change IND1_MEGA with (2 ^ 4).
  change IND1_MILI with (2 ^ 0). change IND2_MICRO with (2 ^ 7).
  change IND2_NANO with (2 ^ 6).
  rewrite !bit01_testbit by lia.
  repeat match goal with
         | |- context [Z.testbit ?a ?b] => destruct (Z.testbit a b)
         end; reflexivity.
Qed.

Lemma quantity_count_bits (buf : list Z) :
  quantity_count (cast_packet buf)
  = Z.of_nat (count_set (quantity_bits buf)).
Proof.
  unfold quantity_count, quantity_bits, count_set.
  cbn [cast_packet indicatrix1 indicatrix2].
  change IND1_HZ with (2 ^ 7). change IND1_OHM with (2 ^ 6).
  change IND1_FARAD with (2 ^ 3). change IND1_AMP with (2 ^ 2).
  change IND1_VOLT with (2 ^ 1). change IND2_DBM with (2 ^ 5).
  change IND2_SEC with (2 ^ 4). change IND2_DUTY with (2 ^ 3).
  change IND2_HFE with (2 ^ 2).
  rewrite !bit01_testbit by lia.
  repeat match goal with
         | |- context [Z.testbit ?a ?b] => destruct (Z.testbit a b)
         end; reflexivity.
Qed.

(** C4. A frame with more than one multiplier indicator lit, or with
    more than one quantity indicator lit, is rejected by
    [sr_rs9lcd_packet_valid]. *)
Theorem sr_rs9lcd_packet_valid_mutex (buf : list Z) :
  length buf = 9%nat ->
  (1 < count_set (multiplier_bits buf))%nat
  \/ (1 < count_set (quantity_bits buf))%nat ->
  sr_rs9lcd_packet_valid buf = false.
Proof.
  intros _ Hcount. unfold sr_rs9lcd_packet_valid, selection_good.
  rewrite multiplier_count_bits, quantity_count_bits.
  destruct (negb (mode _ <? MODE_INVALID)); [reflexivity|].
  destruct (negb (checksum_valid _)); [reflexivity|].
  destruct Hcount as [Hm | Hq].
  - assert (E : (1 <? Z.of_nat (count_set (multiplier_bits buf))) = true)
      by (apply Z.ltb_lt; lia).
    rewrite E. reflexivity.
  - assert (E : (1 <? Z.of_nat (count_set (quantity_bits buf))) = true)
      by (apply Z.ltb_lt; lia).
    rewrite E.
    destruct (1 <? Z.of_nat (count_set (multiplier_bits buf)));
      reflexivity.
Qed.

Lemma sr_rs9lcd_packet_valid_mutex_witness :
  count_set (multiplier_bits two_multipliers_frame) = 2%nat
  /\ sr_rs9lcd_packet_valid two_multipliers_frame = false.
Proof.
  split; [reflexivity|].
  apply (sr_rs9lcd_packet_valid_mutex two_multipliers_frame).
  - reflexivity.
  - left. vm_compute. lia.
Defined.

End Rs9lcdProps.

Module Rs9lcdParse.
Import Sigrok Rs9lcd.

Lemma digits_loop_ext (p q : rs9lcd_packet) (idx : list Z) (a : digits_acc) :
  (forall i, digit_at p i = digit_at q i) ->
  digits_loop p idx a = digits_loop q idx a.
Proof.
  intros Hd. revert a. induction idx as [|i rest IH]; intros a.
  - reflexivity.
  - cbn [digits_loop]. rewrite Hd.
    destruct (decode_digit (digit_at q i) =? 255); [reflexivity|].
    apply IH.
Qed.

(** [lcd_to_double] never looks at the IND2_NANO bit of indicatrix2:
    setting it and clearing it give the same value. *)
Lemma lcd_to_double_ignores_ind2_nano
  (rawval0 : double) (m i1 i2 d4 d3 d2 d1 inf c type : Z) :
  lcd_to_double rawval0
    (mk_packet m i1 (Z.lor i2 IND2_NANO) d4 d3 d2 d1 inf c) type
  = lcd_to_double rawval0
      (mk_packet m i1 (Z.land i2 (Z.lnot IND2_NANO)) d4 d3 d2 d1 inf c) type.
Proof.
  unfold lcd_to_double. cbn [indicatrix1 indicatrix2 info].
  rewrite (digits_loop_ext
             (mk_packet m i1 (Z.lor i2 IND2_NANO) d4 d3 d2 d1 inf c)
             (mk_packet m i1 (Z.land i2 (Z.lnot IND2_NANO)) d4 d3 d2 d1 inf c))
    by reflexivity.
  assert (E : Z.land (Z.lor i2 IND2_NANO) IND2_MICRO
              = Z.land (Z.land i2 (Z.lnot IND2_NANO)) IND2_MICRO).
  { rewrite Z.land_lor_distr_l, <- Z.land_assoc.
    change (Z.land IND2_NANO IND2_MICRO) with 0.
    change (Z.land (Z.lnot IND2_NANO) IND2_MICRO) with IND2_MICRO.
    apply Z.lor_0_r. }
  rewrite E. reflexivity.
Qed.

(** The digit loop on the nanofarad frame, from any initial [rawval]:
    no decimal point, no sign, and none of the multiplier tests
    fires. *)
Lemma nano_digits (rawval0 : double) :
  lcd_to_double rawval0 (cast_packet nanofarad_frame) READ_ALL
  = dmul (dadd (dmul (dadd (dmul (dadd (dmul (dadd (dmul rawval0 (dZ 10))
                                                   (dZ 1))
                                             (dZ 10))
                                       (dZ 2))
                                 (dZ 10))
                           (dZ 3))
                     (dZ 10))
               (dZ 4))
         (dZ 1).
Proof. reflexivity. Qed.

(** On the kiloohm frame the first multiplier test fires: IND1_OHM and
    IND2_NANO are both 0x40. *)
Lemma kiloohm_digits (rawval0 : double) :
  lcd_to_double rawval0 (cast_packet kiloohm_frame) READ_ALL
  = dmul (dmul (dadd (dmul (dadd (dmul (dadd (dmul (dadd (dmul rawval0
                                                               (dZ 10))
                                                         (dZ 1))
                                                   (dZ 10))
                                             (dZ 2))
                                       (dZ 10))
                                 (dZ 3))
                           (dZ 10))
                     (dZ 4))
               (dZ 1))
         (Some (1 # 1000000000)%Q).
Proof. reflexivity. Qed.

(** C5. The valid nanofarad frame 09 08 40 72 F1 B5 50 00 F2 has
    IND2_NANO lit and no other multiplier; its digits spell 1234. For
    every value the uninitialised [rawval] may hold on entry,
    [sr_rs9lcd_parse] returns for it what it returns for the same
    reading with the nano indicator off: the nano test reads
    indicatrix1, so the factor 1e-9 is not applied. With [rawval]
    starting from an integer z in 0..1677 (where every step is exact in
    a double and the result in a float) the value is 10000 z + 1234,
    not 1234e-9; starting from NaN it is NaN. On the valid kiloohm
    frame, whose IND1_OHM bit has the value of IND2_NANO, the value is
    below 1, where a reading of 1234 kOhm is 1234e3. *)
Theorem sr_rs9lcd_parse_nano_not_applied :
  nanofarad_frame = [0x09; 0x08; 0x40; 0x72; 0xf1; 0xb5; 0x50; 0x00; 0xf2]
  /\ sr_rs9lcd_packet_valid nanofarad_frame = true
  /\ multiplier_bits nanofarad_frame = [false; false; false; false; true]
  /\ deq (assembled (cast_packet nanofarad_frame)) (dZ 1234)
  /\ (forall rawval0 rawval1 analog,
        fst (fst (sr_rs9lcd_parse rawval0 rawval1 nanofarad_frame analog))
        = SR_OK
        /\ snd (fst (sr_rs9lcd_parse rawval0 rawval1 nanofarad_frame analog))
           = snd (fst (sr_rs9lcd_parse rawval0 rawval1 farad_frame analog)))
  /\ (forall z rawval1 analog,
        0 <= z <= 1677 ->
        deq (snd (fst (sr_rs9lcd_parse (dZ z) rawval1 nanofarad_frame
                         analog)))
            (dZ (10000 * z + 1234))
        /\ ~ deq (snd (fst (sr_rs9lcd_parse (dZ z) rawval1 nanofarad_frame
                              analog)))
                 (dmul (dZ 1234) (Some (1 # 1000000000)%Q)))
  /\ (forall rawval1 analog,
        isnan (snd (fst (sr_rs9lcd_parse NAN rawval1 nanofarad_frame
                           analog)))
        = true)
  /\ sr_rs9lcd_packet_valid kiloohm_frame = true
  /\ multiplier_bits kiloohm_frame = [true; false; false; false; false]
  /\ (forall z rawval1 analog,
        0 <= z <= 1677 ->
        exists q,
          snd (fst (sr_rs9lcd_parse (dZ z) rawval1 kiloohm_frame analog))
          = Some q
          /\ (0 < q)%Q /\ (q < 1)%Q
          /\ ~ (q == inject_Z 1234 * inject_Z 1000)%Q).
Proof.
  split; [reflexivity|]. split; [reflexivity|]. split; [reflexivity|].
  split; [vm_compute; reflexivity|].
  split.
  { intros rawval0 rawval1 analog. split; reflexivity. }
  split.
  { intros z rawval1 analog Hz.
    assert (E : deq (snd (fst (sr_rs9lcd_parse (dZ z) rawval1
                                 nanofarad_frame analog)))
                    (dZ (10000 * z + 1234))).
    { unfold sr_rs9lcd_parse. cbn [fst snd].
      rewrite nano_digits. unfold deq, dadd, dmul, dZ.
      unfold Qeq, Qplus, Qmult, inject_Z. cbn [Qnum Qden]. lia. }
    split; [exact E|].
    unfold sr_rs9lcd_parse in *. cbn [fst snd] in *.
    destruct (lcd_to_double (dZ z) (cast_packet nanofarad_frame) READ_ALL)
      as [q|]; [|exact (fun f => f)].
    unfold deq, dmul, dZ in *. intros E2. rewrite E in E2.
    unfold Qeq, Qmult, inject_Z in E2. cbn [Qnum Qden] in E2. lia. }
  split.
  { intros rawval1 analog. reflexivity. }
  split; [reflexivity|]. split; [reflexivity|].
  intros z rawval1 analog Hz.
  unfold sr_rs9lcd_parse. cbn [fst snd].
  rewrite kiloohm_digits. unfold dadd, dmul, dZ.
  eexists. split; [reflexivity|].
  unfold Qlt, Qeq, Qplus, Qmult, inject_Z. cbn [Qnum Qden].
  repeat split; lia.
Qed.

Lemma sr_rs9lcd_parse_nano_not_applied_witness :
  deq (snd (fst (sr_rs9lcd_parse (dZ 0) (dZ 0) nanofarad_frame analog0)))
      (dZ 1234)
  /\ deq (snd (fst (sr_rs9lcd_parse (dZ 1234) (dZ 0) nanofarad_frame
                      analog0)))
         (dZ 12341234).
Proof.
  destruct sr_rs9lcd_parse_nano_not_applied
    as (_ & _ & _ & _ & _ & Hv & _).
  split.
  - apply (Hv 0 (dZ 0) analog0). lia.
  - apply (Hv 1234 (dZ 0) analog0). lia.
Defined.

(** C6. For the three pulse-width modes [sr_rs9lcd_parse] ends in the
    [MODE_TEMP] block: whatever the other bytes are, the packet leaves
    with mq = temperature, a temperature unit and the re-decoded
    digits as data, not with pulse width in seconds. *)
Theorem sr_rs9lcd_parse_width_is_temperature
  (rawval0 rawval1 : double) (i1 i2 d4 d3 d2 d1 inf c : Z)
  (analog : sr_datafeed_analog) (m : Z) :
  In m [MODE_WIDTH; MODE_VOLT_WIDTH; MODE_AMP_WIDTH] ->
  let buf := [m; i1; i2; d4; d3; d2; d1; inf; c] in
  let out := snd (sr_rs9lcd_parse rawval0 rawval1 buf analog) in
  mq out = SR_MQ_TEMPERATURE
  /\ mq out <> SR_MQ_PULSE_WIDTH
  /\ unit out = (if is_celsius (cast_packet buf)
                 then SR_UNIT_CELSIUS else SR_UNIT_FAHRENHEIT)
  /\ unit out <> SR_UNIT_SECOND
  /\ data out = lcd_to_double rawval1 (cast_packet buf) READ_TEMP.
Proof.
  intros Hm buf out.
  assert (Hsw : mode_switch rawval1
                  (lcd_to_double rawval0 (cast_packet buf) READ_ALL)
                  (cast_packet buf) analog
                = case_MODE_TEMP rawval1 (cast_packet buf)
                    (set_mq_unit SR_MQ_PULSE_WIDTH SR_UNIT_SECOND analog)).
  { unfold buf. cbn [In] in Hm.
    destruct Hm as [<- | [<- | [<- | []]]]; reflexivity. }
  unfold out, sr_rs9lcd_parse. cbn [snd]. fold buf. rewrite Hsw.
  unfold case_MODE_TEMP.
  repeat match goal with
         | |- context [if negb ?b then _ else _] => destruct (negb b)
         end;
    cbn [mq unit data or_mqflags set_unit set_data set_mq];
    (repeat split; try reflexivity; try discriminate;
     destruct (is_celsius (cast_packet buf)); discriminate).
Qed.

Lemma sr_rs9lcd_parse_width_is_temperature_witness :
  sr_rs9lcd_packet_valid width_frame = true
  /\ mq (snd (sr_rs9lcd_parse (dZ 0) (dZ 0) width_frame analog0))
     = SR_MQ_TEMPERATURE
  /\ unit (snd (sr_rs9lcd_parse (dZ 0) (dZ 0) width_frame analog0))
     = SR_UNIT_FAHRENHEIT.
Proof.
  split; [reflexivity|]. split.
  - apply (sr_rs9lcd_parse_width_is_temperature (dZ 0) (dZ 0)
             IND1_MILI IND2_SEC LCD_4 LCD_3 LCD_2 LCD_1 0
             ((MODE_WIDTH + IND1_MILI + IND2_SEC + LCD_4 + LCD_3 + LCD_2
               + LCD_1 + 0 + 57) mod 256) analog0 MODE_WIDTH).
    left. reflexivity.
  - reflexivity.
Defined.

End Rs9lcdParse.

(** ** OLS: configuration *)

Module OlsConfig.
Import Sigrok Ols.

(** C10. On a device instance whose status is not SR_ST_ACTIVE,
    [hw_dev_config_set] returns SR_ERR for every capability and value
    and leaves the instance, hence the whole device context,
    unchanged. *)
Theorem hw_dev_config_set_inactive {H : ols_h}
  (sdi : sr_dev_inst) (hwcap value : Z) :
  status sdi <> SR_ST_ACTIVE ->
  hw_dev_config_set sdi hwcap value = Some (SR_ERR, sdi).
Proof.
  intros Hst. unfold hw_dev_config_set.
  destruct (Z.eqb_spec (status sdi) SR_ST_ACTIVE) as [E|_]; [contradiction|].
  reflexivity.
Qed.

Lemma hw_dev_config_set_inactive_witness :
  status sump_sdi <> SR_ST_ACTIVE
  /\ @hw_dev_config_set ols_h_1_0 sump_sdi SR_HWCAP_LIMIT_SAMPLES 1000
     = Some (SR_ERR, sump_sdi).
Proof.
  assert (Hst : status sump_sdi <> SR_ST_ACTIVE) by discriminate.
  split; [exact Hst|].
  exact (@hw_dev_config_set_inactive ols_h_1_0 sump_sdi
           SR_HWCAP_LIMIT_SAMPLES 1000 Hst).
Defined.

(** What [hw_dev_config_set] does with SR_HWCAP_CAPTURE_RATIO on an
    active device: the range test sees the value after its conversion
    to [int]. *)
Lemma hw_dev_config_set_capture_ratio {H : ols_h}
  (sdi : sr_dev_inst) (value : Z) :
  status sdi = SR_ST_ACTIVE ->
  hw_dev_config_set sdi SR_HWCAP_CAPTURE_RATIO value
  = if (s32 value <? 0) || (100 <? s32 value)
    then Some (SR_ERR, set_priv (set_capture_ratio 0 (priv sdi)) sdi)
    else Some (SR_OK, set_priv (set_capture_ratio (s32 value) (priv sdi)) sdi).
Proof.
  intros Hst. unfold hw_dev_config_set. rewrite Hst.
  cbn [negb Z.eqb SR_ST_ACTIVE SR_HWCAP_CAPTURE_RATIO SR_HWCAP_SAMPLERATE
       SR_HWCAP_LIMIT_SAMPLES].
  change (if Pos.eqb 10003 10003 then false else true) with false.
  destruct (priv sdi); cbn [capture_ratio set_capture_ratio].
  destruct ((s32 value <? 0) || (100 <? s32 value)); reflexivity.
Qed.

(** C8. On an active device, capture ratios in [0, 100] are stored
    with SR_OK, and values above 100 that fit an [int] give SR_ERR
    with the ratio reset to 0; but the value 2^32 + 50, which is
    outside [0, 100], is accepted with SR_OK and stored as 50, because
    it is narrowed to [int] before the range test. *)
Theorem hw_dev_config_set_capture_ratio_narrowed {H : ols_h}
  (sdi : sr_dev_inst) :
  status sdi = SR_ST_ACTIVE ->
  (forall v, 0 <= v <= 100 ->
     hw_dev_config_set sdi SR_HWCAP_CAPTURE_RATIO v
     = Some (SR_OK, set_priv (set_capture_ratio v (priv sdi)) sdi))
  /\ (forall v, 100 < v < 2 ^ 31 ->
        hw_dev_config_set sdi SR_HWCAP_CAPTURE_RATIO v
        = Some (SR_ERR, set_priv (set_capture_ratio 0 (priv sdi)) sdi))
  /\ hw_dev_config_set sdi SR_HWCAP_CAPTURE_RATIO (2 ^ 32 + 50)
     = Some (SR_OK, set_priv (set_capture_ratio 50 (priv sdi)) sdi).
Proof.
  intros Hst. repeat split.
  - intros v Hv. rewrite hw_dev_config_set_capture_ratio by exact Hst.
    rewrite s32_small by lia.
    destruct (Z.ltb_spec v 0); [lia|]. destruct (Z.ltb_spec 100 v); [lia|].
    reflexivity.
  - intros v Hv. rewrite hw_dev_config_set_capture_ratio by exact Hst.
    rewrite s32_small by lia.
    destruct (Z.ltb_spec 100 v); [|lia]. rewrite orb_true_r. reflexivity.
  - rewrite hw_dev_config_set_capture_ratio by exact Hst. reflexivity.
Qed.

Lemma hw_dev_config_set_capture_ratio_narrowed_witness :
  status sump_sdi_open = SR_ST_ACTIVE
  /\ @hw_dev_config_set ols_h_1_0 sump_sdi_open SR_HWCAP_CAPTURE_RATIO
       (2 ^ 32 + 50)
     = Some (SR_OK,
             set_priv (set_capture_ratio 50 (priv sump_sdi_open))
                      sump_sdi_open).
Proof.
  split; [reflexivity|].
  exact (proj2 (proj2 (@hw_dev_config_set_capture_ratio_narrowed ols_h_1_0
                         sump_sdi_open eq_refl))).
Defined.

End OlsConfig.

Module OlsSamplerate.
Import Sigrok Ols.

Lemma land_u32_lnot_self (f d : Z) : Z.land (Z.land f (u32 (Z.lnot d))) d = 0.
Proof.
  unfold u32. rewrite <- Z.land_ones by lia.
  apply Z.bits_inj'. intros n Hn.
  rewrite !Z.land_spec, Z.lnot_spec, Z.bits_0 by lia.
  destruct (Z.testbit d n); cbn; now rewrite ?andb_false_r.
Qed.

(** C2. For every samplerate [r] that [set_samplerate] accepts, with
    [0 < r <= CLOCK_RATE], the call returns SR_OK, the stored divider
    is CLOCK_RATE / r - 1 (integer division), the stored samplerate is
    CLOCK_RATE / (CLOCK_RATE / r), and [hw_info_get] for
    SR_DI_CUR_SAMPLERATE then returns SR_OK with exactly that rate. *)
Theorem set_samplerate_effective {H : ols_h} (sdi : sr_dev_inst) (r : Z) :
  0 < CLOCK_RATE < 2 ^ 31 ->
  samplerate_accepted (priv sdi) r = true ->
  0 < r <= CLOCK_RATE ->
  exists sdi',
    set_samplerate sdi r = Some (SR_OK, sdi')
    /\ cur_samplerate_divider (priv sdi') = CLOCK_RATE / r - 1
    /\ cur_samplerate (priv sdi') = CLOCK_RATE / (CLOCK_RATE / r)
    /\ hw_info_get SR_DI_CUR_SAMPLERATE (Some sdi')
       = (SR_OK, Some (DATA_CUR_SAMPLERATE (CLOCK_RATE / (CLOCK_RATE / r)))).
Proof.
  intros HC Hacc Hr.
  assert (Hq : 1 <= CLOCK_RATE / r <= CLOCK_RATE).
  { split.
    - apply Z.div_le_lower_bound; lia.
    - apply Z.div_le_upper_bound; nia. }
  assert (Hrej1 : negb (max_samplerate (priv sdi) =? 0)
                  && (max_samplerate (priv sdi) <? r) = false).
  { unfold samplerate_accepted in Hacc.
    destruct (negb (max_samplerate (priv sdi) =? 0)); [|reflexivity].
    cbn. now apply negb_true_iff in Hacc. }
  assert (Hrej2 : (max_samplerate (priv sdi) =? 0)
                  && ((r <? samplerates_low) || (samplerates_high <? r))
                  = false).
  { unfold samplerate_accepted in Hacc.
    destruct (max_samplerate (priv sdi) =? 0); [|reflexivity].
    cbn in *. now apply negb_true_iff in Hacc. }
  unfold set_samplerate. rewrite Hrej1, Hrej2.
  destruct (Z.eqb_spec r 0) as [?|_]; [lia|].
  rewrite (u64_small CLOCK_RATE) by lia.
  destruct (Z.ltb_spec CLOCK_RATE r) as [?|_]; [lia|].
  rewrite (u64_small (CLOCK_RATE / r - 1)) by lia.
  rewrite (u32_small (CLOCK_RATE / r - 1)) by lia.
  destruct sdi as [st pr d]. destruct d.
  cbn [priv set_flag_reg set_cur_samplerate_divider cur_samplerate_divider
       flag_reg set_cur_samplerate set_priv cur_samplerate].
  replace (CLOCK_RATE / r - 1 + 1) with (CLOCK_RATE / r) by lia.
  rewrite (u32_small (CLOCK_RATE / r)) by lia.
  destruct (Z.eqb_spec (CLOCK_RATE / r) 0) as [?|_]; [lia|].
  rewrite land_u32_lnot_self. cbn [Z.eqb negb].
  rewrite (u32_small CLOCK_RATE) by lia.
  eexists. split; [reflexivity|].
  cbn [priv cur_samplerate_divider cur_samplerate].
  repeat split; reflexivity.
Qed.

Lemma set_samplerate_effective_witness :
  exists sdi',
    @set_samplerate ols_h_1_0 sump_sdi_open 30000000 = Some (SR_OK, sdi')
    /\ cur_samplerate_divider (priv sdi') = 2
    /\ cur_samplerate (priv sdi') = 33333333
    /\ hw_info_get SR_DI_CUR_SAMPLERATE (Some sdi')
       = (SR_OK, Some (DATA_CUR_SAMPLERATE 33333333)).
Proof.
  apply (@set_samplerate_effective ols_h_1_0 sump_sdi_open 30000000).
  - vm_compute. split; reflexivity.
  - reflexivity.
  - vm_compute. split; [reflexivity | discriminate].
Defined.

End OlsSamplerate.

(** ** OLS: the receive routine *)

Module OlsReceive.
Import Sigrok Ols.

Lemma u32_add_s32 (a b : Z) : u32 (a + s32 b) = u32 (a + b).
Proof.
  unfold u32, s32.
  replace (a + ((b + 2 ^ 31) mod 2 ^ 32 - 2 ^ 31))
    with ((b + 2 ^ 31) mod 2 ^ 32 + (a - 2 ^ 31)) by lia.
  rewrite Z.add_mod_idemp_l by lia. f_equal. lia.
Qed.

Lemma memcpy_inside (dst src : list Z) (off : nat) :
  (off + length src <= length dst)%nat ->
  memcpy dst (Z.of_nat off) src
  = Some (firstn off dst ++ src ++ skipn (off + length src) dst).
Proof.
  intros Hin. unfold memcpy.
  destruct (Z.leb_spec 0 (Z.of_nat off)); [|lia].
  destruct (Z.leb_spec (Z.of_nat off + Z.of_nat (length src))
                       (Z.of_nat (length dst))); [|lia].
  cbn [andb]. rewrite Nat2Z.id. reflexivity.
Qed.

Lemma memcpy_length (dst src out : list Z) (off : Z) :
  memcpy dst off src = Some out -> length out = length dst.
Proof.
  unfold memcpy.
  destruct (Z.leb_spec 0 off); [|discriminate].
  destruct (Z.leb_spec (off + Z.of_nat (length src)) (Z.of_nat (length dst)));
    [|discriminate].
  cbn [andb]. intros [= <-].
  rewrite !length_app, length_firstn, length_skipn. lia.
Qed.

(** [n] copies of a four-byte sample written from sample slot [k] on:
    the buffer keeps its first [4k] bytes and everything from byte
    [4(k + n)] on, with the copies in between. *)
Lemma store_samples_spec (smp : list Z) (n : nat) :
  length smp = 4%nat ->
  forall (buf : list Z) (k i : nat),
    (4 * (k + i + n) <= length buf)%nat ->
    Z.of_nat (length buf) <= INT_MAX ->
    store_samples (Some buf) (Z.of_nat (4 * k)) smp (Z.of_nat i) n
    = Some (Some (firstn (4 * (k + i)) buf ++ concat (repeat smp n)
                  ++ skipn (4 * (k + i + n)) buf)).
Proof.
  intros Hs. induction n as [|n IH]; intros buf k i Hlen Hmax.
  - cbn [store_samples repeat concat app]. rewrite Nat.add_0_r.
    now rewrite firstn_skipn.
  - cbn [store_samples].
    unfold INT_MAX in Hmax.
    rewrite s32_small by lia.
    replace (Z.of_nat (4 * k) + Z.of_nat i * 4) with (Z.of_nat (4 * (k + i)))
      by lia.
    rewrite memcpy_inside by lia. rewrite Hs.
    replace (Z.of_nat i + 1) with (Z.of_nat (S i)) by lia.
    rewrite IH.
    + f_equal. f_equal.
      set (pre := firstn (4 * (k + i)) buf).
      assert (Hpre : length pre = (4 * (k + i))%nat)
        by (unfold pre; rewrite length_firstn; lia).
      replace (4 * (k + S i))%nat with (length pre + 4)%nat by lia.
      rewrite firstn_app, firstn_all2 by lia.
      replace (length pre + 4 - length pre)%nat with 4%nat by lia.
      rewrite firstn_app, firstn_all2 by lia.
      replace (4 - length smp)%nat with 0%nat by lia.
      cbn [firstn]. rewrite app_nil_r.
      cbn [repeat concat]. rewrite <- !app_assoc. f_equal. f_equal. f_equal.
      replace (4 * (k + S i + n))%nat with (length pre + (4 + 4 * n))%nat by lia.
      rewrite skipn_app, skipn_all2 by lia.
      replace (length pre + (4 + 4 * n) - length pre)%nat
        with (length smp + 4 * n)%nat by lia.
      rewrite skipn_app, skipn_all2 by lia.
      replace (length smp + 4 * n - length smp)%nat with (4 * n)%nat by lia.
      cbn [app]. rewrite skipn_skipn. f_equal. lia.
    + rewrite !length_app, length_firstn, length_skipn. lia.
    + unfold INT_MAX.
      rewrite !length_app, length_firstn, length_skipn. lia.
Qed.

(** The channel-group tests of [receive_data] read bits 2..5 of the
    flag register. *)
Lemma group_test_loop (f i : Z) :
  0 <= i ->
  (Z.land (Z.shiftr f 2) (Z.shiftl 1 i) =? 0) = negb (Z.testbit f (i + 2)).
Proof.
  intros Hi. rewrite Z.shiftl_1_l, land_pow2_eqb by lia.
  rewrite Z.shiftr_spec by lia. reflexivity.
Qed.

Lemma count_channels_bits (f : Z) :
  count_channels f
  = (if Z.testbit f 5 then 0 else 1) + (if Z.testbit f 4 then 0 else 1)
    + (if Z.testbit f 3 then 0 else 1) + (if Z.testbit f 2 then 0 else 1).
Proof.
  unfold count_channels. cbn [fold_left].
  change (Z.land f 32) with (Z.land f (2 ^ 5)).
  change (Z.land f 16) with (Z.land f (2 ^ 4)).
  change (Z.land f 8) with (Z.land f (2 ^ 3)).
  change (Z.land f 4) with (Z.land f (2 ^ 2)).
  rewrite !land_pow2_eqb by lia.
  destruct (Z.testbit f 5), (Z.testbit f 4), (Z.testbit f 3),
    (Z.testbit f 2); reflexivity.
Qed.

Lemma count_channels_range (f : Z) : 0 <= count_channels f <= 4.
Proof.
  rewrite count_channels_bits.
  destruct (Z.testbit f 5), (Z.testbit f 4), (Z.testbit f 3),
    (Z.testbit f 2); lia.
Qed.

Lemma expand_sample_bits (f s0 s1 s2 s3 : Z) :
  expand_sample f [s0; s1; s2; s3] [0; 0; 0; 0] 0 0 4
  = Some
      (match Z.testbit f 2, Z.testbit f 3, Z.testbit f 4, Z.testbit f 5 with
       | false, false, false, false => [s0; s1; s2; s3]
       | false, false, false, true => [s0; s1; s2; 0]
       | false, false, true, false => [s0; s1; 0; s2]
       | false, false, true, true => [s0; s1; 0; 0]
       | false, true, false, false => [s0; 0; s1; s2]
       | false, true, false, true => [s0; 0; s1; 0]
       | false, true, true, false => [s0; 0; 0; s1]
       | false, true, true, true => [s0; 0; 0; 0]
       | true, false, false, false => [0; s0; s1; s2]
       | true, false, false, true => [0; s0; s1; 0]
       | true, false, true, false => [0; s0; 0; s1]
       | true, false, true, true => [0; s0; 0; 0]
       | true, true, false, false => [0; 0; s0; s1]
       | true, true, false, true => [0; 0; s0; 0]
       | true, true, true, false => [0; 0; 0; s0]
       | true, true, true, true => [0; 0; 0; 0]
       end).
Proof.
  cbn [expand_sample].
  rewrite !group_test_loop by lia.
  change (0 + 2) with 2. change (0 + 1 + 2) with 3.
  change (0 + 1 + 1 + 2) with 4. change (0 + 1 + 1 + 1 + 2) with 5.
  destruct (Z.testbit f 2), (Z.testbit f 3), (Z.testbit f 4),
    (Z.testbit f 5); reflexivity.
Qed.

Lemma expand_sample_total (f : Z) (smp : list Z) :
  length smp = 4%nat -> Forall is_byte smp ->
  exists tmp,
    expand_sample f smp [0; 0; 0; 0] 0 0 4 = Some tmp
    /\ length tmp = 4%nat /\ Forall is_byte tmp.
Proof.
  intros Hlen Hb.
  do 4 (destruct smp as [|? smp]; [discriminate Hlen|]).
  destruct smp; [|discriminate Hlen].
  rewrite expand_sample_bits. eexists. split; [reflexivity|].
  assert (H0 : is_byte 0) by (unfold is_byte; lia).
  repeat match goal with
         | Hf : Forall _ (_ :: _) |- _ => inversion Hf; subst; clear Hf
         end.
  destruct (Z.testbit f 2), (Z.testbit f 3), (Z.testbit f 4),
    (Z.testbit f 5); split; try reflexivity;
    repeat (constructor; try assumption).
Qed.

(** Reduce the field updates and projections of a device context. *)
Ltac devc_simpl :=
  cbn [set_cur_samplerate set_cur_samplerate_divider set_limit_samples
       set_flag_reg set_capture_ratio set_trigger_at set_probe_mask
       set_trigger_mask set_trigger_value set_num_stages set_num_transfers
       set_num_samples set_rle_count set_num_bytes set_sample
       set_tmp_sample set_raw_sample_buf
       max_samplerate max_samples protocol_version cur_samplerate
       cur_samplerate_divider limit_samples flag_reg capture_ratio
       trigger_at probe_mask trigger_mask trigger_value num_stages
       num_transfers num_samples rle_count num_bytes sample tmp_sample
       raw_sample_buf].

Ltac devc_simpl_in H :=
  cbn [set_cur_samplerate set_cur_samplerate_divider set_limit_samples
       set_flag_reg set_capture_ratio set_trigger_at set_probe_mask
       set_trigger_mask set_trigger_value set_num_stages set_num_transfers
       set_num_samples set_rle_count set_num_bytes set_sample
       set_tmp_sample set_raw_sample_buf
       max_samplerate max_samples protocol_version cur_samplerate
       cur_samplerate_divider limit_samples flag_reg capture_ratio
       trigger_at probe_mask trigger_mask trigger_value num_stages
       num_transfers num_samples rle_count num_bytes sample tmp_sample
       raw_sample_buf] in H.

Lemma store_full_sample_spec (nc : Z) (d : dev_context) (buf : list Z) :
  0 <= num_samples d < limit_samples d ->
  4 * limit_samples d <= INT_MAX ->
  0 <= rle_count d <= INT_MAX ->
  length (sample d) = 4%nat ->
  Forall is_byte (sample d) ->
  raw_sample_buf d = Some buf ->
  Z.of_nat (length buf) = limit_samples d * 4 ->
  exists d',
    store_full_sample nc d = Some d'
    /\ num_samples d'
       = Z.min (num_samples d + rle_count d + 1) (limit_samples d)
    /\ raw_sample_buf d'
       = Some (firstn (Z.to_nat (4 * (limit_samples d - num_samples d')))
                      buf
               ++ concat (repeat (full_sample nc (flag_reg d) (sample d))
                                 (Z.to_nat (num_samples d' - num_samples d)))
               ++ skipn (Z.to_nat (4 * (limit_samples d - num_samples d)))
                        buf)
    /\ sample d' = [0; 0; 0; 0] /\ num_bytes d' = 0 /\ rle_count d' = 0
    /\ limit_samples d' = limit_samples d /\ flag_reg d' = flag_reg d
    /\ num_transfers d' = num_transfers d /\ trigger_at d' = trigger_at d
    /\ cur_samplerate d' = cur_samplerate d.
Proof.
  intros HN HL HR Hlen Hbytes Hbuf Hblen.
  destruct d as [msr ms pv cs csd L f cr ta pm tm tv ns nt N R nb smp tmp rb].
  cbn [num_samples limit_samples rle_count sample raw_sample_buf flag_reg
       num_transfers trigger_at cur_samplerate] in *.
  subst rb. unfold INT_MAX in *.
  assert (Hfs : length (full_sample nc f smp) = 4%nat).
  { unfold full_sample. destruct (nc <? 4); [|exact Hlen].
    destruct (expand_sample_total f smp Hlen Hbytes) as (t & -> & Ht & _).
    exact Ht. }
  unfold store_full_sample. devc_simpl.
  rewrite u32_add_s32. replace (N + (R + 1)) with (N + R + 1) by lia.
  rewrite (u32_small (N + R + 1)) by lia.
  destruct (Z.ltb_spec L (N + R + 1)) as [Hc|Hc]; devc_simpl.
  - (* clamped *)
    rewrite (u64_small (N + R + 1 - L)) by lia.
    replace (R - (N + R + 1 - L)) with (L - N - 1) by lia.
    rewrite (u64_small (L - N - 1)), (s32_small (L - N - 1)), (u32_small L)
      by lia.
    rewrite Z.min_r by lia.
    unfold full_sample in *.
    destruct (nc <? 4);
      [ destruct (expand_sample_total f smp Hlen Hbytes) as (t & Ht & _);
        rewrite Ht in * | ];
      devc_simpl;
      rewrite (u64_small ((L - L) * 4)) by lia;
      rewrite s32_small by lia;
      replace (L - N - 1 + 1) with (L - N) by lia;
      replace ((L - L) * 4) with (Z.of_nat (4 * 0)) by lia;
      change 0 with (Z.of_nat 0) at 1;
      (rewrite store_samples_spec; [|exact Hfs| lia | unfold INT_MAX; lia]);
      (eexists; split; [reflexivity|]);
      devc_simpl;
      repeat split; try reflexivity;
      repeat first [reflexivity | lia | f_equal].
  - rewrite Z.min_l by lia.
    unfold full_sample in *.
    destruct (nc <? 4);
      [ destruct (expand_sample_total f smp Hlen Hbytes) as (t & Ht & _);
        rewrite Ht in * | ];
      devc_simpl;
      rewrite (u64_small ((L - (N + R + 1)) * 4)) by lia;
      rewrite s32_small by lia;
      replace ((L - (N + R + 1)) * 4)
        with (Z.of_nat (4 * Z.to_nat (L - (N + R + 1)))) by lia;
      change 0 with (Z.of_nat 0) at 1;
      (rewrite store_samples_spec; [|exact Hfs| lia | unfold INT_MAX; lia]);
      (eexists; split; [reflexivity|]);
      devc_simpl;
      repeat split; try reflexivity;
      repeat first [reflexivity | lia | f_equal].
Qed.

Lemma rx_ok_inv (d : dev_context) : rx_ok d = true -> rx_inv d.
Proof.
  unfold rx_ok. intros Hok.
  repeat match type of Hok with
         | _ && _ = true => apply andb_prop in Hok; destruct Hok as [Hok ?]
         end.
  repeat match goal with
         | Hb : (_ <=? _) = true |- _ => apply Z.leb_le in Hb
         | Hb : (_ <? _) = true |- _ => apply Z.ltb_lt in Hb
         end.
  destruct (sample d) as [|s0 [|s1 [|s2 [|s3 [|? ?]]]]] eqn:Es;
    try discriminate.
  cbn [forallb] in *.
  repeat match goal with
         | Hb : _ && _ = true |- _ => apply andb_prop in Hb; destruct Hb
         | Hb : (_ <=? _) = true |- _ => apply Z.leb_le in Hb
         | Hb : (_ <? _) = true |- _ => apply Z.ltb_lt in Hb
         end.
  pose proof (count_channels_range (flag_reg d)) as Hnc.
  constructor; unfold INT_MAX in *; try lia.
  - exists s0, s1, s2, s3. unfold is_byte.
    split; [exact Es|].
    assert (Hc : count_channels (flag_reg d) = 1
                 \/ count_channels (flag_reg d) = 2
                 \/ count_channels (flag_reg d) = 3
                 \/ count_channels (flag_reg d) = 4) by lia.
    destruct Hc as [Hc | [Hc | [Hc | Hc]]]; rewrite Hc in *;
      change (Z.to_nat 1) with 1%nat in *;
      change (Z.to_nat 2) with 2%nat in *;
      change (Z.to_nat 3) with 3%nat in *;
      change (Z.to_nat 4) with 4%nat in *;
      cbn [skipn forallb] in *;
      repeat match goal with
             | Hb : _ && _ = true |- _ => apply andb_prop in Hb; destruct Hb
             | Hb : (_ =? _) = true |- _ => apply Z.eqb_eq in Hb
             end;
      repeat split; lia.
  - intros Hnt.
    match goal with
    | Hb : _ || _ = true |- _ => apply orb_prop in Hb; destruct Hb as [Hz|Hz]
    end.
    + apply Z.eqb_eq in Hz. contradiction.
    + destruct (raw_sample_buf d) as [buf|]; [|discriminate].
      exists buf. split; [reflexivity|]. now apply Z.eqb_eq.
Qed.

Lemma store_4 (s0 s1 s2 s3 v : Z) :
  store [s0; s1; s2; s3] 0 v = Some [v; s1; s2; s3]
  /\ store [s0; s1; s2; s3] 1 v = Some [s0; v; s2; s3]
  /\ store [s0; s1; s2; s3] 2 v = Some [s0; s1; v; s3]
  /\ store [s0; s1; s2; s3] 3 v = Some [s0; s1; s2; v].
Proof. repeat split. Qed.

Lemma land_127_range (b : Z) : 0 <= Z.land b 0x7f <= 127.
Proof.
  change (Z.land b 0x7f) with (Z.land b (Z.ones 7)).
  rewrite Z.land_ones by lia.
  pose proof (Z.mod_pos_bound b (2 ^ 7)). lia.
Qed.

Lemma length_concat_repeat (fs : list Z) (n : nat) :
  length fs = 4%nat -> length (concat (repeat fs n)) = (4 * n)%nat.
Proof.
  intros Hfs. induction n as [|n IH]; [reflexivity|].
  cbn [repeat concat]. rewrite length_app, IH, Hfs. lia.
Qed.

Lemma store_full_sample_inv (d : dev_context) :
  0 <= num_samples d < limit_samples d ->
  4 * limit_samples d <= INT_MAX ->
  0 <= rle_count d <= INT_MAX ->
  1 <= count_channels (flag_reg d) ->
  0 <= num_transfers d < 2 ^ 32 ->
  length (sample d) = 4%nat ->
  Forall is_byte (sample d) ->
  buffer_ready d ->
  exists d',
    store_full_sample (count_channels (flag_reg d)) d = Some d'
    /\ rx_inv d' /\ buffer_ready d'
    /\ limit_samples d' = limit_samples d /\ flag_reg d' = flag_reg d
    /\ num_transfers d' = num_transfers d
    /\ num_samples d'
       = Z.min (num_samples d + rle_count d + 1) (limit_samples d).
Proof.
  intros HN HL HR Hnc Hnt Hlen Hbytes (buf & Ebuf & Elen).
  destruct (store_full_sample_spec (count_channels (flag_reg d)) d buf
              HN HL HR Hlen Hbytes Ebuf Elen)
    as (d' & Hst & EN & Eb & Es & Enb & Er & EL & Ef & Ent & _).
  assert (Hfs : length (full_sample (count_channels (flag_reg d))
                          (flag_reg d) (sample d)) = 4%nat).
  { unfold full_sample. destruct (_ <? 4); [|exact Hlen].
    destruct (expand_sample_total (flag_reg d) (sample d) Hlen Hbytes)
      as (t & -> & Ht & _).
    exact Ht. }
  assert (Hready : buffer_ready d').
  { eexists. split; [exact Eb|].
    rewrite !length_app, length_firstn, length_skipn.
    rewrite (length_concat_repeat _ _ Hfs).
    rewrite EL. unfold INT_MAX in *. lia. }
  exists d'. split; [exact Hst|]. split.
  - constructor; rewrite ?EL, ?EN, ?Ef, ?Enb, ?Er, ?Ent, ?Es;
      unfold INT_MAX in *; try lia.
    + exists 0, 0, 0, 0. unfold is_byte. repeat split; lia.
    + intros _. rewrite <- EL. exact Hready.
  - split; [exact Hready|]. repeat split; assumption.
Qed.

Lemma receive_byte_inv {H : ols_h} (d : dev_context) (byte : Z) :
  rx_inv d -> buffer_ready d -> is_byte byte ->
  exists d',
    receive_byte (count_channels (flag_reg d)) byte d = Some d'
    /\ rx_inv d' /\ buffer_ready d'
    /\ limit_samples d' = limit_samples d /\ flag_reg d' = flag_reg d
    /\ num_transfers d' = num_transfers d
    /\ (limit_samples d <= num_samples d -> d' = d)
    /\ (num_samples d < limit_samples d ->
        num_bytes d + 1 = count_channels (flag_reg d) ->
        Z.land (flag_reg d) FLAG_RLE = 0 \/ Z.land byte 0x80 = 0 ->
        num_samples d'
        = Z.min (num_samples d + rle_count d + 1) (limit_samples d)).
Proof.
  intros Hinv Hready Hbyte.
  pose proof Hinv as
    [HL HN Hnb HR (s0 & s1 & s2 & s3 & Es & B0 & B1 & B2 & B3 & T3 & T2 & T1)
       Hnt Hbuf].
  pose proof Hready as (buf & Ebuf & Elen).
  pose proof (count_channels_range (flag_reg d)) as Hnc.
  unfold receive_byte.
  destruct (Z.leb_spec (limit_samples d) (num_samples d)) as [Hfull|Hroom].
  { exists d. split; [reflexivity|]. split; [exact Hinv|].
    split; [exact Hready|]. do 3 (split; [reflexivity|]).
    split; intros; [reflexivity | lia]. }
  clear Hinv Hready.
  destruct d as [msr ms pv cs csd L f cr ta pm tm tv ns nt N R nb smp tmp rb].
  cbn [num_samples limit_samples rle_count sample raw_sample_buf flag_reg
       num_transfers num_bytes] in *.
  subst smp rb.
  unfold is_byte, INT_MAX in *.
  destruct (store_4 s0 s1 s2 s3 byte) as (St0 & St1 & St2 & St3).
  pose proof (land_127_range byte) as H127.
  assert (Hcase : nb = 0 \/ nb = 1 \/ nb = 2 \/ nb = 3) by lia.
  destruct Hcase as [-> | [-> | [-> | ->]]];
    rewrite ?St0, ?St1, ?St2, ?St3; devc_simpl.
  all: rewrite s32_small by lia.
  all: match goal with
       | |- context [?a + 1 =? ?b] =>
           destruct (Z.eqb_spec (a + 1) b) as [Enc|Enc]
       end.
  all: try (
    (* the sample is still incomplete *)
    eexists; split; [reflexivity|];
    split; [constructor; devc_simpl; unfold INT_MAX; try lia;
            [ do 4 eexists; split; [reflexivity|]; unfold is_byte;
              repeat split; try lia; intros; lia
            | intros _; exists buf; split; [reflexivity | assumption] ]|];
    split; [exists buf; split; [reflexivity | assumption]|];
    devc_simpl; repeat split; try reflexivity; intros; lia).
  all: try lia.
  all: match goal with
       | |- context [store ?l (?a + 1 - 1) ?v] =>
           let k := eval vm_compute in (a + 1 - 1) in
           let n := eval vm_compute in (Z.to_nat (a + 1 - 1)) in
           change (Z.to_nat (a + 1 - 1)) with n;
           change (a + 1 - 1) with k
       end; cbn [nth].
  all: match goal with
       | |- context [store [?a; ?b; ?c; ?e] _ ?v] =>
           destruct (store_4 a b c e v) as (Sc0 & Sc1 & Sc2 & Sc3);
           rewrite ?Sc0, ?Sc1, ?Sc2, ?Sc3
       end.
  all: destruct (negb (Z.land f FLAG_RLE =? 0)
                 && negb (Z.land byte 128 =? 0)) eqn:Erle.
  all: try (assert (E3 : s3 = 0) by (apply T3; lia)).
  all: try (assert (E2 : s2 = 0) by (apply T2; lia)).
  all: try (assert (E1 : s1 = 0) by (apply T1; lia)).
  all: try (
    (* an RLE count *)
    apply andb_prop in Erle; destruct Erle as [Erle1 Erle2];
    apply negb_true_iff, Z.eqb_neq in Erle1;
    apply negb_true_iff, Z.eqb_neq in Erle2;
    devc_simpl;
    eexists; split; [reflexivity|];
    split;
    [ constructor; devc_simpl; unfold INT_MAX; try lia;
      [ unfold le32; cbn [nth]; rewrite s32_small; lia
      | do 4 eexists; split; [reflexivity|]; unfold is_byte;
        repeat split; try lia; intros; lia
      | intros _; exists buf; split; [reflexivity | assumption] ]
    | ];
    split; [exists buf; split; [reflexivity | assumption]|];
    devc_simpl; do 3 (split; [reflexivity|]);
    split; [intros; lia | intros _ _ [?|?]; contradiction]).
  all: match goal with
       | |- context [store_full_sample _ ?d1] =>
           destruct (store_full_sample_inv d1)
             as (d' & Hst & Hinv' & Hrdy' & EL & Ef & Ent & EN);
           devc_simpl; unfold INT_MAX;
           [ lia | lia | lia | lia | lia | reflexivity
           | repeat constructor; unfold is_byte; lia
           | exists buf; split; [reflexivity | assumption]
           | ]
       end.
  all: devc_simpl_in Hst; devc_simpl_in EL; devc_simpl_in Ef;
    devc_simpl_in Ent; devc_simpl_in EN.
  all: exists d'; split; [exact Hst|]; split; [exact Hinv'|];
    split; [exact Hrdy'|]; do 3 (split; [assumption|]);
    split; [intros; lia | intros; exact EN].
Qed.

(** The head of [receive_data]: the call counter moves on and, on the
    first call, the source is re-registered and the buffer allocated. *)
Lemma receive_data_head_inv (d : dev_context) :
  rx_inv d ->
  let d1 :=
    if num_transfers d =? 0
    then set_raw_sample_buf
           (g_try_malloc_memset (u64 (limit_samples d * 4)) 0x82)
           (set_num_transfers (u32 (num_transfers d + 1)) d)
    else set_num_transfers (u32 (num_transfers d + 1)) d in
  limit_samples d1 = limit_samples d /\ flag_reg d1 = flag_reg d
  /\ num_samples d1 = num_samples d /\ rle_count d1 = rle_count d
  /\ num_bytes d1 = num_bytes d
  /\ ((num_transfers d = 0 /\ limit_samples d = 0 /\ raw_sample_buf d1 = None)
      \/ (rx_inv d1 /\ buffer_ready d1)).
Proof.
  intros [HL HN Hnb HR Hs Hnt Hbuf].
  destruct d as [msr ms pv cs csd L f cr ta pm tm tv ns nt N R nb smp tmp rb].
  cbn [num_samples limit_samples rle_count sample raw_sample_buf flag_reg
       num_transfers num_bytes] in *.
  unfold INT_MAX in *.
  assert (Hu : 0 <= u32 (nt + 1) < 2 ^ 32)
    by (unfold u32; apply Z.mod_pos_bound; lia).
  destruct (Z.eqb_spec nt 0) as [->|Hne]; devc_simpl.
  - do 5 (split; [reflexivity|]).
    unfold g_try_malloc_memset. rewrite u64_small by lia.
    destruct (Z.eqb_spec (L * 4) 0) as [E0|E0].
    + left. repeat split; lia.
    + right.
      assert (Hready : buffer_ready
                (mk_devc msr ms pv cs csd L f cr ta pm tm tv ns (u32 (0 + 1))
                   N R nb smp tmp (Some (repeat 130 (Z.to_nat (L * 4)))))).
      { unfold buffer_ready. devc_simpl. eexists. split; [reflexivity|].
        rewrite repeat_length. lia. }
      split; [|exact Hready].
      constructor; devc_simpl; unfold INT_MAX; try assumption; try lia.
      intros _. exact Hready.
  - do 5 (split; [reflexivity|]). right.
    destruct (Hbuf Hne) as (buf & -> & Elen).
    assert (Hready : buffer_ready
              (mk_devc msr ms pv cs csd L f cr ta pm tm tv ns (u32 (nt + 1))
                 N R nb smp tmp (Some buf))).
    { unfold buffer_ready. devc_simpl. eexists. split; [reflexivity|].
      exact Elen. }
    split; [|exact Hready].
    constructor; devc_simpl; unfold INT_MAX; try assumption; try lia.
    intros _. exact Hready.
Qed.

Lemma receive_data_byte_inv {H : ols_h} (d : dev_context) (b : bus)
  (byte : Z) :
  rx_inv d -> is_byte byte ->
  exists ok d' b',
    receive_data (G_IO_IN (Some byte)) d b = Some (ok, d', b')
    /\ limit_samples d' = limit_samples d
    /\ (if ok then rx_inv d'
        else num_samples d' = num_samples d /\ limit_samples d = 0)
    /\ (limit_samples d <= num_samples d ->
        num_samples d' = num_samples d
        /\ (num_transfers d <> 0 ->
            ok = true
            /\ d' = set_num_transfers (u32 (num_transfers d + 1)) d
            /\ b' = b))
    /\ (num_samples d < limit_samples d ->
        num_bytes d + 1 = count_channels (flag_reg d) ->
        Z.land (flag_reg d) FLAG_RLE = 0 \/ Z.land byte 0x80 = 0 ->
        ok = true
        /\ num_samples d'
           = Z.min (num_samples d + rle_count d + 1) (limit_samples d)).
Proof.
  intros Hinv Hbyte.
  pose proof (receive_data_head_inv d Hinv) as Hhead.
  unfold receive_data.
  set (d1 := if num_transfers d =? 0 then _ else _) in *.
  cbn zeta in Hhead.
  destruct Hhead as (EL & Ef & EN & ER & Enb & Hcase).
  assert (Ed1 :
    (if num_transfers d =? 0
     then set_raw_sample_buf
            (g_try_malloc_memset
               (u64 (limit_samples
                       (set_num_transfers (u32 (num_transfers d + 1)) d) * 4))
               130)
            (set_num_transfers (u32 (num_transfers d + 1)) d)
     else set_num_transfers (u32 (num_transfers d + 1)) d) = d1).
  { unfold d1. destruct d; reflexivity. }
  rewrite Ed1. clear Ed1.
  destruct Hcase as [(Hnt0 & HL0 & Hnone) | (Hinv1 & Hready1)].
  - rewrite Hnt0. cbn [Z.eqb andb]. rewrite Hnone.
    eexists false, d1, _. split; [reflexivity|].
    split; [exact EL|]. split; [split; [exact EN | exact HL0]|].
    split; [intros _; split; [exact EN | intros Hne; contradiction]|].
    intros Hlt. destruct Hinv as [_ HN' _ _ _ _ _]. lia.
  - assert (Hnf : (num_transfers d =? 0)
                  && match raw_sample_buf d1 with
                     | Some _ => false
                     | None => true
                     end = false).
    { destruct Hready1 as (buf & -> & _). apply andb_false_r. }
    rewrite Hnf.
    destruct (receive_byte_inv d1 byte Hinv1 Hready1 Hbyte)
      as (d' & Hrb & Hinv' & Hrdy' & EL' & Ef' & Ent' & Hfull & Hclamp).
    rewrite Ef in Hrb |- *. rewrite Hrb.
    eexists true, d', _. split; [reflexivity|].
    split; [congruence|]. split; [exact Hinv'|].
    split.
    + intros Hge. rewrite Hfull by lia. split; [exact EN|].
      intros Hne. split; [reflexivity|]. unfold d1.
      destruct (Z.eqb_spec (num_transfers d) 0); [contradiction|].
      split; reflexivity.
    + intros Hlt Hnbc Hrle. split; [reflexivity|].
      rewrite Hclamp; rewrite ?EN, ?ER, ?EL, ?Enb, ?Ef; auto; lia.
Qed.

Lemma run_bytes_inv {H : ols_h} (bytes : list Z) :
  Forall is_byte bytes ->
  forall (d : dev_context) (b : bus),
    rx_inv d ->
    exists d' b',
      run_events (bytes_in bytes) d b = Some (d', b')
      /\ limit_samples d' = limit_samples d
      /\ 0 <= num_samples d' <= limit_samples d'
      /\ (limit_samples d <= num_samples d -> num_samples d' = num_samples d).
Proof.
  induction 1 as [|byte bytes Hbyte _ IH]; intros d b Hinv.
  - exists d, b. split; [reflexivity|]. split; [reflexivity|].
    destruct Hinv. split; [assumption | reflexivity].
  - cbn [bytes_in map run_events].
    destruct (receive_data_byte_inv d b byte Hinv Hbyte)
      as (ok & d1 & b1 & Hrd & EL & Hok & Hfull & _).
    rewrite Hrd. destruct ok.
    + destruct (IH d1 b1 Hok) as (d' & b' & Hrun & EL' & HN' & Hfull').
      fold (bytes_in bytes). rewrite Hrun.
      exists d', b'. split; [reflexivity|]. split; [congruence|].
      split; [exact HN'|].
      intros Hge. destruct (Hfull Hge) as (EN1 & _).
      rewrite Hfull' by lia. exact EN1.
    + destruct Hok as [EN1 HL0].
      exists d1, (sr_source_remove b1). split; [reflexivity|].
      split; [exact EL|]. destruct Hinv as [_ HN' _ _ _ _ _].
      split; [lia|]. intros _. exact EN1.
Qed.

(** While the byte offsets into the buffer fit an [int]
    (4 * limit_samples <= INT_MAX, part of [rx_ok]): from a well-formed
    receive state, every run of received bytes is processed without an access outside [sample], [tmp_sample] or
    the [limit_samples * 4] bytes of [raw_sample_buf] (the run has a
    result), and leaves [num_samples] within [limit_samples]. A byte
    that arrives when [num_samples >= limit_samples] changes nothing
    but the call counter. A byte that completes a sample whose
    [rle_count + 1] copies would pass the limit leaves [num_samples]
    equal to [limit_samples]. *)
Theorem receive_data_within_limit {H : ols_h} (d : dev_context) (b : bus)
  (bytes : list Z) :
  rx_ok d = true ->
  Forall is_byte bytes ->
  (exists d' b',
      run_events (bytes_in bytes) d b = Some (d', b')
      /\ limit_samples d' = limit_samples d
      /\ 0 <= num_samples d' <= limit_samples d
      /\ (limit_samples d <= num_samples d ->
          num_samples d' = num_samples d))
  /\ (forall byte,
        is_byte byte ->
        exists ok d' b',
          receive_data (G_IO_IN (Some byte)) d b = Some (ok, d', b')
          /\ limit_samples d' = limit_samples d
          /\ 0 <= num_samples d' <= limit_samples d
          /\ (limit_samples d <= num_samples d ->
              num_transfers d <> 0 ->
              ok = true
              /\ d' = set_num_transfers (u32 (num_transfers d + 1)) d
              /\ b' = b)
          /\ (num_samples d < limit_samples d ->
              num_bytes d + 1 = count_channels (flag_reg d) ->
              Z.land (flag_reg d) FLAG_RLE = 0 \/ Z.land byte 0x80 = 0 ->
              limit_samples d < num_samples d + rle_count d + 1 ->
              ok = true /\ num_samples d' = limit_samples d)).
Proof.
  intros Hok Hbytes. pose proof (rx_ok_inv d Hok) as Hinv.
  split.
  - destruct (run_bytes_inv bytes Hbytes d b Hinv)
      as (d' & b' & Hrun & EL & HN & Hfull).
    exists d', b'. rewrite EL in HN. auto.
  - intros byte Hbyte.
    destruct (receive_data_byte_inv d b byte Hinv Hbyte)
      as (ok & d' & b' & Hrd & EL & Hres & Hfull & Hclamp).
    exists ok, d', b'. split; [exact Hrd|]. split; [exact EL|].
    split.
    { destruct ok.
      - destruct Hres as [_ HN' _ _ _ _ _]. lia.
      - destruct Hres as [EN HL0]. destruct Hinv as [_ HN' _ _ _ _ _]. lia. }
    split.
    { intros Hge Hne. destruct (Hfull Hge) as [_ Hsame]. auto. }
    intros Hlt Hnb Hrle Hover.
    destruct (Hclamp Hlt Hnb Hrle) as [Eok EN]. split; [exact Eok|].
    rewrite EN. lia.
Qed.

Lemma receive_data_within_limit_witness :
  exists d' b',
    @run_events ols_h_1_0 (bytes_in rle4_bytes) (fst rle4_start)
      (snd rle4_start)
    = Some (d', b')
    /\ limit_samples d' = 4
    /\ 0 <= num_samples d' <= 4.
Proof.
  destruct (@receive_data_within_limit ols_h_1_0 (fst rle4_start)
              (snd rle4_start) rle4_bytes)
    as [(d' & b' & Hrun & EL & HN & _) _].
  - reflexivity.
  - repeat constructor; unfold is_byte; vm_compute; intuition discriminate.
  - exists d', b'. split; [exact Hrun|]. split; [exact EL | exact HN].
Defined.

End OlsReceive.

(** ** OLS: a capture without trigger *)

Module OlsCapture.
Import Sigrok Ols OlsReceive.

Lemma in_zrange (lo x : Z) (n : nat) :
  lo <= x < lo + Z.of_nat n -> In x (zrange lo n).
Proof.
  intros Hx. unfold zrange. apply in_map_iff.
  exists (Z.to_nat (x - lo)). split; [lia|].
  apply in_seq. lia.
Qed.

Lemma probe_bit_in_group (g m k : Z) :
  0 <= g < 4 -> 0 <= m <= 255 -> 0 <= k < 8 ->
  Z.lor (Z.shiftl m (8 * g)) (u32 (s32 (Z.shiftl 1 (8 * g + k))))
  = Z.shiftl (Z.lor m (2 ^ k)) (8 * g)
  /\ 1 <= Z.lor m (2 ^ k) <= 255.
Proof.
  intros Hg Hm Hk.
  assert (Hcheck : probe_bit_check = true) by (vm_compute; reflexivity).
  unfold probe_bit_check in Hcheck.
  rewrite forallb_forall in Hcheck.
  specialize (Hcheck g (in_zrange 0 g 4 ltac:(lia))).
  rewrite forallb_forall in Hcheck.
  specialize (Hcheck m (in_zrange 0 m 256 ltac:(lia))).
  rewrite forallb_forall in Hcheck.
  specialize (Hcheck k (in_zrange 0 k 8 ltac:(lia))).
  apply andb_prop in Hcheck. destruct Hcheck as [Hcheck H3].
  apply andb_prop in Hcheck. destruct Hcheck as [H1 H2].
  apply Z.eqb_eq in H1. apply Z.leb_le in H2, H3. auto.
Qed.

Lemma channel_groups_one (g m : Z) :
  0 <= g < 4 -> 1 <= m <= 255 ->
  channel_groups (Z.shiftl m (8 * g)) = (2 ^ g, 1).
Proof.
  intros Hg Hm.
  assert (Hcheck : channel_groups_check = true) by (vm_compute; reflexivity).
  unfold channel_groups_check in Hcheck.
  rewrite forallb_forall in Hcheck.
  specialize (Hcheck g (in_zrange 0 g 4 ltac:(lia))).
  rewrite forallb_forall in Hcheck.
  specialize (Hcheck m (in_zrange 1 m 255 ltac:(lia))).
  destruct (channel_groups (Z.shiftl m (8 * g))) as [cm n].
  apply andb_prop in Hcheck. destruct Hcheck as [H1 H2].
  apply Z.eqb_eq in H1, H2. congruence.
Qed.

Lemma set_probe_mask_twice (v w : Z) (d : dev_context) :
  set_probe_mask v (set_probe_mask w d) = set_probe_mask v d.
Proof. destruct d; reflexivity. Qed.

Lemma configure_probes_loop_one_group (g : Z) (l : list sr_probe) :
  0 <= g < 4 ->
  forallb (fun p => negb (enabled p)
                    || ((8 * g <=? index p) && (index p <? 8 * g + 8)
                        && match trigger p with
                           | None => true
                           | Some EmptyString => true
                           | Some _ => false
                           end)) l = true ->
  forall (d : dev_context) (m : Z),
    0 <= m <= 255 ->
    probe_mask d = Z.shiftl m (8 * g) ->
    num_stages d = 0 ->
    exists m',
      configure_probes_loop l d
      = (SR_OK, set_probe_mask (Z.shiftl m' (8 * g)) d)
      /\ 0 <= m' <= 255
      /\ (m <> 0 \/ existsb enabled l = true -> m' <> 0).
Proof.
  intros Hg. induction l as [|p l IH]; intros Hall d m Hm Hmask Hns.
  - exists m. cbn [configure_probes_loop existsb].
    split; [|split; [exact Hm|intros [?|?]; [assumption|discriminate]]].
    rewrite <- Hmask. destruct d; reflexivity.
  - cbn [forallb] in Hall. apply andb_prop in Hall.
    destruct Hall as [Hp Hall].
    cbn [configure_probes_loop existsb].
    destruct (enabled p) eqn:Een; cbn [negb orb] in *.
    + apply andb_prop in Hp. destruct Hp as [Hidx Htrig].
      apply andb_prop in Hidx. destruct Hidx as [Hlo Hhi].
      apply Z.leb_le in Hlo. apply Z.ltb_lt in Hhi.
      destruct (probe_bit_in_group g m (index p - 8 * g)) as [Ebit Hm'];
        [lia | lia | lia |].
      replace (8 * g + (index p - 8 * g)) with (index p) in Ebit by lia.
      rewrite Hmask, Ebit.
      set (m1 := Z.lor m (2 ^ (index p - 8 * g))) in *.
      assert (Hstep : forall d1,
                d1 = set_probe_mask (Z.shiftl m1 (8 * g)) d ->
                exists m',
                  configure_probes_loop l d1
                  = (SR_OK, set_probe_mask (Z.shiftl m' (8 * g)) d)
                  /\ 0 <= m' <= 255 /\ m' <> 0).
      { intros d1 ->.
        destruct (IH Hall (set_probe_mask (Z.shiftl m1 (8 * g)) d) m1)
          as (m' & Hrun & Hm1 & Hnz).
        - lia.
        - destruct d; reflexivity.
        - destruct d; exact Hns.
        - exists m'. rewrite Hrun, set_probe_mask_twice.
          split; [reflexivity|]. split; [exact Hm1|].
          apply Hnz. left. lia. }
      destruct (trigger p) as [[|c tc]|].
      * cbn [list_ascii_of_string trigger_stages].
        replace (num_stages (set_probe_mask (Z.shiftl m1 (8 * g)) d) <? 0)
          with false
          by (destruct d; cbn in *; subst; reflexivity).
        destruct (Hstep _ eq_refl) as (m' & Hrun & Hb & Hnz).
        exists m'. split; [exact Hrun|]. split; [exact Hb|]. intros _.
        exact Hnz.
      * discriminate.
      * destruct (Hstep _ eq_refl) as (m' & Hrun & Hb & Hnz).
        exists m'. split; [exact Hrun|]. split; [exact Hb|]. intros _.
        exact Hnz.
    + destruct (IH Hall d m Hm Hmask Hns) as (m' & Hrun & Hb & Hnz).
      exists m'. split; [exact Hrun|]. split; [exact Hb|]. exact Hnz.
Qed.

Lemma send_longcommand_true (c : command) (data : Z) (b : bus) :
  exists w,
    send_longcommand true c data b = (SR_OK, mk_bus w (feed b) (source b)).
Proof. eexists. reflexivity. Qed.

Lemma send_longcommands_true (cs : list (command * Z)) :
  forall b : bus,
    exists w,
      send_longcommands true cs b = (SR_OK, mk_bus w (feed b) (source b)).
Proof.
  induction cs as [|[c data] cs IH]; intros b.
  - exists (wire b). destruct b; reflexivity.
  - cbn [send_longcommands].
    destruct (send_longcommand_true c data b) as (w & ->).
    cbn [Z.eqb SR_OK]. destruct (IH (mk_bus w (feed b) (source b))) as (w' & ->).
    exists w'. reflexivity.
Qed.

(** Bits 2..5 of the flag register after [hw_dev_acquisition_start]
    has disabled every channel group but [g]. *)
Lemma group_bits_after_start {H : ols_h} (f g i : Z) :
  flags_ok = true ->
  Z.land f 0x3c = 0 ->
  0 <= g < 4 -> 0 <= i < 4 ->
  Z.testbit
    (Z.lor (Z.lor f (Z.land (Z.lnot (Z.shiftl (2 ^ g) 2)) 0x3c)) FLAG_FILTER)
    (i + 2)
  = negb (i =? g).
Proof.
  intros Hfl Hf Hg Hi.
  unfold flags_ok in Hfl.
  apply andb_prop in Hfl. destruct Hfl as [Hfl _].
  apply andb_prop in Hfl. destruct Hfl as [Hfil _].
  apply Z.eqb_eq in Hfil.
  assert (Hbit : forall x, Z.land x 0x3c = 0 -> Z.testbit x (i + 2) = false).
  { intros x Hx.
    assert (Hb : Z.testbit (Z.land x 0x3c) (i + 2) = false)
      by (rewrite Hx; apply Z.bits_0).
    rewrite Z.land_spec in Hb.
    assert (Hc : Z.testbit 0x3c (i + 2) = true).
    { assert (Hcase : i = 0 \/ i = 1 \/ i = 2 \/ i = 3) by lia.
      destruct Hcase as [-> | [-> | [-> | ->]]]; reflexivity. }
    rewrite Hc, andb_true_r in Hb. exact Hb. }
  rewrite !Z.lor_spec, (Hbit f Hf), (Hbit FLAG_FILTER Hfil).
  cbn [orb]. rewrite orb_false_r.
  assert (Hcg : g = 0 \/ g = 1 \/ g = 2 \/ g = 3) by lia.
  assert (Hci : i = 0 \/ i = 1 \/ i = 2 \/ i = 3) by lia.
  destruct Hcg as [-> | [-> | [-> | ->]]];
    destruct Hci as [-> | [-> | [-> | ->]]]; reflexivity.
Qed.

Lemma rle_off_after_start {H : ols_h} (f c : Z) :
  flags_ok = true ->
  Z.land f FLAG_RLE = 0 ->
  Z.land (Z.lor (Z.lor f (Z.land c 0x3c)) FLAG_FILTER) FLAG_RLE = 0.
Proof.
  intros Hfl Hf. unfold flags_ok in Hfl.
  apply andb_prop in Hfl. destruct Hfl as [Hfl Hrf].
  apply andb_prop in Hfl. destruct Hfl as [_ Hrle].
  apply Z.eqb_eq in Hrf, Hrle.
  rewrite !Z.land_lor_distr_l, Hf, <- Z.land_assoc.
  rewrite (Z.land_comm 0x3c), Hrle, Z.land_0_r.
  rewrite (Z.land_comm FLAG_FILTER), Hrf. reflexivity.
Qed.

Lemma hw_dev_acquisition_start_one_group {H : ols_h}
  (g starttime : Z) (sdi : sr_dev_inst) (b : bus) :
  flags_ok = true ->
  status sdi = SR_ST_ACTIVE ->
  one_group g (probes sdi) = true ->
  Z.land (flag_reg (priv sdi)) 0x3c = 0 ->
  Z.land (flag_reg (priv sdi)) FLAG_RLE = 0 ->
  exists d1 b1,
    hw_dev_acquisition_start starttime true sdi b
    = Some (SR_OK, set_priv d1 sdi, b1)
    /\ feed b1
       = feed b ++ [SR_DF_HEADER 1 starttime;
                    SR_DF_META_LOGIC NUM_PROBES (cur_samplerate (priv sdi))]
    /\ limit_samples d1 = limit_samples (priv sdi)
    /\ num_samples d1 = num_samples (priv sdi)
    /\ num_bytes d1 = num_bytes (priv sdi)
    /\ num_transfers d1 = num_transfers (priv sdi)
    /\ trigger_at d1 = trigger_at (priv sdi)
    /\ sample d1 = sample (priv sdi)
    /\ rle_count d1 = 0
    /\ Z.land (flag_reg d1) FLAG_RLE = 0
    /\ (forall i, 0 <= i < 4 ->
          Z.testbit (flag_reg d1) (i + 2) = negb (i =? g)).
Proof.
  intros Hfl Hst Hgrp Hf Hrle.
  unfold one_group in Hgrp.
  apply andb_prop in Hgrp. destruct Hgrp as [Hgrp Hall].
  apply andb_prop in Hgrp. destruct Hgrp as [Hg Hex].
  apply andb_prop in Hg. destruct Hg as [Hg0 Hg4].
  apply Z.leb_le in Hg0. apply Z.ltb_lt in Hg4.
  unfold hw_dev_acquisition_start, configure_probes.
  rewrite Hst. cbn [Z.eqb SR_ST_ACTIVE negb].
  change (if Pos.eqb 10003 10003 then false else true) with false.
  destruct sdi as [st pr d]. cbn [priv probes status] in *.
  destruct d as [msr ms pv cs csd L f cr ta pm tm tv ns nt N R nb smp tmp rb].
  devc_simpl. devc_simpl_in Hf. devc_simpl_in Hrle.
  destruct (configure_probes_loop_one_group g pr (conj Hg0 Hg4) Hall
              (mk_devc msr ms pv cs csd L f cr ta 0 [0; 0; 0; 0] [0; 0; 0; 0]
                 0 nt N R nb smp tmp rb) 0)
    as (m' & Hcfg & Hm' & Hnz);
    [lia | cbn [probe_mask]; now rewrite Z.shiftl_0_l | reflexivity |].
  rewrite Hcfg. devc_simpl. cbn [Z.eqb SR_OK negb].
  rewrite channel_groups_one by (try lia; assert (m' <> 0) by auto; lia).
  cbn [nth]. change (negb (0 =? 0)) with false.
  change (1 =? 0) with false. cbn iota.
  match goal with
  | |- context [send_longcommands true ?cs ?b0] =>
      destruct (send_longcommands_true cs b0) as (w1 & ->)
  end.
  change (negb (SR_OK =? SR_OK)) with false. cbn iota.
  unfold send_longcommand, send_shortcommand.
  cbn [serial_write wire feed source].
  change (negb (SR_OK =? SR_OK)) with false. cbn iota.
  devc_simpl.
  eexists. eexists. split; [reflexivity|].
  unfold sr_session_send, sr_source_add. cbn [wire feed source].
  devc_simpl.
  split; [rewrite <- app_assoc; reflexivity|].
  do 7 (split; [reflexivity|]).
  split; [apply rle_off_after_start; assumption|].
  intros i Hi. apply group_bits_after_start; try assumption; lia.
Qed.

Lemma one_group_channels {H : ols_h} (g : Z) (d : dev_context) (x : Z) :
  one_group_rx g d ->
  count_channels (flag_reg d) = 1
  /\ full_sample 1 (flag_reg d) [x; 0; 0; 0] = widen g x.
Proof.
  intros [Hg Hbits _ _ _ _ _].
  pose proof (Hbits 0 ltac:(lia)) as H2.
  pose proof (Hbits 1 ltac:(lia)) as H3.
  pose proof (Hbits 2 ltac:(lia)) as H4.
  pose proof (Hbits 3 ltac:(lia)) as H5.
  change (0 + 2) with 2 in H2. change (1 + 2) with 3 in H3.
  change (2 + 2) with 4 in H4. change (3 + 2) with 5 in H5.
  rewrite count_channels_bits. unfold full_sample.
  change (1 <? 4) with true. cbn iota.
  rewrite expand_sample_bits, H2, H3, H4, H5.
  assert (Hcg : g = 0 \/ g = 1 \/ g = 2 \/ g = 3) by lia.
  destruct Hcg as [-> | [-> | [-> | ->]]]; split; reflexivity.
Qed.

(** One byte of a one-group capture with room left: the byte, widened,
    lands in the sample slot just below the ones filled so far. *)
Lemma receive_byte_one_group {H : ols_h} (g : Z) (d : dev_context)
  (x : Z) (buf : list Z) :
  one_group_rx g d -> is_byte x ->
  0 <= num_samples d < limit_samples d ->
  raw_sample_buf d = Some buf ->
  Z.of_nat (length buf) = limit_samples d * 4 ->
  exists d',
    receive_byte (count_channels (flag_reg d)) x d = Some d'
    /\ one_group_rx g d'
    /\ num_samples d' = num_samples d + 1
    /\ raw_sample_buf d'
       = Some (firstn (Z.to_nat (4 * (limit_samples d - num_samples d - 1)))
                      buf
               ++ widen g x
               ++ skipn (Z.to_nat (4 * (limit_samples d - num_samples d)))
                        buf)
    /\ limit_samples d' = limit_samples d
    /\ num_transfers d' = num_transfers d
    /\ trigger_at d' = trigger_at d.
Proof.
  intros Hog Hx HN Ebuf Elen.
  destruct (one_group_channels g d x Hog) as [Hnc Hfs].
  destruct Hog as [Hg Hbits Hrle Hnb HR Hs HL].
  rewrite Hnc. unfold receive_byte.
  destruct (Z.leb_spec (limit_samples d) (num_samples d)) as [?|_]; [lia|].
  rewrite Hs, Hnb.
  change (store [0; 0; 0; 0] 0 x) with (Some [x; 0; 0; 0]).
  cbv beta iota zeta.
  replace (num_bytes (set_sample [x; 0; 0; 0] d)) with 0
    by (destruct d; symmetry; exact Hnb).
  change (s32 (0 + 1)) with 1.
  set (d1 := set_num_bytes 1 (set_sample [x; 0; 0; 0] d)).
  assert (Ed1 : num_bytes d1 = 1 /\ sample d1 = [x; 0; 0; 0]
                /\ flag_reg d1 = flag_reg d /\ num_samples d1 = num_samples d
                /\ limit_samples d1 = limit_samples d
                /\ rle_count d1 = rle_count d
                /\ raw_sample_buf d1 = raw_sample_buf d
                /\ num_transfers d1 = num_transfers d
                /\ trigger_at d1 = trigger_at d).
  { unfold d1. destruct d. devc_simpl. repeat split. }
  destruct Ed1 as (E1 & E2 & E3 & E4 & E5 & E6 & E7 & E8 & E9).
  rewrite E1, E3, Hrle. change (1 =? 1) with true.
  change (negb (0 =? 0)) with false. cbn [andb]. cbn iota.
  destruct (store_full_sample_spec 1 d1 buf)
    as (d' & Hst & EN & Eb & Es & Enb & Er & EL & Ef & Ent & Eta & _).
  - lia.
  - rewrite E5. exact HL.
  - rewrite E6, HR. unfold INT_MAX. lia.
  - rewrite E2. reflexivity.
  - rewrite E2. unfold is_byte in *. repeat constructor; lia.
  - congruence.
  - rewrite E5. exact Elen.
  - exists d'. split; [exact Hst|].
    rewrite E4, E5, E6, HR in EN.
    replace (Z.min (num_samples d + 0 + 1) (limit_samples d))
      with (num_samples d + 1) in EN by lia.
    split.
    { constructor; try assumption; try congruence.
      intros i Hi. rewrite Ef, E3. apply Hbits. exact Hi. }
    split; [exact EN|].
    split.
    { rewrite Eb, EN, E2, E3, E4, E5, Hfs.
      replace (Z.to_nat (num_samples d + 1 - num_samples d)) with 1%nat
        by lia.
      cbn [repeat concat]. rewrite app_nil_r.
      repeat first [reflexivity | lia | f_equal]. }
    split; [congruence|]. split; congruence.
Qed.

Lemma receive_data_one_group {H : ols_h} (g : Z) (d : dev_context) (b : bus)
  (x : Z) (buf : list Z) :
  one_group_rx g d -> is_byte x ->
  0 <= num_samples d < limit_samples d ->
  0 < num_transfers d < 2 ^ 32 - 1 ->
  raw_sample_buf d = Some buf ->
  Z.of_nat (length buf) = limit_samples d * 4 ->
  exists d',
    receive_data (G_IO_IN (Some x)) d b = Some (true, d', b)
    /\ one_group_rx g d'
    /\ num_samples d' = num_samples d + 1
    /\ raw_sample_buf d'
       = Some (firstn (Z.to_nat (4 * (limit_samples d - num_samples d - 1)))
                      buf
               ++ widen g x
               ++ skipn (Z.to_nat (4 * (limit_samples d - num_samples d)))
                        buf)
    /\ limit_samples d' = limit_samples d
    /\ num_transfers d' = num_transfers d + 1
    /\ trigger_at d' = trigger_at d.
Proof.
  intros Hog Hx HN Hnt Ebuf Elen.
  unfold receive_data.
  destruct (Z.eqb_spec (num_transfers d) 0) as [?|_]; [lia|].
  cbn [andb]. cbv beta iota zeta.
  set (d1 := set_num_transfers _ d).
  assert (Ed1 : num_transfers d1 = num_transfers d + 1
                /\ flag_reg d1 = flag_reg d /\ num_samples d1 = num_samples d
                /\ limit_samples d1 = limit_samples d
                /\ rle_count d1 = rle_count d /\ num_bytes d1 = num_bytes d
                /\ sample d1 = sample d
                /\ raw_sample_buf d1 = raw_sample_buf d
                /\ trigger_at d1 = trigger_at d).
  { unfold d1. destruct d. devc_simpl. rewrite u32_small by (cbn in Hnt; lia).
    repeat split. }
  destruct Ed1 as (E1 & E2 & E3 & E4 & E5 & E6 & E7 & E8 & E9).
  assert (Hog1 : one_group_rx g d1).
  { destruct Hog. constructor; try congruence.
    intros i Hi. rewrite E2. auto. }
  destruct (receive_byte_one_group g d1 x buf Hog1 Hx)
    as (d' & Hrb & Hog' & EN & Eb & EL & Ent & Eta); try congruence; try lia.
  rewrite Hrb.
  exists d'. split; [reflexivity|]. split; [exact Hog'|].
  rewrite E3, E4 in *. repeat split; congruence.
Qed.

Lemma run_bytes_one_group {H : ols_h} (g : Z) (bytes : list Z)
  (evs : list revents) :
  Forall is_byte bytes ->
  forall (d : dev_context) (b : bus) (pre content : list Z),
    one_group_rx g d ->
    0 <= num_samples d ->
    num_samples d + Z.of_nat (length bytes) = limit_samples d ->
    0 < num_transfers d ->
    num_transfers d + Z.of_nat (length bytes) < 2 ^ 32 ->
    raw_sample_buf d = Some (pre ++ content) ->
    length pre = (4 * length bytes)%nat ->
    Z.of_nat (length content) = 4 * num_samples d ->
    exists d',
      run_events (bytes_in bytes ++ evs) d b = run_events evs d' b
      /\ one_group_rx g d'
      /\ num_samples d' = limit_samples d
      /\ limit_samples d' = limit_samples d
      /\ trigger_at d' = trigger_at d
      /\ 0 < num_transfers d' < 2 ^ 32
      /\ raw_sample_buf d'
         = Some (concat (map (widen g) (rev bytes)) ++ content).
Proof.
  induction 1 as [|x rest Hx _ IH];
    intros d b pre content Hog HN0 HNL Hnt0 Hnt Ebuf Hpre Hcont.
  - exists d. cbn [bytes_in map app rev concat length] in *.
    destruct pre; [|discriminate Hpre].
    split; [reflexivity|]. split; [exact Hog|]. split; [lia|].
    split; [reflexivity|]. split; [reflexivity|]. split; [lia|].
    exact Ebuf.
  - cbn [length] in *.
    destruct (receive_data_one_group g d b x (pre ++ content) Hog Hx)
      as (d1 & Hrd & Hog1 & EN & Eb & EL & Ent & Eta);
      [lia | lia | exact Ebuf | rewrite length_app; lia |].
    cbn [bytes_in map app run_events]. rewrite Hrd.
    fold (bytes_in rest).
    replace (Z.to_nat (4 * (limit_samples d - num_samples d - 1)))
      with (4 * length rest)%nat in Eb by lia.
    replace (Z.to_nat (4 * (limit_samples d - num_samples d)))
      with (length pre) in Eb by lia.
    rewrite firstn_app, skipn_app, skipn_all, Nat.sub_diag in Eb.
    replace (4 * length rest - length pre)%nat with 0%nat in Eb by lia.
    cbn [firstn skipn app] in Eb. rewrite app_nil_r in Eb.
    destruct (IH d1 b (firstn (4 * length rest) pre) (widen g x ++ content))
      as (d' & Hrun & Hog' & EN' & EL' & Eta' & Hnt' & Eb');
      try assumption; try lia.
    + rewrite length_firstn. lia.
    + rewrite length_app. cbn [widen map length]. lia.
    + exists d'. split; [exact Hrun|]. split; [exact Hog'|].
      split; [congruence|]. split; [congruence|]. split; [congruence|].
      split; [exact Hnt'|].
      rewrite Eb'. cbn [rev]. rewrite map_app, concat_app.
      cbn [map concat]. rewrite app_nil_r, <- app_assoc. reflexivity.
Qed.

Lemma firstn_repeat_le (x : Z) (k n : nat) :
  (k <= n)%nat -> firstn k (repeat x n) = repeat x k.
Proof.
  revert n. induction k as [|k IH]; intros n Hk; [reflexivity|].
  destruct n as [|n]; [lia|]. cbn [repeat firstn]. f_equal. apply IH. lia.
Qed.

(** The first byte of a capture: the call also re-registers the source
    with the 30 ms timeout and allocates the buffer. *)
Lemma receive_data_first_one_group {H : ols_h} (g : Z) (d : dev_context)
  (b : bus) (x : Z) :
  one_group_rx g d -> is_byte x ->
  num_transfers d = 0 -> num_samples d = 0 -> 0 < limit_samples d ->
  exists d',
    receive_data (G_IO_IN (Some x)) d b
    = Some (true, d', sr_source_add 30 (sr_source_remove b))
    /\ one_group_rx g d'
    /\ num_samples d' = 1
    /\ raw_sample_buf d'
       = Some (repeat 0x82 (Z.to_nat (4 * (limit_samples d - 1)))
               ++ widen g x)
    /\ limit_samples d' = limit_samples d
    /\ num_transfers d' = 1
    /\ trigger_at d' = trigger_at d.
Proof.
  intros Hog Hx Hnt HN HL.
  pose proof (og_limit g d Hog) as Hmax. unfold INT_MAX in Hmax.
  unfold receive_data. rewrite Hnt.
  change (0 =? 0) with true. cbv beta iota zeta.
  set (buf := repeat 0x82 (Z.to_nat (limit_samples d * 4))).
  set (d1 := set_raw_sample_buf _ _).
  assert (Ed1 : num_transfers d1 = 1
                /\ flag_reg d1 = flag_reg d /\ num_samples d1 = num_samples d
                /\ limit_samples d1 = limit_samples d
                /\ rle_count d1 = rle_count d /\ num_bytes d1 = num_bytes d
                /\ sample d1 = sample d
                /\ raw_sample_buf d1 = Some buf
                /\ trigger_at d1 = trigger_at d).
  { unfold d1, buf, g_try_malloc_memset. destruct d. devc_simpl.
    cbn [limit_samples] in *. rewrite u64_small by lia.
    destruct (Z.eqb_spec (limit_samples0 * 4) 0); [lia|].
    devc_simpl. repeat split. }
  destruct Ed1 as (E1 & E2 & E3 & E4 & E5 & E6 & E7 & E8 & E9).
  rewrite E8. cbn [andb]. cbv iota.
  assert (Hog1 : one_group_rx g d1).
  { destruct Hog. constructor; try congruence.
    intros i Hi. rewrite E2. auto. }
  destruct (receive_byte_one_group g d1 x buf Hog1 Hx)
    as (d' & Hrb & Hog' & EN & Eb & EL & Ent & Eta).
  - lia.
  - exact E8.
  - unfold buf. rewrite repeat_length. lia.
  - rewrite Hrb. exists d'. split; [reflexivity|]. split; [exact Hog'|].
    split; [lia|].
    split.
    { rewrite Eb, E3, E4, HN. unfold buf.
      rewrite firstn_repeat_le by lia.
      rewrite skipn_all2 by (rewrite repeat_length; lia).
      rewrite app_nil_r. repeat first [reflexivity | lia | f_equal]. }
    repeat split; congruence.
Qed.

(** The timeout that ends a capture without trigger: the whole buffer
    goes out as one logic packet, then the end packet. *)
Lemma receive_data_timeout_no_trigger {H : ols_h} (d : dev_context)
  (b : bus) (buf : list Z) :
  0 < num_transfers d ->
  trigger_at d = -1 ->
  num_samples d = limit_samples d ->
  0 <= 4 * limit_samples d <= INT_MAX ->
  raw_sample_buf d = Some buf ->
  Z.of_nat (length buf) = 4 * limit_samples d ->
  exists d',
    receive_data G_IO_NONE d b
    = Some (true, d',
            abort_acquisition
              (sr_session_send (SR_DF_LOGIC (4 * limit_samples d) 4 buf) b)).
Proof.
  intros Hnt Hta HN HL Ebuf Elen. unfold INT_MAX in HL.
  unfold receive_data.
  destruct (Z.eqb_spec (num_transfers d) 0) as [?|_]; [lia|].
  cbn [andb]. cbv beta iota zeta.
  unfold send_buffer.
  destruct d as [msr ms pv cs csd L f cr ta pm tm tv ns nt N R nb smp tmp rb].
  devc_simpl. cbn [trigger_at num_samples limit_samples raw_sample_buf] in *.
  subst ta N rb. change (negb (-1 =? -1)) with false. cbv iota.
  rewrite Z.sub_diag. change (u64 (0 * 4)) with 0.
  rewrite (u32_small (L * 4)) by lia.
  unfold slice. change (Z.to_nat 0) with 0%nat. cbn [skipn].
  rewrite firstn_all2 by lia.
  replace (L * 4) with (4 * L) by lia.
  eexists. reflexivity.
Qed.

Lemma slice_concat_widen (g : Z) (l : list Z) :
  forall j : nat,
    (j < length l)%nat ->
    slice (concat (map (widen g) l)) (4 * Z.of_nat j) 4
    = widen g (nth j l 0).
Proof.
  unfold slice. change (Z.to_nat 4) with 4%nat.
  induction l as [|x l IH]; intros j Hj; [cbn in Hj; lia|].
  cbn [map concat]. destruct j as [|j].
  - reflexivity.
  - replace (Z.to_nat (4 * Z.of_nat (S j)))
      with (length (widen g x) + Z.to_nat (4 * Z.of_nat j))%nat
      by (cbn [widen map length]; lia).
    rewrite skipn_app, skipn_all2 by lia.
    replace (length (widen g x) + Z.to_nat (4 * Z.of_nat j)
             - length (widen g x))%nat
      with (Z.to_nat (4 * Z.of_nat j)) by lia.
    cbn [app nth]. apply IH. cbn [length] in Hj. lia.
Qed.

Lemma length_concat_widen (g : Z) (l : list Z) :
  length (concat (map (widen g) l)) = (4 * length l)%nat.
Proof.
  induction l as [|x l IH]; [reflexivity|].
  cbn [map concat]. rewrite length_app, IH. cbn [widen map length]. lia.
Qed.

Lemma le32_widen (g x : Z) : 0 <= g < 4 -> le32 (widen g x) = 2 ^ (8 * g) * x.
Proof.
  intros Hg.
  assert (Hcg : g = 0 \/ g = 1 \/ g = 2 \/ g = 3) by lia.
  destruct Hcg as [-> | [-> | [-> | ->]]]; unfold le32, widen;
    cbn [map nth Z.eqb Pos.eqb]; cbn [Z.mul Pos.mul]; lia.
Qed.

Lemma fresh_rx_facts {H : ols_h} (d : dev_context) :
  fresh_rx d = true ->
  trigger_at d = -1 /\ num_transfers d = 0 /\ num_samples d = 0
  /\ num_bytes d = 0 /\ sample d = [0; 0; 0; 0]
  /\ Z.land (flag_reg d) 0x3c = 0 /\ Z.land (flag_reg d) FLAG_RLE = 0.
Proof.
  unfold fresh_rx. intros Hf.
  repeat match type of Hf with
         | _ && _ = true => apply andb_prop in Hf; destruct Hf as [Hf ?]
         end.
  repeat match goal with
         | Hb : (_ =? _) = true |- _ => apply Z.eqb_eq in Hb
         end.
  destruct (sample d) as [|s0 [|s1 [|s2 [|s3 [|? ?]]]]]; try discriminate.
  cbn [forallb] in *.
  repeat match goal with
         | Hb : _ && _ = true |- _ => apply andb_prop in Hb; destruct Hb
         | Hb : (_ =? _) = true |- _ => apply Z.eqb_eq in Hb
         end.
  subst. repeat split; assumption.
Qed.



End OlsCapture.

(** ** DSLogic: the FPGA mode word *)

Module DslogicProps.
Import Sigrok Dslogic.

Lemma ceil_div_opp (a m : Z) : 0 < m -> - (- a / m) = ceil_div a m.
Proof.
  intros Hm. unfold ceil_div.
  pose proof (Z.div_mod (a + m - 1) m ltac:(lia)) as Hdm.
  pose proof (Z.mod_pos_bound (a + m - 1) m Hm) as Hr.
  assert (E : - ((a + m - 1) / m) = - a / m).
  { apply (Z.div_unique (- a) m _ (m - 1 - (a + m - 1) mod m)); [lia|].
    rewrite Z.mul_opp_r. lia. }
  lia.
Qed.

(** [rnd_even] is within a half of the quotient, and between the
    integers around it. *)
Lemma rnd_even_near (n d : Z) :
  0 < d -> 2 * n - d <= 2 * d * rnd_even n d <= 2 * n + d.
Proof.
  intros Hd. unfold rnd_even.
  pose proof (Z.div_mod n d ltac:(lia)) as E.
  pose proof (Z.mod_pos_bound n d Hd) as B.
  set (f := n / d) in *. set (r := n mod d) in *.
  destruct (Z.ltb_spec (2 * r) d); [nia|].
  destruct (Z.ltb_spec d (2 * r)); [nia|].
  destruct (Z.even f); nia.
Qed.

Lemma rnd_even_ge (n d k : Z) : 0 < d -> k * d <= n -> k <= rnd_even n d.
Proof.
  intros Hd Hk. unfold rnd_even.
  assert (k <= n / d) by (apply Z.div_le_lower_bound; lia).
  destruct (2 * (n mod d) <? d); [lia|].
  destruct (d <? 2 * (n mod d)); [lia|].
  destruct (Z.even (n / d)); lia.
Qed.

Lemma rnd_even_le (n d k : Z) : 0 < d -> n <= k * d -> rnd_even n d <= k.
Proof.
  intros Hd Hk. unfold rnd_even.
  pose proof (Z.div_mod n d ltac:(lia)) as E.
  pose proof (Z.mod_pos_bound n d Hd) as B.
  set (f := n / d) in *. set (r := n mod d) in *.
  assert (r = 0 \/ f < k) as [Hr|Hf] by nia.
  - rewrite Hr. replace (2 * 0 <? d) with true by (symmetry; apply Z.ltb_lt; lia).
    nia.
  - destruct (2 * r <? d); [lia|].
    destruct (d <? 2 * r); [lia|].
    destruct (Z.even f); lia.
Qed.

Lemma rnd_even_exact (k d : Z) : 0 < d -> rnd_even (k * d) d = k.
Proof.
  intros Hd. apply Z.le_antisymm.
  - apply rnd_even_le; lia.
  - apply rnd_even_ge; lia.
Qed.

(** [ilog2 n d] is the exponent of [n / d]. *)
Lemma ilog2_spec (n d : Z) :
  0 < n -> 0 < d ->
  let e := ilog2 n d in
  d * 2 ^ Z.max e 0 <= n * 2 ^ Z.max (- e) 0 < 2 * d * 2 ^ Z.max e 0.
Proof.
  intros Hn Hd. unfold ilog2.
  pose proof (Z.log2_spec n Hn) as [Ln Un].
  pose proof (Z.log2_spec d Hd) as [Ld Ud].
  pose proof (Z.log2_nonneg n) as Nn. pose proof (Z.log2_nonneg d) as Nd.
  set (a := Z.log2 n) in *. set (c := Z.log2 d) in *.
  rewrite Z.pow_succ_r in Un, Ud by lia.
  destruct (Z.leb_spec 0 (a - c)) as [He|He].
  - assert (Ea : 2 ^ a = 2 ^ c * 2 ^ (a - c))
      by (rewrite <- Z.pow_add_r by lia; f_equal; lia).
    pose proof (Z.pow_pos_nonneg 2 (a - c) ltac:(lia) He) as Hp.
    pose proof (Z.pow_pos_nonneg 2 c ltac:(lia) Nd) as Hpc.
    destruct (Z.ltb_spec n (d * 2 ^ (a - c))) as [Hlt|Hge]; cbv zeta.
    + destruct (Z.eq_dec (a - c) 0) as [E0|E0].
      * rewrite E0 in *. change (0 - 1) with (-1).
        change (2 ^ Z.max (-1) 0) with 1.
        change (2 ^ Z.max (- -1) 0) with 2.
        rewrite Z.pow_0_r in *. lia.
      * replace (Z.max (a - c - 1) 0) with (a - c - 1) by lia.
        replace (Z.max (- (a - c - 1)) 0) with 0 by lia.
        assert (Ep : 2 ^ (a - c) = 2 * 2 ^ (a - c - 1)).
        { rewrite <- Z.pow_succ_r by lia. f_equal. lia. }
        set (p := 2 ^ (a - c - 1)) in *. rewrite Z.pow_0_r. nia.
    + replace (Z.max (a - c) 0) with (a - c) by lia.
      replace (Z.max (- (a - c)) 0) with 0 by lia.
      rewrite Z.pow_0_r. nia.
  - assert (Ec : 2 ^ c = 2 ^ a * 2 ^ (- (a - c)))
      by (rewrite <- Z.pow_add_r by lia; f_equal; lia).
    pose proof (Z.pow_pos_nonneg 2 (- (a - c)) ltac:(lia) ltac:(lia)) as Hp.
    pose proof (Z.pow_pos_nonneg 2 a ltac:(lia) Nn) as Hpa.
    destruct (Z.ltb_spec (n * 2 ^ (- (a - c))) d) as [Hlt|Hge]; cbv zeta.
    + replace (Z.max (a - c - 1) 0) with 0 by lia.
      replace (Z.max (- (a - c - 1)) 0) with (- (a - c) + 1) by lia.
      rewrite Z.pow_add_r by lia. rewrite Z.pow_0_r.
      change (2 ^ 1) with 2. set (p := 2 ^ (- (a - c))) in *. nia.
    + replace (Z.max (a - c) 0) with 0 by lia.
      replace (Z.max (- (a - c)) 0) with (- (a - c)) by lia.
      rewrite Z.pow_0_r. set (p := 2 ^ (- (a - c))) in *. nia.
Qed.

Lemma Qred_inject_Z (n : Z) : Qred (inject_Z n) = inject_Z n.
Proof. apply Qcanon.Qred_iff. cbn. apply Z.gcd_1_r. Qed.

Lemma ilog2_int (n : Z) :
  0 < n -> 0 <= ilog2 n 1 /\ 2 ^ ilog2 n 1 <= n < 2 * 2 ^ ilog2 n 1.
Proof.
  intros Hn. pose proof (ilog2_spec n 1 Hn ltac:(lia)) as S. cbv zeta in S.
  set (e := ilog2 n 1) in *.
  destruct (Z.ltb_spec e 0) as [Hneg|Hpos].
  - exfalso. replace (Z.max e 0) with 0 in S by lia.
    replace (Z.max (- e) 0) with (- e) in S by lia.
    assert (E : 2 ^ (- e) = 2 * 2 ^ (- e - 1)).
    { rewrite <- Z.pow_succ_r by lia. f_equal. lia. }
    pose proof (Z.pow_pos_nonneg 2 (- e - 1) ltac:(lia) ltac:(lia)).
    rewrite Z.pow_0_r in S. nia.
  - split; [exact Hpos|].
    replace (Z.max e 0) with e in S by lia.
    replace (Z.max (- e) 0) with 0 in S by lia.
    rewrite Z.pow_0_r in S. lia.
Qed.

(** Integers below 2^53 are doubles. *)
Lemma b64_int (n : Z) : 0 <= n < 2 ^ 53 -> b64 (inject_Z n) = inject_Z n.
Proof.
  intros Hn. destruct n as [|p|p]; [reflexivity| |lia].
  cbn [b64 inject_Z Qnum Qden]. unfold b64_pos.
  destruct (ilog2_int (Z.pos p) ltac:(lia)) as (He & Hlo & Hhi).
  set (e := ilog2 (Z.pos p) 1) in *.
  assert (He52 : e <= 52).
  { destruct (Z.le_gt_cases e 52) as [Hle|Hgt]; [exact Hle|exfalso].
    pose proof (Z.pow_le_mono_r 2 53 e ltac:(lia) ltac:(lia)). lia. }
  replace (e <=? 52) with true by (symmetry; apply Z.leb_le; exact He52).
  pose proof (Z.pow_pos_nonneg 2 (52 - e) ltac:(lia) ltac:(lia)) as Hp.
  set (P := 2 ^ (52 - e)) in *.
  replace (Z.pos p * P) with ((Z.pos p * P) * 1) by lia.
  rewrite rnd_even_exact by lia.
  rewrite <- (Qred_inject_Z (Z.pos p)). apply Qred_complete.
  unfold Qeq, inject_Z. cbn [Qnum Qden]. rewrite Z2Pos.id by exact Hp. lia.
Qed.

Lemma div_between (x a P : Z) : 0 < P -> a * P <= x < (a + 1) * P -> x / P = a.
Proof.
  intros HP Hx. symmetry. apply (Z.div_unique x P a (x - a * P)); lia.
Qed.

(** The quotient of a numerator below 2^53, rounded to a double, has
    the ceiling of the exact quotient. *)
Lemma b64_ceiling (q : Q) :
  0 <= Qnum q < 2 ^ 53 ->
  Qceiling (b64 q) = ceil_div (Qnum q) (Z.pos (Qden q)).
Proof.
  destruct q as [n dp]. cbn [Qnum Qden]. intros Hn.
  unfold ceil_div.
  destruct n as [|p|p]; [| |lia].
  { unfold b64. cbn [Qnum]. symmetry. apply Z.div_small. lia. }
  unfold b64. cbn [Qnum Qden]. unfold b64_pos.
  assert (Hd : 0 < Z.pos dp) by lia. revert Hd.
  generalize (Z.pos dp). intros d Hd.
  set (n := Z.pos p) in *. assert (Hn0 : 0 < n) by (unfold n; lia).
  clearbody n.
  pose proof (ilog2_spec n d Hn0 Hd) as S. cbv zeta in S.
  set (e := ilog2 n d) in *.
  assert (He52 : e <= 52).
  { destruct (Z.le_gt_cases e 52) as [Hle|Hgt]; [exact Hle|exfalso].
    replace (Z.max e 0) with e in S by lia.
    replace (Z.max (- e) 0) with 0 in S by lia.
    rewrite Z.pow_0_r in S.
    pose proof (Z.pow_le_mono_r 2 53 e ltac:(lia) ltac:(lia)). nia. }
  replace (e <=? 52) with true by (symmetry; apply Z.leb_le; exact He52).
  pose proof (Z.pow_pos_nonneg 2 (52 - e) ltac:(lia) ltac:(lia)) as Hp.
  (* 2^52 * d <= n * 2^(52 - e) *)
  assert (Hlow : 2 ^ 52 * d <= n * 2 ^ (52 - e)).
  { destruct (Z.ltb_spec e 0) as [Hneg|Hpos].
    - replace (Z.max e 0) with 0 in S by lia.
      replace (Z.max (- e) 0) with (- e) in S by lia.
      replace (52 - e) with (52 + - e) by lia.
      rewrite Z.pow_add_r by lia. rewrite Z.pow_0_r in S. nia.
    - replace (Z.max e 0) with e in S by lia.
      replace (Z.max (- e) 0) with 0 in S by lia.
      rewrite Z.pow_0_r in S.
      assert (E52 : 2 ^ 52 = 2 ^ e * 2 ^ (52 - e)).
      { rewrite <- Z.pow_add_r by lia. f_equal. lia. }
      rewrite E52. nia. }
  set (P := 2 ^ (52 - e)) in *.
  assert (HdP : d < 2 * P) by nia.
  rewrite (Qred_correct (rnd_even (n * P) d # Z.to_pos P)).
  unfold Qceiling, Qfloor, Qopp. cbn [Qnum Qden].
  rewrite Z2Pos.id by exact Hp.
  pose proof (Z.div_mod n d ltac:(lia)) as E.
  pose proof (Z.mod_pos_bound n d Hd) as B.
  set (k := n / d) in *. set (r := n mod d) in *.
  destruct (Z.eq_dec r 0) as [Hr|Hr].
  - replace (n * P) with ((k * P) * d) by nia.
    rewrite rnd_even_exact by exact Hd.
    replace (- (k * P)) with ((- k) * P) by lia.
    rewrite Z.div_mul by lia.
    replace (n + d - 1) with (k * d + (d - 1)) by lia.
    rewrite Z.div_add_l by lia. rewrite (Z.div_small (d - 1) d) by lia. lia.
  - set (m := rnd_even (n * P) d).
    assert (Hm1 : m <= (k + 1) * P) by (apply rnd_even_le; nia).
    pose proof (rnd_even_near (n * P) d Hd) as Near. fold m in Near.
    assert (Hm0 : k * P < m) by nia.
    rewrite (div_between (- m) (- (k + 1)) P) by lia.
    replace (n + d - 1) with ((k + 1) * d + (r - 1)) by lia.
    rewrite Z.div_add_l by lia. rewrite (Z.div_small (r - 1) d) by lia. lia.
Qed.

(** Rounding takes no integer from 2^53 on below 2^53. *)
Lemma b64_big (n : Z) : 2 ^ 53 <= n -> (inject_Z (2 ^ 53) <= b64 (inject_Z n))%Q.
Proof.
  intros Hn. destruct n as [|p|p]; try lia.
  cbn [b64 inject_Z Qnum Qden]. unfold b64_pos.
  destruct (ilog2_int (Z.pos p) ltac:(lia)) as (He & Hlo & Hhi).
  set (e := ilog2 (Z.pos p) 1) in *.
  assert (He53 : 53 <= e).
  { destruct (Z.le_gt_cases 53 e) as [Hle|Hgt]; [exact Hle|exfalso].
    pose proof (Z.pow_le_mono_r 2 (e + 1) 53 ltac:(lia) ltac:(lia)) as Hpw.
    rewrite Z.pow_add_r in Hpw by lia. change (2 ^ 1) with 2 in Hpw. lia. }
  replace (e <=? 52) with false by (symmetry; apply Z.leb_gt; lia).
  rewrite <- Zle_Qle.
  assert (Ee : 2 ^ e = 2 ^ 52 * 2 ^ (e - 52)).
  { rewrite <- Z.pow_add_r by lia. f_equal. lia. }
  pose proof (Z.pow_pos_nonneg 2 (e - 52) ltac:(lia) ltac:(lia)) as Hp.
  pose proof (Z.pow_le_mono_r 2 53 e ltac:(lia) He53) as H53.
  set (T := 2 ^ (e - 52)) in *.
  assert (Hm : 2 ^ 52 <= rnd_even (Z.pos p) (1 * T))
    by (apply rnd_even_ge; lia).
  nia.
Qed.

(** On integers below 2^53 the right-hand side of the RLE test is the
    exact product. *)
Lemma rle_threshold_exact {H : dslogic_h} (devc : dev_context) :
  0 < DS_MAX_LOGIC_SAMPLERATE < 2 ^ 53 ->
  0 <= DS_MAX_LOGIC_DEPTH < 2 ^ 53 ->
  0 <= cur_samplerate devc < 2 ^ 53 ->
  DS_MAX_LOGIC_DEPTH
  * ceil_div (cur_samplerate devc) DS_MAX_LOGIC_SAMPLERATE < 2 ^ 53 ->
  rle_threshold devc
  = inject_Z (DS_MAX_LOGIC_DEPTH
              * ceil_div (cur_samplerate devc) DS_MAX_LOGIC_SAMPLERATE).
Proof.
  intros HM HD Ha HP. unfold rle_threshold.
  rewrite (b64_int DS_MAX_LOGIC_DEPTH), (b64_int (cur_samplerate devc)),
    (b64_int DS_MAX_LOGIC_SAMPLERATE) by lia.
  assert (Hc : 0 <= ceil_div (cur_samplerate devc) DS_MAX_LOGIC_SAMPLERATE)
    by (unfold ceil_div; apply Z.div_pos; lia).
  set (a := cur_samplerate devc) in *.
  destruct DS_MAX_LOGIC_SAMPLERATE as [|mp|mp] eqn:EM; try lia.
  rewrite b64_ceiling.
  2:{ unfold Qdiv, Qmult, Qinv, inject_Z. cbn [Qnum Qden].
      rewrite !Z.mul_1_r. exact Ha. }
  assert (Eq : ceil_div (Qnum (inject_Z a * 1 / inject_Z (Z.pos mp)))
                 (Z.pos (Qden (inject_Z a * 1 / inject_Z (Z.pos mp))))
               = ceil_div a (Z.pos mp)).
  { unfold Qdiv, Qmult, Qinv, inject_Z. cbn [Qnum Qden].
    rewrite !Z.mul_1_r. reflexivity. }
  rewrite Eq. set (c := ceil_div a (Z.pos mp)) in *.
  change (inject_Z DS_MAX_LOGIC_DEPTH * inject_Z c)%Q
    with (inject_Z (DS_MAX_LOGIC_DEPTH * c)).
  apply b64_int. nia.
Qed.

(** An integer below 2^53 is below the double of an integer when it
    is below the integer. *)
Lemma Qlt_bool_b64 (P L : Z) :
  0 <= P < 2 ^ 53 -> 0 <= L ->
  Qlt_bool (inject_Z P) (b64 (inject_Z L)) = (P <? L).
Proof.
  intros HP HL.
  destruct (Z.lt_ge_cases L (2 ^ 53)) as [Hs|Hb].
  - rewrite (b64_int L) by lia.
    unfold Qlt_bool, Qle_bool, inject_Z. cbn [Qnum Qden].
    rewrite Z.ltb_antisym. f_equal. f_equal; lia.
  - pose proof (b64_big L Hb) as Hbig.
    replace (P <? L) with true by (symmetry; apply Z.ltb_lt; lia).
    unfold Qlt_bool. apply negb_true_iff.
    destruct (Qle_bool (b64 (inject_Z L)) (inject_Z P)) eqn:Ele;
      [exfalso|reflexivity].
    apply Qle_bool_iff in Ele.
    pose proof (Qle_trans _ _ _ Hbig Ele) as Hle.
    rewrite <- Zle_Qle in Hle. lia.
Qed.

Lemma land_u16 (x r : Z) :
  0 <= r < 2 ^ 16 -> Z.land (u16 x) r = Z.land x r.
Proof.
  intros Hr. unfold u16. rewrite <- Z.land_ones by lia.
  rewrite <- Z.land_assoc. f_equal.
  rewrite Z.land_comm, Z.land_ones by lia. apply Z.mod_small. exact Hr.
Qed.

Lemma land_or16 (v x r : Z) :
  0 <= r < 2 ^ 16 ->
  Z.land (or16 v x) r = Z.lor (Z.land v r) (Z.land x r).
Proof.
  intros Hr. unfold or16. rewrite land_u16 by exact Hr.
  apply Z.land_lor_distr_l.
Qed.

Lemma fpga_mode_word_rle_test {H : dslogic_h} (devc : dev_context) :
  mode_bits_ok = true ->
  Z.land (fpga_mode_word devc) DS_MODE_RLE_MODE
  = if Qlt_bool (rle_threshold devc) (b64 (inject_Z (limit_samples devc)))
       && negb (continuous_mode devc)
    then DS_MODE_RLE_MODE else 0.
Proof.
  intros Hok. unfold mode_bits_ok in Hok.
  apply andb_prop in Hok. destruct Hok as [Hok Hdis].
  apply andb_prop in Hok. destruct Hok as [H0 H16].
  apply Z.ltb_lt in H0, H16.
  cbn [forallb] in Hdis.
  repeat match type of Hdis with
         | _ && _ = true => apply andb_prop in Hdis; destruct Hdis as [? Hdis]
         end.
  repeat match goal with
         | Hb : (_ =? _) = true |- _ => apply Z.eqb_eq in Hb
         end.
  unfold fpga_mode_word.
  repeat match goal with
         | |- context [if ?c then _ else _] => destruct c
         end;
    rewrite ?land_or16, ?land_u16 by lia;
    repeat match goal with
           | Hz : Z.land _ DS_MODE_RLE_MODE = 0 |- _ => rewrite Hz
           end;
    rewrite ?Z.land_diag, ?Z.land_0_l; reflexivity.
Qed.

Lemma fpga_mode_word_rle {H : dslogic_h} (devc : dev_context) :
  mode_bits_ok = true ->
  0 < DS_MAX_LOGIC_SAMPLERATE < 2 ^ 53 ->
  0 <= DS_MAX_LOGIC_DEPTH < 2 ^ 53 ->
  0 <= cur_samplerate devc < 2 ^ 53 ->
  0 <= limit_samples devc ->
  DS_MAX_LOGIC_DEPTH
  * ceil_div (cur_samplerate devc) DS_MAX_LOGIC_SAMPLERATE < 2 ^ 53 ->
  Z.land (fpga_mode_word devc) DS_MODE_RLE_MODE
  = if (DS_MAX_LOGIC_DEPTH
        * ceil_div (cur_samplerate devc) DS_MAX_LOGIC_SAMPLERATE
        <? limit_samples devc)
       && negb (continuous_mode devc)
    then DS_MODE_RLE_MODE else 0.
Proof.
  intros Hok HM HD Ha HL HP.
  rewrite (fpga_mode_word_rle_test devc Hok).
  rewrite (rle_threshold_exact devc HM HD Ha HP).
  rewrite Qlt_bool_b64; [reflexivity| |exact HL].
  split; [|exact HP].
  apply Z.mul_nonneg_nonneg; [lia|].
  unfold ceil_div. apply Z.div_pos; lia.
Qed.

Lemma set_match_mode (m : sr_trigger_match) (cfg : dslogic_fpga_config) :
  cfg_mode (set_match m cfg) = cfg_mode cfg.
Proof.
  unfold set_match. destruct (negb (enabled (channel m))); [reflexivity|].
  destruct cfg. destruct (match_ m); reflexivity.
Qed.

Lemma set_matches_mode (stages : list (list sr_trigger_match)) :
  forall cfg : dslogic_fpga_config,
    cfg_mode
      (fold_left
         (fun cfg stage => fold_left (fun cfg m => set_match m cfg) stage cfg)
         stages cfg)
    = cfg_mode cfg.
Proof.
  induction stages as [|stage stages IH]; intros cfg; [reflexivity|].
  cbn [fold_left]. rewrite IH.
  revert cfg. induction stage as [|m stage IHs]; intros cfg; [reflexivity|].
  cbn [fold_left]. rewrite IHs. apply set_match_mode.
Qed.

(** The trigger setup leaves the mode word alone, or sets bit 0. *)
Lemma dslogic_set_trigger_mode (sdi : sr_dev_inst)
  (cfg : dslogic_fpga_config) :
  cfg_mode (dslogic_set_trigger sdi cfg)
  = match session_trigger sdi with
    | None => cfg_mode cfg
    | Some _ => or16 (cfg_mode cfg) (Z.shiftl 1 0)
    end.
Proof.
  unfold dslogic_set_trigger. destruct (session_trigger sdi) as [stages|].
  - cbn [cfg_mode]. rewrite set_matches_mode. reflexivity.
  - reflexivity.
Qed.

(** C9. The mode word that [dslogic_fpga_configure] hands to the FPGA
    has DS_MODE_RLE_MODE set if and only if continuous mode is off and
    limit_samples > DS_MAX_LOGIC_DEPTH * ceil(cur_samplerate /
    DS_MAX_LOGIC_SAMPLERATE), and clear otherwise, whenever
    cur_samplerate, the two constants and the product on the right are
    below 2^53, where the doubles the code computes with hold them
    exactly; in particular the bit is set for limit_samples =
    DS_MAX_LOGIC_DEPTH + 1 at cur_samplerate = DS_MAX_LOGIC_SAMPLERATE
    with continuous mode off. *)
Theorem dslogic_fpga_configure_rle_mode {H : dslogic_h} (bulk_ok : bool)
  (sdi : sr_dev_inst) :
  mode_bits_ok = true ->
  0 < DS_MAX_LOGIC_SAMPLERATE < 2 ^ 53 ->
  0 <= DS_MAX_LOGIC_DEPTH < 2 ^ 53 ->
  0 <= cur_samplerate (priv sdi) < 2 ^ 53 ->
  0 <= limit_samples (priv sdi) ->
  DS_MAX_LOGIC_DEPTH
  * ceil_div (cur_samplerate (priv sdi)) DS_MAX_LOGIC_SAMPLERATE < 2 ^ 53 ->
  exists cfg,
    dslogic_fpga_configure true bulk_ok sdi
    = ((if bulk_ok then SR_OK else SR_ERR), Some cfg)
    /\ (Z.land (cfg_mode cfg) DS_MODE_RLE_MODE = DS_MODE_RLE_MODE
        \/ Z.land (cfg_mode cfg) DS_MODE_RLE_MODE = 0)
    /\ (Z.land (cfg_mode cfg) DS_MODE_RLE_MODE = DS_MODE_RLE_MODE
        <-> continuous_mode (priv sdi) = false
            /\ limit_samples (priv sdi)
               > DS_MAX_LOGIC_DEPTH
                 * ceil_div (cur_samplerate (priv sdi))
                            DS_MAX_LOGIC_SAMPLERATE)
    /\ (continuous_mode (priv sdi) = false ->
        cur_samplerate (priv sdi) = DS_MAX_LOGIC_SAMPLERATE ->
        limit_samples (priv sdi) = DS_MAX_LOGIC_DEPTH + 1 ->
        Z.land (cfg_mode cfg) DS_MODE_RLE_MODE = DS_MODE_RLE_MODE).
Proof.
  intros Hok HM HD Ha HL HP. pose proof HM as [Hm _].
  pose proof (fpga_mode_word_rle (priv sdi) Hok HM HD Ha HL HP) as Hword.
  assert (Hbits : 0 < DS_MODE_RLE_MODE < 2 ^ 16
                  /\ Z.land (Z.shiftl 1 0) DS_MODE_RLE_MODE = 0).
  { unfold mode_bits_ok in Hok.
    apply andb_prop in Hok. destruct Hok as [Hok Hdis].
    apply andb_prop in Hok. destruct Hok as [H0 H16].
    apply Z.ltb_lt in H0, H16.
    cbn [forallb] in Hdis.
    repeat match type of Hdis with
           | _ && _ = true =>
               apply andb_prop in Hdis; destruct Hdis as [? Hdis]
           end.
    match goal with
    | Hb : (Z.land (Z.shiftl 1 0) _ =? 0) = true |- _ => apply Z.eqb_eq in Hb
    end.
    auto. }
  destruct Hbits as [Hr Hbit0].
  unfold dslogic_fpga_configure. cbn [negb].
  set (cfg := dslogic_set_trigger sdi _).
  assert (Hmode : Z.land (cfg_mode cfg) DS_MODE_RLE_MODE
                  = Z.land (fpga_mode_word (priv sdi)) DS_MODE_RLE_MODE).
  { unfold cfg. rewrite dslogic_set_trigger_mode. cbn [cfg_mode].
    destruct (session_trigger sdi); [|reflexivity].
    rewrite land_or16 by lia. rewrite Hbit0. apply Z.lor_0_r. }
  exists cfg. split; [destruct bulk_ok; reflexivity|].
  rewrite Hmode, Hword.
  assert (Hcond :
    (DS_MAX_LOGIC_DEPTH
     * ceil_div (cur_samplerate (priv sdi)) DS_MAX_LOGIC_SAMPLERATE
     <? limit_samples (priv sdi))
    && negb (continuous_mode (priv sdi)) = true
    <-> continuous_mode (priv sdi) = false
        /\ limit_samples (priv sdi)
           > DS_MAX_LOGIC_DEPTH
             * ceil_div (cur_samplerate (priv sdi)) DS_MAX_LOGIC_SAMPLERATE).
  { rewrite andb_true_iff, Z.ltb_lt, negb_true_iff. intuition lia. }
  destruct ((DS_MAX_LOGIC_DEPTH
             * ceil_div (cur_samplerate (priv sdi)) DS_MAX_LOGIC_SAMPLERATE
             <? limit_samples (priv sdi))
            && negb (continuous_mode (priv sdi))) eqn:Ec.
  - split; [left; reflexivity|]. split.
    + split; [intros _; apply Hcond; reflexivity | reflexivity].
    + reflexivity.
  - split; [right; reflexivity|]. split.
    + split; [intros E0; lia|].
      intros Hc. apply Hcond in Hc. discriminate.
    + intros Hcont Hcur Hlim. exfalso.
      assert (Hone : ceil_div DS_MAX_LOGIC_SAMPLERATE DS_MAX_LOGIC_SAMPLERATE
                     = 1).
      { unfold ceil_div. symmetry.
        apply (Z.div_unique _ _ 1 (DS_MAX_LOGIC_SAMPLERATE - 1)); lia. }
      assert (Hf : false = true); [|discriminate].
      apply Hcond. split; [exact Hcont|]. rewrite Hcur, Hone. lia.
Qed.

Lemma dslogic_fpga_configure_rle_mode_witness :
  exists cfg,
    @dslogic_fpga_configure dslogic_h_std true true rle_threshold_sdi
    = (SR_OK, Some cfg)
    /\ Z.land (cfg_mode cfg) (@DS_MODE_RLE_MODE dslogic_h_std)
       = @DS_MODE_RLE_MODE dslogic_h_std.
Proof.
  assert (Hrate : 0 < @DS_MAX_LOGIC_SAMPLERATE dslogic_h_std < 2 ^ 53)
    by (vm_compute; split; reflexivity).
  assert (Hdepth : 0 <= @DS_MAX_LOGIC_DEPTH dslogic_h_std < 2 ^ 53)
    by (vm_compute; split; [discriminate | reflexivity]).
  assert (Hcur : 0 <= cur_samplerate (priv rle_threshold_sdi) < 2 ^ 53)
    by (vm_compute; split; [discriminate | reflexivity]).
  assert (Hlim : 0 <= limit_samples (priv rle_threshold_sdi))
    by (vm_compute; discriminate).
  assert (Hprod : @DS_MAX_LOGIC_DEPTH dslogic_h_std
                  * ceil_div (cur_samplerate (priv rle_threshold_sdi))
                      (@DS_MAX_LOGIC_SAMPLERATE dslogic_h_std) < 2 ^ 53)
    by (vm_compute; reflexivity).
  destruct (@dslogic_fpga_configure_rle_mode dslogic_h_std true
              rle_threshold_sdi eq_refl Hrate Hdepth Hcur Hlim Hprod)
    as (cfg & Hrun & _ & _ & Hset).
  exists cfg. split; [exact Hrun|].
  apply Hset; reflexivity.
Defined.

(** C9, from 2^53 on. The test compares doubles. The samplerate
    2^30 * 10^8 + 1 is converted to 2^30 * 10^8, whose quotient by
    DS_MAX_LOGIC_SAMPLERATE = 10^8 is 2^30, where the ceiling of
    the exact quotient is 2^30 + 1; limit_samples =
    17179869184001000 is above 16000000 * 2^30 and below
    16000000 * (2^30 + 1): the bit is set with limit_samples <=
    DS_MAX_LOGIC_DEPTH * ceil(cur_samplerate /
    DS_MAX_LOGIC_SAMPLERATE). *)
Lemma dslogic_fpga_configure_rle_mode_rounded :
  exists cfg,
    @dslogic_fpga_configure dslogic_h_std true true rle_rounding_sdi
    = (SR_OK, Some cfg)
    /\ Z.land (cfg_mode cfg) (@DS_MODE_RLE_MODE dslogic_h_std)
       = @DS_MODE_RLE_MODE dslogic_h_std
    /\ continuous_mode (priv rle_rounding_sdi) = false
    /\ limit_samples (priv rle_rounding_sdi)
       <= @DS_MAX_LOGIC_DEPTH dslogic_h_std
          * ceil_div (cur_samplerate (priv rle_rounding_sdi))
                     (@DS_MAX_LOGIC_SAMPLERATE dslogic_h_std)
    /\ ~ (Z.land (cfg_mode cfg) (@DS_MODE_RLE_MODE dslogic_h_std)
          = @DS_MODE_RLE_MODE dslogic_h_std
          <-> continuous_mode (priv rle_rounding_sdi) = false
              /\ limit_samples (priv rle_rounding_sdi)
                 > @DS_MAX_LOGIC_DEPTH dslogic_h_std
                   * ceil_div (cur_samplerate (priv rle_rounding_sdi))
                              (@DS_MAX_LOGIC_SAMPLERATE dslogic_h_std)).
Proof.
  eexists. split; [vm_compute; reflexivity|].
  split; [reflexivity|]. split; [reflexivity|].
  split; [vm_compute; discriminate|].
  intros [Hset _].
  assert (Hgt : limit_samples (priv rle_rounding_sdi)
                > @DS_MAX_LOGIC_DEPTH dslogic_h_std
                  * ceil_div (cur_samplerate (priv rle_rounding_sdi))
                             (@DS_MAX_LOGIC_SAMPLERATE dslogic_h_std))
    by (apply Hset; reflexivity).
  vm_compute in Hgt. discriminate.
Qed.

End DslogicProps.

(** ** rs9lcd: digits and values *)

Module Rs9lcdDigits.
Import Sigrok Rs9lcd.

(** A boolean property checked on the 256 byte values holds of every
    byte. *)
Lemma forall_bytes (P : Z -> bool) :
  forallb P (map Z.of_nat (seq 0 256)) = true ->
  forall x, is_byte x -> P x = true.
Proof.
  intros Hall x Hx. rewrite forallb_forall in Hall. apply Hall.
  apply in_map_iff. exists (Z.to_nat x). split.
  - apply Z2Nat.id. unfold is_byte in Hx. lia.
  - apply in_seq. unfold is_byte in Hx. lia.
Qed.

(** X1. [decode_digit] reads a digit off its segment pattern whatever
    the decimal-point bit is, and a byte decodes to a digit only if it
    is that digit's pattern (or blank, for 0), with or without the
    point; every other byte gives 0xff. *)
Theorem decode_digit_patterns (x : Z) :
  is_byte x ->
  decode_digit (Z.lor x DP_MASK) = decode_digit x
  /\ (forall d, 0 <= d <= 9 ->
        decode_digit x = d <->
        Z.land x (Z.lnot DP_MASK) = lcd_of_digit d
        \/ (d = 0 /\ Z.land x (Z.lnot DP_MASK) = 0))
  /\ (decode_digit x = 0xff \/ 0 <= decode_digit x <= 9).
Proof.
  intros Hx.
  pose (P := fun x =>
    (decode_digit (Z.lor x DP_MASK) =? decode_digit x)
    && forallb (fun d =>
         Bool.eqb (decode_digit x =? d)
           ((Z.land x (Z.lnot DP_MASK) =? lcd_of_digit d)
            || ((d =? 0) && (Z.land x (Z.lnot DP_MASK) =? 0))))
         (map Z.of_nat (seq 0 10))
    && ((decode_digit x =? 0xff)
        || ((0 <=? decode_digit x) && (decode_digit x <=? 9)))).
  assert (HP : P x = true).
  { apply forall_bytes; [vm_compute; reflexivity | exact Hx]. }
  unfold P in HP. apply andb_prop in HP. destruct HP as [HP H3].
  apply andb_prop in HP. destruct HP as [H1 H2].
  split; [now apply Z.eqb_eq|]. split.
  - intros d Hd. rewrite forallb_forall in H2.
    assert (Hin : In d (map Z.of_nat (seq 0 10))).
    { apply in_map_iff. exists (Z.to_nat d). split; [lia|].
      apply in_seq. lia. }
    specialize (H2 d Hin). apply eqb_prop in H2.
    rewrite <- Z.eqb_eq, H2, orb_true_iff, andb_true_iff, !Z.eqb_eq.
    tauto.
  - apply orb_prop in H3. destruct H3 as [H3|H3].
    + left. now apply Z.eqb_eq.
    + right. apply andb_prop in H3. destruct H3 as [A B].
      apply Z.leb_le in A. apply Z.leb_le in B. lia.
Qed.

Lemma decode_digit_patterns_witness :
  decode_digit (Z.lor LCD_7 DP_MASK) = decode_digit LCD_7
  /\ decode_digit LCD_7 = 7.
Proof.
  assert (Hb : is_byte LCD_7) by (unfold is_byte, LCD_7; lia).
  destruct (decode_digit_patterns LCD_7 Hb) as [H1 [H2 _]].
  split; [exact H1|].
  apply (H2 7); [lia|]. left. reflexivity.
Defined.

End Rs9lcdDigits.

(** ** rs9lcd: the displayed value *)

Module Rs9lcdValue.
Import Sigrok Rs9lcd.

Lemma dp_test (x : Z) :
  negb (Z.land x DP_MASK =? 0) = Z.testbit x 3.
Proof.
  change DP_MASK with (2 ^ 3). rewrite land_pow2_eqb by lia.
  apply negb_involutive.
Qed.

Lemma bit_test (x m k : Z) :
  0 <= k -> m = 2 ^ k -> negb (Z.land x m =? 0) = Z.testbit x k.
Proof.
  intros Hk ->. rewrite land_pow2_eqb by lia. apply negb_involutive.
Qed.

(** One pass of the digit loop over a digit that decodes. *)
Lemma digits_loop_step (p : rs9lcd_packet) (i : Z) (rest : list Z)
  (a : digits_acc) :
  decode_digit (digit_at p i) <> 0xff ->
  digits_loop p (i :: rest) a
  = digits_loop p rest
      (mk_acc (dadd (dmul (acc_rawval a) (dZ 10))
                    (dZ (decode_digit (digit_at p i))))
              (if (i <? 3) && Z.testbit (digit_at p i) 3 || acc_dp_reached a
               then ddiv (acc_multiplier a) (dZ 10) else acc_multiplier a)
              ((i <? 3) && Z.testbit (digit_at p i) 3 || acc_dp_reached a)).
Proof.
  intros Hd. cbn [digits_loop].
  destruct (Z.eqb_spec (decode_digit (digit_at p i)) 255) as [E|_];
    [contradiction|].
  rewrite dp_test.
  destruct ((i <? 3) && Z.testbit (digit_at p i) 3); reflexivity.
Qed.

(** The chain of multiplier tests, by the bits it reads. *)
Lemma prefix_chain (p : rs9lcd_packet) (r : double) :
  (if negb (Z.land (indicatrix1 p) IND2_NANO =? 0)
   then dmul r (Some (1 # 1000000000)%Q)
   else if negb (Z.land (indicatrix2 p) IND2_MICRO =? 0)
   then dmul r (Some (1 # 1000000)%Q)
   else if negb (Z.land (indicatrix1 p) IND1_MILI =? 0)
   then dmul r (Some (1 # 1000)%Q)
   else if negb (Z.land (indicatrix1 p) IND1_KILO =? 0)
   then dmul r (dZ 1000)
   else if negb (Z.land (indicatrix1 p) IND1_MEGA =? 0)
   then dmul r (dZ 1000000)
   else r)
  = match r with
    | Some q =>
        if Z.testbit (indicatrix1 p) 6 || Z.testbit (indicatrix2 p) 7
           || Z.testbit (indicatrix1 p) 0 || Z.testbit (indicatrix1 p) 5
           || Z.testbit (indicatrix1 p) 4
        then Some (q * prefix_factor p)%Q else Some q
    | None => None
    end.
Proof.
  rewrite (bit_test _ IND2_NANO 6), (bit_test _ IND2_MICRO 7),
    (bit_test _ IND1_MILI 0), (bit_test _ IND1_KILO 5),
    (bit_test _ IND1_MEGA 4) by (reflexivity || lia).
  unfold prefix_factor, dZ.
  destruct (Z.testbit (indicatrix1 p) 6), (Z.testbit (indicatrix2 p) 7),
    (Z.testbit (indicatrix1 p) 0), (Z.testbit (indicatrix1 p) 5),
    (Z.testbit (indicatrix1 p) 4), r; reflexivity.
Qed.

(** The value of a [READ_ALL] pass over four digits that decode, in
    exact arithmetic, from the value [q0] that [rawval] holds on
    entry: the loop adds the digits to 10^4 times that value. *)
Lemma lcd_to_double_digits (q0 : Q) (p : rs9lcd_packet) :
  decode_digit (digit1 p) <> 0xff -> decode_digit (digit2 p) <> 0xff ->
  decode_digit (digit3 p) <> 0xff -> decode_digit (digit4 p) <> 0xff ->
  exists q,
    lcd_to_double (Some q0) p READ_ALL = Some q
    /\ (q == sign_factor p
             * ((q0 * inject_Z 10000
                 + inject_Z (1000 * decode_digit (digit1 p)
                             + 100 * decode_digit (digit2 p)
                             + 10 * decode_digit (digit3 p)
                             + decode_digit (digit4 p)))
                / inject_Z (10 ^ decimals p))
             * prefix_factor p)%Q.
Proof.
  intros H1 H2 H3 H4. unfold lcd_to_double.
  change (READ_ALL =? READ_TEMP) with false. cbv iota.
  rewrite !digits_loop_step
    by (first [change (digit_at p 3) with (digit1 p)
              |change (digit_at p 2) with (digit2 p)
              |change (digit_at p 1) with (digit3 p)
              |change (digit_at p 0) with (digit4 p)]; assumption).
  change (digit_at p 3) with (digit1 p). change (digit_at p 2) with (digit2 p).
  change (digit_at p 1) with (digit3 p). change (digit_at p 0) with (digit4 p).
  change (3 <? 3) with false. change (2 <? 3) with true.
  change (1 <? 3) with true. change (0 <? 3) with true.
  cbn [digits_loop acc_rawval acc_multiplier acc_dp_reached andb orb].
  rewrite (bit_test _ INFO_NEG 3) by (reflexivity || lia).
  unfold decimals, sign_factor.
  set (a := decode_digit (digit1 p)). set (b := decode_digit (digit2 p)).
  set (c := decode_digit (digit3 p)). set (d := decode_digit (digit4 p)).
  assert (Hv : q0 * inject_Z 10000
               + inject_Z (1000 * a + 100 * b + 10 * c + d)
               == (((q0 * 10 + inject_Z a) * 10 + inject_Z b) * 10
                   + inject_Z c) * 10 + inject_Z d).
  { rewrite !inject_Z_plus, !inject_Z_mult.
    change (inject_Z 10000) with (10000 # 1).
    change (inject_Z 1000) with (1000 # 1). change (inject_Z 100) with (100 # 1).
    change (inject_Z 10) with (10 # 1). ring. }
  rewrite prefix_chain.
  destruct (Z.testbit (digit2 p) 3), (Z.testbit (digit3 p) 3),
    (Z.testbit (digit4 p) 3), (Z.testbit (info p) 3);
    cbn [orb dmul dadd ddiv dZ];
    (destruct (Z.testbit (indicatrix1 p) 6 || Z.testbit (indicatrix2 p) 7
               || Z.testbit (indicatrix1 p) 0 || Z.testbit (indicatrix1 p) 5
               || Z.testbit (indicatrix1 p) 4) eqn:Epre;
     [|assert (Hone : prefix_factor p = 1%Q)
         by (unfold prefix_factor;
             repeat (apply orb_false_elim in Epre;
                     destruct Epre as [Epre ?]);
             repeat match goal with
                    | Hb : Z.testbit _ _ = false |- _ => rewrite Hb; clear Hb
                    end; reflexivity);
       rewrite Hone]);
    (eexists; split; [reflexivity|]);
    rewrite Hv;
    change (inject_Z (10 ^ 3)) with (1000 # 1);
    change (inject_Z (10 ^ 2)) with (100 # 1);
    change (inject_Z (10 ^ 1)) with (10 # 1);
    change (inject_Z (10 ^ 0)) with (1 # 1);
    change (inject_Z 1) with (1 # 1);
    change (inject_Z 10) with (10 # 1); change (inject_Z (-1)) with (-1 # 1);
    field.
Qed.

(** X2. A reading without decimal point and without a prefix below one
    (the bit tested for nano, micro and milli all off), from an integer
    z in -100000..100000 as the value the uninitialised [rawval] holds
    on entry: every step of [lcd_to_double] is then exact in a double,
    and the result is sign * (10000 z + 1000 d1 + 100 d2 + 10 d3 + d4)
    * (1, 1000 or 1000000). The reading is added to ten thousand times
    what [rawval] held. *)
Theorem lcd_to_double_value (z : Z) (p : rs9lcd_packet) :
  decode_digit (digit1 p) <> 0xff -> decode_digit (digit2 p) <> 0xff ->
  decode_digit (digit3 p) <> 0xff -> decode_digit (digit4 p) <> 0xff ->
  decimals p = 0 ->
  Z.testbit (indicatrix1 p) 6 = false ->
  Z.testbit (indicatrix2 p) 7 = false ->
  Z.testbit (indicatrix1 p) 0 = false ->
  - 100000 <= z <= 100000 ->
  deq (lcd_to_double (dZ z) p READ_ALL)
      (dZ ((if Z.testbit (info p) 3 then -1 else 1)
           * (10000 * z
              + 1000 * decode_digit (digit1 p)
              + 100 * decode_digit (digit2 p)
              + 10 * decode_digit (digit3 p)
              + decode_digit (digit4 p))
           * (if Z.testbit (indicatrix1 p) 5 then 1000
              else if Z.testbit (indicatrix1 p) 4 then 1000000 else 1))).
Proof.
  intros H1 H2 H3 H4 Hdec Hn Hu Hm Hz.
  destruct (lcd_to_double_digits (inject_Z z) p H1 H2 H3 H4) as [q [Eq Hq]].
  unfold dZ in *. rewrite Eq. unfold deq. rewrite Hq, Hdec.
  unfold sign_factor, prefix_factor. rewrite Hn, Hu, Hm.
  destruct (Z.testbit (info p) 3), (Z.testbit (indicatrix1 p) 5),
    (Z.testbit (indicatrix1 p) 4);
    rewrite !inject_Z_mult, !inject_Z_plus, !inject_Z_mult;
    change (inject_Z (10 ^ 0)) with (1 # 1);
    change (inject_Z 10000) with (10000 # 1);
    change (inject_Z 1000000) with (1000000 # 1);
    change (inject_Z 1000) with (1000 # 1);
    change (inject_Z 100) with (100 # 1);
    change (inject_Z 10) with (10 # 1);
    change (inject_Z 1) with (1 # 1);
    change (inject_Z (-1)) with (-1 # 1);
    field.
Qed.

Lemma lcd_to_double_value_witness :
  sr_rs9lcd_packet_valid kilohertz_frame = true
  /\ deq (lcd_to_double (dZ 0) (cast_packet kilohertz_frame) READ_ALL)
         (dZ 1234000)
  /\ deq (lcd_to_double (dZ 1234) (cast_packet kilohertz_frame) READ_ALL)
         (dZ 12341234000).
Proof.
  split; [reflexivity|]. split.
  - apply (lcd_to_double_value 0 (cast_packet kilohertz_frame));
      try reflexivity; try (vm_compute; discriminate); lia.
  - apply (lcd_to_double_value 1234 (cast_packet kilohertz_frame));
      try reflexivity; try (vm_compute; discriminate); lia.
Defined.

(** The digit loop stops at a byte that does not decode and leaves
    NaN behind. *)
Lemma digits_loop_break (p : rs9lcd_packet) (i : Z) (rest : list Z)
  (a : digits_acc) :
  decode_digit (digit_at p i) = 0xff ->
  acc_rawval (digits_loop p (i :: rest) a) = NAN.
Proof.
  intros Hd. cbn [digits_loop]. rewrite Hd. reflexivity.
Qed.

(** A NaN in [rawval] stays through the rest of the loop. *)
Lemma digits_loop_nan (p : rs9lcd_packet) (idx : list Z) :
  forall a : digits_acc,
    acc_rawval a = NAN -> acc_rawval (digits_loop p idx a) = NAN.
Proof.
  induction idx as [|i rest IH]; intros a Ha; [exact Ha|].
  cbn [digits_loop].
  destruct (decode_digit (digit_at p i) =? 255); [reflexivity|].
  apply IH. cbn [acc_rawval]. rewrite Ha. reflexivity.
Qed.

(** Over digits that decode, the loop keeps a number a number. *)
Lemma digits_loop_some (p : rs9lcd_packet) (idx : list Z) :
  (forall i, In i idx -> decode_digit (digit_at p i) <> 0xff) ->
  forall a : digits_acc,
    isnan (acc_rawval a) = false -> isnan (acc_multiplier a) = false ->
    isnan (acc_rawval (digits_loop p idx a)) = false
    /\ isnan (acc_multiplier (digits_loop p idx a)) = false.
Proof.
  induction idx as [|i rest IH]; intros Hd a Hr Hm; [split; assumption|].
  rewrite digits_loop_step by (apply Hd; left; reflexivity).
  apply IH.
  - intros j Hj. apply Hd. right. exact Hj.
  - cbn [acc_rawval]. destruct (acc_rawval a); [reflexivity|discriminate].
  - cbn [acc_multiplier].
    destruct (acc_multiplier a); [|discriminate].
    destruct (_ || _); reflexivity.
Qed.

(** Whatever follows the digit loop keeps a NaN, and a number. *)
Lemma lcd_to_double_isnan (rawval0 : double) (p : rs9lcd_packet)
  (type : Z) :
  let a := digits_loop p
             (if type =? READ_TEMP then [3; 2; 1] else [3; 2; 1; 0])
             (mk_acc rawval0 (dZ 1) false) in
  isnan (lcd_to_double rawval0 p type)
  = isnan (acc_rawval a) || isnan (acc_multiplier a).
Proof.
  cbv zeta. unfold lcd_to_double.
  set (a := digits_loop p _ _).
  destruct (acc_rawval a) as [r|], (acc_multiplier a) as [m|];
    cbn [dmul isnan orb];
    repeat match goal with
           | |- context [if ?b then _ else _] => destruct b
           end; reflexivity.
Qed.

(** A pass over digits that all decode returns NaN exactly when
    [rawval] held NaN on entry. *)
Lemma lcd_to_double_good_digits (rawval0 : double) (p : rs9lcd_packet)
  (type : Z) :
  (forall i, In i (if type =? READ_TEMP then [3; 2; 1] else [3; 2; 1; 0]) ->
             decode_digit (digit_at p i) <> 0xff) ->
  isnan (lcd_to_double rawval0 p type) = isnan rawval0.
Proof.
  intros Hd. rewrite lcd_to_double_isnan. cbv zeta.
  destruct rawval0 as [q0|].
  - destruct (digits_loop_some p _ Hd (mk_acc (Some q0) (dZ 1) false)
                eq_refl eq_refl) as [-> ->].
    reflexivity.
  - rewrite digits_loop_nan by reflexivity. reflexivity.
Qed.

(** A [READ_ALL] pass over a digit byte that does not decode gives
    NaN. *)
Lemma lcd_to_double_bad_digit (rawval0 : double) (p : rs9lcd_packet) :
  decode_digit (digit1 p) = 0xff \/ decode_digit (digit2 p) = 0xff
  \/ decode_digit (digit3 p) = 0xff \/ decode_digit (digit4 p) = 0xff ->
  isnan (lcd_to_double rawval0 p READ_ALL) = true.
Proof.
  intros Hbad. rewrite lcd_to_double_isnan. cbv zeta.
  change (READ_ALL =? READ_TEMP) with false. cbv iota.
  apply orb_true_iff. left.
  assert (Hn : forall a, acc_rawval (digits_loop p [3; 2; 1; 0] a) = NAN);
    [|rewrite Hn; reflexivity].
  intros a.
  destruct (Z.eq_dec (decode_digit (digit1 p)) 0xff) as [E1|N1].
  { apply digits_loop_break. exact E1. }
  rewrite digits_loop_step by exact N1.
  destruct (Z.eq_dec (decode_digit (digit2 p)) 0xff) as [E2|N2].
  { apply digits_loop_break. exact E2. }
  rewrite digits_loop_step by exact N2.
  destruct (Z.eq_dec (decode_digit (digit3 p)) 0xff) as [E3|N3].
  { apply digits_loop_break. exact E3. }
  rewrite digits_loop_step by exact N3.
  destruct (Z.eq_dec (decode_digit (digit4 p)) 0xff) as [E4|N4].
  { apply digits_loop_break. exact E4. }
  tauto.
Qed.

(** X3. Whatever the uninitialised [rawval] holds on entry, a
    [READ_ALL] pass returns NaN exactly when that value is NaN or one
    of the four digit bytes is not a digit pattern. *)
Theorem lcd_to_double_nan (rawval0 : double) (p : rs9lcd_packet) :
  isnan (lcd_to_double rawval0 p READ_ALL) = true
  <-> isnan rawval0 = true
      \/ decode_digit (digit1 p) = 0xff \/ decode_digit (digit2 p) = 0xff
      \/ decode_digit (digit3 p) = 0xff \/ decode_digit (digit4 p) = 0xff.
Proof.
  destruct (Z.eq_dec (decode_digit (digit1 p)) 0xff) as [E1|N1];
    [rewrite lcd_to_double_bad_digit by tauto; tauto|].
  destruct (Z.eq_dec (decode_digit (digit2 p)) 0xff) as [E2|N2];
    [rewrite lcd_to_double_bad_digit by tauto; tauto|].
  destruct (Z.eq_dec (decode_digit (digit3 p)) 0xff) as [E3|N3];
    [rewrite lcd_to_double_bad_digit by tauto; tauto|].
  destruct (Z.eq_dec (decode_digit (digit4 p)) 0xff) as [E4|N4];
    [rewrite lcd_to_double_bad_digit by tauto; tauto|].
  rewrite lcd_to_double_good_digits.
  - tauto.
  - change (READ_ALL =? READ_TEMP) with false. cbv iota.
    intros i Hi. cbn [In] in Hi.
    destruct Hi as [<- | [<- | [<- | [<- | []]]]]; assumption.
Qed.

Lemma lcd_to_double_nan_witness :
  isnan (lcd_to_double (dZ 1234) (cast_packet celsius_frame) READ_ALL) = true
  /\ isnan (lcd_to_double NAN (cast_packet kilohertz_frame) READ_ALL) = true.
Proof.
  split.
  - apply (lcd_to_double_nan (dZ 1234) (cast_packet celsius_frame)).
    right. right. right. right. reflexivity.
  - apply (lcd_to_double_nan NAN (cast_packet kilohertz_frame)).
    left. reflexivity.
Defined.

(** The flags added after the mode switch leave mq, unit and data
    alone. *)
Lemma parse_tail_fields (p : rs9lcd_packet) (a : sr_datafeed_analog) :
  let a1 := if negb (Z.land (info p) INFO_HOLD =? 0)
            then or_mqflags SR_MQFLAG_HOLD a else a in
  let a2 := if negb (Z.land (digit4 p) DIG4_MAX =? 0)
            then or_mqflags SR_MQFLAG_MAX a1 else a1 in
  let a3 := if negb (Z.land (indicatrix2 p) IND2_MIN =? 0)
            then or_mqflags SR_MQFLAG_MIN a2 else a2 in
  let a4 := if negb (Z.land (info p) INFO_AUTO =? 0)
            then or_mqflags SR_MQFLAG_AUTORANGE a3 else a3 in
  mq a4 = mq a /\ unit a4 = unit a /\ data a4 = data a.
Proof.
  cbv zeta.
  destruct (negb (Z.land (info p) INFO_HOLD =? 0)),
    (negb (Z.land (digit4 p) DIG4_MAX =? 0)),
    (negb (Z.land (indicatrix2 p) IND2_MIN =? 0)),
    (negb (Z.land (info p) INFO_AUTO =? 0));
    repeat split; reflexivity.
Qed.

(** X4. For a frame in mode TEMP whose first three digits decode,
    whatever the uninitialised [rawval] holds in the two passes:
    [sr_rs9lcd_parse] returns SR_OK with mq temperature and the unit
    chosen by the letter in digit4; [*analog->data] is NaN exactly when
    the second pass found NaN in [rawval]; when the letter is C the
    value returned through [floatval] is NaN, since the full pass reads
    the letter as a digit, and so is [*analog->data] when the second
    pass starts from what the first one returned. *)
Theorem sr_rs9lcd_parse_temperature (rawval0 rawval1 : double)
  (buf : list Z) (analog : sr_datafeed_analog) :
  nth 0 buf 0 = MODE_TEMP ->
  decode_digit (digit1 (cast_packet buf)) <> 0xff ->
  decode_digit (digit2 (cast_packet buf)) <> 0xff ->
  decode_digit (digit3 (cast_packet buf)) <> 0xff ->
  let p := cast_packet buf in
  let ret := fst (fst (sr_rs9lcd_parse rawval0 rawval1 buf analog)) in
  let floatval := snd (fst (sr_rs9lcd_parse rawval0 rawval1 buf analog)) in
  let out := snd (sr_rs9lcd_parse rawval0 rawval1 buf analog) in
  ret = SR_OK
  /\ mq out = SR_MQ_TEMPERATURE
  /\ unit out = (if is_celsius p then SR_UNIT_CELSIUS
                 else SR_UNIT_FAHRENHEIT)
  /\ isnan (data out) = isnan rawval1
  /\ (is_celsius p = true -> isnan floatval = true)
  /\ (is_celsius p = true -> rawval1 = floatval ->
      isnan (data out) = true).
Proof.
  intros Hm H1 H2 H3 p ret floatval out.
  assert (Hsw : forall r,
             mode_switch rawval1 r p analog = case_MODE_TEMP rawval1 p analog).
  { intros r. unfold mode_switch.
    change (mode p) with (nth 0 buf 0). rewrite Hm. reflexivity. }
  pose proof (parse_tail_fields p
                (mode_switch rawval1 (lcd_to_double rawval0 p READ_ALL) p
                             analog)) as Htail.
  cbv zeta in Htail. destruct Htail as [Hmq [Hunit Hdata]].
  assert (Hfv : is_celsius p = true -> isnan floatval = true).
  { intros Hc. unfold floatval, sr_rs9lcd_parse. cbn [fst snd]. fold p.
    apply lcd_to_double_bad_digit.
    right. right. right.
    unfold is_celsius in Hc. apply Z.eqb_eq in Hc.
    unfold decode_digit. rewrite Hc. reflexivity. }
  assert (Hdat : isnan (data out) = isnan rawval1).
  { unfold out, sr_rs9lcd_parse. cbn [snd]. fold p.
    rewrite Hdata, Hsw.
    unfold case_MODE_TEMP. cbn [data set_mq set_data set_unit].
    apply lcd_to_double_good_digits.
    change (READ_TEMP =? READ_TEMP) with true. cbv iota.
    intros i Hi. cbn [In] in Hi.
    destruct Hi as [<- | [<- | [<- | []]]]; assumption. }
  split; [reflexivity|].
  split.
  { unfold out, sr_rs9lcd_parse. cbn [snd]. fold p.
    rewrite Hmq, Hsw. reflexivity. }
  split.
  { unfold out, sr_rs9lcd_parse. cbn [snd]. fold p.
    rewrite Hunit, Hsw. reflexivity. }
  split; [exact Hdat|]. split; [exact Hfv|].
  intros Hc Hcarry. rewrite Hdat, Hcarry. apply Hfv. exact Hc.
Qed.

Lemma sr_rs9lcd_parse_temperature_witness :
  sr_rs9lcd_packet_valid celsius_frame = true
  /\ unit (snd (sr_rs9lcd_parse (dZ 0) NAN celsius_frame analog0))
     = SR_UNIT_CELSIUS
  /\ isnan (snd (fst (sr_rs9lcd_parse (dZ 0) NAN celsius_frame analog0)))
     = true
  /\ isnan (data (snd (sr_rs9lcd_parse (dZ 0) NAN celsius_frame analog0)))
     = true.
Proof.
  split; [reflexivity|].
  assert (Hm : nth 0 celsius_frame 0 = MODE_TEMP) by reflexivity.
  assert (H1 : decode_digit (digit1 (cast_packet celsius_frame)) <> 0xff)
    by (vm_compute; discriminate).
  assert (H2 : decode_digit (digit2 (cast_packet celsius_frame)) <> 0xff)
    by (vm_compute; discriminate).
  assert (H3 : decode_digit (digit3 (cast_packet celsius_frame)) <> 0xff)
    by (vm_compute; discriminate).
  destruct (sr_rs9lcd_parse_temperature (dZ 0) NAN celsius_frame analog0
              Hm H1 H2 H3)
    as [_ [_ [Hu [_ [Hf Hd]]]]].
  split; [exact Hu|]. split; [apply Hf; reflexivity|].
  apply Hd; reflexivity.
Defined.

End Rs9lcdValue.

(** ** rs9lcd: frame validation *)

Module Rs9lcdFrames.
Import Sigrok Rs9lcd Rs9lcdProps Rs9lcdValue.

(** A list of nine elements, spelled out. *)
Lemma nine_bytes (buf : list Z) :
  length buf = 9%nat ->
  exists b0 b1 b2 b3 b4 b5 b6 b7 b8,
    buf = [b0; b1; b2; b3; b4; b5; b6; b7; b8].
Proof.
  intros Hlen.
  do 9 (destruct buf as [|? buf]; [discriminate Hlen|]).
  destruct buf; [|discriminate Hlen].
  repeat eexists.
Qed.

Lemma selection_good_bits (buf : list Z) :
  selection_good (cast_packet buf) = true
  <-> (count_set (multiplier_bits buf) <= 1)%nat
      /\ (count_set (quantity_bits buf) <= 1)%nat.
Proof.
  unfold selection_good.
  rewrite multiplier_count_bits, quantity_count_bits.
  destruct (Z.ltb_spec 1 (Z.of_nat (count_set (multiplier_bits buf))));
    [split; [discriminate | lia]|].
  destruct (Z.ltb_spec 1 (Z.of_nat (count_set (quantity_bits buf))));
    [split; [discriminate | lia]|].
  split; [lia | reflexivity].
Qed.

(** The checksum test of a nine-byte frame, as an equation on its
    bytes. *)
Lemma checksum_valid_bytes (b0 b1 b2 b3 b4 b5 b6 b7 b8 : Z) :
  0 <= b8 < 256 ->
  checksum_valid (cast_packet [b0; b1; b2; b3; b4; b5; b6; b7; b8]) = true
  <-> (b0 + b1 + b2 + b3 + b4 + b5 + b6 + b7 + 57) mod 256 = b8.
Proof.
  intros Hc.
  exact (checksum_valid_spec
           (cast_packet [b0; b1; b2; b3; b4; b5; b6; b7; b8]) Hc).
Qed.

(** X5. A nine-byte frame is accepted by [sr_rs9lcd_packet_valid]
    exactly when its mode byte is below MODE_INVALID, byte 8 equals
    (sum of bytes 0..7 + 57) mod 256, at most one multiplier indicator
    and at most one quantity indicator is lit. *)
Theorem sr_rs9lcd_packet_valid_iff (buf : list Z) :
  length buf = 9%nat ->
  Forall is_byte buf ->
  sr_rs9lcd_packet_valid buf = true
  <-> nth 0 buf 0 < MODE_INVALID
      /\ (frame_sum buf + 57) mod 256 = nth 8 buf 0
      /\ (count_set (multiplier_bits buf) <= 1)%nat
      /\ (count_set (quantity_bits buf) <= 1)%nat.
Proof.
  intros Hlen Hbytes.
  destruct (nine_bytes buf Hlen)
    as (b0 & b1 & b2 & b3 & b4 & b5 & b6 & b7 & b8 & ->).
  assert (Hc : 0 <= b8 < 256).
  { repeat match goal with
           | Hf : Forall _ (_ :: _) |- _ => inversion Hf; subst; clear Hf
           end.
    unfold is_byte in *. assumption. }
  pose proof (checksum_valid_bytes b0 b1 b2 b3 b4 b5 b6 b7 b8 Hc) as Hcs.
  pose proof (selection_good_bits [b0; b1; b2; b3; b4; b5; b6; b7; b8])
    as Hsel.
  assert (Hsum : frame_sum [b0; b1; b2; b3; b4; b5; b6; b7; b8]
                 = b0 + b1 + b2 + b3 + b4 + b5 + b6 + b7).
  { unfold frame_sum. cbn [firstn fold_right]. lia. }
  rewrite Hsum. cbn [nth].
  unfold sr_rs9lcd_packet_valid.
  change (mode (cast_packet [b0; b1; b2; b3; b4; b5; b6; b7; b8])) with b0.
  destruct (Z.ltb_spec b0 MODE_INVALID) as [Hm|Hm]; cbn [negb].
  - destruct (checksum_valid _) eqn:Ecs; cbn [negb].
    + destruct (selection_good _) eqn:Esel; cbn [negb].
      * split; [|reflexivity]. intros _.
        split; [exact Hm|]. split; [now apply Hcs|]. now apply Hsel.
      * split; [discriminate|]. intros (_ & _ & Hb).
        apply Hsel in Hb. discriminate.
    + split; [discriminate|]. intros (_ & Hb & _).
      apply Hcs in Hb. discriminate.
  - split; [discriminate|]. intros (Hb & _). lia.
Qed.

Lemma sr_rs9lcd_packet_valid_iff_witness :
  sr_rs9lcd_packet_valid millivolt_frame = true
  <-> nth 0 millivolt_frame 0 < MODE_INVALID
      /\ (frame_sum millivolt_frame + 57) mod 256 = nth 8 millivolt_frame 0
      /\ (count_set (multiplier_bits millivolt_frame) <= 1)%nat
      /\ (count_set (quantity_bits millivolt_frame) <= 1)%nat.
Proof.
  apply (sr_rs9lcd_packet_valid_iff millivolt_frame).
  - reflexivity.
  - repeat constructor; unfold is_byte; vm_compute; intuition discriminate.
Defined.

(** X6. Replacing any one byte of an accepted frame by a different
    byte value gives a frame that [sr_rs9lcd_packet_valid] rejects. *)
Theorem sr_rs9lcd_packet_valid_single_byte (buf : list Z) (i : nat) (v : Z) :
  length buf = 9%nat ->
  Forall is_byte buf ->
  is_byte v ->
  (i < 9)%nat ->
  v <> nth i buf 0 ->
  sr_rs9lcd_packet_valid buf = true ->
  sr_rs9lcd_packet_valid (with_byte buf i v) = false.
Proof.
  intros Hlen Hbytes Hv Hi Hne Hvalid.
  destruct (nine_bytes buf Hlen)
    as (b0 & b1 & b2 & b3 & b4 & b5 & b6 & b7 & b8 & ->).
  assert (Hb : is_byte b0 /\ is_byte b1 /\ is_byte b2 /\ is_byte b3
               /\ is_byte b4 /\ is_byte b5 /\ is_byte b6 /\ is_byte b7
               /\ is_byte b8).
  { repeat match goal with
           | Hf : Forall _ (_ :: _) |- _ => inversion Hf; subst; clear Hf
           end.
    repeat match goal with |- _ /\ _ => split end; assumption. }
  destruct Hb as (B0 & B1 & B2 & B3 & B4 & B5 & B6 & B7 & B8).
  unfold is_byte in *.
  assert (Hcs : (b0 + b1 + b2 + b3 + b4 + b5 + b6 + b7 + 57) mod 256 = b8).
  { apply checksum_valid_bytes; [exact B8|].
    unfold sr_rs9lcd_packet_valid in Hvalid.
    destruct (negb (mode _ <? MODE_INVALID)); [discriminate|].
    destruct (checksum_valid _); [reflexivity | discriminate]. }
  assert (Hrej : forall c0 c1 c2 c3 c4 c5 c6 c7 c8,
             0 <= c8 < 256 ->
             (c0 + c1 + c2 + c3 + c4 + c5 + c6 + c7 + 57) mod 256 <> c8 ->
             sr_rs9lcd_packet_valid [c0; c1; c2; c3; c4; c5; c6; c7; c8]
             = false).
  { intros c0 c1 c2 c3 c4 c5 c6 c7 c8 Hc8 Hbad.
    unfold sr_rs9lcd_packet_valid.
    destruct (negb (mode _ <? MODE_INVALID)); [reflexivity|].
    destruct (checksum_valid _) eqn:Ecs; [|reflexivity].
    apply checksum_valid_bytes in Ecs; [contradiction | exact Hc8]. }
  rewrite Z.mod_eq in Hcs by lia.
  do 9 (destruct i as [|i]; [cbn [nth] in Hne; unfold with_byte;
                             cbn [firstn skipn app];
                             apply Hrej; [lia|];
                             rewrite Z.mod_eq by lia; lia|]).
  lia.
Qed.

Lemma sr_rs9lcd_packet_valid_single_byte_witness :
  sr_rs9lcd_packet_valid dc_volts_frame = true
  /\ sr_rs9lcd_packet_valid (with_byte dc_volts_frame 4 LCD_8) = false.
Proof.
  split; [reflexivity|].
  apply (sr_rs9lcd_packet_valid_single_byte dc_volts_frame 4 LCD_8).
  - reflexivity.
  - repeat constructor; unfold is_byte; vm_compute; intuition discriminate.
  - unfold is_byte, LCD_8. lia.
  - lia.
  - vm_compute. discriminate.
  - reflexivity.
Defined.

End Rs9lcdFrames.

(** ** rs9lcd: flags and modes *)

Module Rs9lcdFlags.
Import Sigrok Rs9lcd Rs9lcdValue.

Lemma has_flag_testbit (x k : Z) :
  0 <= k -> has_flag (2 ^ k) x = Z.testbit x k.
Proof.
  intros Hk. unfold has_flag. rewrite land_pow2_eqb by exact Hk.
  apply negb_involutive.
Qed.

(** The mode switch only ever adds AC, DC or DIODE|DC to the flags. *)
Lemma mode_switch_mqflags (r1 r : double) (p : rs9lcd_packet)
  (a : sr_datafeed_analog) :
  mqflags (mode_switch r1 r p a) = mqflags a
  \/ mqflags (mode_switch r1 r p a) = Z.lor (mqflags a) SR_MQFLAG_AC
  \/ mqflags (mode_switch r1 r p a) = Z.lor (mqflags a) SR_MQFLAG_DC
  \/ mqflags (mode_switch r1 r p a)
     = Z.lor (mqflags a) (Z.lor SR_MQFLAG_DIODE SR_MQFLAG_DC).
Proof.
  unfold mode_switch, case_MODE_TEMP.
  repeat match goal with
         | |- context [if mode p =? ?c then _ else _] =>
             destruct (mode p =? c)
         | |- context [if (mode p =? ?c1) || (mode p =? ?c2)
                          || (mode p =? ?c3) then _ else _] =>
             destruct ((mode p =? c1) || (mode p =? c2) || (mode p =? c3))
         | |- context [if negb (isnan r) then _ else _] =>
             destruct (negb (isnan r))
         end;
    cbn [mqflags or_mqflags set_mq_unit set_mq set_unit set_data]; tauto.
Qed.

(** The flags of the packet that leaves [sr_rs9lcd_parse]. *)
Lemma parse_mqflags (r0 r1 : double) (buf : list Z)
  (analog : sr_datafeed_analog) :
  let p := cast_packet buf in
  mqflags (snd (sr_rs9lcd_parse r0 r1 buf analog))
  = Z.lor
      (Z.lor
         (Z.lor
            (Z.lor (mqflags (mode_switch r1 (lcd_to_double r0 p READ_ALL)
                                         p analog))
                   (if Z.testbit (info p) 4 then SR_MQFLAG_HOLD else 0))
            (if Z.testbit (digit4 p) 3 then SR_MQFLAG_MAX else 0))
         (if Z.testbit (indicatrix2 p) 0 then SR_MQFLAG_MIN else 0))
      (if Z.testbit (info p) 0 then SR_MQFLAG_AUTORANGE else 0).
Proof.
  intros p. unfold sr_rs9lcd_parse. cbn [snd]. fold p.
  rewrite (bit_test _ INFO_HOLD 4), (bit_test _ DIG4_MAX 3),
    (bit_test _ IND2_MIN 0), (bit_test _ INFO_AUTO 0)
    by (reflexivity || lia).
  destruct (Z.testbit (info p) 4), (Z.testbit (digit4 p) 3),
    (Z.testbit (indicatrix2 p) 0), (Z.testbit (info p) 0);
    cbn [mqflags or_mqflags]; rewrite ?Z.lor_0_r; reflexivity.
Qed.

(** X7. Called with [analog->mqflags] zero, [sr_rs9lcd_parse] reports
    HOLD, MAX, MIN and AUTORANGE exactly when the frame has INFO_HOLD,
    DIG4_MAX, IND2_MIN and INFO_AUTO set; it never reports AC together
    with DC, and never RMS. *)
Theorem sr_rs9lcd_parse_mqflags (r0 r1 : double) (buf : list Z)
  (analog : sr_datafeed_analog) :
  mqflags analog = 0 ->
  let p := cast_packet buf in
  let f := mqflags (snd (sr_rs9lcd_parse r0 r1 buf analog)) in
  has_flag SR_MQFLAG_HOLD f = has_flag INFO_HOLD (info p)
  /\ has_flag SR_MQFLAG_MAX f = has_flag DIG4_MAX (digit4 p)
  /\ has_flag SR_MQFLAG_MIN f = has_flag IND2_MIN (indicatrix2 p)
  /\ has_flag SR_MQFLAG_AUTORANGE f = has_flag INFO_AUTO (info p)
  /\ has_flag SR_MQFLAG_AC f && has_flag SR_MQFLAG_DC f = false
  /\ has_flag SR_MQFLAG_RMS f = false.
Proof.
  intros H0 p f. unfold f. rewrite parse_mqflags. fold p.
  change SR_MQFLAG_HOLD with (2 ^ 4) at 1.
  change SR_MQFLAG_MAX with (2 ^ 5) at 1.
  change SR_MQFLAG_MIN with (2 ^ 6) at 1.
  change SR_MQFLAG_AUTORANGE with (2 ^ 7) at 1.
  change SR_MQFLAG_AC with (2 ^ 0) at 1.
  change SR_MQFLAG_DC with (2 ^ 1) at 1.
  change SR_MQFLAG_RMS with (2 ^ 2).
  change INFO_HOLD with (2 ^ 4). change DIG4_MAX with (2 ^ 3).
  change IND2_MIN with (2 ^ 0). change INFO_AUTO with (2 ^ 0).
  rewrite !has_flag_testbit by lia.
  rewrite !Z.lor_spec.
  destruct (mode_switch_mqflags r1 (lcd_to_double r0 p READ_ALL) p analog)
    as [E | [E | [E | E]]];
    rewrite E, H0;
    destruct (Z.testbit (info p) 4), (Z.testbit (digit4 p) 3),
      (Z.testbit (indicatrix2 p) 0), (Z.testbit (info p) 0);
    repeat split; reflexivity.
Qed.

Lemma sr_rs9lcd_parse_mqflags_witness :
  has_flag SR_MQFLAG_DC
    (mqflags (snd (sr_rs9lcd_parse (dZ 0) (dZ 0) millivolt_frame analog0)))
  = true
  /\ has_flag SR_MQFLAG_HOLD
       (mqflags (snd (sr_rs9lcd_parse (dZ 0) (dZ 0) millivolt_frame analog0)))
     = has_flag INFO_HOLD (info (cast_packet millivolt_frame)).
Proof.
  split; [reflexivity|].
  apply (sr_rs9lcd_parse_mqflags (dZ 0) (dZ 0) millivolt_frame analog0).
  reflexivity.
Defined.

(** The measured quantities [sr_rs9lcd_parse] can assign. *)
Lemma mode_switch_known (r1 r : double) (p : rs9lcd_packet)
  (a : sr_datafeed_analog) :
  mode_known (mode p) = true ->
  In (mq (mode_switch r1 r p a))
     [SR_MQ_VOLTAGE; SR_MQ_CURRENT; SR_MQ_RESISTANCE; SR_MQ_CAPACITANCE;
      SR_MQ_TEMPERATURE; SR_MQ_FREQUENCY; SR_MQ_DUTY_CYCLE;
      SR_MQ_CONTINUITY; SR_MQ_POWER; SR_MQ_GAIN].
Proof.
  intros Hk. unfold mode_known in Hk.
  apply andb_prop in Hk. destruct Hk as [Hk H24].
  apply andb_prop in Hk. destruct Hk as [Hlo Hhi].
  apply Z.leb_le in Hlo. apply Z.ltb_lt in Hhi.
  apply negb_true_iff, Z.eqb_neq in H24. unfold MODE_INVALID in Hhi.
  assert (Hcases : In (mode p)
                     [0; 1; 2; 3; 4; 5; 6; 7; 8; 9; 10; 11; 12; 13; 14; 15;
                      16; 17; 18; 19; 20; 21; 22; 23; 25]).
  { cbn [In]. lia. }
  unfold mode_switch, case_MODE_TEMP.
  cbn [In] in Hcases.
  repeat (destruct Hcases as [<- | Hcases];
          [cbn; try destruct (negb (isnan r)); cbn; tauto|]).
  contradiction.
Qed.

Lemma mode_switch_unknown (r1 r : double) (p : rs9lcd_packet)
  (a : sr_datafeed_analog) :
  mode_known (mode p) = false -> mode_switch r1 r p a = a.
Proof.
  intros Hk. unfold mode_known in Hk.
  assert (Hm : mode p < 0 \/ MODE_INVALID <= mode p \/ mode p = 24).
  { destruct (Z.leb_spec 0 (mode p)); [|lia].
    destruct (Z.ltb_spec (mode p) MODE_INVALID); [|lia].
    destruct (Z.eqb_spec (mode p) 24); [lia | discriminate]. }
  unfold MODE_INVALID in Hm. unfold mode_switch.
  repeat match goal with
         | |- context [?x =? ?c] =>
             destruct (Z.eqb_spec x c) as [Ec|_];
             [exfalso; revert Ec; cbv delta -[Z.lt Z.le mode]; lia|]
         end.
  reflexivity.
Qed.

(** X8. [sr_rs9lcd_parse] returns SR_OK for every frame. For the modes
    it has a case for it assigns one of ten measured quantities; for
    any other mode byte, 24 included, it leaves mq, unit and the data
    value as the caller passed them. *)
Theorem sr_rs9lcd_parse_modes (r0 r1 : double) (buf : list Z)
  (analog : sr_datafeed_analog) :
  let ret := fst (fst (sr_rs9lcd_parse r0 r1 buf analog)) in
  let out := snd (sr_rs9lcd_parse r0 r1 buf analog) in
  ret = SR_OK
  /\ (mode_known (nth 0 buf 0) = true ->
      In (mq out)
         [SR_MQ_VOLTAGE; SR_MQ_CURRENT; SR_MQ_RESISTANCE; SR_MQ_CAPACITANCE;
          SR_MQ_TEMPERATURE; SR_MQ_FREQUENCY; SR_MQ_DUTY_CYCLE;
          SR_MQ_CONTINUITY; SR_MQ_POWER; SR_MQ_GAIN])
  /\ (mode_known (nth 0 buf 0) = false ->
      mq out = mq analog /\ unit out = unit analog
      /\ data out = data analog).
Proof.
  intros ret out. split; [reflexivity|].
  pose proof (parse_tail_fields (cast_packet buf)
                (mode_switch r1
                   (lcd_to_double r0 (cast_packet buf) READ_ALL)
                   (cast_packet buf) analog)) as Htail.
  cbv zeta in Htail. destruct Htail as [Hmq [Hunit Hdata]].
  unfold out, sr_rs9lcd_parse. cbn [snd].
  rewrite Hmq, Hunit, Hdata.
  split; intros Hk.
  - apply mode_switch_known. exact Hk.
  - rewrite mode_switch_unknown by exact Hk. repeat split.
Qed.

Lemma sr_rs9lcd_parse_modes_witness :
  mq (snd (sr_rs9lcd_parse (dZ 0) (dZ 0) mode24_frame analog0)) = mq analog0
  /\ mq (snd (sr_rs9lcd_parse (dZ 0) (dZ 0) millivolt_frame analog0))
     = SR_MQ_VOLTAGE.
Proof.
  split.
  - destruct (sr_rs9lcd_parse_modes (dZ 0) (dZ 0) mode24_frame analog0)
      as (_ & _ & Hu).
    destruct (Hu eq_refl) as (Hmq & _). exact Hmq.
  - reflexivity.
Defined.

End Rs9lcdFlags.

(** ** OLS: words on the wire *)

Module OlsWire.
Import Sigrok Ols.

(** Bit [n] of an expression built from masks, shifts and reductions
    modulo a power of two, in terms of the bits of its variables; the
    context says in which byte [n] lies. *)
Ltac bits_step :=
  match goal with
  | |- context [Z.testbit (Z.lor ?a ?b) ?m] => rewrite (Z.lor_spec a b m)
  | |- context [Z.testbit (Z.land ?a ?b) ?m] => rewrite (Z.land_spec a b m)
  | |- context [Z.testbit ?a ?m] => rewrite (Z.testbit_neg_r a m) by lia
  | |- context [Z.testbit (?a mod 2 ^ ?k) ?m] =>
      rewrite (Z.testbit_mod_pow2 a k m) by lia
  | |- context [Z.testbit (Z.shiftl ?a ?k) ?m] =>
      rewrite (Z.shiftl_spec a k m) by lia
  | |- context [Z.testbit (Z.shiftr ?a ?k) ?m] =>
      rewrite (Z.shiftr_spec a k m) by lia
  | |- context [Z.testbit (Z.ones ?k) ?m] =>
      rewrite (Z.testbit_ones k m) by lia
  end.

Ltac bits_of n :=
  change 0xff with (Z.ones 8);
  change 0xff00 with (Z.shiftl (Z.ones 8) 8);
  change 0xff0000 with (Z.shiftl (Z.ones 8) 16);
  change 0xff000000 with (Z.shiftl (Z.ones 8) 24);
  change 0xffff with (Z.ones 16);
  unfold u32, u16, u8;
  repeat bits_step.

(** Decide the comparisons left by [bits_of] and match the remaining
    bit tests. *)
Ltac bits_done :=
  repeat match goal with
         | |- context [?a <? ?b] => destruct (Z.ltb_spec a b); try lia
         | |- context [?a <=? ?b] => destruct (Z.leb_spec a b); try lia
         end;
  cbn [andb orb];
  rewrite ?andb_false_r, ?andb_true_r, ?orb_false_r, ?orb_false_l;
  first [reflexivity | f_equal; lia].

(** The byte of a 32-bit word in which bit [n] lies. *)
Lemma bit_cases (n : Z) :
  0 <= n ->
  0 <= n < 8 \/ 8 <= n < 16 \/ 16 <= n < 24 \/ 24 <= n < 32 \/ 32 <= n.
Proof. lia. Qed.

Lemma testbit_above (x k n : Z) :
  0 <= x < 2 ^ k -> k <= n -> Z.testbit x n = false.
Proof.
  intros Hx Hn.
  assert (Hk : 0 <= k).
  { destruct (Z.leb_spec 0 k) as [?|Hneg]; [assumption|].
    rewrite Z.pow_neg_r in Hx by lia. lia. }
  rewrite <- (Z.mod_small x (2 ^ k)) by exact Hx.
  apply Z.mod_pow2_bits_high. lia.
Qed.

Lemma byte_at_range (x k : Z) : 0 <= byte_at x k < 256.
Proof.
  unfold byte_at. change 0xff with (Z.ones 8).
  rewrite Z.land_ones by lia. apply Z.mod_pos_bound. lia.
Qed.

Lemma byte_at_div (x k : Z) :
  0 <= k -> byte_at x k = (x / 2 ^ (8 * k)) mod 256.
Proof.
  intros Hk. unfold byte_at. change 0xff with (Z.ones 8).
  rewrite Z.land_ones, Z.shiftr_div_pow2 by lia. reflexivity.
Qed.

(** A 32-bit word is the sum of its four bytes. *)
Lemma word_bytes (x : Z) :
  0 <= x < 2 ^ 32 ->
  x = byte_at x 0 + 2 ^ 8 * byte_at x 1 + 2 ^ 16 * byte_at x 2
      + 2 ^ 24 * byte_at x 3.
Proof.
  intros Hx. rewrite !byte_at_div by lia.
  change (2 ^ (8 * 0)) with 1. change (2 ^ (8 * 1)) with 256.
  change (2 ^ (8 * 2)) with 65536. change (2 ^ (8 * 3)) with 16777216.
  change (2 ^ 8) with 256. change (2 ^ 16) with 65536.
  change (2 ^ 24) with 16777216. change (2 ^ 32) with 4294967296 in Hx.
  Z.div_mod_to_equations. lia.
Qed.

(** A byte selected by mask and shift is that byte of the word. *)
Lemma mask_shift_byte (x s : Z) :
  0 <= s ->
  Z.shiftr (Z.land x (Z.shiftl (Z.ones 8) s)) s
  = Z.land (Z.shiftr x s) (Z.ones 8).
Proof.
  intros Hs. apply Z.bits_inj'. intros n Hn.
  rewrite Z.shiftr_spec, !Z.land_spec, Z.shiftl_spec, Z.shiftr_spec by lia.
  replace (n + s - s) with n by lia. reflexivity.
Qed.

(** The four bytes [send_longcommand] puts into [buf[1..4]]. *)
Lemma longcommand_bytes (data : Z) :
  [Z.shiftr (Z.land data 0xff000000) 24;
   Z.shiftr (Z.land data 0xff0000) 16;
   Z.shiftr (Z.land data 0xff00) 8;
   Z.land data 0xff]
  = [byte_at data 3; byte_at data 2; byte_at data 1; byte_at data 0].
Proof.
  unfold byte_at.
  change 0xff000000 with (Z.shiftl (Z.ones 8) 24).
  change 0xff0000 with (Z.shiftl (Z.ones 8) 16).
  change 0xff00 with (Z.shiftl (Z.ones 8) 8).
  change 0xff with (Z.ones 8).
  rewrite !mask_shift_byte by lia.
  change (8 * 3) with 24. change (8 * 2) with 16. change (8 * 1) with 8.
  change (8 * 0) with 0. rewrite Z.shiftr_0_r. reflexivity.
Qed.

(** X9. [send_longcommand] on a port that takes all five bytes
    returns SR_OK, having written the command followed by four payload
    bytes that hold the 32-bit data word most significant byte
    first. *)
Theorem send_longcommand_wire (c : command) (data : Z) (b : bus) :
  0 <= data < 2 ^ 32 ->
  exists payload,
    send_longcommand true c data b = (SR_OK, serial_write c payload b)
    /\ length payload = 4%nat
    /\ Forall is_byte payload
    /\ be32 payload = data.
Proof.
  intros Hd.
  exists [byte_at data 3; byte_at data 2; byte_at data 1; byte_at data 0].
  split.
  - unfold send_longcommand. rewrite longcommand_bytes. reflexivity.
  - split; [reflexivity|]. split.
    + repeat constructor; apply byte_at_range.
    + unfold be32. cbn [nth]. rewrite (word_bytes data) at 5 by exact Hd. lia.
Qed.

Lemma send_longcommand_wire_witness :
  exists payload,
    send_longcommand true CMD_SET_DIVIDER 0x01020304 bus0
    = (SR_OK, serial_write CMD_SET_DIVIDER payload bus0)
    /\ length payload = 4%nat
    /\ Forall is_byte payload
    /\ be32 payload = 0x01020304.
Proof.
  apply (send_longcommand_wire CMD_SET_DIVIDER 0x01020304 bus0).
  lia.
Defined.

Lemma reverse32_range (x : Z) : 0 <= reverse32 x < 2 ^ 32.
Proof.
  assert (Hb : forall n, 32 <= n -> Z.testbit (reverse32 x) n = false).
  { intros n Hn. unfold reverse32. bits_of n. bits_done. }
  assert (Hnn : 0 <= reverse32 x).
  { apply Z.bits_iff_nonneg_ex. exists 32. intros m Hm. apply Hb. lia. }
  split; [exact Hnn|].
  destruct (Z.eq_dec (reverse32 x) 0) as [->|Hne]; [reflexivity|].
  apply Z.log2_lt_pow2; [lia|].
  destruct (Z_lt_le_dec (Z.log2 (reverse32 x)) 32) as [?|Hge]; [assumption|].
  assert (Hl : Z.testbit (reverse32 x) (Z.log2 (reverse32 x)) = true)
    by (apply Z.bit_log2; lia).
  rewrite Hb in Hl by lia. discriminate.
Qed.

Lemma reverse32_byte (x k : Z) :
  0 <= x < 2 ^ 32 -> 0 <= k < 4 ->
  byte_at (reverse32 x) k = byte_at x (3 - k).
Proof.
  intros Hx Hk. unfold byte_at, reverse32.
  apply Z.bits_inj'. intros n Hn.
  assert (Hhi : forall m, 32 <= m -> Z.testbit x m = false)
    by (intros m Hm; apply (testbit_above x 32); assumption).
  assert (Hcase : k = 0 \/ k = 1 \/ k = 2 \/ k = 3) by lia.
  destruct Hcase as [-> | [-> | [-> | ->]]];
    destruct (bit_cases n Hn) as [Hr | [Hr | [Hr | [Hr | Hr]]]];
    bits_of n;
    rewrite ?Hhi by lia;
    bits_done.
Qed.

(** X10. [reverse32] reverses the byte order of a 32-bit word: it is
    its own inverse, and a word sent as [reverse32(x)] travels least
    significant byte first. *)
Theorem reverse32_wire (c : command) (x : Z) (b : bus) :
  0 <= x < 2 ^ 32 ->
  0 <= reverse32 x < 2 ^ 32
  /\ reverse32 (reverse32 x) = x
  /\ send_longcommand true c (reverse32 x) b
     = (SR_OK,
        serial_write c [byte_at x 0; byte_at x 1; byte_at x 2; byte_at x 3] b)
  /\ le32 [byte_at x 0; byte_at x 1; byte_at x 2; byte_at x 3] = x.
Proof.
  intros Hx. pose proof (reverse32_range x) as Hr.
  split; [exact Hr|]. split; [|split].
  - rewrite (word_bytes (reverse32 (reverse32 x)))
      by apply reverse32_range.
    rewrite !reverse32_byte by (assumption || lia).
    change (3 - (3 - 0)) with 0. change (3 - (3 - 1)) with 1.
    change (3 - (3 - 2)) with 2. change (3 - (3 - 3)) with 3.
    symmetry. apply word_bytes. exact Hx.
  - unfold send_longcommand. rewrite longcommand_bytes.
    rewrite !reverse32_byte by (assumption || lia). reflexivity.
  - unfold le32. cbn [nth]. rewrite (word_bytes x) at 5 by exact Hx. lia.
Qed.

Lemma reverse32_wire_witness :
  reverse32 (reverse32 0x01020304) = 0x01020304
  /\ send_longcommand true CMD_SET_DIVIDER (reverse32 0x01020304) bus0
     = (SR_OK, serial_write CMD_SET_DIVIDER [4; 3; 2; 1] bus0).
Proof.
  assert (Hx : 0 <= 0x01020304 < 2 ^ 32) by lia.
  destruct (reverse32_wire CMD_SET_DIVIDER 0x01020304 bus0 Hx)
    as [_ [Hinv [Hsend _]]].
  split; [exact Hinv | exact Hsend].
Defined.

Lemma reverse16_range (x : Z) : 0 <= reverse16 x < 2 ^ 32.
Proof.
  assert (Hb : forall n, 32 <= n -> Z.testbit (reverse16 x) n = false).
  { intros n Hn. unfold reverse16. bits_of n. bits_done. }
  assert (Hnn : 0 <= reverse16 x).
  { apply Z.bits_iff_nonneg_ex. exists 32. intros m Hm. apply Hb. lia. }
  split; [exact Hnn|].
  destruct (Z.eq_dec (reverse16 x) 0) as [->|Hne]; [reflexivity|].
  apply Z.log2_lt_pow2; [lia|].
  destruct (Z_lt_le_dec (Z.log2 (reverse16 x)) 32) as [?|Hge]; [assumption|].
  assert (Hl : Z.testbit (reverse16 x) (Z.log2 (reverse16 x)) = true)
    by (apply Z.bit_log2; lia).
  rewrite Hb in Hl by lia. discriminate.
Qed.

Lemma reverse16_byte (x : Z) :
  0 <= x < 2 ^ 32 ->
  byte_at (reverse16 x) 0 = byte_at x 1
  /\ byte_at (reverse16 x) 1 = byte_at x 0
  /\ byte_at (reverse16 x) 2 = byte_at x 3
  /\ byte_at (reverse16 x) 3 = byte_at x 2.
Proof.
  intros Hx. unfold byte_at, reverse16.
  assert (Hhi : forall m, 32 <= m -> Z.testbit x m = false)
    by (intros m Hm; apply (testbit_above x 32); assumption).
  repeat split; apply Z.bits_inj'; intros n Hn;
    destruct (bit_cases n Hn) as [Hr | [Hr | [Hr | [Hr | Hr]]]];
    bits_of n;
    rewrite ?Hhi by lia;
    bits_done.
Qed.

(** X11. [reverse16] swaps the two bytes of each 16-bit half of a
    32-bit word: it is its own inverse, and a word sent as
    [reverse16(x)] travels as the upper half low byte first, then the
    lower half low byte first. *)
Theorem reverse16_wire (c : command) (x : Z) (b : bus) :
  0 <= x < 2 ^ 32 ->
  0 <= reverse16 x < 2 ^ 32
  /\ reverse16 (reverse16 x) = x
  /\ send_longcommand true c (reverse16 x) b
     = (SR_OK,
        serial_write c [byte_at x 2; byte_at x 3; byte_at x 0; byte_at x 1] b).
Proof.
  intros Hx. pose proof (reverse16_range x) as Hr.
  destruct (reverse16_byte x Hx) as (B0 & B1 & B2 & B3).
  destruct (reverse16_byte (reverse16 x) Hr) as (C0 & C1 & C2 & C3).
  split; [exact Hr|]. split.
  - rewrite (word_bytes (reverse16 (reverse16 x)))
      by apply reverse16_range.
    rewrite C0, C1, C2, C3, B0, B1, B2, B3.
    symmetry. apply word_bytes. exact Hx.
  - unfold send_longcommand. rewrite longcommand_bytes.
    rewrite B0, B1, B2, B3. reflexivity.
Qed.

Lemma reverse16_wire_witness :
  reverse16 (reverse16 0x01020304) = 0x01020304
  /\ send_longcommand true CMD_CAPTURE_SIZE (reverse16 0x01020304) bus0
     = (SR_OK, serial_write CMD_CAPTURE_SIZE [2; 1; 4; 3] bus0).
Proof.
  assert (Hx : 0 <= 0x01020304 < 2 ^ 32) by lia.
  destruct (reverse16_wire CMD_CAPTURE_SIZE 0x01020304 bus0 Hx)
    as [_ [Hinv Hsend]].
  split; [exact Hinv | exact Hsend].
Defined.

End OlsWire.

(** ** OLS: probe and trigger configuration *)

Module OlsProbes.
Import Sigrok Ols.

Lemma or_at_length (a : list Z) (i v : Z) : length (or_at a i v) = length a.
Proof.
  unfold or_at, store.
  destruct ((0 <=? i) && (i <? Z.of_nat (length a))) eqn:E; [|reflexivity].
  apply andb_prop in E. destruct E as [E1 E2].
  apply Z.leb_le in E1. apply Z.ltb_lt in E2.
  rewrite length_app. cbn [length]. rewrite length_firstn, length_skipn. lia.
Qed.

Lemma or_at_nth (a : list Z) (i v : Z) (s : nat) :
  0 <= i < Z.of_nat (length a) ->
  nth s (or_at a i v) 0
  = if Z.of_nat s =? i then Z.lor (nth s a 0) v else nth s a 0.
Proof.
  intros Hi. unfold or_at, store.
  destruct (Z.leb_spec 0 i); [|lia].
  destruct (Z.ltb_spec i (Z.of_nat (length a))); [|lia].
  cbn [andb].
  destruct (Z.eqb_spec (Z.of_nat s) i) as [E|E].
  - subst i. rewrite Nat2Z.id.
    rewrite app_nth2 by (rewrite length_firstn; lia).
    rewrite length_firstn.
    replace (s - Nat.min s (length a))%nat with 0%nat by lia.
    reflexivity.
  - destruct (Nat.lt_ge_cases s (Z.to_nat i)) as [Hlt|Hge].
    + rewrite app_nth1 by (rewrite length_firstn; lia).
      rewrite nth_firstn.
      destruct (Nat.ltb_spec s (Z.to_nat i)); [reflexivity | lia].
    + rewrite app_nth2 by (rewrite length_firstn; lia).
      rewrite length_firstn.
      replace (s - Nat.min (Z.to_nat i) (length a))%nat
        with (S (s - S (Z.to_nat i)))%nat by lia.
      cbn [nth]. rewrite nth_skipn. f_equal. lia.
Qed.

(** What [trigger_stages] returns depends on the length of the trigger
    string alone, and it leaves [num_stages] as it is. *)
Lemma trigger_stages_result (tc : list ascii) (pb : Z) :
  forall (stage : Z) (d : dev_context),
    match trigger_stages tc pb stage d with
    | None => tc <> [] /\ 3 < stage + Z.of_nat (length tc)
    | Some (stage', d') =>
        stage' = stage + Z.of_nat (length tc)
        /\ (tc <> [] -> stage' <= 3)
        /\ num_stages d' = num_stages d
        /\ probe_mask d' = probe_mask d
    end.
Proof.
  induction tc as [|c rest IH]; intros stage d.
  - cbn [trigger_stages length]. repeat split; try lia. congruence.
  - cbn [trigger_stages].
    destruct (Z.ltb_spec 3 (stage + 1)) as [Hgt|Hle].
    + split; [discriminate | cbn [length]; lia].
    + match goal with
      | |- context [trigger_stages rest pb (stage + 1) ?d1] =>
          specialize (IH (stage + 1) d1);
          assert (Hns : num_stages d1 = num_stages d
                        /\ probe_mask d1 = probe_mask d)
            by (destruct d; destruct (Ascii.eqb c "1"); split; reflexivity);
          destruct (trigger_stages rest pb (stage + 1) d1)
            as [[stage' d']|]
      end.
      * destruct IH as (E & Hle' & Hn & Hp). destruct Hns as [Hn1 Hp1].
        cbn [length]. repeat split; try lia; try congruence.
        intros _. destruct rest; [cbn [length] in E; lia | apply Hle'].
        discriminate.
      * destruct IH as [_ IH]. split; [discriminate | cbn [length]; lia].
Qed.

Lemma list_ascii_length (s : string) :
  length (list_ascii_of_string s) = String.length s.
Proof.
  induction s as [|c s IH]; [reflexivity|]. cbn. now rewrite IH.
Qed.

(** The return value of the probe loop, and the stage count it leaves. *)
Lemma configure_probes_loop_result (l : list sr_probe) :
  forall d : dev_context,
    (fst (configure_probes_loop l d) = SR_OK
     \/ fst (configure_probes_loop l d) = SR_ERR)
    /\ (fst (configure_probes_loop l d) = SR_OK
        <-> Forall (fun p => enabled p = true -> trigger_length p <= 3) l)
    /\ (fst (configure_probes_loop l d) = SR_OK ->
        0 <= num_stages d ->
        num_stages (snd (configure_probes_loop l d))
        = Z.max (num_stages d) (max_stages l)).
Proof.
  induction l as [|p rest IH]; intros d.
  - cbn [configure_probes_loop fst snd max_stages fold_right].
    split; [left; reflexivity|]. split; [split; [constructor | reflexivity]|].
    intros _ Hd. lia.
  - cbn [configure_probes_loop max_stages fold_right].
    fold (max_stages rest).
    destruct (enabled p) eqn:Een; cbn [negb].
    2:{ destruct (IH d) as (IH1 & IH2 & IH3).
        split; [exact IH1|]. split; [|exact IH3].
        rewrite IH2. split.
        - intros Hf. constructor; [congruence | exact Hf].
        - intros Hf. inversion Hf. assumption. }
    destruct (trigger p) as [tc|] eqn:Etr.
    + pose proof (trigger_stages_result (list_ascii_of_string tc)
                    (s32 (Z.shiftl 1 (index p))) 0
                    (set_probe_mask
                       (Z.lor (probe_mask d)
                              (u32 (s32 (Z.shiftl 1 (index p))))) d)) as Hts.
      rewrite list_ascii_length in Hts.
      destruct (trigger_stages _ _ 0 _) as [[stage d1]|].
      * destruct Hts as (Est & Hle & Hns & _).
        assert (Hns1 : num_stages d1 = num_stages d)
          by (rewrite Hns; destruct d; reflexivity).
        match goal with
        | |- context [configure_probes_loop rest ?d2] =>
            destruct (IH d2) as (IH1 & IH2 & IH3);
            assert (Hns2 : num_stages d2
                           = Z.max (num_stages d) stage)
              by (destruct (Z.ltb_spec (num_stages d1) stage);
                  [destruct d1; cbn [set_num_stages num_stages] in *; lia
                  |lia])
        end.
        split; [exact IH1|]. split.
        -- rewrite IH2. split.
           ++ intros Hf. constructor; [|exact Hf].
              intros _. unfold trigger_length. rewrite Etr.
              destruct tc; [cbn; lia|].
              assert (list_ascii_of_string (String a tc) <> [])
                by discriminate.
              specialize (Hle H). lia.
           ++ intros Hf. inversion Hf. assumption.
        -- intros Hok Hd. rewrite IH3 by (assumption || lia).
           rewrite Hns2. unfold trigger_length. rewrite Etr. lia.
      * destruct Hts as [Hne Hgt]. cbn [fst snd].
        split; [right; reflexivity|]. split.
        -- split; [discriminate|]. intros Hf. inversion Hf as [|? ? Hp ?].
           subst. specialize (Hp Een). unfold trigger_length in Hp.
           rewrite Etr in Hp. lia.
        -- discriminate.
    + match goal with
      | |- context [configure_probes_loop rest ?d2] =>
          destruct (IH d2) as (IH1 & IH2 & IH3);
          assert (Hns2 : num_stages d2 = num_stages d)
            by (destruct d; reflexivity)
      end.
      split; [exact IH1|]. split.
      * rewrite IH2. split.
        -- intros Hf. constructor; [|exact Hf].
           intros _. unfold trigger_length. rewrite Etr. lia.
        -- intros Hf. inversion Hf. assumption.
      * intros Hok Hd. rewrite IH3 by (assumption || lia).
        rewrite Hns2. unfold trigger_length. rewrite Etr. lia.
Qed.

Lemma max_stages_nonneg (l : list sr_probe) : 0 <= max_stages l.
Proof.
  induction l as [|p rest IH]; cbn [max_stages fold_right]; [lia|].
  fold (max_stages rest). destruct (enabled p); lia.
Qed.

(** The return value of [configure_probes] and the stage count. *)
Lemma configure_probes_result (sdi : sr_dev_inst) :
  (fst (configure_probes sdi) = SR_OK \/ fst (configure_probes sdi) = SR_ERR)
  /\ (fst (configure_probes sdi) = SR_OK
      <-> Forall (fun p => enabled p = true -> trigger_length p <= 3)
                 (probes sdi))
  /\ (fst (configure_probes sdi) = SR_OK ->
      num_stages (snd (configure_probes sdi)) = max_stages (probes sdi)).
Proof.
  unfold configure_probes.
  match goal with
  | |- context [configure_probes_loop _ ?d0] =>
      destruct (configure_probes_loop_result (probes sdi) d0)
        as (H1 & H2 & H3);
      assert (Hn0 : num_stages d0 = 0) by (destruct (priv sdi); reflexivity)
  end.
  split; [exact H1|]. split; [exact H2|].
  intros Hok. rewrite H3 by (assumption || lia).
  rewrite Hn0. pose proof (max_stages_nonneg (probes sdi)). lia.
Qed.

(** X12. [configure_probes] returns SR_OK when every enabled probe has
    a trigger string of at most three characters and SR_ERR otherwise,
    so a four-stage trigger is turned down; on success [num_stages] is
    the longest trigger string among the enabled probes. *)
Theorem configure_probes_stages (sdi : sr_dev_inst) :
  (fst (configure_probes sdi) = SR_OK \/ fst (configure_probes sdi) = SR_ERR)
  /\ (fst (configure_probes sdi) = SR_OK
      <-> Forall (fun p => enabled p = true -> trigger_length p <= 3)
                 (probes sdi))
  /\ (fst (configure_probes sdi) = SR_OK ->
      num_stages (snd (configure_probes sdi)) = max_stages (probes sdi)).
Proof. exact (configure_probes_result sdi). Qed.

Lemma configure_probes_stages_witness :
  fst (configure_probes trigger_sdi) = SR_OK
  /\ num_stages (snd (configure_probes trigger_sdi)) = 2.
Proof.
  destruct (configure_probes_stages trigger_sdi) as (_ & _ & Hn).
  split; [reflexivity|]. rewrite (Hn eq_refl). reflexivity.
Defined.

Lemma u32_s32 (y : Z) : u32 (s32 y) = u32 y.
Proof.
  unfold u32, s32.
  rewrite Zminus_mod_idemp_l.
  f_equal. lia.
Qed.

(** The bit a probe contributes to a mask. *)
Lemma probe_bit_testbit (i k : Z) :
  0 <= i < 32 -> 0 <= k ->
  Z.testbit (u32 (s32 (Z.shiftl 1 i))) k = (i =? k).
Proof.
  intros Hi Hk. rewrite u32_s32, Z.shiftl_1_l.
  unfold u32. rewrite Z.mod_small.
  - apply Z.pow2_bits_eqb. lia.
  - split; [apply Z.pow_nonneg; lia|].
    apply Z.pow_lt_mono_r; lia.
Qed.

(** The trigger words after [trigger_stages]: the probe's bit is added
    to the mask of every stage the string covers, and to the value of
    the stages whose character is '1'. *)
Lemma trigger_stages_masks (tc : list ascii) (pb : Z) :
  forall (stage : Z) (d : dev_context) (stage' : Z) (d' : dev_context),
    0 <= stage ->
    length (trigger_mask d) = 4%nat ->
    length (trigger_value d) = 4%nat ->
    trigger_stages tc pb stage d = Some (stage', d') ->
    length (trigger_mask d') = 4%nat
    /\ length (trigger_value d') = 4%nat
    /\ forall s : nat,
         (s < 4)%nat ->
         nth s (trigger_mask d') 0
         = (if (stage <=? Z.of_nat s)
               && (Z.of_nat s <? stage + Z.of_nat (length tc))
            then Z.lor (nth s (trigger_mask d) 0) (u32 pb)
            else nth s (trigger_mask d) 0)
         /\ nth s (trigger_value d') 0
            = (if (stage <=? Z.of_nat s)
                  && match nth_error tc (Z.to_nat (Z.of_nat s - stage)) with
                     | Some c => Ascii.eqb c "1"
                     | None => false
                     end
               then Z.lor (nth s (trigger_value d) 0) (u32 pb)
               else nth s (trigger_value d) 0).
Proof.
  induction tc as [|c rest IH]; intros stage d stage' d' Hst Hm Hv Hts.
  - cbn [trigger_stages] in Hts. injection Hts as <- <-.
    split; [exact Hm|]. split; [exact Hv|].
    intros s Hs. cbn [length].
    destruct (Z.leb_spec stage (Z.of_nat s));
      destruct (Z.ltb_spec (Z.of_nat s) (stage + Z.of_nat 0)); try lia;
      cbn [andb]; rewrite ?andb_false_r;
      destruct (Z.to_nat (Z.of_nat s - stage)); split; reflexivity.
  - cbn [trigger_stages] in Hts.
    destruct (Z.ltb_spec 3 (stage + 1)) as [Hgt|Hle]; [discriminate|].
    match type of Hts with
    | trigger_stages rest pb (stage + 1) ?d2 = _ =>
        assert (Hd2 : trigger_mask d2
                      = or_at (trigger_mask d) stage (u32 pb)
                      /\ trigger_value d2
                         = (if Ascii.eqb c "1"
                            then or_at (trigger_value d) stage (u32 pb)
                            else trigger_value d))
          by (destruct d; destruct (Ascii.eqb c "1"); split; reflexivity);
        destruct Hd2 as [Hm2 Hv2];
        assert (Hlm : length (trigger_mask d2) = 4%nat)
          by (rewrite Hm2, or_at_length; exact Hm);
        assert (Hlv : length (trigger_value d2) = 4%nat)
          by (rewrite Hv2; destruct (Ascii.eqb c "1");
              rewrite ?or_at_length; exact Hv);
        destruct (IH (stage + 1) d2 stage' d' ltac:(lia) Hlm Hlv Hts)
          as (L1 & L2 & Hbits)
    end.
    split; [exact L1|]. split; [exact L2|].
    intros s Hs. destruct (Hbits s Hs) as [Bm Bv].
    rewrite Bm, Bv, Hm2, Hv2. cbn [length].
    rewrite or_at_nth by lia.
    destruct (Z.eqb_spec (Z.of_nat s) stage) as [Es|Es].
    + subst stage.
      destruct (Z.leb_spec (Z.of_nat s + 1) (Z.of_nat s)); [lia|].
      destruct (Z.leb_spec (Z.of_nat s) (Z.of_nat s)); [|lia].
      destruct (Z.ltb_spec (Z.of_nat s)
                  (Z.of_nat s + Z.of_nat (S (length rest)))); [|lia].
      cbn [andb].
      replace (Z.to_nat (Z.of_nat s - Z.of_nat s)) with 0%nat by lia.
      cbn [nth_error].
      destruct (Ascii.eqb c "1"); split; try reflexivity.
      rewrite or_at_nth by lia. rewrite Z.eqb_refl. reflexivity.
    + assert (Hvs : nth s (if Ascii.eqb c "1"
                           then or_at (trigger_value d) (stage) (u32 pb)
                           else trigger_value d) 0
                    = nth s (trigger_value d) 0).
      { destruct (Ascii.eqb c "1"); [|reflexivity].
        rewrite or_at_nth by lia.
        destruct (Z.eqb_spec (Z.of_nat s) stage); [lia | reflexivity]. }
      rewrite Hvs.
      destruct (Z.leb_spec (stage + 1) (Z.of_nat s)) as [Hge|Hlt].
      * destruct (Z.leb_spec stage (Z.of_nat s)); [|lia].
        replace (Z.to_nat (Z.of_nat s - stage))
          with (S (Z.to_nat (Z.of_nat s - (stage + 1)))) by lia.
        cbn [nth_error andb].
        split; [|reflexivity].
        destruct (Z.ltb_spec (Z.of_nat s)
                    (stage + 1 + Z.of_nat (length rest)));
          destruct (Z.ltb_spec (Z.of_nat s)
                      (stage + Z.of_nat (S (length rest))));
          try lia; reflexivity.
      * destruct (Z.leb_spec stage (Z.of_nat s)); [lia|].
        cbn [andb]. split; reflexivity.
Qed.

Lemma nth_error_length_some {A : Type} (l : list A) (n : nat) :
  match nth_error l n with Some _ => true | None => false end
  = (n <? length l)%nat.
Proof.
  destruct (Nat.ltb_spec n (length l)) as [Hlt|Hge].
  - destruct (nth_error l n) eqn:E; [reflexivity|].
    apply nth_error_None in E. lia.
  - apply nth_error_None in Hge. rewrite Hge. reflexivity.
Qed.

(** The probe mask and the trigger words after the probe loop. *)
Lemma configure_probes_loop_masks (l : list sr_probe) :
  forall d : dev_context,
    (forall p, In p l -> enabled p = true -> 0 <= index p < 32) ->
    length (trigger_mask d) = 4%nat ->
    length (trigger_value d) = 4%nat ->
    fst (configure_probes_loop l d) = SR_OK ->
    forall k, 0 <= k < 32 ->
      Z.testbit (probe_mask (snd (configure_probes_loop l d))) k
      = Z.testbit (probe_mask d) k || enabled_at l k
      /\ forall s : nat,
           (s < 4)%nat ->
           Z.testbit
             (nth s (trigger_mask (snd (configure_probes_loop l d))) 0) k
           = Z.testbit (nth s (trigger_mask d) 0) k
             || armed_at l (Z.of_nat s) k
           /\ Z.testbit
                (nth s (trigger_value (snd (configure_probes_loop l d))) 0) k
              = Z.testbit (nth s (trigger_value d) 0) k
                || high_at l (Z.of_nat s) k.
Proof.
  induction l as [|p rest IH]; intros d Hidx Hm Hv Hok k Hk.
  - cbn [configure_probes_loop snd enabled_at armed_at high_at existsb].
    rewrite orb_false_r. split; [reflexivity|].
    intros s Hs. rewrite !orb_false_r. split; reflexivity.
  - assert (Hidx' : forall q, In q rest -> enabled q = true ->
                              0 <= index q < 32)
      by (intros q Hq; apply Hidx; right; exact Hq).
    cbn [configure_probes_loop] in *.
    change (enabled_at (p :: rest) k)
      with (enabled p && (index p =? k) || enabled_at rest k).
    assert (Harm : forall s,
               armed_at (p :: rest) s k
               = enabled p && (index p =? k)
                 && match trigger_char p s with
                    | Some _ => true
                    | None => false
                    end
                 || armed_at rest s k) by reflexivity.
    assert (Hhigh : forall s,
               high_at (p :: rest) s k
               = enabled p && (index p =? k)
                 && match trigger_char p s with
                    | Some c => Ascii.eqb c "1"
                    | None => false
                    end
                 || high_at rest s k) by reflexivity.
    setoid_rewrite Harm. setoid_rewrite Hhigh. clear Harm Hhigh.
    unfold trigger_char.
    destruct (enabled p) eqn:Een; cbn [negb andb orb] in *.
    2:{ destruct (IH d Hidx' Hm Hv Hok k Hk) as [Hp Hs].
        split; [exact Hp|]. intros s Hs4. exact (Hs s Hs4). }
    assert (Hi : 0 <= index p < 32) by (apply Hidx; [left; reflexivity|exact Een]).
    destruct (trigger p) as [tc|] eqn:Etr.
    + destruct (trigger_stages (list_ascii_of_string tc)
                  (s32 (Z.shiftl 1 (index p))) 0
                  (set_probe_mask
                     (Z.lor (probe_mask d)
                            (u32 (s32 (Z.shiftl 1 (index p))))) d))
        as [[stage d1]|] eqn:Ets; [|cbn [fst] in Hok; discriminate].
      pose proof (trigger_stages_result (list_ascii_of_string tc)
                    (s32 (Z.shiftl 1 (index p))) 0
                    (set_probe_mask
                       (Z.lor (probe_mask d)
                              (u32 (s32 (Z.shiftl 1 (index p))))) d)) as Hres.
      rewrite Ets in Hres. destruct Hres as (_ & _ & _ & Hpm1).
      assert (Hpm0 : probe_mask
                       (set_probe_mask
                          (Z.lor (probe_mask d)
                                 (u32 (s32 (Z.shiftl 1 (index p))))) d)
                     = Z.lor (probe_mask d)
                             (u32 (s32 (Z.shiftl 1 (index p)))))
        by (destruct d; reflexivity).
      assert (Hm0 : trigger_mask
                      (set_probe_mask
                         (Z.lor (probe_mask d)
                                (u32 (s32 (Z.shiftl 1 (index p))))) d)
                    = trigger_mask d) by (destruct d; reflexivity).
      assert (Hv0 : trigger_value
                      (set_probe_mask
                         (Z.lor (probe_mask d)
                                (u32 (s32 (Z.shiftl 1 (index p))))) d)
                    = trigger_value d) by (destruct d; reflexivity).
      assert (Hz0 : 0 <= 0) by lia.
      rewrite <- Hm0 in Hm. rewrite <- Hv0 in Hv.
      destruct (trigger_stages_masks _ _ _ _ _ _ Hz0 Hm Hv Ets)
        as (L1 & L2 & Hbits).
      rewrite Hm0, Hv0 in Hbits.
      match type of Hok with
      | fst (configure_probes_loop rest ?d2) = _ =>
          assert (Hd2 : probe_mask d2 = probe_mask d1
                        /\ trigger_mask d2 = trigger_mask d1
                        /\ trigger_value d2 = trigger_value d1)
            by (destruct (num_stages d1 <? stage); destruct d1;
                repeat split; reflexivity);
          destruct Hd2 as (Hp2 & Hm2 & Hv2);
          destruct (IH d2 Hidx' ltac:(rewrite Hm2; exact L1)
                      ltac:(rewrite Hv2; exact L2) Hok k Hk) as [Hp Hs]
      end.
      split.
      * rewrite Hp, Hp2, Hpm1, Hpm0, Z.lor_spec, probe_bit_testbit by lia.
        now rewrite orb_assoc.
      * intros s Hs4. destruct (Hs s Hs4) as [Sm Sv].
        destruct (Hbits s Hs4) as [Bm Bv].
        rewrite Sm, Sv, Hm2, Hv2, Bm, Bv.
        rewrite Nat2Z.id, Z.sub_0_r, Nat2Z.id.
        destruct (Z.leb_spec 0 (Z.of_nat s)); [|lia]. cbn [andb].
        assert (Hlt : (Z.of_nat s <? 0 + Z.of_nat (length (list_ascii_of_string tc)))
                      = match nth_error (list_ascii_of_string tc) s with
                        | Some _ => true
                        | None => false
                        end).
        { rewrite nth_error_length_some.
          destruct (Z.ltb_spec (Z.of_nat s)
                      (0 + Z.of_nat (length (list_ascii_of_string tc))));
            destruct (Nat.ltb_spec s (length (list_ascii_of_string tc)));
            try lia; reflexivity. }
        rewrite Hlt.
        destruct (nth_error (list_ascii_of_string tc) s) as [c|];
          [|rewrite !andb_false_r; split; reflexivity].
        rewrite andb_true_r. split.
        -- rewrite Z.lor_spec, probe_bit_testbit by lia.
           now rewrite orb_assoc.
        -- destruct (Ascii.eqb c "1").
           ++ rewrite Z.lor_spec, probe_bit_testbit by lia.
              now rewrite andb_true_r, orb_assoc.
           ++ now rewrite andb_false_r.
    + match type of Hok with
      | fst (configure_probes_loop rest ?d2) = _ =>
          assert (Hd2 : probe_mask d2
                        = Z.lor (probe_mask d)
                                (u32 (s32 (Z.shiftl 1 (index p))))
                        /\ trigger_mask d2 = trigger_mask d
                        /\ trigger_value d2 = trigger_value d)
            by (destruct d; repeat split; reflexivity);
          destruct Hd2 as (Hp2 & Hm2 & Hv2);
          destruct (IH d2 Hidx' ltac:(rewrite Hm2; exact Hm)
                      ltac:(rewrite Hv2; exact Hv) Hok k Hk) as [Hp Hs]
      end.
      split.
      * rewrite Hp, Hp2, Z.lor_spec, probe_bit_testbit by lia.
        now rewrite orb_assoc.
      * intros s Hs4. destruct (Hs s Hs4) as [Sm Sv].
        rewrite Sm, Sv, Hm2, Hv2, !andb_false_r. split; reflexivity.
Qed.

(** The probe mask and the trigger words after [configure_probes]. *)
Lemma configure_probes_bits (sdi : sr_dev_inst) (k s : Z) :
  (forall p, In p (probes sdi) -> enabled p = true -> 0 <= index p < 32) ->
  fst (configure_probes sdi) = SR_OK ->
  0 <= k < 32 -> 0 <= s < 4 ->
  Z.testbit (probe_mask (snd (configure_probes sdi))) k
  = enabled_at (probes sdi) k
  /\ Z.testbit (nth (Z.to_nat s) (trigger_mask (snd (configure_probes sdi)))
                    0) k
     = armed_at (probes sdi) s k
  /\ Z.testbit (nth (Z.to_nat s) (trigger_value (snd (configure_probes sdi)))
                    0) k
     = high_at (probes sdi) s k.
Proof.
  intros Hidx Hok Hk Hs. unfold configure_probes in *.
  match goal with
  | |- context [configure_probes_loop _ ?d0] =>
      assert (H0 : probe_mask d0 = 0 /\ trigger_mask d0 = [0; 0; 0; 0]
                   /\ trigger_value d0 = [0; 0; 0; 0])
        by (destruct (priv sdi); repeat split; reflexivity);
      destruct H0 as (P0 & M0 & V0);
      destruct (configure_probes_loop_masks (probes sdi) d0 Hidx
                  ltac:(rewrite M0; reflexivity)
                  ltac:(rewrite V0; reflexivity) Hok k Hk) as [Hp Hbits]
  end.
  assert (Hs4 : (Z.to_nat s < 4)%nat) by lia.
  destruct (Hbits (Z.to_nat s) Hs4) as [Bm Bv].
  rewrite Hp, Bm, Bv, P0, M0, V0, Z2Nat.id by lia.
  rewrite Z.bits_0.
  assert (Hz : nth (Z.to_nat s) [0; 0; 0; 0] 0 = 0).
  { destruct (Z.to_nat s) as [|[|[|[|[|?]]]]]; reflexivity. }
  rewrite Hz, Z.bits_0. repeat split.
Qed.

(** X13. After a successful [configure_probes] on probes with indices
    0..31, bit [k] of [probe_mask] is set exactly when an enabled probe
    has index [k]; bit [k] of [trigger_mask[s]] exactly when such a
    probe has a trigger character for stage [s], and bit [k] of
    [trigger_value[s]] exactly when that character is '1'. *)
Theorem configure_probes_masks (sdi : sr_dev_inst) (k s : Z) :
  (forall p, In p (probes sdi) -> enabled p = true -> 0 <= index p < 32) ->
  fst (configure_probes sdi) = SR_OK ->
  0 <= k < 32 -> 0 <= s < 4 ->
  let d := snd (configure_probes sdi) in
  Z.testbit (probe_mask d) k = enabled_at (probes sdi) k
  /\ Z.testbit (nth (Z.to_nat s) (trigger_mask d) 0) k
     = armed_at (probes sdi) s k
  /\ Z.testbit (nth (Z.to_nat s) (trigger_value d) 0) k
     = high_at (probes sdi) s k.
Proof.
  intros Hidx Hok Hk Hs d. exact (configure_probes_bits sdi k s Hidx Hok Hk Hs).
Qed.

Lemma configure_probes_masks_witness :
  fst (configure_probes trigger_sdi) = SR_OK
  /\ Z.testbit (nth 1 (trigger_mask (snd (configure_probes trigger_sdi))) 0) 0
     = true
  /\ Z.testbit (nth 1 (trigger_value (snd (configure_probes trigger_sdi))) 0)
               0 = false.
Proof.
  assert (Hok : fst (configure_probes trigger_sdi) = SR_OK) by reflexivity.
  assert (Hidx : forall p, In p (probes trigger_sdi) -> enabled p = true ->
                           0 <= index p < 32).
  { intros p Hin _. unfold trigger_sdi in Hin. cbn [probes] in Hin.
    apply in_map_iff in Hin. destruct Hin as [q [<- Hq]]. cbn [index].
    unfold sump_sdi in Hq. cbn [probes] in Hq.
    apply in_map_iff in Hq. destruct Hq as [i [<- Hi]]. cbn [index].
    apply in_seq in Hi. lia. }
  split; [exact Hok|].
  destruct (configure_probes_masks trigger_sdi 0 1 Hidx Hok
              ltac:(lia) ltac:(lia)) as [_ [Hm Hv]].
  split; [exact Hm | exact Hv].
Defined.

End OlsProbes.

(** ** OLS: samplerate and settings *)

Module OlsSettings.
Import Sigrok Ols.

Lemma accepted_not_rejected (d : dev_context) (r : Z) :
  samplerate_accepted d r = true ->
  negb (max_samplerate d =? 0) && (max_samplerate d <? r) = false
  /\ (max_samplerate d =? 0)
     && ((r <? samplerates_low) || (samplerates_high <? r)) = false.
Proof.
  unfold samplerate_accepted. intros Hacc.
  destruct (max_samplerate d =? 0); cbn [negb andb] in *.
  - split; [reflexivity|]. now apply negb_true_iff in Hacc.
  - split; [|reflexivity]. now apply negb_true_iff in Hacc.
Qed.

Lemma land_lor_self (f d : Z) : Z.land (Z.lor f d) d = d.
Proof.
  apply Z.bits_inj'. intros n Hn.
  rewrite Z.land_spec, Z.lor_spec.
  destruct (Z.testbit f n), (Z.testbit d n); reflexivity.
Qed.

(** X14. For an accepted samplerate above CLOCK_RATE and up to twice
    CLOCK_RATE, [set_samplerate] switches demultiplexing on and runs
    the device at exactly twice CLOCK_RATE with divider 0; for an
    accepted samplerate above twice CLOCK_RATE the divider wraps to
    0xffffffff and the division by divider + 1 is a division by
    zero. *)
Theorem set_samplerate_demux {H : ols_h} (sdi : sr_dev_inst) (r : Z) :
  0 < CLOCK_RATE < 2 ^ 30 ->
  0 < FLAG_DEMUX ->
  samplerate_accepted (priv sdi) r = true ->
  CLOCK_RATE < r ->
  (r <= 2 * CLOCK_RATE ->
   exists sdi',
     set_samplerate sdi r = Some (SR_OK, sdi')
     /\ cur_samplerate_divider (priv sdi') = 0
     /\ cur_samplerate (priv sdi') = 2 * CLOCK_RATE
     /\ Z.land (flag_reg (priv sdi')) FLAG_DEMUX = FLAG_DEMUX
     /\ status sdi' = status sdi /\ probes sdi' = probes sdi)
  /\ (2 * CLOCK_RATE < r -> set_samplerate sdi r = None).
Proof.
  intros HC HD Hacc Hr.
  destruct (accepted_not_rejected _ _ Hacc) as [Hrej1 Hrej2].
  unfold set_samplerate. rewrite Hrej1, Hrej2.
  destruct (Z.eqb_spec r 0) as [?|_]; [lia|].
  rewrite (u64_small CLOCK_RATE) by lia.
  destruct (Z.ltb_spec CLOCK_RATE r) as [_|?]; [|lia].
  rewrite (s32_small (CLOCK_RATE * 2)) by lia.
  rewrite (u64_small (CLOCK_RATE * 2)) by lia.
  rewrite (u32_small CLOCK_RATE) by lia.
  split; intros Hr2.
  - assert (Hq : CLOCK_RATE * 2 / r = 1).
    { symmetry. apply (Z.div_unique _ _ 1 (CLOCK_RATE * 2 - r)); lia. }
    rewrite Hq. change (u32 (u64 (1 - 1))) with 0.
    destruct sdi as [st pr d]. destruct d.
    cbn [priv set_flag_reg set_cur_samplerate_divider cur_samplerate_divider
         flag_reg set_cur_samplerate set_priv cur_samplerate status probes].
    change (u32 (0 + 1)) with 1. change (1 =? 0) with false. cbv iota.
    rewrite land_lor_self.
    destruct (Z.eqb_spec FLAG_DEMUX 0) as [?|_]; [lia|]. cbn [negb].
    cbn [set_cur_samplerate cur_samplerate].
    rewrite Z.div_1_r, u64_small by lia.
    eexists. split; [reflexivity|].
    cbn [priv set_priv cur_samplerate_divider cur_samplerate flag_reg status
         probes].
    rewrite land_lor_self. repeat split; lia.
  - assert (Hq : CLOCK_RATE * 2 / r = 0) by (apply Z.div_small; lia).
    rewrite Hq. change (u32 (u64 (0 - 1))) with (2 ^ 32 - 1).
    destruct sdi as [st pr d]. destruct d.
    cbn [priv set_flag_reg set_cur_samplerate_divider cur_samplerate_divider
         flag_reg].
    reflexivity.
Qed.

Lemma set_samplerate_demux_witness :
  exists sdi',
    @set_samplerate ols_h_1_0 sump_sdi_open 150000000 = Some (SR_OK, sdi')
    /\ cur_samplerate_divider (priv sdi') = 0
    /\ cur_samplerate (priv sdi') = 200000000.
Proof.
  assert (HC : 0 < @CLOCK_RATE ols_h_1_0 < 2 ^ 30)
    by (vm_compute; split; reflexivity).
  assert (HD : 0 < @FLAG_DEMUX ols_h_1_0) by reflexivity.
  assert (Hacc : samplerate_accepted (priv sump_sdi_open) 150000000 = true)
    by reflexivity.
  assert (Hr : @CLOCK_RATE ols_h_1_0 < 150000000) by reflexivity.
  destruct (@set_samplerate_demux ols_h_1_0 sump_sdi_open 150000000
              HC HD Hacc Hr) as [Hlow _].
  destruct Hlow as [sdi' (E & Hd & Hc & _)].
  - vm_compute. discriminate.
  - exists sdi'. repeat split; assumption.
Defined.

(** What [set_samplerate] stores for an accepted samplerate that is not
    above CLOCK_RATE. *)
Lemma set_samplerate_low {H : ols_h} (sdi : sr_dev_inst) (r : Z) :
  0 < CLOCK_RATE < 2 ^ 31 ->
  samplerate_accepted (priv sdi) r = true ->
  0 < r <= CLOCK_RATE ->
  set_samplerate sdi r
  = Some (SR_OK,
          set_priv
            (set_cur_samplerate (CLOCK_RATE / (CLOCK_RATE / r))
               (set_cur_samplerate_divider (CLOCK_RATE / r - 1)
                  (set_flag_reg
                     (Z.land (flag_reg (priv sdi)) (u32 (Z.lnot FLAG_DEMUX)))
                     (priv sdi))))
            sdi).
Proof.
  intros HC Hacc Hr.
  assert (Hq : 1 <= CLOCK_RATE / r <= CLOCK_RATE).
  { split.
    - apply Z.div_le_lower_bound; lia.
    - apply Z.div_le_upper_bound; nia. }
  destruct (accepted_not_rejected _ _ Hacc) as [Hrej1 Hrej2].
  unfold set_samplerate. rewrite Hrej1, Hrej2.
  destruct (Z.eqb_spec r 0) as [?|_]; [lia|].
  rewrite (u64_small CLOCK_RATE) by lia.
  destruct (Z.ltb_spec CLOCK_RATE r) as [?|_]; [lia|].
  rewrite (u64_small (CLOCK_RATE / r - 1)) by lia.
  rewrite (u32_small (CLOCK_RATE / r - 1)) by lia.
  destruct sdi as [st pr d]. destruct d.
  cbn [priv set_flag_reg set_cur_samplerate_divider cur_samplerate_divider
       flag_reg set_cur_samplerate set_priv cur_samplerate].
  replace (CLOCK_RATE / r - 1 + 1) with (CLOCK_RATE / r) by lia.
  rewrite (u32_small (CLOCK_RATE / r)) by lia.
  destruct (Z.eqb_spec (CLOCK_RATE / r) 0) as [?|_]; [lia|].
  rewrite OlsSamplerate.land_u32_lnot_self. cbn [Z.eqb negb].
  rewrite (u32_small CLOCK_RATE) by lia.
  reflexivity.
Qed.

(** X15. For an accepted samplerate [r] with [0 < r <= CLOCK_RATE] the
    rate [set_samplerate] settles on is never below the request and
    below twice the request, and it is the request itself when [r]
    divides CLOCK_RATE. *)
Theorem set_samplerate_not_slower {H : ols_h} (sdi : sr_dev_inst) (r : Z) :
  0 < CLOCK_RATE < 2 ^ 31 ->
  samplerate_accepted (priv sdi) r = true ->
  0 < r <= CLOCK_RATE ->
  exists sdi',
    set_samplerate sdi r = Some (SR_OK, sdi')
    /\ r <= cur_samplerate (priv sdi') < 2 * r
    /\ cur_samplerate (priv sdi') <= CLOCK_RATE
    /\ (CLOCK_RATE mod r = 0 -> cur_samplerate (priv sdi') = r).
Proof.
  intros HC Hacc Hr.
  rewrite (set_samplerate_low sdi r HC Hacc Hr).
  eexists. split; [reflexivity|].
  destruct sdi as [st pr d]. destruct d.
  cbn [priv set_priv set_cur_samplerate cur_samplerate
       set_cur_samplerate_divider set_flag_reg flag_reg].
  set (q := CLOCK_RATE / r).
  assert (Hq : 1 <= q) by (apply Z.div_le_lower_bound; lia).
  assert (Hqr : q * r <= CLOCK_RATE < (q + 1) * r).
  { unfold q. pose proof (Z.mul_div_le CLOCK_RATE r ltac:(lia)).
    pose proof (Z.mul_succ_div_gt CLOCK_RATE r ltac:(lia)). nia. }
  split; [split|split].
  - apply Z.div_le_lower_bound; nia.
  - apply Z.div_lt_upper_bound; nia.
  - apply Z.div_le_upper_bound; nia.
  - intros Hmod.
    assert (E : CLOCK_RATE = r * q).
    { unfold q. apply Z.div_exact; lia. }
    symmetry. apply Z.div_unique_exact; [lia|].
    rewrite Z.mul_comm. exact E.
Qed.

Lemma set_samplerate_not_slower_witness :
  exists sdi',
    @set_samplerate ols_h_1_0 sump_sdi_open 30000000 = Some (SR_OK, sdi')
    /\ 30000000 <= cur_samplerate (priv sdi') < 60000000.
Proof.
  destruct (@set_samplerate_not_slower ols_h_1_0 sump_sdi_open 30000000)
    as [sdi' (E & Hb & _)].
  - vm_compute. split; reflexivity.
  - reflexivity.
  - vm_compute. split; [reflexivity | discriminate].
  - exists sdi'. split; [exact E | exact Hb].
Defined.

(** [set_samplerate] touches the context only, and of the flag
    register only FLAG_DEMUX. *)
Lemma set_samplerate_frame {H : ols_h} (sdi sdi' : sr_dev_inst)
  (r ret : Z) :
  set_samplerate sdi r = Some (ret, sdi') ->
  status sdi' = status sdi /\ probes sdi' = probes sdi
  /\ (flag_reg (priv sdi') = flag_reg (priv sdi)
      \/ flag_reg (priv sdi') = Z.lor (flag_reg (priv sdi)) FLAG_DEMUX
      \/ flag_reg (priv sdi')
         = Z.land (flag_reg (priv sdi)) (u32 (Z.lnot FLAG_DEMUX))).
Proof.
  unfold set_samplerate. intros Hs.
  destruct (negb (max_samplerate (priv sdi) =? 0)
            && (max_samplerate (priv sdi) <? r)).
  { injection Hs as <- <-. repeat split. left. reflexivity. }
  destruct ((max_samplerate (priv sdi) =? 0)
            && ((r <? samplerates_low) || (samplerates_high <? r))).
  { injection Hs as <- <-. repeat split. left. reflexivity. }
  destruct (r =? 0); [discriminate|].
  destruct sdi as [st pr d]. destruct d.
  cbn [priv set_flag_reg set_cur_samplerate_divider cur_samplerate_divider
       flag_reg set_cur_samplerate set_priv cur_samplerate status probes]
    in *.
  destruct (u64 CLOCK_RATE <? r);
    cbn [priv set_flag_reg set_cur_samplerate_divider cur_samplerate_divider
         flag_reg set_cur_samplerate set_priv cur_samplerate status probes]
      in Hs;
    match type of Hs with
    | (if ?c then _ else _) = _ => destruct c; [discriminate|]
    end;
    match type of Hs with
    | context [if ?c then _ else _] => destruct c
    end;
    injection Hs as <- <-;
    cbn [priv set_flag_reg set_cur_samplerate_divider cur_samplerate_divider
         flag_reg set_cur_samplerate set_priv cur_samplerate status probes];
    auto.
Qed.

Lemma rle_kept (f : Z) {H : ols_h} :
  0 <= FLAG_RLE < 2 ^ 32 ->
  Z.land FLAG_RLE FLAG_DEMUX = 0 ->
  Z.land f FLAG_RLE = FLAG_RLE ->
  Z.land (Z.lor f FLAG_DEMUX) FLAG_RLE = FLAG_RLE
  /\ Z.land (Z.lor f FLAG_RLE) FLAG_RLE = FLAG_RLE
  /\ Z.land (Z.land f (u32 (Z.lnot FLAG_DEMUX))) FLAG_RLE = FLAG_RLE.
Proof.
  intros Hr Hdis Hset.
  assert (Hb : forall n, 0 <= n -> Z.testbit FLAG_RLE n = true ->
                         Z.testbit f n = true
                         /\ Z.testbit FLAG_DEMUX n = false /\ n < 32).
  { intros n Hn Hbit.
    assert (B1 : Z.testbit (Z.land f FLAG_RLE) n = true)
      by (rewrite Hset; exact Hbit).
    assert (B2 : Z.testbit (Z.land FLAG_RLE FLAG_DEMUX) n = false)
      by (rewrite Hdis; apply Z.bits_0).
    rewrite Z.land_spec in B1, B2. rewrite Hbit in B1, B2.
    apply andb_prop in B1. destruct B1 as [B1 _]. cbn [andb] in B2.
    split; [exact B1|]. split; [exact B2|].
    destruct (Z_lt_le_dec n 32) as [?|Hge]; [assumption|].
    rewrite (OlsWire.testbit_above FLAG_RLE 32 n Hr Hge) in Hbit.
    discriminate. }
  repeat split; apply Z.bits_inj'; intros n Hn;
    rewrite ?Z.land_spec, ?Z.lor_spec; unfold u32;
    rewrite ?Z.testbit_mod_pow2, ?Z.lnot_spec by lia;
    (destruct (Z.testbit FLAG_RLE n) eqn:E;
     [destruct (Hb n Hn E) as (Hf & Hd & Hlt);
      rewrite ?Hf, ?Hd;
      try (destruct (Z.ltb_spec n 32); [|lia]); reflexivity
     |rewrite ?andb_false_r; reflexivity]).
Qed.

(** One [hw_dev_config_set] call keeps status, probes and a set RLE
    bit. *)
Lemma hw_dev_config_set_keeps {H : ols_h} (sdi sdi' : sr_dev_inst)
  (hwcap value ret : Z) :
  0 <= FLAG_RLE < 2 ^ 32 ->
  Z.land FLAG_RLE FLAG_DEMUX = 0 ->
  hw_dev_config_set sdi hwcap value = Some (ret, sdi') ->
  status sdi' = status sdi /\ probes sdi' = probes sdi
  /\ (Z.land (flag_reg (priv sdi)) FLAG_RLE = FLAG_RLE ->
      Z.land (flag_reg (priv sdi')) FLAG_RLE = FLAG_RLE).
Proof.
  intros Hr Hdis. unfold hw_dev_config_set. intros Hs.
  destruct (negb (status sdi =? SR_ST_ACTIVE)).
  { injection Hs as <- <-. repeat split. auto. }
  destruct (hwcap =? SR_HWCAP_SAMPLERATE).
  { destruct (set_samplerate_frame _ _ _ _ Hs) as (S1 & S2 & S3).
    split; [exact S1|]. split; [exact S2|]. intros Hset.
    destruct (rle_kept (flag_reg (priv sdi)) Hr Hdis Hset)
      as (K1 & K2 & K3).
    destruct S3 as [-> | [-> | ->]]; assumption. }
  destruct (hwcap =? SR_HWCAP_LIMIT_SAMPLES).
  { destruct (value <? u64 MIN_NUM_SAMPLES); injection Hs as <- <-;
      destruct sdi as [st pr d]; destruct d; repeat split; auto. }
  destruct (hwcap =? SR_HWCAP_CAPTURE_RATIO).
  { destruct sdi as [st pr d]. destruct d.
    cbn [priv set_capture_ratio capture_ratio] in Hs.
    destruct ((s32 value <? 0) || (100 <? s32 value));
      injection Hs as <- <-; repeat split; auto. }
  destruct (hwcap =? SR_HWCAP_RLE).
  { destruct (negb (s32 value =? 0)); injection Hs as <- <-.
    - destruct sdi as [st pr d]. destruct d.
      cbn [priv set_priv set_flag_reg flag_reg status probes].
      repeat split. intros Hset.
      destruct (rle_kept _ Hr Hdis Hset) as (_ & K2 & _). exact K2.
    - repeat split. auto. }
  injection Hs as <- <-. repeat split. auto.
Qed.

(** X16. Whatever sequence of settings [hw_dev_config_set] is given,
    the status and the probe list of the device stay as they were, and
    once FLAG_RLE is set no setting clears it: SR_HWCAP_RLE with a zero
    value leaves the flag on. *)
Theorem hw_dev_config_set_rle_sticky {H : ols_h} (sdi : sr_dev_inst)
  (settings : list (Z * Z)) :
  0 <= FLAG_RLE < 2 ^ 32 ->
  Z.land FLAG_RLE FLAG_DEMUX = 0 ->
  status (configured sdi settings) = status sdi
  /\ probes (configured sdi settings) = probes sdi
  /\ (Z.land (flag_reg (priv sdi)) FLAG_RLE = FLAG_RLE ->
      Z.land (flag_reg (priv (configured sdi settings))) FLAG_RLE = FLAG_RLE).
Proof.
  intros Hr Hdis. revert sdi.
  induction settings as [|[hwcap value] rest IH]; intros sdi.
  - cbn. auto.
  - unfold configured. cbn [fold_left]. fold (configured
      (match hw_dev_config_set sdi hwcap value with
       | Some (_, s') => s'
       | None => sdi
       end) rest).
    destruct (hw_dev_config_set sdi hwcap value) as [[ret sdi1]|] eqn:E.
    + destruct (hw_dev_config_set_keeps _ _ _ _ _ Hr Hdis E)
        as (S1 & S2 & S3).
      destruct (IH sdi1) as (I1 & I2 & I3).
      rewrite I1, I2, S1, S2. repeat split. intros Hset.
      apply I3, S3, Hset.
    + apply IH.
Qed.

Lemma hw_dev_config_set_rle_sticky_witness :
  Z.land (flag_reg (priv (@configured ols_h_1_0 sump_sdi_open rle_settings)))
         (@FLAG_RLE ols_h_1_0)
  = @FLAG_RLE ols_h_1_0.
Proof.
  assert (Hr : 0 <= @FLAG_RLE ols_h_1_0 < 2 ^ 32)
    by (vm_compute; split; [discriminate | reflexivity]).
  assert (Hdis : Z.land (@FLAG_RLE ols_h_1_0) (@FLAG_DEMUX ols_h_1_0) = 0)
    by reflexivity.
  destruct (@hw_dev_config_set_rle_sticky ols_h_1_0
              (@configured ols_h_1_0 sump_sdi_open [(SR_HWCAP_RLE, 1)])
              (tl rle_settings) Hr Hdis) as (_ & _ & Hkeep).
  apply Hkeep. reflexivity.
Defined.

End OlsSettings.

(** ** OLS: starting an acquisition *)

Module OlsStart.
Import Sigrok Ols OlsWire OlsProbes.

(** [trigger_stages] writes the trigger words only. *)
Lemma trigger_stages_frame (tc : list ascii) (pb : Z) :
  forall (stage : Z) (d : dev_context) (stage' : Z) (d' : dev_context),
    trigger_stages tc pb stage d = Some (stage', d') ->
    exists tm tv, d' = set_trigger_value tv (set_trigger_mask tm d).
Proof.
  induction tc as [|c rest IH]; intros stage d stage' d' Hts.
  - cbn [trigger_stages] in Hts. injection Hts as <- <-.
    exists (trigger_mask d), (trigger_value d). destruct d. reflexivity.
  - cbn [trigger_stages] in Hts.
    destruct (3 <? stage + 1); [discriminate|].
    apply IH in Hts. destruct Hts as (tm & tv & ->).
    exists tm, tv. destruct d. destruct (Ascii.eqb c "1"); reflexivity.
Qed.

(** The probe loop writes [probe_mask], the trigger words and
    [num_stages], and nothing else of the context. *)
Lemma configure_probes_loop_frame (l : list sr_probe) :
  forall d : dev_context,
    fst (configure_probes_loop l d) = SR_OK ->
    exists pm tm tv ns,
      snd (configure_probes_loop l d)
      = set_num_stages ns
          (set_trigger_value tv (set_trigger_mask tm (set_probe_mask pm d))).
Proof.
  induction l as [|p rest IH]; intros d Hok.
  - cbn [configure_probes_loop snd].
    exists (probe_mask d), (trigger_mask d), (trigger_value d),
      (num_stages d).
    destruct d. reflexivity.
  - cbn [configure_probes_loop] in *.
    destruct (enabled p); cbn [negb] in *; [|apply IH; exact Hok].
    destruct (trigger p) as [tc|].
    + destruct (trigger_stages _ _ 0 _) as [[stage d1]|] eqn:Ets;
        [|cbn [fst] in Hok; discriminate].
      apply trigger_stages_frame in Ets. destruct Ets as (tm & tv & ->).
      destruct (IH _ Hok) as (pm' & tm' & tv' & ns' & ->).
      exists pm', tm', tv', ns'. destruct d.
      match goal with
      | |- context [if ?c then _ else _] => destruct c
      end; reflexivity.
    + destruct (IH _ Hok) as (pm' & tm' & tv' & ns' & ->).
      exists pm', tm', tv', ns'. destruct d. reflexivity.
Qed.

Lemma configure_probes_frame (sdi : sr_dev_inst) :
  fst (configure_probes sdi) = SR_OK ->
  exists pm tm tv ns,
    snd (configure_probes sdi)
    = set_num_stages ns
        (set_trigger_value tv
           (set_trigger_mask tm (set_probe_mask pm (priv sdi)))).
Proof.
  unfold configure_probes. intros Hok.
  destruct (configure_probes_loop_frame _ _ Hok)
    as (pm & tm & tv & ns & ->).
  exists pm, tm, tv, ns. destruct (priv sdi). reflexivity.
Qed.

Lemma bus_serial_write (c : command) (payload : list Z) (b : bus) :
  feed (serial_write c payload b) = feed b
  /\ source (serial_write c payload b) = source b
  /\ map fst (wire (serial_write c payload b)) = map fst (wire b) ++ [c].
Proof.
  unfold serial_write. cbn [feed source wire].
  rewrite map_app. repeat split.
Qed.

Lemma feed_serial_write (c : command) (payload : list Z) (b : bus) :
  feed (serial_write c payload b) = feed b.
Proof. reflexivity. Qed.

Lemma source_serial_write (c : command) (payload : list Z) (b : bus) :
  source (serial_write c payload b) = source b.
Proof. reflexivity. Qed.

Lemma wire_serial_write (c : command) (payload : list Z) (b : bus) :
  map fst (wire (serial_write c payload b)) = map fst (wire b) ++ [c].
Proof. apply bus_serial_write. Qed.

Lemma feed_session_send (p : sr_datafeed_packet) (b : bus) :
  feed (sr_session_send p b) = feed b ++ [p].
Proof. reflexivity. Qed.

Lemma source_session_send (p : sr_datafeed_packet) (b : bus) :
  source (sr_session_send p b) = source b.
Proof. reflexivity. Qed.

Lemma wire_session_send (p : sr_datafeed_packet) (b : bus) :
  wire (sr_session_send p b) = wire b.
Proof. reflexivity. Qed.

Lemma feed_source_add (t : Z) (b : bus) : feed (sr_source_add t b) = feed b.
Proof. reflexivity. Qed.

Lemma source_source_add (t : Z) (b : bus) :
  source (sr_source_add t b) = Some t.
Proof. reflexivity. Qed.

Lemma wire_source_add (t : Z) (b : bus) : wire (sr_source_add t b) = wire b.
Proof. reflexivity. Qed.



(** A probe in group [i] makes the test of that group in
    [channel_groups] succeed. *)
Lemma group_test (pm i k : Z) :
  0 <= i < 4 -> 8 * i <= k < 8 * i + 8 ->
  Z.testbit pm k = true ->
  (Z.land pm (u32 (Z.shiftl 0xff (i * 8))) =? 0) = false.
Proof.
  intros Hi Hk Hbit. apply Z.eqb_neq. intros E.
  assert (Hb : Z.testbit (Z.land pm (u32 (Z.shiftl 0xff (i * 8)))) k = true).
  { rewrite Z.land_spec, Hbit. cbn [andb]. unfold u32.
    rewrite Z.testbit_mod_pow2, Z.shiftl_spec by lia.
    change 0xff with (Z.ones 8). rewrite Z.testbit_ones by lia.
    destruct (Z.ltb_spec k 32); [|lia].
    destruct (Z.leb_spec 0 (k - i * 8)); [|lia].
    destruct (Z.ltb_spec (k - i * 8) 8); [|lia]. reflexivity. }
  rewrite E, Z.bits_0 in Hb. discriminate.
Qed.

Lemma channel_groups_nonzero (pm k : Z) :
  0 <= k < 32 -> Z.testbit pm k = true ->
  snd (channel_groups pm) <> 0.
Proof.
  intros Hk Hbit.
  assert (Hi : exists i, 0 <= i < 4 /\ 8 * i <= k < 8 * i + 8)
    by (exists (k / 8); split; [|split]; Z.div_mod_to_equations; lia).
  destruct Hi as (i & Hi & Hki).
  pose proof (group_test pm i k Hi Hki Hbit) as Ht.
  unfold channel_groups. cbn [fold_left].
  assert (Hc : i = 0 \/ i = 1 \/ i = 2 \/ i = 3) by lia.
  destruct (negb (Z.land pm (u32 (Z.shiftl 255 (0 * 8))) =? 0)) eqn:E0;
    cbv beta iota;
    destruct (negb (Z.land pm (u32 (Z.shiftl 255 (1 * 8))) =? 0)) eqn:E1;
    cbv beta iota;
    destruct (negb (Z.land pm (u32 (Z.shiftl 255 (2 * 8))) =? 0)) eqn:E2;
    cbv beta iota;
    destruct (negb (Z.land pm (u32 (Z.shiftl 255 (3 * 8))) =? 0)) eqn:E3;
    cbv beta iota; cbn [snd]; try lia;
    destruct Hc as [-> | [-> | [-> | ->]]];
    rewrite Ht in *; discriminate.
Qed.

(** With a capture ratio of zero the delay count is the read count. *)
Lemma delaycount_ratio_0 (rc : Z) :
  0 <= rc < 2 ^ 16 ->
  u16 (Qtrunc (inject_Z rc * (1 - inject_Z 0 / 100))%Q) = rc.
Proof.
  intros Hrc.
  assert (E : Qtrunc (inject_Z rc * (1 - inject_Z 0 / 100))%Q = rc).
  { change ((1 - inject_Z 0 / 100)%Q) with (100 # 100)%Q.
    unfold Qtrunc, Qle_bool, Qfloor, Qmult, inject_Z. cbn [Qnum Qden].
    change (Z.pos (1 * 100)) with 100.
    destruct (Z.leb_spec (0 * 100) (rc * 100 * 1)); [|lia].
    rewrite Z.div_mul by lia. reflexivity. }
  rewrite E. unfold u16. apply Z.mod_small. exact Hrc.
Qed.

Lemma max_stages_ge (l : list sr_probe) (p : sr_probe) :
  In p l -> enabled p = true -> trigger_length p <= max_stages l.
Proof.
  induction l as [|q rest IH]; intros Hin Hen; [contradiction|].
  cbn [max_stages fold_right]. fold (max_stages rest).
  pose proof (max_stages_nonneg rest).
  destruct Hin as [->|Hin].
  - rewrite Hen. lia.
  - specialize (IH Hin Hen). destruct (enabled q); lia.
Qed.

Lemma max_stages_le (l : list sr_probe) :
  Forall (fun p => enabled p = true -> trigger_length p <= 3) l ->
  max_stages l <= 3.
Proof.
  induction 1 as [|p rest Hp _ IH]; cbn [max_stages fold_right]; [lia|].
  fold (max_stages rest). destruct (enabled p); [specialize (Hp eq_refl)|];
    lia.
Qed.

Lemma existsb_in {A : Type} (f : A -> bool) (l : list A) (x : A) :
  In x l -> f x = true -> existsb f l = true.
Proof.
  intros Hin Hf. apply existsb_exists. exists x. split; assumption.
Qed.

(** X18. On a device with a trigger configured and a capture ratio of
    zero, [hw_dev_acquisition_start] leaves [trigger_at] at minus the
    number of trigger stages; for single-stage triggers that is -1,
    the value by which [receive_data] recognises a capture without
    trigger. *)
Theorem hw_dev_acquisition_start_trigger_at {H : ols_h}
  (starttime : Z) (sdi : sr_dev_inst) (b : bus) (p : sr_probe) :
  status sdi = SR_ST_ACTIVE ->
  (forall q, In q (probes sdi) -> enabled q = true -> 0 <= index q < 32) ->
  Forall (fun q => enabled q = true -> trigger_length q <= 3) (probes sdi) ->
  In p (probes sdi) -> enabled p = true -> 0 < trigger_length p ->
  capture_ratio (priv sdi) = 0 ->
  exists sdi' b',
    hw_dev_acquisition_start starttime true sdi b = Some (SR_OK, sdi', b')
    /\ trigger_at (priv sdi') = - max_stages (probes sdi)
    /\ 1 <= max_stages (probes sdi) <= 3.
Proof.
  intros Hst Hidx Hlen Hin Hen Htrig Hratio.
  pose proof (configure_probes_result sdi) as (_ & Hiff & Hns).
  assert (Hok : fst (configure_probes sdi) = SR_OK) by (apply Hiff, Hlen).
  specialize (Hns Hok).
  assert (Hk : 0 <= index p < 32) by (apply Hidx; assumption).
  assert (Hz4 : 0 <= 0 < 4) by lia.
  pose proof (configure_probes_bits sdi (index p) 0 Hidx Hok Hk Hz4)
    as Hmasks.
  destruct Hmasks as (Hpm & Htm & _).
  assert (Hen_at : enabled_at (probes sdi) (index p) = true).
  { unfold enabled_at. apply (existsb_in _ _ p Hin).
    rewrite Hen, Z.eqb_refl. reflexivity. }
  assert (Harm : armed_at (probes sdi) 0 (index p) = true).
  { unfold armed_at. apply (existsb_in _ _ p Hin).
    rewrite Hen, Z.eqb_refl. cbn [andb].
    unfold trigger_char, trigger_length in *.
    destruct (trigger p) as [tc|]; [|lia].
    destruct tc; [cbn in Htrig; lia | reflexivity]. }
  rewrite Hen_at in Hpm. rewrite Harm in Htm.
  change (Z.to_nat 0) with 0%nat in Htm.
  destruct (configure_probes_frame sdi Hok) as (pm & tm & tv & ns & Eframe).
  assert (Hstages : 1 <= max_stages (probes sdi) <= 3).
  { pose proof (max_stages_ge _ _ Hin Hen). pose proof (max_stages_le _ Hlen).
    lia. }
  unfold hw_dev_acquisition_start. rewrite Hst.
  change (negb (SR_ST_ACTIVE =? SR_ST_ACTIVE)) with false. cbv iota.
  destruct (configure_probes sdi) as [ret0 devc] eqn:Ecfg.
  cbn [fst snd] in *. subst ret0.
  change (negb (SR_OK =? SR_OK)) with false. cbv iota.
  pose proof (channel_groups_nonzero (probe_mask devc) (index p) Hk Hpm)
    as Hnc.
  destruct (channel_groups (probe_mask devc)) as [changrp_mask num_channels].
  cbn [snd] in Hnc.
  destruct (Z.eqb_spec num_channels 0) as [?|_]; [contradiction|].
  assert (Hmask0 : (nth 0 (trigger_mask devc) 0 =? 0) = false).
  { apply Z.eqb_neq. intros E. rewrite E, Z.bits_0 in Htm. discriminate. }
  rewrite Hmask0. cbn [negb].
  assert (Hcr : capture_ratio devc = 0).
  { rewrite Eframe. destruct (priv sdi). exact Hratio. }
  rewrite Hcr.
  set (rc := u16 (Z.min (max_samples devc / num_channels)
                        (limit_samples devc) / 4)).
  assert (Hrc : 0 <= rc < 2 ^ 16)
    by (unfold rc, u16; apply Z.mod_pos_bound; lia).
  rewrite (delaycount_ratio_0 rc Hrc).
  cbn [send_longcommands send_longcommand send_shortcommand].
  change (SR_OK =? SR_OK) with true. cbn [negb].
  eexists. eexists. split; [reflexivity|].
  split; [|exact Hstages].
  cbn [priv set_priv]. rewrite <- Hns.
  destruct devc.
  cbn [trigger_at set_trigger_at set_flag_reg set_rle_count num_stages
       flag_reg].
  replace ((rc - rc) * 4 - num_stages0) with (- num_stages0) by lia.
  cbn [num_stages] in Hns. apply s32_small. lia.
Qed.

Lemma hw_dev_acquisition_start_trigger_at_witness :
  exists sdi' b',
    @hw_dev_acquisition_start ols_h_1_0 0 true trigger_sdi bus0
    = Some (SR_OK, sdi', b')
    /\ trigger_at (priv sdi') = -2.
Proof.
  assert (Hidx : forall q, In q (probes trigger_sdi) -> enabled q = true ->
                           0 <= index q < 32).
  { intros q Hq _. unfold trigger_sdi in Hq. cbn [probes] in Hq.
    apply in_map_iff in Hq. destruct Hq as [q0 [<- Hq0]]. cbn [index].
    unfold sump_sdi in Hq0. cbn [probes] in Hq0.
    apply in_map_iff in Hq0. destruct Hq0 as [i [<- Hi]]. cbn [index].
    apply in_seq in Hi. lia. }
  assert (Hlen : Forall (fun q => enabled q = true -> trigger_length q <= 3)
                        (probes trigger_sdi)).
  { apply Forall_forall. intros q Hq _. unfold trigger_sdi in Hq.
    cbn [probes] in Hq. apply in_map_iff in Hq.
    destruct Hq as [q0 [<- _]]. unfold trigger_length. cbn [trigger].
    destruct (index q0 =? 0); [cbn; lia|].
    destruct (index q0 =? 1); cbn; lia. }
  destruct (@hw_dev_acquisition_start_trigger_at ols_h_1_0 0 trigger_sdi bus0
              (nth 0 (probes trigger_sdi) (mk_probe 0 0 false "" None)))
    as (sdi' & b' & E & Hta & _).
  - reflexivity.
  - exact Hidx.
  - exact Hlen.
  - left. reflexivity.
  - reflexivity.
  - vm_compute. reflexivity.
  - reflexivity.
  - exists sdi', b'. split; [exact E | exact Hta].
Defined.

End OlsStart.

(** ** OLS: the end of an acquisition *)

Module OlsTimeout.
Import Sigrok Ols OlsStart.

(** X19. When the poll times out on a capture with a trigger position
    inside the samples read, [receive_data] sends the samples before
    the trigger (if there are any), the trigger marker, the samples
    from the trigger on and SR_DF_END; the two logic packets together
    are exactly the captured part of the buffer. It frees the buffer
    and removes the event source. *)
Theorem receive_data_timeout_trigger {H : ols_h} (d : dev_context) (b : bus)
  (buf : list Z) :
  0 < num_transfers d ->
  raw_sample_buf d = Some buf ->
  Z.of_nat (length buf) = 4 * limit_samples d ->
  0 <= num_samples d <= limit_samples d ->
  4 * limit_samples d <= INT_MAX ->
  0 <= trigger_at d <= num_samples d ->
  exists d' b' pre post,
    receive_data G_IO_NONE d b = Some (true, d', b')
    /\ raw_sample_buf d' = None
    /\ source b' = None
    /\ pre ++ post
       = skipn (Z.to_nat (4 * (limit_samples d - num_samples d))) buf
    /\ Z.of_nat (length pre) = 4 * trigger_at d
    /\ Z.of_nat (length post) = 4 * (num_samples d - trigger_at d)
    /\ feed b'
       = feed b
         ++ (if 0 <? trigger_at d
             then [SR_DF_LOGIC (4 * trigger_at d) 4 pre] else [])
         ++ [SR_DF_TRIGGER;
             SR_DF_LOGIC (4 * (num_samples d - trigger_at d)) 4 post;
             SR_DF_END].
Proof.
  intros Hnt Hbuf Hlen Hns Hlim Hta. unfold INT_MAX in Hlim.
  set (region := skipn (Z.to_nat (4 * (limit_samples d - num_samples d)))
                       buf).
  assert (Hreg : Z.of_nat (length region) = 4 * num_samples d).
  { unfold region. rewrite length_skipn. lia. }
  exists (set_raw_sample_buf None
            (set_num_transfers (u32 (num_transfers d + 1)) d)).
  eexists.
  exists (firstn (Z.to_nat (4 * trigger_at d)) region),
    (skipn (Z.to_nat (4 * trigger_at d)) region).
  unfold receive_data.
  destruct (Z.eqb_spec (num_transfers d) 0) as [?|_]; [lia|].
  cbn [andb]. unfold send_buffer.
  assert (Hd1 : forall v,
             raw_sample_buf (set_num_transfers v d) = raw_sample_buf d
             /\ limit_samples (set_num_transfers v d) = limit_samples d
             /\ num_samples (set_num_transfers v d) = num_samples d
             /\ trigger_at (set_num_transfers v d) = trigger_at d)
    by (intros v; destruct d; repeat split; reflexivity).
  destruct (Hd1 (u32 (num_transfers d + 1))) as (-> & -> & -> & ->).
  rewrite Hbuf.
  destruct (Z.eqb_spec (trigger_at d) (-1)) as [?|_]; [lia|]. cbn [negb].
  rewrite (u64_small ((limit_samples d - num_samples d) * 4)) by lia.
  rewrite (s32_small (trigger_at d * 4)) by lia.
  rewrite (u64_small (trigger_at d * 4)) by lia.
  rewrite (u32_small (num_samples d * 4)) by lia.
  rewrite (u32_small (num_samples d * 4 - trigger_at d * 4)) by lia.
  split; [reflexivity|].
  split; [destruct d; reflexivity|].
  split; [reflexivity|].
  split; [apply firstn_skipn|].
  split; [rewrite length_firstn; lia|].
  split; [rewrite length_skipn; lia|].
  unfold abort_acquisition.
  assert (Hpost : slice buf
                    (trigger_at d * 4 + (limit_samples d - num_samples d) * 4)
                    (num_samples d * 4 - trigger_at d * 4)
                  = skipn (Z.to_nat (4 * trigger_at d)) region).
  { unfold slice, region. rewrite skipn_skipn.
    replace (Z.to_nat (4 * trigger_at d)
             + Z.to_nat (4 * (limit_samples d - num_samples d)))%nat
      with (Z.to_nat (trigger_at d * 4
                      + (limit_samples d - num_samples d) * 4)) by lia.
    apply firstn_all2. rewrite length_skipn. lia. }
  assert (Hpre : slice buf ((limit_samples d - num_samples d) * 4)
                   (trigger_at d * 4)
                 = firstn (Z.to_nat (4 * trigger_at d)) region).
  { unfold slice, region.
    replace (Z.to_nat (trigger_at d * 4)) with (Z.to_nat (4 * trigger_at d))
      by lia.
    replace (Z.to_nat ((limit_samples d - num_samples d) * 4))
      with (Z.to_nat (4 * (limit_samples d - num_samples d))) by lia.
    reflexivity. }
  rewrite Hpost.
  replace (num_samples d * 4 - trigger_at d * 4)
    with (4 * (num_samples d - trigger_at d)) by lia.
  destruct (Z.ltb_spec 0 (trigger_at d)).
  - rewrite Hpre. replace (trigger_at d * 4) with (4 * trigger_at d) by lia.
    rewrite !feed_session_send.
    unfold sr_source_remove. cbn [feed].
    rewrite !feed_session_send, <- !app_assoc. reflexivity.
  - rewrite !feed_session_send.
    unfold sr_source_remove. cbn [feed].
    rewrite !feed_session_send, <- !app_assoc. reflexivity.
Qed.

Lemma receive_data_timeout_trigger_witness :
  exists d' b' pre post,
    @receive_data ols_h_1_0 G_IO_NONE (fst triggered16) (snd triggered16)
    = Some (true, d', b')
    /\ raw_sample_buf d' = None
    /\ Z.of_nat (length pre) = 28
    /\ feed b'
       = [SR_DF_HEADER 1 0; SR_DF_META_LOGIC 32 200000;
          SR_DF_LOGIC 28 4 pre; SR_DF_TRIGGER; SR_DF_LOGIC 36 4 post;
          SR_DF_END].
Proof.
  destruct (raw_sample_buf (fst triggered16)) as [buf|] eqn:Ebuf;
    [|vm_compute in Ebuf; discriminate].
  assert (Hlen : Z.of_nat (length buf) = 4 * limit_samples (fst triggered16)).
  { vm_compute in Ebuf. injection Ebuf as <-. reflexivity. }
  destruct (@receive_data_timeout_trigger ols_h_1_0 (fst triggered16)
              (snd triggered16) buf)
    as (d' & b' & pre & post & E & Hfree & _ & _ & Hpre & _ & Hfeed).
  - vm_compute. reflexivity.
  - exact Ebuf.
  - exact Hlen.
  - vm_compute. split; discriminate.
  - vm_compute. discriminate.
  - vm_compute. split; discriminate.
  - exists d', b', pre, post.
    split; [exact E|]. split; [exact Hfree|]. split; [exact Hpre|].
    exact Hfeed.
Defined.

End OlsTimeout.

(** ** OLS: captures on all four channel groups *)

Module OlsWide.
Import Sigrok Ols OlsReceive OlsCapture.

(** A call of [receive_data] that reads a byte, in terms of
    [receive_byte]. *)
Lemma receive_data_byte {H : ols_h} (d : dev_context) (b : bus) (x : Z)
  (L : list Z) :
  recv_buffer d = Some L ->
  receive_data (G_IO_IN (Some x)) d b
  = match receive_byte (count_channels (flag_reg d)) x
            (set_raw_sample_buf (Some L)
               (set_num_transfers (u32 (num_transfers d + 1)) d)) with
    | Some d' => Some (true, d', recv_bus d b)
    | None => None
    end.
Proof.
  unfold recv_buffer, recv_bus, receive_data. intros HL.
  destruct d. devc_simpl. devc_simpl_in HL.
  destruct (num_transfers0 =? 0) eqn:E.
  - devc_simpl. rewrite HL. cbn [andb]. reflexivity.
  - cbn [andb]. devc_simpl. rewrite HL. reflexivity.
Qed.

Lemma all_groups_channels (f : Z) :
  Z.land f 0x3c = 0 -> count_channels f = 4.
Proof.
  intros Hf. rewrite count_channels_bits.
  assert (Hb : forall i, 2 <= i <= 5 -> Z.testbit f i = false).
  { intros i Hi.
    assert (E : Z.testbit (Z.land f 0x3c) i = false)
      by (rewrite Hf; apply Z.bits_0).
    rewrite Z.land_spec in E.
    assert (Hm : Z.testbit 0x3c i = true).
    { assert (Hc : i = 2 \/ i = 3 \/ i = 4 \/ i = 5) by lia.
      destruct Hc as [-> | [-> | [-> | ->]]]; reflexivity. }
    rewrite Hm, andb_true_r in E. exact E. }
  rewrite !Hb by lia. reflexivity.
Qed.

(** A byte of a sample other than its last one is put into [sample]. *)
Lemma receive_data_partial {H : ols_h} (d : dev_context) (b : bus)
  (k w0 w1 w2 w3 : Z) (L : list Z) :
  word_rx k [w0; w1; w2; w3] d ->
  0 <= k < 3 ->
  0 <= num_samples d < limit_samples d ->
  0 <= num_transfers d < 2 ^ 32 - 1 ->
  recv_buffer d = Some L ->
  exists d',
    receive_data (G_IO_IN (Some (nth (Z.to_nat k) [w0; w1; w2; w3] 0))) d b
    = Some (true, d', recv_bus d b)
    /\ word_rx (k + 1) [w0; w1; w2; w3] d'
    /\ num_samples d' = num_samples d
    /\ limit_samples d' = limit_samples d
    /\ trigger_at d' = trigger_at d
    /\ num_transfers d' = num_transfers d + 1
    /\ raw_sample_buf d' = Some L.
Proof.
  intros [Hg Hr Hnb Hrc Hs HLim] Hk Hns Hnt HL.
  rewrite (receive_data_byte d b _ L HL).
  rewrite (all_groups_channels _ Hg).
  unfold receive_byte.
  destruct d. devc_simpl. devc_simpl_in Hnb. devc_simpl_in Hs.
  devc_simpl_in Hns. devc_simpl_in Hnt. devc_simpl_in Hg. devc_simpl_in Hr.
  devc_simpl_in Hrc. devc_simpl_in HLim.
  subst num_bytes0 sample0 rle_count0.
  destruct (Z.leb_spec limit_samples0 num_samples0) as [?|_]; [lia|].
  rewrite (u32_small (num_transfers0 + 1)) by lia.
  assert (Hc : k = 0 \/ k = 1 \/ k = 2) by lia.
  destruct Hc as [-> | [-> | ->]];
    cbn [Z.to_nat Pos.to_nat Pos.iter_op Nat.add nth firstn repeat app
         Nat.sub];
    match goal with
    | |- context [store ?l ?i ?v] =>
        let E := fresh "E" in
        assert (E : store l i v
                    = Some (firstn (Z.to_nat i) l ++ v
                            :: skipn (S (Z.to_nat i)) l)) by reflexivity;
        rewrite E; clear E
    end;
    cbn [Z.to_nat Pos.to_nat Pos.iter_op Nat.add firstn skipn app];
    devc_simpl;
    match goal with
    | |- context [s32 (?a + 1) =? 4] =>
        change (s32 (a + 1) =? 4) with false
    end;
    cbv iota;
    (eexists; split; [reflexivity|]);
    (split; [constructor; devc_simpl; try assumption; reflexivity|]);
    devc_simpl; repeat split; reflexivity.
Qed.

(** The last byte of a sample completes it: the sample goes into the
    slot just below the ones filled so far. *)
Lemma receive_data_complete {H : ols_h} (d : dev_context) (b : bus)
  (w0 w1 w2 w3 : Z) (L : list Z) :
  word_rx 3 [w0; w1; w2; w3] d ->
  is_byte w0 -> is_byte w1 -> is_byte w2 -> is_byte w3 ->
  0 <= num_samples d < limit_samples d ->
  0 <= num_transfers d < 2 ^ 32 - 1 ->
  recv_buffer d = Some L ->
  Z.of_nat (length L) = limit_samples d * 4 ->
  exists d',
    receive_data (G_IO_IN (Some w3)) d b = Some (true, d', recv_bus d b)
    /\ word_rx 0 [] d'
    /\ num_samples d' = num_samples d + 1
    /\ limit_samples d' = limit_samples d
    /\ trigger_at d' = trigger_at d
    /\ num_transfers d' = num_transfers d + 1
    /\ raw_sample_buf d'
       = Some (firstn (Z.to_nat (4 * (limit_samples d - num_samples d - 1)))
                      L
               ++ [w0; w1; w2; w3]
               ++ skipn (Z.to_nat (4 * (limit_samples d - num_samples d)))
                        L).
Proof.
  intros [Hg Hr Hnb Hrc Hs HLim] B0 B1 B2 B3 Hns Hnt HL HLlen.
  rewrite (receive_data_byte d b _ L HL).
  rewrite (all_groups_channels _ Hg).
  unfold receive_byte.
  set (d1 := set_raw_sample_buf (Some L)
               (set_num_transfers (u32 (num_transfers d + 1)) d)).
  assert (Ed1 : num_transfers d1 = num_transfers d + 1
                /\ flag_reg d1 = flag_reg d /\ num_samples d1 = num_samples d
                /\ limit_samples d1 = limit_samples d
                /\ rle_count d1 = 0 /\ num_bytes d1 = 3
                /\ sample d1 = [w0; w1; w2; 0]
                /\ raw_sample_buf d1 = Some L
                /\ trigger_at d1 = trigger_at d).
  { unfold d1. destruct d. devc_simpl. devc_simpl_in Hnt.
    devc_simpl_in Hnb. devc_simpl_in Hs. devc_simpl_in Hrc.
    rewrite u32_small by lia. subst. repeat split. }
  destruct Ed1 as (E1 & E2 & E3 & E4 & E5 & E6 & E7 & E8 & E9).
  rewrite E3, E4, E6, E7.
  destruct (Z.leb_spec (limit_samples d) (num_samples d)) as [?|_]; [lia|].
  change (store [w0; w1; w2; 0] 3 w3) with (Some [w0; w1; w2; w3]).
  cbv beta iota zeta.
  replace (num_bytes (set_sample [w0; w1; w2; w3] d1)) with 3
    by (destruct d1; symmetry; exact E6).
  set (d2 := set_num_bytes (s32 (3 + 1)) (set_sample [w0; w1; w2; w3] d1)).
  assert (Ed2 : num_transfers d2 = num_transfers d + 1
                /\ flag_reg d2 = flag_reg d /\ num_samples d2 = num_samples d
                /\ limit_samples d2 = limit_samples d
                /\ rle_count d2 = 0 /\ num_bytes d2 = 4
                /\ sample d2 = [w0; w1; w2; w3]
                /\ raw_sample_buf d2 = Some L
                /\ trigger_at d2 = trigger_at d).
  { unfold d2. destruct d1. devc_simpl.
    devc_simpl_in E1. devc_simpl_in E2. devc_simpl_in E3. devc_simpl_in E4.
    devc_simpl_in E5. devc_simpl_in E8. devc_simpl_in E9.
    repeat split; assumption. }
  destruct Ed2 as (F1 & F2 & F3 & F4 & F5 & F6 & F7 & F8 & F9).
  rewrite F6, F2, Hr. change (4 =? 4) with true.
  change (negb (0 =? 0)) with false. cbn [andb]. cbv iota.
  destruct (store_full_sample_spec 4 d2 L)
    as (d' & Hst & EN & Eb & Es & Enb & Er & EL & Ef & Ent & Eta & _).
  - lia.
  - rewrite F4. exact HLim.
  - rewrite F5. unfold INT_MAX. lia.
  - rewrite F7. reflexivity.
  - rewrite F7. repeat (constructor; [assumption|]). constructor.
  - exact F8.
  - rewrite F4. exact HLlen.
  - rewrite Hst. exists d'. split; [reflexivity|].
    rewrite F3, F4, F5 in EN.
    replace (Z.min (num_samples d + 0 + 1) (limit_samples d))
      with (num_samples d + 1) in EN by lia.
    split.
    { constructor.
      - rewrite Ef, F2. exact Hg.
      - rewrite Ef, F2. exact Hr.
      - exact Enb.
      - exact Er.
      - rewrite Es. reflexivity.
      - rewrite EL, F4. exact HLim. }
    split; [exact EN|]. split; [congruence|]. split; [congruence|].
    split; [congruence|].
    rewrite Eb, EN, F3, F4, F7.
    unfold full_sample. change (4 <? 4) with false. cbv iota.
    replace (Z.to_nat (num_samples d + 1 - num_samples d)) with 1%nat by lia.
    cbn [repeat concat]. rewrite app_nil_r.
    repeat first [reflexivity | lia | f_equal].
Qed.

Lemma recv_allocated (d : dev_context) (L : list Z) :
  num_transfers d <> 0 -> raw_sample_buf d = Some L ->
  recv_buffer d = Some L /\ forall b, recv_bus d b = b.
Proof.
  intros Hnt HL. unfold recv_buffer, recv_bus.
  destruct (Z.eqb_spec (num_transfers d) 0); [contradiction|].
  split; [exact HL | reflexivity].
Qed.

Lemma length_sample_bytes (l : list (Z * Z * Z * Z)) :
  length (sample_bytes l) = (4 * length l)%nat.
Proof.
  unfold sample_bytes.
  induction l as [|[[[a b] c] e] l IH]; [reflexivity|].
  cbn [map concat length app]. rewrite IH. lia.
Qed.

(** Four bytes make one sample. *)
Lemma run_sample {H : ols_h} (d : dev_context) (b : bus)
  (w0 w1 w2 w3 : Z) (L : list Z) (evs : list revents) :
  word_rx 0 [] d ->
  is_byte w0 -> is_byte w1 -> is_byte w2 -> is_byte w3 ->
  0 <= num_samples d < limit_samples d ->
  0 <= num_transfers d -> num_transfers d + 4 < 2 ^ 32 ->
  recv_buffer d = Some L ->
  Z.of_nat (length L) = limit_samples d * 4 ->
  exists d',
    run_events (bytes_in [w0; w1; w2; w3] ++ evs) d b
    = run_events evs d' (recv_bus d b)
    /\ word_rx 0 [] d'
    /\ num_samples d' = num_samples d + 1
    /\ limit_samples d' = limit_samples d
    /\ trigger_at d' = trigger_at d
    /\ num_transfers d' = num_transfers d + 4
    /\ raw_sample_buf d'
       = Some (firstn (Z.to_nat (4 * (limit_samples d - num_samples d - 1)))
                      L
               ++ [w0; w1; w2; w3]
               ++ skipn (Z.to_nat (4 * (limit_samples d - num_samples d)))
                        L).
Proof.
  intros Hw B0 B1 B2 B3 Hns Hnt0 Hnt HL HLlen.
  assert (Hw0 : word_rx 0 [w0; w1; w2; w3] d)
    by (destruct Hw; constructor; assumption).
  destruct (receive_data_partial d b 0 w0 w1 w2 w3 L Hw0)
    as (d1 & R1 & W1 & N1 & L1 & T1 & NT1 & BUF1); try lia; try assumption.
  destruct (recv_allocated d1 L ltac:(lia) BUF1) as [HL1 Hb1].
  destruct (receive_data_partial d1 (recv_bus d b) 1 w0 w1 w2 w3 L W1)
    as (d2 & R2 & W2 & N2 & L2 & T2 & NT2 & BUF2); try lia; try assumption.
  destruct (recv_allocated d2 L ltac:(lia) BUF2) as [HL2 Hb2].
  destruct (receive_data_partial d2 (recv_bus d b) 2 w0 w1 w2 w3 L W2)
    as (d3 & R3 & W3 & N3 & L3 & T3 & NT3 & BUF3); try lia; try assumption.
  destruct (recv_allocated d3 L ltac:(lia) BUF3) as [HL3 Hb3].
  destruct (receive_data_complete d3 (recv_bus d b) w0 w1 w2 w3 L W3)
    as (d4 & R4 & W4 & N4 & L4 & T4 & NT4 & BUF4);
    try lia; try assumption.
  change (nth (Z.to_nat 0) [w0; w1; w2; w3] 0) with w0 in R1.
  change (nth (Z.to_nat 1) [w0; w1; w2; w3] 0) with w1 in R2.
  change (nth (Z.to_nat 2) [w0; w1; w2; w3] 0) with w2 in R3.
  rewrite Hb1 in R2. rewrite Hb2 in R3. rewrite Hb3 in R4.
  exists d4.
  cbn [bytes_in map app run_events]. rewrite R1, R2, R3, R4.
  split; [reflexivity|]. split; [exact W4|].
  rewrite N4, L4, T4, NT4, BUF4, N3, L3, T3, NT3, N2, L2, T2, NT2, N1, L1,
    T1, NT1.
  repeat split; lia.
Qed.

(** A run of samples fills the buffer from its end towards its
    start. *)
Lemma run_samples {H : ols_h} (samples : list (Z * Z * Z * Z))
  (evs : list revents) :
  Forall is_byte (sample_bytes samples) ->
  forall (d : dev_context) (b : bus) (pre content : list Z),
    word_rx 0 [] d ->
    0 <= num_samples d ->
    num_samples d + Z.of_nat (length samples) = limit_samples d ->
    0 <= num_transfers d ->
    num_transfers d + 4 * Z.of_nat (length samples) < 2 ^ 32 ->
    recv_buffer d = Some (pre ++ content) ->
    length pre = (4 * length samples)%nat ->
    Z.of_nat (length content) = 4 * num_samples d ->
    exists d',
      run_events (bytes_in (sample_bytes samples) ++ evs) d b
      = run_events evs d' (match samples with [] => b | _ :: _ => recv_bus d b end)
      /\ num_samples d' = limit_samples d
      /\ limit_samples d' = limit_samples d
      /\ trigger_at d' = trigger_at d
      /\ num_transfers d' = num_transfers d + 4 * Z.of_nat (length samples)
      /\ recv_buffer d'
         = Some (sample_bytes (rev samples) ++ content).
Proof.
  induction samples as [|[[[w0 w1] w2] w3] rest IH];
    intros Hbytes d b pre content Hw HN0 HNL Hnt0 Hnt Ebuf Hpre Hcont.
  - exists d. cbn [sample_bytes map concat bytes_in app rev length] in *.
    destruct pre; [|discriminate Hpre].
    split; [reflexivity|]. split; [lia|]. split; [reflexivity|].
    split; [reflexivity|]. split; [lia|]. exact Ebuf.
  - cbn [length] in *.
    unfold sample_bytes in Hbytes. cbn [map concat] in Hbytes.
    fold (sample_bytes rest) in Hbytes.
    apply Forall_app in Hbytes. destruct Hbytes as [Hw4 Hrest].
    assert (B : is_byte w0 /\ is_byte w1 /\ is_byte w2 /\ is_byte w3).
    { repeat match goal with
             | Hf : Forall _ (_ :: _) |- _ => inversion Hf; subst; clear Hf
             end.
      repeat match goal with |- _ /\ _ => split end; assumption. }
    destruct B as (B0 & B1 & B2 & B3).
    destruct (run_sample d b w0 w1 w2 w3 (pre ++ content)
                (bytes_in (sample_bytes rest) ++ evs) Hw B0 B1 B2 B3)
      as (d1 & Hrun & W1 & N1 & L1 & T1 & NT1 & BUF1);
      [lia | lia | lia | exact Ebuf | rewrite length_app; lia |].
    replace (Z.to_nat (4 * (limit_samples d - num_samples d - 1)))
      with (4 * length rest)%nat in BUF1 by lia.
    replace (Z.to_nat (4 * (limit_samples d - num_samples d)))
      with (length pre) in BUF1 by lia.
    rewrite firstn_app, skipn_app, skipn_all, Nat.sub_diag in BUF1.
    replace (4 * length rest - length pre)%nat with 0%nat in BUF1 by lia.
    cbn [firstn skipn app] in BUF1. rewrite app_nil_r in BUF1.
    destruct (recv_allocated d1 _ ltac:(lia) BUF1) as [HL1 Hb1].
    destruct (IH Hrest d1 (recv_bus d b) (firstn (4 * length rest) pre)
                ([w0; w1; w2; w3] ++ content))
      as (d' & Hrun' & N' & L' & T' & NT' & BUF');
      try assumption; try lia.
    + rewrite length_firstn. lia.
    + rewrite length_app. cbn [length]. lia.
    + exists d'. split.
      * unfold sample_bytes at 1. cbn [map concat].
        fold (sample_bytes rest).
        unfold bytes_in. rewrite map_app, <- app_assoc.
        fold (bytes_in [w0; w1; w2; w3]). fold (bytes_in (sample_bytes rest)).
        rewrite Hrun, Hrun'. rewrite Hb1.
        destruct rest; reflexivity.
      * split; [congruence|]. split; [congruence|]. split; [congruence|].
        split; [lia|].
        rewrite BUF'. cbn [rev]. unfold sample_bytes.
        rewrite map_app, concat_app. cbn [map concat].
        rewrite app_nil_r, <- app_assoc. reflexivity.
Qed.



End OlsWide.

(** ** OLS: run-length encoded captures *)

Module OlsRle.
Import Sigrok Ols OlsReceive OlsCapture OlsWide.

Lemma count_flag (c : Z) :
  0 <= c < 128 ->
  (Z.land (0x80 + c) 0x80 =? 0) = false /\ Z.land (0x80 + c) 0x7f = c.
Proof.
  intros Hc. split.
  - change 0x80 with (2 ^ 7) at 2. rewrite land_pow2_eqb by lia.
    apply negb_false_iff. apply Z.testbit_true; [lia|].
    change (2 ^ 7) with 128. Z.div_mod_to_equations. lia.
  - change 0x7f with (Z.ones 7). rewrite Z.land_ones by lia.
    change (2 ^ 7) with 128. Z.div_mod_to_equations. lia.
Qed.

Lemma sample_flag (s : Z) :
  0 <= s < 128 -> (Z.land s 0x80 =? 0) = true.
Proof.
  intros Hs. change 0x80 with (2 ^ 7). rewrite land_pow2_eqb by lia.
  apply negb_true_iff. apply Z.testbit_false; [lia|].
  change (2 ^ 7) with 128. Z.div_mod_to_equations. lia.
Qed.

Lemma group_channels (g f x : Z) :
  0 <= g < 4 ->
  (forall i, 0 <= i < 4 -> Z.testbit f (i + 2) = negb (i =? g)) ->
  count_channels f = 1 /\ full_sample 1 f [x; 0; 0; 0] = widen g x.
Proof.
  intros Hg Hbits.
  pose proof (Hbits 0 ltac:(lia)) as H2.
  pose proof (Hbits 1 ltac:(lia)) as H3.
  pose proof (Hbits 2 ltac:(lia)) as H4.
  pose proof (Hbits 3 ltac:(lia)) as H5.
  change (0 + 2) with 2 in H2. change (1 + 2) with 3 in H3.
  change (2 + 2) with 4 in H4. change (3 + 2) with 5 in H5.
  rewrite count_channels_bits. unfold full_sample.
  change (1 <? 4) with true. cbn iota.
  rewrite expand_sample_bits, H2, H3, H4, H5.
  assert (Hcg : g = 0 \/ g = 1 \/ g = 2 \/ g = 3) by lia.
  destruct Hcg as [-> | [-> | [-> | ->]]]; split; reflexivity.
Qed.

(** The count byte: bit 7 marks it, the other bits are kept as the
    count for the sample that follows. *)
Lemma receive_byte_rle_count {H : ols_h} (g c : Z) (d : dev_context) :
  rle_rx g d -> 0 <= c < 128 ->
  0 <= num_samples d < limit_samples d ->
  receive_byte (count_channels (flag_reg d)) (0x80 + c) d
  = Some (set_num_bytes 0 (set_rle_count c (set_sample [c; 0; 0; 0] d))).
Proof.
  intros [Hg Hbits Hrle Hnb HR Hs HL] Hc HN.
  destruct (group_channels g (flag_reg d) 0 Hg Hbits) as [Hnc _].
  destruct (count_flag c Hc) as [Hhi Hlo].
  rewrite Hnc. unfold receive_byte.
  destruct (Z.leb_spec (limit_samples d) (num_samples d)) as [?|_]; [lia|].
  destruct d as [msr ms pv cs csd L f cr ta pm tm tv ns nt N R nb smp tmp rb].
  devc_simpl. cbn [num_bytes rle_count sample flag_reg] in *. subst nb R smp.
  change (store [0; 0; 0; 0] 0 (0x80 + c)) with (Some [0x80 + c; 0; 0; 0]).
  cbv beta iota. devc_simpl.
  change (s32 (0 + 1)) with 1. change (1 =? 1) with true. cbv iota.
  change (nth (Z.to_nat (1 - 1)) [0x80 + c; 0; 0; 0] 0) with (0x80 + c).
  destruct (Z.eqb_spec (Z.land f FLAG_RLE) 0) as [?|_]; [contradiction|].
  rewrite Hhi. cbn [negb andb].
  change (store [0x80 + c; 0; 0; 0] (1 - 1) (Z.land (0x80 + c) 0x7f))
    with (Some [Z.land (0x80 + c) 0x7f; 0; 0; 0]).
  cbv beta iota. devc_simpl. rewrite Hlo.
  unfold le32. cbn [nth]. rewrite s32_small by lia.
  do 3 f_equal. lia.
Qed.

(** The sample after a count is stored count + 1 times, as far as the
    buffer has room. *)
Lemma receive_byte_rle_sample {H : ols_h} (g c s : Z) (d : dev_context)
  (buf : list Z) :
  rle_rx g d -> 0 <= c < 128 -> 0 <= s < 128 ->
  0 <= num_samples d < limit_samples d ->
  raw_sample_buf d = Some buf ->
  Z.of_nat (length buf) = limit_samples d * 4 ->
  exists d',
    receive_byte (count_channels (flag_reg d)) s
      (set_num_bytes 0 (set_rle_count c (set_sample [c; 0; 0; 0] d)))
    = Some d'
    /\ rle_rx g d'
    /\ num_samples d' = Z.min (num_samples d + c + 1) (limit_samples d)
    /\ raw_sample_buf d'
       = Some (firstn (Z.to_nat (4 * (limit_samples d - num_samples d')))
                      buf
               ++ concat (repeat (widen g s)
                                 (Z.to_nat (num_samples d' - num_samples d)))
               ++ skipn (Z.to_nat (4 * (limit_samples d - num_samples d)))
                        buf)
    /\ limit_samples d' = limit_samples d
    /\ num_transfers d' = num_transfers d
    /\ trigger_at d' = trigger_at d.
Proof.
  intros [Hg Hbits Hrle Hnb HR Hs HL] Hc Hsv HN Ebuf Elen.
  destruct (group_channels g (flag_reg d) s Hg Hbits) as [Hnc Hfs].
  pose proof (sample_flag s Hsv) as Hlow.
  rewrite Hnc. unfold receive_byte.
  destruct d as [msr ms pv cs csd L f cr ta pm tm tv ns nt N R nb smp tmp rb].
  devc_simpl.
  cbn [num_bytes rle_count sample flag_reg num_samples limit_samples
       raw_sample_buf num_transfers trigger_at] in *.
  subst nb R smp rb.
  destruct (Z.leb_spec L N) as [?|_]; [lia|].
  change (store [c; 0; 0; 0] 0 s) with (Some [s; 0; 0; 0]).
  cbv beta iota. devc_simpl.
  change (s32 (0 + 1)) with 1. change (1 =? 1) with true. cbv iota.
  change (nth (Z.to_nat (1 - 1)) [s; 0; 0; 0] 0) with s.
  rewrite Hlow. rewrite andb_false_r.
  match goal with
  | |- context [store_full_sample 1 ?d1] =>
      destruct (store_full_sample_spec 1 d1 buf)
        as (d' & Hst & EN & Eb & Es & Enb & Er & EL & Ef & Ent & Eta & _);
        devc_simpl
  end.
  - lia.
  - exact HL.
  - unfold INT_MAX. lia.
  - reflexivity.
  - unfold is_byte. repeat constructor; lia.
  - reflexivity.
  - exact Elen.
  - devc_simpl_in EN. devc_simpl_in Eb. devc_simpl_in EL.
    devc_simpl_in Ef. devc_simpl_in Ent. devc_simpl_in Eta.
    exists d'. split; [exact Hst|].
    split.
    { refine (mk_rle_rx _ g d' Hg _ _ Enb Er Es _).
      - intros i Hi. rewrite Ef. apply Hbits. exact Hi.
      - rewrite Ef. exact Hrle.
      - rewrite EL. exact HL. }
    split; [exact EN|].
    split; [rewrite Eb, Hfs; reflexivity|].
    split; [exact EL|]. split; [exact Ent | exact Eta].
Qed.



End OlsRle.

(** ** OLS: sample limits above 2^29 *)

Module OlsOverrun.
Import Sigrok Ols OlsReceive OlsCapture OlsRle.

(** The byte offset of the first sample slot, computed in 64 bits and
    kept in an [int]: negative for limits above 2^29 and up to 2^30. *)
Lemma first_offset_wraps (L : Z) :
  2 ^ 29 < L <= 2 ^ 30 ->
  s32 (u64 ((L - 1) * 4)) = 4 * (L - 1) - 2 ^ 32
  /\ 4 * (L - 1) - 2 ^ 32 < 0.
Proof.
  intros HL. rewrite u64_small by lia. unfold s32.
  assert (E : ((L - 1) * 4 + 2 ^ 31) mod 2 ^ 32
              = (L - 1) * 4 + 2 ^ 31 - 2 ^ 32).
  { symmetry. apply (Z.mod_unique_pos _ _ 1); lia. }
  rewrite E. lia.
Qed.

(** A copy to a negative offset is outside every buffer. *)
Lemma memcpy_negative (buf src : list Z) (off : Z) :
  off < 0 -> memcpy buf off src = None.
Proof.
  intros Hoff. unfold memcpy.
  destruct (Z.leb_spec 0 off) as [?|_]; [lia | reflexivity].
Qed.

(** The first full sample of a capture with such a limit: the copy into
    [raw_sample_buf] is at the wrapped offset. *)
Lemma store_full_sample_wraps (nc : Z) (d : dev_context) (buf : list Z) :
  2 ^ 29 < limit_samples d <= 2 ^ 30 ->
  num_samples d = 0 -> rle_count d = 0 ->
  length (sample d) = 4%nat -> Forall is_byte (sample d) ->
  raw_sample_buf d = Some buf ->
  store_full_sample nc d = None.
Proof.
  intros HL HN HR Hlen Hb Ebuf.
  destruct (first_offset_wraps (limit_samples d) HL) as [Eoff Hneg].
  destruct (expand_sample_total (flag_reg d) (sample d) Hlen Hb)
    as (tmp & Etmp & _).
  unfold store_full_sample.
  destruct d as [msr ms pv cs csd L f cr ta pm tm tv ns nt N R nb smp tmp0 rb].
  devc_simpl.
  cbn [limit_samples num_samples rle_count sample raw_sample_buf flag_reg]
    in *.
  subst N R rb.
  change (u32 (0 + s32 (0 + 1))) with 1.
  destruct (Z.ltb_spec L 1) as [?|_]; [lia|].
  devc_simpl.
  destruct (nc <? 4).
  - rewrite Etmp. devc_simpl. rewrite Eoff.
    change (Z.to_nat (0 + 1)) with 1%nat.
    cbn [store_samples]. rewrite memcpy_negative; [reflexivity|].
    change (s32 (0 * 4)) with 0. lia.
  - devc_simpl. rewrite Eoff.
    change (Z.to_nat (0 + 1)) with 1%nat.
    cbn [store_samples]. rewrite memcpy_negative; [reflexivity|].
    change (s32 (0 * 4)) with 0. lia.
Qed.

(** C7. A sample limit above 2^29 and up to 2^30 is taken by
    [hw_dev_config_set] with SR_OK (a limit above the hardware maximum
    is only logged), and the acquisition starts. The first sample that
    arrives is then copied to byte offset 4 (L - 1) - 2^32 of
    [raw_sample_buf]: the offset (limit_samples - num_samples) * 4 is
    kept in an [int] and has wrapped to a negative number, so the copy
    lies outside the limit_samples * 4 bytes of the buffer, and
    [receive_data] has no result within its arrays. *)
Theorem receive_data_offset_wraps {H : ols_h} (g starttime L x : Z)
  (sdi : sr_dev_inst) (b : bus) :
  flags_ok = true ->
  status sdi = SR_ST_ACTIVE ->
  one_group g (probes sdi) = true ->
  fresh_rx (priv sdi) = true ->
  u64 MIN_NUM_SAMPLES <= L ->
  2 ^ 29 < L <= 2 ^ 30 ->
  is_byte x ->
  exists sdi1 sdi2 b2,
    hw_dev_config_set sdi SR_HWCAP_LIMIT_SAMPLES L = Some (SR_OK, sdi1)
    /\ limit_samples (priv sdi1) = L
    /\ hw_dev_acquisition_start starttime true sdi1 b
       = Some (SR_OK, sdi2, b2)
    /\ limit_samples (priv sdi2) = L
    /\ s32 (u64 ((limit_samples (priv sdi2) - 1) * 4))
       = 4 * (L - 1) - 2 ^ 32
    /\ 4 * (L - 1) - 2 ^ 32 < 0
    /\ (forall buf smp : list Z,
          memcpy buf (4 * (L - 1) - 2 ^ 32 + s32 (0 * 4)) smp = None)
    /\ receive_data (G_IO_IN (Some x)) (priv sdi2) b2 = None.
Proof.
  intros Hfl Hst Hgrp Hfresh Hmin HL Hx.
  destruct (fresh_rx_facts _ Hfresh)
    as (Hta & Hnt & HN & Hnb & Hs & Hf3c & Hfrle).
  destruct (first_offset_wraps L HL) as [Eoff Hneg].
  set (sdi1 := set_priv (set_limit_samples L (priv sdi)) sdi).
  assert (Ecfg : hw_dev_config_set sdi SR_HWCAP_LIMIT_SAMPLES L
                 = Some (SR_OK, sdi1)).
  { unfold hw_dev_config_set. rewrite Hst.
    change (negb (SR_ST_ACTIVE =? SR_ST_ACTIVE)) with false. cbv iota.
    change (SR_HWCAP_LIMIT_SAMPLES =? SR_HWCAP_SAMPLERATE) with false.
    change (SR_HWCAP_LIMIT_SAMPLES =? SR_HWCAP_LIMIT_SAMPLES) with true.
    cbv iota.
    destruct (Z.ltb_spec L (u64 MIN_NUM_SAMPLES)) as [?|_]; [lia|].
    reflexivity. }
  assert (E1 : status sdi1 = SR_ST_ACTIVE /\ probes sdi1 = probes sdi
               /\ limit_samples (priv sdi1) = L
               /\ flag_reg (priv sdi1) = flag_reg (priv sdi)
               /\ num_samples (priv sdi1) = 0
               /\ num_bytes (priv sdi1) = 0
               /\ num_transfers (priv sdi1) = 0
               /\ sample (priv sdi1) = [0; 0; 0; 0]).
  { unfold sdi1. destruct sdi as [st pr d]. destruct d.
    cbn [set_priv priv status probes] in *. devc_simpl.
    cbn [num_samples num_bytes num_transfers sample] in *.
    repeat split; assumption. }
  destruct E1 as (Hst1 & Hpr1 & EL1 & Ef1 & EN1 & Enb1 & Ent1 & Es1).
  destruct (hw_dev_acquisition_start_one_group g starttime sdi1 b Hfl Hst1)
    as (d1 & b1 & Hstart & _ & EL & EN & Enb & Ent & _ & Es & ER
        & Hrle1 & Hbits1).
  { rewrite Hpr1. exact Hgrp. }
  { rewrite Ef1. exact Hf3c. }
  { rewrite Ef1. exact Hfrle. }
  assert (Hg : 0 <= g < 4).
  { unfold one_group in Hgrp.
    repeat match type of Hgrp with
           | _ && _ = true =>
               apply andb_prop in Hgrp; destruct Hgrp as [Hgrp ?]
           end.
    apply Z.leb_le in Hgrp.
    match goal with Hb : (g <? 4) = true |- _ => apply Z.ltb_lt in Hb end.
    lia. }
  destruct (group_channels g (flag_reg d1) x Hg Hbits1) as [Hnc _].
  rewrite EL1 in EL. rewrite EN1 in EN. rewrite Enb1 in Enb.
  rewrite Ent1 in Ent. rewrite Es1 in Es.
  exists sdi1, (set_priv d1 sdi1), b1.
  split; [exact Ecfg|]. split; [exact EL1|]. split; [exact Hstart|].
  assert (Epriv : priv (set_priv d1 sdi1) = d1)
    by (destruct sdi1; reflexivity).
  rewrite Epriv. split; [exact EL|]. rewrite EL.
  split; [exact Eoff|]. split; [exact Hneg|].
  split.
  { intros buf smp. apply memcpy_negative.
    change (s32 (0 * 4)) with 0. lia. }
  clear Hstart Epriv.
  destruct d1 as [msr ms pv cs csd L' f cr ta pm tm tv ns nt N R nb smp tmp rb].
  cbn [limit_samples num_samples num_bytes num_transfers sample rle_count
       flag_reg] in *.
  subst L' N nb nt smp R.
  unfold receive_data. devc_simpl.
  change (0 =? 0) with true. cbv beta iota zeta. devc_simpl.
  unfold g_try_malloc_memset.
  rewrite u64_small by lia.
  destruct (Z.eqb_spec (L * 4) 0) as [?|_]; [lia|].
  set (buf := repeat 0x82 (Z.to_nat (L * 4))).
  devc_simpl. cbn [andb]. rewrite Hnc.
  unfold receive_byte. devc_simpl.
  destruct (Z.leb_spec L 0) as [?|_]; [lia|].
  change (store [0; 0; 0; 0] 0 x) with (Some [x; 0; 0; 0]).
  cbv beta iota zeta. devc_simpl.
  change (s32 (0 + 1) =? 1) with true. cbv iota.
  rewrite Hrle1. change (negb (0 =? 0)) with false. cbn [andb]. cbv iota.
  match goal with
  | |- context [store_full_sample 1 ?d3] =>
      rewrite (store_full_sample_wraps 1 d3 buf); [reflexivity|..]
  end; devc_simpl.
  - exact HL.
  - reflexivity.
  - reflexivity.
  - reflexivity.
  - unfold is_byte in *. repeat constructor; lia.
  - reflexivity.
Qed.

Lemma receive_data_offset_wraps_witness :
  exists sdi1 sdi2 b2,
    @hw_dev_config_set ols_h_1_0 group0_sdi SR_HWCAP_LIMIT_SAMPLES (2 ^ 30)
    = Some (SR_OK, sdi1)
    /\ limit_samples (priv sdi1) = 2 ^ 30
    /\ @hw_dev_acquisition_start ols_h_1_0 0 true sdi1 bus0
       = Some (SR_OK, sdi2, b2)
    /\ s32 (u64 ((limit_samples (priv sdi2) - 1) * 4)) = -4
    /\ @receive_data ols_h_1_0 (G_IO_IN (Some 0xa0)) (priv sdi2) b2 = None.
Proof.
  destruct (@receive_data_offset_wraps ols_h_1_0 0 0 (2 ^ 30) 0xa0
              group0_sdi bus0)
    as (sdi1 & sdi2 & b2 & Hcfg & HL1 & Hstart & _ & Hoff & _ & _ & Hrd).
  - reflexivity.
  - reflexivity.
  - reflexivity.
  - reflexivity.
  - vm_compute. discriminate.
  - lia.
  - unfold is_byte. lia.
  - exists sdi1, sdi2, b2.
    split; [exact Hcfg|]. split; [exact HL1|]. split; [exact Hstart|].
    split; [exact Hoff | exact Hrd].
Defined.

End OlsOverrun.

(** ** OLS: device metadata *)

Module OlsMetadata.
Import Sigrok Ols OlsWire.

Lemma read_string_length (stream : list Z) :
  forall tmp_str : string,
    (length (snd (read_string stream tmp_str)) <= length stream)%nat.
Proof.
  induction stream as [|c stream IH]; intros tmp_str; cbn [read_string].
  - cbn. lia.
  - destruct (c =? 0); cbn [snd length].
    + lia.
    + specialize (IH (tmp_str ++ String (char_of c) "")%string). lia.
Qed.

(** The loop body calls the rest of the loop on what is left of the
    stream only. *)
Lemma metadata_item_ext
  (r1 r2 : list Z -> sr_dev_inst -> string -> string -> option metadata)
  (key : Z) (stream : list Z) (sdi : sr_dev_inst) (devname version : string) :
  (forall s sdi' dn v,
      (length s <= length stream)%nat -> r1 s sdi' dn v = r2 s sdi' dn v) ->
  metadata_item r1 key stream sdi devname version
  = metadata_item r2 key stream sdi devname version.
Proof.
  intros Hr. unfold metadata_item.
  destruct (Z.shiftr key 5 =? 0).
  - pose proof (read_string_length stream ""%string) as Hlen.
    destruct (read_string stream "") as [tmp_str s'].
    cbn [snd] in Hlen.
    repeat match goal with
           | |- context [if ?c then _ else _] => destruct c
           end; apply Hr; exact Hlen.
  - destruct (Z.shiftr key 5 =? 1).
    + destruct stream as [|b0 [|b1 [|b2 [|b3 s']]]];
        try (apply Hr; cbn [length]; lia).
      repeat match goal with
             | |- context [if ?c then _ else _] => destruct c
             | |- context [match ?c with Some _ => _ | None => _ end] =>
                 destruct c
             end; try reflexivity; apply Hr; cbn [length]; lia.
    + destruct (Z.shiftr key 5 =? 2).
      * destruct stream as [|c s']; [apply Hr; cbn [length]; lia|].
        repeat match goal with
               | |- context [if ?c then _ else _] => destruct c
               | |- context [match ?c with Some _ => _ | None => _ end] =>
                   destruct c
               end; try reflexivity; apply Hr; cbn [length]; lia.
      * apply Hr. lia.
Qed.

Lemma metadata_loop_fuel (f1 : nat) :
  forall (f2 : nat) (stream : list Z) (sdi : sr_dev_inst)
         (devname version : string),
    (length stream < f1)%nat -> (length stream < f2)%nat ->
    metadata_loop f1 stream sdi devname version
    = metadata_loop f2 stream sdi devname version.
Proof.
  induction f1 as [|f1 IH]; intros f2 stream sdi devname version H1 H2;
    [lia|].
  destruct f2 as [|f2]; [lia|].
  cbn [metadata_loop].
  destruct stream as [|key stream]; [reflexivity|].
  destruct (key =? 0); [reflexivity|].
  apply metadata_item_ext. intros s sdi' dn v Hs.
  cbn [length] in H1, H2. apply IH; lia.
Qed.

Lemma metadata_from_nil (sdi : sr_dev_inst) (devname version : string) :
  metadata_from [] sdi devname version = Some (sdi, devname, version, []).
Proof. reflexivity. Qed.

(** The loop, one key at a time. *)
Lemma metadata_from_cons (key : Z) (stream : list Z) (sdi : sr_dev_inst)
  (devname version : string) :
  metadata_from (key :: stream) sdi devname version
  = if key =? 0 then Some (sdi, devname, version, stream)
    else metadata_item metadata_from key stream sdi devname version.
Proof.
  unfold metadata_from at 1.
  change (metadata_loop (S (length (key :: stream))) (key :: stream) sdi
            devname version)
    with (if key =? 0 then Some (sdi, devname, version, stream)
          else metadata_item (metadata_loop (S (length stream))) key stream
                 sdi devname version).
  destruct (key =? 0); [reflexivity|].
  apply metadata_item_ext. intros s sdi' dn v Hs.
  unfold metadata_from. apply metadata_loop_fuel; lia.
Qed.

Lemma string_app_assoc (a b c : string) :
  ((a ++ b) ++ c = a ++ (b ++ c))%string.
Proof.
  induction a as [|x a IH]; [reflexivity|].
  cbn [String.append]. rewrite IH. reflexivity.
Qed.

Lemma string_app_nil_r (a : string) : (a ++ "")%string = a.
Proof.
  induction a as [|x a IH]; [reflexivity|].
  cbn [String.append]. rewrite IH. reflexivity.
Qed.

(** A string is read back up to its terminator, which is consumed. *)
Lemma read_string_bytes (s : string) (rest : list Z) :
  nul_free s = true ->
  forall tmp_str : string,
    read_string (bytes_of s ++ 0 :: rest) tmp_str
    = ((tmp_str ++ s)%string, rest).
Proof.
  unfold nul_free, bytes_of.
  induction s as [|a s IH]; intros Hs tmp_str.
  - cbn. rewrite string_app_nil_r. reflexivity.
  - cbn [list_ascii_of_string forallb map app read_string] in *.
    apply andb_prop in Hs. destruct Hs as [Ha Hs].
    destruct (Z.eqb_spec (Z.of_N (N_of_ascii a)) 0) as [E0|_].
    + apply negb_true_iff, N.eqb_neq in Ha. lia.
    + rewrite IH by exact Hs. unfold char_of.
      rewrite N2Z.id, ascii_N_embedding, string_app_assoc. reflexivity.
Qed.

(** A string cut off by the end of the stream is taken as it is. *)
Lemma read_string_end (s : string) :
  nul_free s = true ->
  forall tmp_str : string,
    read_string (bytes_of s) tmp_str = ((tmp_str ++ s)%string, []).
Proof.
  unfold nul_free, bytes_of.
  induction s as [|a s IH]; intros Hs tmp_str.
  - cbn. rewrite string_app_nil_r. reflexivity.
  - cbn [list_ascii_of_string forallb map app read_string] in *.
    apply andb_prop in Hs. destruct Hs as [Ha Hs].
    destruct (Z.eqb_spec (Z.of_N (N_of_ascii a)) 0) as [E0|_].
    + apply negb_true_iff, N.eqb_neq in Ha. lia.
    + rewrite IH by exact Hs. unfold char_of.
      rewrite N2Z.id, ascii_N_embedding, string_app_assoc. reflexivity.
Qed.

Lemma combine_seq_shift {A B : Type} (f : Z -> A -> B) (ui : Z)
  (names : list A) :
  forall (n k : nat),
    map (fun '(i, nm) => f (ui + Z.of_nat i) nm) (combine (seq (S k) n) names)
    = map (fun '(i, nm) => f (ui + 1 + Z.of_nat i) nm)
          (combine (seq k n) names).
Proof.
  induction names as [|nm names IH]; intros n k.
  - destruct n; reflexivity.
  - destruct n as [|n]; [reflexivity|].
    cbn [seq combine map]. rewrite IH. f_equal. f_equal. lia.
Qed.

Lemma add_probes_names (names : list string) :
  forall (n : nat) (ui : Z) (l : list sr_probe),
    (n <= length names)%nat ->
    add_probes names ui (ui + Z.of_nat n) l
    = Some (l ++ map (fun '(i, nm) =>
                        mk_probe (ui + Z.of_nat i) SR_PROBE_LOGIC true nm
                                 None)
                     (combine (seq 0 n) names)).
Proof.
  induction names as [|nm names IH]; intros n ui l Hn.
  - cbn [length] in Hn. assert (n = 0%nat) by lia. subst n.
    cbn [add_probes]. rewrite Z.add_0_r, Z.ltb_irrefl.
    cbn. rewrite app_nil_r. reflexivity.
  - cbn [add_probes]. destruct n as [|n].
    + rewrite Z.add_0_r, Z.ltb_irrefl. cbn. rewrite app_nil_r.
      reflexivity.
    + destruct (Z.ltb_spec ui (ui + Z.of_nat (S n))) as [_|?]; [|lia].
      unfold sr_probe_new.
      replace (ui + Z.of_nat (S n)) with (ui + 1 + Z.of_nat n) by lia.
      rewrite IH by (cbn [length] in Hn; lia).
      rewrite <- app_assoc. do 2 f_equal.
      cbn [seq combine map app]. rewrite Z.add_0_r. f_equal.
      symmetry.
      apply (combine_seq_shift
               (fun i nm' => mk_probe i SR_PROBE_LOGIC true nm' None)).
Qed.

Lemma add_probes_count (c : Z) (l : list sr_probe) :
  0 <= c <= 32 ->
  add_probes probe_names 0 c l = Some (l ++ logic_probes (Z.to_nat c)).
Proof.
  intros Hc.
  replace c with (0 + Z.of_nat (Z.to_nat c)) at 1 by lia.
  rewrite add_probes_names by (cbn [probe_names length]; lia).
  do 2 f_equal.
  assert (Hn : (Z.to_nat c <= 32)%nat) by lia.
  revert Hn. generalize (Z.to_nat c). intros n Hn.
  do 33 (destruct n as [|n]; [reflexivity|]). lia.
Qed.

(** The four bytes of a 32-bit item are taken most significant
    first. *)
Lemma reverse32_le32 (b0 b1 b2 b3 : Z) :
  is_byte b0 -> is_byte b1 -> is_byte b2 -> is_byte b3 ->
  reverse32 (le32 [b0; b1; b2; b3]) = be32 [b0; b1; b2; b3].
Proof.
  unfold is_byte. intros H0 H1 H2 H3.
  set (x := le32 [b0; b1; b2; b3]).
  assert (Hx : 0 <= x < 2 ^ 32) by (unfold x, le32; cbn [nth]; lia).
  assert (E0 : byte_at x 0 = b0 /\ byte_at x 1 = b1
               /\ byte_at x 2 = b2 /\ byte_at x 3 = b3).
  { rewrite !byte_at_div by lia. unfold x, le32. cbn [nth].
    change (2 ^ (8 * 0)) with 1. change (2 ^ (8 * 1)) with 256.
    change (2 ^ (8 * 2)) with 65536. change (2 ^ (8 * 3)) with 16777216.
    change (2 ^ 8) with 256. change (2 ^ 16) with 65536.
    change (2 ^ 24) with 16777216.
    repeat split; Z.div_mod_to_equations; lia. }
  destruct E0 as (E0 & E1 & E2 & E3).
  rewrite (word_bytes (reverse32 x)) by apply reverse32_range.
  rewrite !reverse32_byte by (assumption || lia).
  change (3 - 0) with 3. change (3 - 1) with 2. change (3 - 2) with 1.
  change (3 - 3) with 0.
  rewrite E0, E1, E2, E3. unfold be32. cbn [nth]. lia.
Qed.

Lemma reverse32_be_bytes (v : Z) :
  0 <= v < 2 ^ 32 ->
  reverse32 (le32 (be_bytes v)) = v.
Proof.
  intros Hv. unfold be_bytes.
  rewrite reverse32_le32 by apply byte_at_range.
  unfold be32. cbn [nth]. rewrite (word_bytes v) at 5 by exact Hv. lia.
Qed.

(** The items of the loop, each as one step. *)
Lemma item_string (key : Z) (s : string) (rest : list Z)
  (sdi : sr_dev_inst) (devname version : string) :
  1 <= key <= 3 ->
  nul_free s = true ->
  metadata_from (key :: bytes_of s ++ 0 :: rest) sdi devname version
  = if key =? 1 then metadata_from rest sdi (devname ++ s)%string version
    else if key =? 2 then
      metadata_from rest sdi devname
        (version_sep version ++ "FPGA version " ++ s)%string
    else
      metadata_from rest sdi devname
        (version_sep version ++ "Ancillary version " ++ s)%string.
Proof.
  intros Hk Hs. rewrite metadata_from_cons.
  assert (Hc : key = 1 \/ key = 2 \/ key = 3) by lia.
  unfold metadata_item. rewrite read_string_bytes by exact Hs.
  destruct Hc as [-> | [-> | ->]]; reflexivity.
Qed.

Lemma item_int32 (token b0 b1 b2 b3 : Z) (rest : list Z)
  (sdi : sr_dev_inst) (devname version : string) :
  1 <= token <= 3 ->
  metadata_from (0x20 + token :: b0 :: b1 :: b2 :: b3 :: rest) sdi devname
                version
  = let tmp_int := reverse32 (le32 [b0; b1; b2; b3]) in
    if token =? 1 then
      metadata_from rest (set_priv (set_max_samples tmp_int (priv sdi)) sdi)
                    devname version
    else if token =? 2 then metadata_from rest sdi devname version
    else
      metadata_from rest
        (set_priv (set_max_samplerate tmp_int (priv sdi)) sdi)
        devname version.
Proof.
  intros Hk. rewrite metadata_from_cons.
  assert (Hc : token = 1 \/ token = 2 \/ token = 3) by lia.
  destruct Hc as [-> | [-> | ->]]; reflexivity.
Qed.

Lemma item_probes32 (b0 b1 b2 b3 : Z) (rest : list Z)
  (sdi : sr_dev_inst) (devname version : string) :
  0 <= reverse32 (le32 [b0; b1; b2; b3]) <= 32 ->
  metadata_from (0x20 :: b0 :: b1 :: b2 :: b3 :: rest) sdi devname version
  = metadata_from rest
      (set_probes
         (probes sdi
          ++ logic_probes (Z.to_nat (reverse32 (le32 [b0; b1; b2; b3]))))
         sdi)
      devname version.
Proof.
  intros Hc. rewrite metadata_from_cons.
  change (0x20 =? 0) with false. cbv iota. unfold metadata_item.
  change (Z.shiftr 0x20 5 =? 0) with false.
  change (Z.shiftr 0x20 5 =? 1) with true.
  change (Z.land 0x20 0x1f =? 0) with true. cbv iota zeta.
  rewrite add_probes_count by exact Hc. reflexivity.
Qed.

Lemma item_int8 (token c : Z) (rest : list Z)
  (sdi : sr_dev_inst) (devname version : string) :
  0 <= token <= 1 ->
  0 <= c <= (if token =? 0 then 32 else 255) ->
  metadata_from (0x40 + token :: c :: rest) sdi devname version
  = if token =? 0 then
      metadata_from rest
        (set_probes (probes sdi ++ logic_probes (Z.to_nat c)) sdi)
        devname version
    else
      metadata_from rest
        (set_priv (set_protocol_version c (priv sdi)) sdi) devname version.
Proof.
  intros Hk Hc. rewrite metadata_from_cons.
  assert (Ht : token = 0 \/ token = 1) by lia.
  destruct Ht as [-> | ->].
  - change (0x40 + 0 =? 0) with false. cbv iota. unfold metadata_item.
    change (Z.shiftr (0x40 + 0) 5 =? 0) with false.
    change (Z.shiftr (0x40 + 0) 5 =? 1) with false.
    change (Z.shiftr (0x40 + 0) 5 =? 2) with true.
    change (Z.land (0x40 + 0) 0x1f =? 0) with true. cbv iota zeta.
    change (0 =? 0) with true in *. cbv iota in *.
    rewrite add_probes_count by exact Hc. reflexivity.
  - reflexivity.
Qed.

Lemma version_pair (fpga anc : string) :
  (version_sep (version_sep "" ++ "FPGA version " ++ fpga)
   ++ "Ancillary version " ++ anc
   = "FPGA version " ++ fpga ++ ", Ancillary version " ++ anc)%string.
Proof.
  cbn [version_sep String.length String.append Nat.eqb].
  rewrite string_app_assoc. reflexivity.
Qed.

(** X22. A metadata block is read back into the device instance: the
    name and the two version strings up to their NUL terminators, the
    number of probes as that many enabled logic probes numbered from 0,
    the 32-bit values most significant byte first, and the protocol
    version; the loop stops at the 0x00 key and leaves what follows it
    unread. *)
Theorem get_metadata_block (devname fpga anc : string)
  (nprobes mem rate proto : Z) (rest : list Z) :
  nul_free devname = true -> nul_free fpga = true -> nul_free anc = true ->
  0 <= nprobes <= 32 ->
  0 <= mem < 2 ^ 32 -> 0 <= rate < 2 ^ 32 -> 0 <= proto < 256 ->
  get_metadata (metadata_block devname fpga anc nprobes mem rate proto rest)
  = Some (mk_sdi SR_ST_INACTIVE (logic_probes (Z.to_nat nprobes))
            (set_protocol_version proto
               (set_max_samplerate rate
                  (set_max_samples mem ols_dev_new))),
          devname,
          ("FPGA version " ++ fpga ++ ", Ancillary version " ++ anc)%string,
          rest).
Proof.
  intros Hn Hf Ha Hp Hm Hr Hv.
  unfold get_metadata, metadata_block, be_bytes. cbn [app].
  rewrite (item_string 1) by (lia || assumption).
  change (1 =? 1) with true. cbv iota.
  rewrite (item_string 2) by (lia || assumption).
  change (2 =? 1) with false. change (2 =? 2) with true. cbv iota.
  rewrite (item_string 3) by (lia || assumption).
  change (3 =? 1) with false. change (3 =? 2) with false. cbv iota.
  rewrite version_pair.
  rewrite (item_int8 0) by (change (0 =? 0) with true; cbv iota; lia).
  change (0 =? 0) with true. cbv iota.
  rewrite (item_int32 1) by lia.
  cbv zeta. change (1 =? 1) with true. cbv iota.
  rewrite (item_int32 3) by lia.
  cbv zeta. change (3 =? 1) with false. change (3 =? 2) with false.
  cbv iota.
  rewrite (item_int8 1) by (change (1 =? 0) with false; cbv iota; lia).
  change (1 =? 0) with false. cbv iota.
  fold (be_bytes mem). fold (be_bytes rate).
  rewrite !reverse32_be_bytes by assumption.
  rewrite metadata_from_cons. change (0 =? 0) with true. cbv iota.
  reflexivity.
Qed.

Lemma get_metadata_block_witness :
  get_metadata
    ([0x01; 0x4f; 0x4c; 0x53; 0x00; 0x02; 0x33; 0x00; 0x03; 0x31; 0x00;
      0x40; 0x02; 0x21; 0x00; 0x00; 0x60; 0x00;
      0x23; 0x0b; 0xeb; 0xc2; 0x00; 0x41; 0x02; 0x00; 0x07])
  = Some (mk_sdi SR_ST_INACTIVE
            [mk_probe 0 SR_PROBE_LOGIC true "0" None;
             mk_probe 1 SR_PROBE_LOGIC true "1" None]
            (set_protocol_version 2
               (set_max_samplerate 200000000
                  (set_max_samples 24576 ols_dev_new))),
          "OLS"%string, "FPGA version 3, Ancillary version 1"%string,
          [0x07]).
Proof.
  apply (get_metadata_block "OLS" "3" "1" 2 24576 200000000 2 [0x07]);
    try reflexivity; lia.
Defined.

(** X23. A stream that ends early still yields a device: with no byte at
    all it is the inactive device of [ols_dev_new] without probes; a
    device name cut off by the end of the stream is taken as far as it
    came; a 32-bit value of which fewer than four bytes came is
    dropped. *)
Theorem get_metadata_end_of_stream (devname : string) (token : Z)
  (l : list Z) :
  nul_free devname = true ->
  0 <= token < 32 ->
  (length l < 4)%nat ->
  get_metadata [] = Some (mk_sdi SR_ST_INACTIVE [] ols_dev_new,
                          ""%string, ""%string, [])
  /\ get_metadata (0x01 :: bytes_of devname)
     = Some (mk_sdi SR_ST_INACTIVE [] ols_dev_new, devname, ""%string, [])
  /\ get_metadata (0x20 + token :: l)
     = Some (mk_sdi SR_ST_INACTIVE [] ols_dev_new, ""%string, ""%string, []).
Proof.
  intros Hn Ht Hl. split; [reflexivity|]. split.
  - unfold get_metadata. rewrite metadata_from_cons.
    change (0x01 =? 0) with false. cbv iota. unfold metadata_item.
    change (Z.shiftr 0x01 5 =? 0) with true. cbv iota zeta.
    rewrite read_string_end by exact Hn.
    change (Z.land 0x01 0x1f =? 0x01) with true. cbv iota.
    reflexivity.
  - unfold get_metadata. rewrite metadata_from_cons.
    destruct (Z.eqb_spec (0x20 + token) 0) as [?|_]; [lia|].
    unfold metadata_item.
    assert (Hty : Z.shiftr (0x20 + token) 5 = 1).
    { rewrite Z.shiftr_div_pow2 by lia. change (2 ^ 5) with 32.
      Z.div_mod_to_equations. lia. }
    rewrite Hty. change (1 =? 0) with false. change (1 =? 1) with true.
    cbv iota zeta.
    destruct l as [|b0 [|b1 [|b2 [|b3 l]]]]; try reflexivity.
    cbn [length] in Hl. lia.
Qed.

Lemma get_metadata_end_of_stream_witness :
  get_metadata [0x01; 0x4f; 0x4c]
  = Some (mk_sdi SR_ST_INACTIVE [] ols_dev_new, "OL"%string, ""%string, [])
  /\ get_metadata [0x21; 0x00; 0x00; 0x60]
     = Some (mk_sdi SR_ST_INACTIVE [] ols_dev_new, ""%string, ""%string,
             []).
Proof.
  destruct (get_metadata_end_of_stream "OL" 1 [0x00; 0x00; 0x60])
    as (_ & Hname & Hint).
  - reflexivity.
  - lia.
  - cbn [length]. lia.
  - split; [exact Hname | exact Hint].
Defined.

(** X24. Every item with the number of probes appends its probes to the
    list: a device that sends the number both as a 32-bit and as an
    8-bit item gets both runs of probes, each numbered from 0. *)
Theorem get_metadata_probes_twice (c1 c2 : Z) (rest : list Z) :
  0 <= c1 <= 32 -> 0 <= c2 <= 32 ->
  get_metadata ([0x20] ++ be_bytes c1 ++ [0x40; c2; 0x00] ++ rest)
  = Some (mk_sdi SR_ST_INACTIVE
            (logic_probes (Z.to_nat c1) ++ logic_probes (Z.to_nat c2))
            ols_dev_new,
          ""%string, ""%string, rest).
Proof.
  intros H1 H2. unfold get_metadata, be_bytes. cbn [app].
  fold (be_bytes c1).
  assert (E : reverse32 (le32 (be_bytes c1)) = c1)
    by (apply reverse32_be_bytes; lia).
  unfold be_bytes in E.
  rewrite item_probes32 by (rewrite E; exact H1).
  rewrite E.
  rewrite (item_int8 0) by (change (0 =? 0) with true; cbv iota; lia).
  change (0 =? 0) with true. cbv iota.
  rewrite metadata_from_cons. change (0 =? 0) with true. cbv iota.
  reflexivity.
Qed.

Lemma get_metadata_probes_twice_witness :
  get_metadata [0x20; 0x00; 0x00; 0x00; 0x01; 0x40; 0x02; 0x00]
  = Some (mk_sdi SR_ST_INACTIVE
            [mk_probe 0 SR_PROBE_LOGIC true "0" None;
             mk_probe 0 SR_PROBE_LOGIC true "0" None;
             mk_probe 1 SR_PROBE_LOGIC true "1" None]
            ols_dev_new,
          ""%string, ""%string, []).
Proof.
  apply (get_metadata_probes_twice 1 2 []); lia.
Defined.

End OlsMetadata.

(** ** DSLogic: transfer buffers *)

Module DslogicTransfers.
Import Sigrok Dslogic.

Lemma to_bytes_per_ms_value (devc : dev_context) :
  0 <= cur_samplerate devc < 2 ^ 64 ->
  to_bytes_per_ms devc
  = 2 * (Z.min (cur_samplerate devc) 100000000 / 1000).
Proof.
  intros Hcs. unfold to_bytes_per_ms, SR_MHZ.
  destruct (Z.ltb_spec (100 * 1000000) (cur_samplerate devc)) as [Hlt|Hle].
  - rewrite Z.min_r by lia. reflexivity.
  - rewrite Z.min_l by lia.
    assert (Hq : 0 <= cur_samplerate devc / 1000 <= 100000)
      by (split; [apply Z.div_pos; lia
                 | apply Z.div_le_upper_bound; lia]).
    rewrite (u64_small (cur_samplerate devc / 1000)) by lia.
    rewrite u64_small by lia. rewrite s32_small by lia. lia.
Qed.

(** Clearing the low nine bits rounds down to a multiple of 512. *)
Lemma land_not_511 (x : Z) :
  0 <= x < 2 ^ 64 -> Z.land x (u64 (Z.lnot 511)) = 512 * (x / 512).
Proof.
  intros Hx.
  assert (E : Z.land x (u64 (Z.lnot 511)) = Z.land x (Z.lnot 511)).
  { apply Z.bits_inj'. intros n Hn. rewrite !Z.land_spec. unfold u64.
    destruct (Z.ltb_spec n 64) as [Hlt|Hge].
    - rewrite Z.mod_pow2_bits_low by lia. reflexivity.
    - rewrite <- (Z.mod_small x (2 ^ 64)) by exact Hx.
      rewrite Z.mod_pow2_bits_high by lia. reflexivity. }
  rewrite E. change 511 with (Z.ones 9).
  rewrite <- Z.ldiff_land, Z.ldiff_ones_r by lia.
  rewrite Z.shiftr_div_pow2, Z.shiftl_mul_pow2 by lia.
  change (2 ^ 9) with 512. lia.
Qed.

Lemma get_buffer_size_value (devc : dev_context) :
  0 <= cur_samplerate devc < 2 ^ 64 ->
  get_buffer_size devc = 512 * ((10 * to_bytes_per_ms devc + 511) / 512).
Proof.
  intros Hcs. unfold get_buffer_size.
  pose proof (to_bytes_per_ms_value devc Hcs) as Et.
  assert (Ht : 0 <= to_bytes_per_ms devc <= 200000).
  { rewrite Et.
    assert (0 <= Z.min (cur_samplerate devc) 100000000 / 1000 <= 100000)
      by (split; [apply Z.div_pos; lia
                 | apply Z.div_le_upper_bound; lia]).
    lia. }
  rewrite s32_small by lia.
  rewrite (u64_small (10 * to_bytes_per_ms devc)) by lia.
  rewrite (u64_small (10 * to_bytes_per_ms devc + 511)) by lia.
  apply land_not_511. lia.
Qed.

(** X25. The transfer buffer is the data of ten milliseconds rounded up
    to the next multiple of 512 bytes, where the data rate is two bytes
    per sample at the samplerate cut down to whole kHz and capped at
    100 MHz. *)
Theorem get_buffer_size_rounds_up (devc : dev_context) :
  0 <= cur_samplerate devc < 2 ^ 64 ->
  to_bytes_per_ms devc = 2 * (Z.min (cur_samplerate devc) 100000000 / 1000)
  /\ get_buffer_size devc mod 512 = 0
  /\ 10 * to_bytes_per_ms devc <= get_buffer_size devc
     < 10 * to_bytes_per_ms devc + 512.
Proof.
  intros Hcs. split; [apply to_bytes_per_ms_value; exact Hcs|].
  rewrite get_buffer_size_value by exact Hcs.
  split.
  - rewrite Z.mul_comm. apply Z.mod_mul. lia.
  - pose proof (Z.div_mod (10 * to_bytes_per_ms devc + 511) 512
                  ltac:(lia)).
    pose proof (Z.mod_pos_bound (10 * to_bytes_per_ms devc + 511) 512
                  ltac:(lia)).
    lia.
Qed.

Lemma get_buffer_size_rounds_up_witness :
  to_bytes_per_ms (priv two_stage_sdi) = 200000
  /\ get_buffer_size (priv two_stage_sdi) mod 512 = 0
  /\ 2000000 <= get_buffer_size (priv two_stage_sdi) < 2000512.
Proof.
  destruct (get_buffer_size_rounds_up (priv two_stage_sdi))
    as (Ht & Hm & Hr).
  - vm_compute. split; [discriminate | reflexivity].
  - split; [exact Ht|]. split; [exact Hm|].
    rewrite Ht in Hr. exact Hr.
Defined.

Lemma transfers_facts (devc : dev_context) :
  0 <= cur_samplerate devc < 2 ^ 64 ->
  let t := to_bytes_per_ms devc in
  0 <= t <= 200000
  /\ (t = 0 <-> cur_samplerate devc < 1000)
  /\ (t < 6 <-> cur_samplerate devc < 3000)
  /\ get_buffer_size devc = 512 * ((10 * t + 511) / 512).
Proof.
  intros Hcs t. unfold t.
  rewrite get_buffer_size_value by exact Hcs.
  rewrite (to_bytes_per_ms_value devc Hcs).
  set (m := Z.min (cur_samplerate devc) 100000000).
  assert (Hm : 0 <= m <= 100000000) by (unfold m; lia).
  pose proof (Z.div_mod m 1000 ltac:(lia)) as Hdm.
  pose proof (Z.mod_pos_bound m 1000 ltac:(lia)) as Hmb.
  assert (Hrel : m < 1000 <-> cur_samplerate devc < 1000)
    by (unfold m; lia).
  assert (Hrel3 : m < 3000 <-> cur_samplerate devc < 3000)
    by (unfold m; lia).
  repeat split; try lia.
Qed.

(** X26. With a samplerate below 1 kHz the buffer size is zero and the
    number of transfers is a division by zero; from 1 kHz on the
    function returns a number. *)
Theorem dslogic_get_number_of_transfers_undefined (N : Z)
  (devc : dev_context) :
  0 <= cur_samplerate devc < 2 ^ 64 ->
  (dslogic_get_number_of_transfers N devc = None
   <-> cur_samplerate devc < 1000).
Proof.
  intros Hcs.
  destruct (transfers_facts devc Hcs) as (Ht & Ht0 & _ & Es).
  unfold dslogic_get_number_of_transfers. rewrite Es.
  set (t := to_bytes_per_ms devc) in *.
  pose proof (Z.div_mod (10 * t + 511) 512 ltac:(lia)) as Hdm.
  pose proof (Z.mod_pos_bound (10 * t + 511) 512 ltac:(lia)) as Hmb.
  destruct (Z.eqb_spec (512 * ((10 * t + 511) / 512)) 0) as [E0|Ene].
  - split; [intros _ | reflexivity]. apply Ht0. lia.
  - split.
    + destruct (u32 N <? _); discriminate.
    + intros Hlt. apply Ht0 in Hlt. exfalso. apply Ene.
      rewrite Hlt. reflexivity.
Qed.

Lemma dslogic_get_number_of_transfers_undefined_witness :
  dslogic_get_number_of_transfers 32
    (mk_devc 0 999 1000 0 false false 0) = None.
Proof.
  apply (dslogic_get_number_of_transfers_undefined 32
           (mk_devc 0 999 1000 0 false false 0)).
  - vm_compute. split; [discriminate | reflexivity].
  - vm_compute. reflexivity.
Defined.

(** X27. From 1 kHz on the number of transfers is the data of 100 ms
    divided by the buffer size, cut to NUM_SIMUL_TRANSFERS: never more
    than 10, and 0 for samplerates below 3 kHz, whose buffer of 512
    bytes is larger than the data of 100 ms. *)
Theorem dslogic_get_number_of_transfers_range (N : Z)
  (devc : dev_context) :
  1000 <= cur_samplerate devc < 2 ^ 64 ->
  0 <= N < 2 ^ 31 ->
  exists n,
    dslogic_get_number_of_transfers N devc = Some n
    /\ n = Z.min N (100 * to_bytes_per_ms devc / get_buffer_size devc)
    /\ 0 <= n <= 10
    /\ (n = 0 <-> N = 0 \/ cur_samplerate devc < 3000).
Proof.
  intros Hcs HN.
  destruct (transfers_facts devc ltac:(lia)) as (Ht & Ht0 & Ht3 & Es).
  unfold dslogic_get_number_of_transfers. rewrite Es.
  set (t := to_bytes_per_ms devc) in *.
  assert (Htpos : 2 <= t).
  { assert (t <> 0) by (intros E0; apply Ht0 in E0; lia).
    assert (t <> 1).
    { unfold t. rewrite to_bytes_per_ms_value by lia. lia. }
    lia. }
  pose proof (Z.div_mod (10 * t + 511) 512 ltac:(lia)) as Hdm.
  pose proof (Z.mod_pos_bound (10 * t + 511) 512 ltac:(lia)) as Hmb.
  set (s := 512 * ((10 * t + 511) / 512)) in *.
  assert (Hs : 10 * t <= s < 10 * t + 512) by lia.
  destruct (Z.eqb_spec s 0) as [E0|_]; [lia|].
  rewrite s32_small by lia. rewrite (u64_small (100 * t)) by lia.
  assert (Hq : 0 <= 100 * t / s <= 10).
  { split; [apply Z.div_pos; lia|].
    apply Z.div_le_upper_bound; lia. }
  rewrite (u32_small (100 * t / s)) by lia.
  rewrite (u32_small N) by lia.
  rewrite (s32_small (100 * t / s)) by lia.
  assert (Hq0 : 100 * t / s = 0 <-> t < 6).
  { split.
    - intros E0. apply Z.div_small_iff in E0; [|lia].
      destruct E0 as [E0|E0]; [|lia].
      destruct (Z.ltb_spec t 6) as [?|Hge]; [assumption|]. lia.
    - intros Hlt. apply Z.div_small. 
      assert (Hdiv : 1 <= (10 * t + 511) / 512)
        by (apply Z.div_le_lower_bound; lia).
      unfold s. lia. }
  destruct (Z.ltb_spec N (100 * t / s)) as [Hlt|Hge].
  - exists N. split; [reflexivity|]. rewrite Z.min_l by lia.
    split; [reflexivity|]. split; [lia|].
    split; [intros ->; left; reflexivity|].
    intros [->|Hc]; [reflexivity|]. apply Ht3 in Hc. apply Hq0 in Hc. lia.
  - exists (100 * t / s). split; [reflexivity|]. rewrite Z.min_r by lia.
    split; [reflexivity|]. split; [lia|].
    split.
    + intros E0. right. apply Ht3. apply Hq0. exact E0.
    + intros [->|Hc]; [lia|]. apply Hq0. apply Ht3. exact Hc.
Qed.

Lemma dslogic_get_number_of_transfers_range_witness :
  dslogic_get_number_of_transfers 32 (priv two_stage_sdi) = Some 9
  /\ dslogic_get_number_of_transfers 32
       (mk_devc 0 2999 1000 0 false false 0) = Some 0.
Proof.
  split.
  - destruct (dslogic_get_number_of_transfers_range 32
                (priv two_stage_sdi))
      as (n & Hn & En & _).
    + vm_compute. split; [discriminate | reflexivity].
    + lia.
    + rewrite Hn, En. reflexivity.
  - reflexivity.
Defined.

End DslogicTransfers.

(** ** DSLogic: trigger configuration *)

Module DslogicTrigger.
Import Sigrok Dslogic.

Lemma testbit_u16 (x i : Z) :
  0 <= i < 16 -> Z.testbit (u16 x) i = Z.testbit x i.
Proof. intros Hi. unfold u16. apply Z.mod_pow2_bits_low. lia. Qed.

Lemma testbit_or16 (v x i : Z) :
  0 <= i < 16 -> Z.testbit (or16 v x) i = Z.testbit v i || Z.testbit x i.
Proof.
  intros Hi. unfold or16. rewrite testbit_u16 by exact Hi.
  apply Z.lor_spec.
Qed.

Lemma testbit_andn16 (v x i : Z) :
  0 <= i < 16 ->
  Z.testbit (andn16 v x) i = Z.testbit v i && negb (Z.testbit x i).
Proof.
  intros Hi. unfold andn16. rewrite testbit_u16 by exact Hi.
  rewrite Z.land_spec, Z.lnot_spec by lia. reflexivity.
Qed.

(** [1 << index] as an [int], for the indexes that leave the sign bit
    alone. *)
Lemma testbit_channelbit (idx i : Z) :
  0 <= idx <= 30 ->
  Z.testbit (s32 (Z.shiftl 1 idx)) i = (idx =? i).
Proof.
  intros Hidx. rewrite Z.shiftl_1_l.
  assert (0 < 2 ^ idx < 2 ^ 31)
    by (split; [apply Z.pow_pos_nonneg; lia
               | apply Z.pow_lt_mono_r; lia]).
  rewrite s32_small by lia. apply Z.pow2_bits_eqb. lia.
Qed.

Lemma fold_stages {A B : Type} (f : A -> B -> A) (stages : list (list B))
  (a : A) :
  fold_left (fun a stage => fold_left f stage a) stages a
  = fold_left f (concat stages) a.
Proof.
  revert a. induction stages as [|s stages IH]; intros a; [reflexivity|].
  cbn [fold_left concat]. rewrite fold_left_app. apply IH.
Qed.

(** What one match does to the three pairs of trigger words. *)
Lemma set_match_bits (m : sr_trigger_match) (cfg : dslogic_fpga_config)
  (i : Z) :
  0 <= i < 16 ->
  (enabled (channel m) = true -> 0 <= index (channel m) <= 30) ->
  let cfg' := set_match m cfg in
  Z.testbit (cfg_trig_mask0 cfg') i
  = Z.testbit (cfg_trig_mask0 cfg) i && negb (match_hits masking i m)
  /\ Z.testbit (cfg_trig_mask1 cfg') i
     = Z.testbit (cfg_trig_mask1 cfg) i && negb (match_hits masking i m)
  /\ Z.testbit (cfg_trig_value0 cfg') i
     = Z.testbit (cfg_trig_value0 cfg) i || match_hits valued i m
  /\ Z.testbit (cfg_trig_value1 cfg') i
     = Z.testbit (cfg_trig_value1 cfg) i || match_hits valued i m
  /\ Z.testbit (cfg_trig_edge0 cfg') i
     = Z.testbit (cfg_trig_edge0 cfg) i || match_hits edged i m
  /\ Z.testbit (cfg_trig_edge1 cfg') i
     = Z.testbit (cfg_trig_edge1 cfg) i || match_hits edged i m.
Proof.
  intros Hi Hidx. unfold set_match, match_hits.
  destruct (enabled (channel m)); cbn [negb andb].
  - specialize (Hidx eq_refl).
    pose proof (testbit_channelbit (index (channel m)) i Hidx) as Hcb.
    destruct cfg as [md dv cn tp ce m0 m1 v0 v1 e0 e1].
    destruct (match_ m); cbn [masking valued edged cfg_trig_mask0
      cfg_trig_mask1 cfg_trig_value0 cfg_trig_value1 cfg_trig_edge0
      cfg_trig_edge1];
      rewrite ?testbit_andn16, ?testbit_or16, ?Hcb by exact Hi;
      rewrite ?andb_true_r, ?andb_false_r, ?orb_false_r;
      cbn [negb]; rewrite ?andb_true_r;
      repeat split; reflexivity.
  - rewrite ?andb_true_r, ?orb_false_r. repeat split; reflexivity.
Qed.

Lemma set_matches_bits (l : list sr_trigger_match) (i : Z) :
  0 <= i < 16 ->
  (forall m, In m l -> enabled (channel m) = true ->
             0 <= index (channel m) <= 30) ->
  forall cfg : dslogic_fpga_config,
    let cfg' := fold_left (fun cfg m => set_match m cfg) l cfg in
    Z.testbit (cfg_trig_mask0 cfg') i
    = Z.testbit (cfg_trig_mask0 cfg) i
      && negb (existsb (match_hits masking i) l)
    /\ Z.testbit (cfg_trig_mask1 cfg') i
       = Z.testbit (cfg_trig_mask1 cfg) i
         && negb (existsb (match_hits masking i) l)
    /\ Z.testbit (cfg_trig_value0 cfg') i
       = Z.testbit (cfg_trig_value0 cfg) i
         || existsb (match_hits valued i) l
    /\ Z.testbit (cfg_trig_value1 cfg') i
       = Z.testbit (cfg_trig_value1 cfg) i
         || existsb (match_hits valued i) l
    /\ Z.testbit (cfg_trig_edge0 cfg') i
       = Z.testbit (cfg_trig_edge0 cfg) i
         || existsb (match_hits edged i) l
    /\ Z.testbit (cfg_trig_edge1 cfg') i
       = Z.testbit (cfg_trig_edge1 cfg) i
         || existsb (match_hits edged i) l.
Proof.
  intros Hi. induction l as [|m l IH]; intros Hidx cfg.
  - cbn [fold_left existsb negb].
    rewrite ?andb_true_r, ?orb_false_r. repeat split; reflexivity.
  - cbn [fold_left existsb].
    destruct (IH (fun m' Hin => Hidx m' (or_intror Hin)) (set_match m cfg))
      as (E1 & E2 & E3 & E4 & E5 & E6).
    destruct (set_match_bits m cfg i Hi (Hidx m (or_introl eq_refl)))
      as (F1 & F2 & F3 & F4 & F5 & F6).
    cbv zeta in *.
    rewrite E1, E2, E3, E4, E5, E6, F1, F2, F3, F4, F5, F6.
    rewrite !negb_orb, !andb_assoc, !orb_assoc.
    repeat split; reflexivity.
Qed.

(** Both words of each pair get the same updates. *)
Lemma set_match_pairs (m : sr_trigger_match) (cfg : dslogic_fpga_config) :
  cfg_trig_mask1 cfg = cfg_trig_mask0 cfg ->
  cfg_trig_value1 cfg = cfg_trig_value0 cfg ->
  cfg_trig_edge1 cfg = cfg_trig_edge0 cfg ->
  cfg_trig_mask1 (set_match m cfg) = cfg_trig_mask0 (set_match m cfg)
  /\ cfg_trig_value1 (set_match m cfg) = cfg_trig_value0 (set_match m cfg)
  /\ cfg_trig_edge1 (set_match m cfg) = cfg_trig_edge0 (set_match m cfg).
Proof.
  unfold set_match. destruct cfg as [md dv cn tp ce m0 m1 v0 v1 e0 e1].
  cbn [cfg_trig_mask0 cfg_trig_mask1 cfg_trig_value0 cfg_trig_value1
       cfg_trig_edge0 cfg_trig_edge1].
  intros -> -> ->.
  destruct (enabled (channel m)); cbn [negb];
    [destruct (match_ m)|]; repeat split; reflexivity.
Qed.

Lemma set_matches_pairs (l : list sr_trigger_match) :
  forall cfg : dslogic_fpga_config,
    cfg_trig_mask1 cfg = cfg_trig_mask0 cfg ->
    cfg_trig_value1 cfg = cfg_trig_value0 cfg ->
    cfg_trig_edge1 cfg = cfg_trig_edge0 cfg ->
    let cfg' := fold_left (fun cfg m => set_match m cfg) l cfg in
    cfg_trig_mask1 cfg' = cfg_trig_mask0 cfg'
    /\ cfg_trig_value1 cfg' = cfg_trig_value0 cfg'
    /\ cfg_trig_edge1 cfg' = cfg_trig_edge0 cfg'.
Proof.
  induction l as [|m l IH]; intros cfg Hm Hv He.
  - repeat split; assumption.
  - cbn [fold_left].
    destruct (set_match_pairs m cfg Hm Hv He) as (Hm' & Hv' & He').
    apply IH; assumption.
Qed.

(** X28. The stages of the session trigger are merged into stage 0 of
    the FPGA configuration: channel i is taken out of the mask when some
    stage has a 0, 1, rising or falling match on it, its value bit is
    set when some stage asks for 1 or rising, and its edge bit when some
    stage asks for rising, falling or any edge; matches on disabled
    channels count for nothing, and both words of each pair are
    equal. *)
Theorem dslogic_set_trigger_stage0 (sdi : sr_dev_inst)
  (cfg : dslogic_fpga_config) (stages : list (list sr_trigger_match))
  (i : Z) :
  session_trigger sdi = Some stages ->
  (forall m, In m (concat stages) -> enabled (channel m) = true ->
             0 <= index (channel m) <= 30) ->
  0 <= i < 16 ->
  let cfg' := dslogic_set_trigger sdi cfg in
  Z.testbit (cfg_trig_mask0 cfg') i = negb (match_in masking i stages)
  /\ Z.testbit (cfg_trig_value0 cfg') i = match_in valued i stages
  /\ Z.testbit (cfg_trig_edge0 cfg') i = match_in edged i stages
  /\ cfg_trig_mask1 cfg' = cfg_trig_mask0 cfg'
  /\ cfg_trig_value1 cfg' = cfg_trig_value0 cfg'
  /\ cfg_trig_edge1 cfg' = cfg_trig_edge0 cfg'.
Proof.
  intros Htr Hidx Hi. unfold dslogic_set_trigger. rewrite Htr.
  rewrite fold_stages.
  cbn [cfg_trig_mask0 cfg_trig_mask1 cfg_trig_value0 cfg_trig_value1
       cfg_trig_edge0 cfg_trig_edge1].
  match goal with
  | |- context [fold_left _ (concat stages) ?c] => set (c0 := c)
  end.
  destruct (set_matches_bits (concat stages) i Hi Hidx c0)
    as (E1 & _ & E3 & _ & E5 & _).
  destruct (set_matches_pairs (concat stages) c0 eq_refl eq_refl eq_refl)
    as (P1 & P2 & P3).
  cbv zeta in *. unfold match_in.
  rewrite E1, E3, E5. unfold c0.
  cbn [cfg_trig_mask0 cfg_trig_value0 cfg_trig_edge0].
  replace (Z.testbit 0xffff i) with true.
  2:{ change 0xffff with (Z.ones 16). symmetry.
      apply Z.ones_spec_low. lia. }
  rewrite Z.bits_0. cbn [andb orb].
  repeat split; assumption.
Qed.

Lemma dslogic_set_trigger_stage0_witness :
  let cfg' := dslogic_set_trigger two_stage_sdi cfg0 in
  Z.testbit (cfg_trig_mask0 cfg') 0 = false
  /\ Z.testbit (cfg_trig_value0 cfg') 0 = true
  /\ Z.testbit (cfg_trig_edge0 cfg') 0 = false.
Proof.
  destruct (dslogic_set_trigger_stage0 two_stage_sdi cfg0
              [[mk_match (mk_channel 0 true) SR_TRIGGER_ONE;
                mk_match (mk_channel 1 true) SR_TRIGGER_FALLING];
               [mk_match (mk_channel 0 true) SR_TRIGGER_ZERO;
                mk_match (mk_channel 2 false) SR_TRIGGER_EDGE]] 0)
    as (Hm & Hv & He & _).
  - reflexivity.
  - intros m Hin _. cbn [concat app In] in Hin.
    repeat match type of Hin with
           | _ \/ _ => destruct Hin as [<-|Hin]
           end; try contradiction; cbn; lia.
  - lia.
  - cbv zeta. rewrite Hm, Hv, He. repeat split; reflexivity.
Defined.

Lemma ch_en_fold (l : list sr_channel) (i : Z) :
  0 <= i < 16 ->
  (forall p, In p l -> 0 <= index p <= 30) ->
  forall acc : Z,
    Z.testbit
      (fold_left
         (fun ch_en probe =>
            u16 (Z.lor ch_en
                   (Z.shiftl (if enabled probe then 1 else 0)
                             (index probe))))
         l acc) i
    = Z.testbit acc i
      || existsb (fun p => enabled p && (index p =? i)) l.
Proof.
  intros Hi. induction l as [|p l IH]; intros Hidx acc.
  - cbn [fold_left existsb]. rewrite orb_false_r. reflexivity.
  - cbn [fold_left existsb].
    rewrite IH by (intros q Hq; apply Hidx; right; exact Hq).
    rewrite testbit_u16 by exact Hi. rewrite Z.lor_spec.
    assert (Hp : 0 <= index p <= 30) by (apply Hidx; left; reflexivity).
    destruct (enabled p); cbn [andb].
    + rewrite Z.shiftl_1_l, Z.pow2_bits_eqb by lia.
      rewrite orb_assoc. reflexivity.
    + rewrite Z.shiftl_0_l, Z.bits_0.
      rewrite orb_false_r. reflexivity.
Qed.

(** X29. Bit i of the channel-enable word is set exactly when the device
    has an enabled channel of index i, whether or not the session has a
    trigger. *)
Theorem dslogic_set_trigger_ch_en (sdi : sr_dev_inst)
  (cfg : dslogic_fpga_config) (i : Z) :
  (forall p, In p (channels sdi) -> 0 <= index p <= 30) ->
  0 <= i < 16 ->
  Z.testbit (cfg_ch_en (dslogic_set_trigger sdi cfg)) i
  = existsb (fun p => enabled p && (index p =? i)) (channels sdi).
Proof.
  intros Hidx Hi. unfold dslogic_set_trigger.
  destruct (session_trigger sdi) as [stages|]; cbn [cfg_ch_en].
  - rewrite fold_stages.
    match goal with
    | |- context [fold_left _ (concat stages) ?c] => set (c0 := c)
    end.
    assert (Hce : forall (l : list sr_trigger_match) c,
               cfg_ch_en (fold_left (fun cfg m => set_match m cfg) l c)
               = cfg_ch_en c).
    { induction l as [|m l IH]; intros c; [reflexivity|].
      cbn [fold_left]. rewrite IH. unfold set_match.
      destruct c. destruct (enabled (channel m)); cbn [negb];
        [destruct (match_ m)|]; reflexivity. }
    rewrite Hce. unfold c0. cbn [cfg_ch_en].
    rewrite ch_en_fold by assumption. rewrite Z.bits_0. reflexivity.
  - rewrite ch_en_fold by assumption. rewrite Z.bits_0. reflexivity.
Qed.

Lemma dslogic_set_trigger_ch_en_witness :
  Z.testbit (cfg_ch_en (dslogic_set_trigger two_stage_sdi cfg0)) 1 = true
  /\ Z.testbit (cfg_ch_en (dslogic_set_trigger two_stage_sdi cfg0)) 2
     = false.
Proof.
  split.
  - rewrite (dslogic_set_trigger_ch_en two_stage_sdi cfg0 1).
    + reflexivity.
    + intros p Hin. cbn [two_stage_sdi channels In] in Hin.
      repeat match type of Hin with
             | _ \/ _ => destruct Hin as [<-|Hin]
             end; try contradiction; cbn; lia.
    + lia.
  - reflexivity.
Defined.

End DslogicTrigger.
